(* ===== verification/_CoqProject ===== *)
-Q . S2P
Prelude.v
Yields.v
FixedPoint.v
Chain.v
Traits.v
Assets.v
Lending.v
LendingInterest.v
LendingPositions.v
LendingSafety.v
LendingProgress.v
Swap.v
SwapTrades.v
SwapLiquidity.v
OffchainWorker.v
Runtime.v
Bank.v
Typed.v
Pools.v
Solvency.v
Profiles.v
Feed.v
Genesis.v
Prices.v
Rpc.v
ChainSpec.v
Service.v
Command.v
Extrinsic.v
Executive.v
Samples.v
Replays.v
AssetsSpec.v
LendingSpec.v
SwapSpec.v
OffchainSpec.v
RuntimeSpec.v
MoneySpec.v
NodeSpec.v
