(* ===== verification/Prelude.v ===== *)
(** * Konomi node: a verification library for its runtime pallets

    ** The program

    konomi-node is a Substrate 2.0 chain for lending and swapping assets.  Its own
    logic is in four FRAME pallets and the traits between them:

    - [pallets/assets]: issued assets, their balances, total supplies and prices.
      It implements the traits [Oracle] (a price per asset) and [MultiAsset]
      (transfers) of [pallets/traits].
    - [pallets/lending]: one pool per asset with linear interest carried by an
      index for supplies and one for debts, the positions of the users, and the
      calls [supply], [withdraw], [borrow], [repay], [liquidate] and [init_pool].
      It moves money through [MultiAsset] and values it through [Oracle].
    - [pallets/swap]: constant-product pools of the inherent asset against every
      other asset, trades with exact input or output, and liquidity shares.  It
      calls the assets pallet directly.
    - [pallets/offchain-worker]: downloads a price, extracts it from JSON and
      submits it as an unsigned transaction, which sets the price of asset 4.

    [runtime/src/lib.rs] composes them.  The node around it ([node/src]) has the
    chain specifications ([chain_spec.rs]), the services of full and light nodes
    ([service.rs]), the commands ([cli.rs], [command.rs]) and the table of RPC methods
    ([rpc.rs]); two crates ([pallets/lending/rpc], [pallets/swap/rpc]) forward RPC
    methods to the runtime api.

    ** How it is modelled

    All pallets share one storage, the record [Chain] of [Chain.v]: a record per
    [decl_storage!] block, the block number and the events.  A function of the
    source is a function [RT E A], that is [Chain -> Outcome Chain E A]
    ([Prelude.v]): [Ok] and [Err] carry the storage with all writes made so far,
    because a dispatchable of this FRAME version is not rolled back on error;
    [Panic] is a trap and yields no block.  Machine integers are [N] at their width;
    [uadd], [usub] and [umul] take the build's overflow checks: with them an
    overflow traps, without them it wraps.  A [Config] is the chain's accounts
    ([Accounts]) and a build; the storage depends on the accounts alone, so that two
    builds run on the same storage.

    - [Prelude.v]: the monad with its notations (scope [rust_scope]), inversion of
      runs, [respects] (every run of a program is in a preorder on storages, with
      the tactic [respects]), [wp] (weakest preconditions), machine arithmetic,
      sums over finite maps.
    - [Yields.v]: the rule system [yields] for an invariant of the storage together
      with facts about the values a program passes on, with its tactic.
    - [FixedPoint.v]: [sp_arithmetic::FixedU128] as the class [FixedOps] with the
      documented facts [FixedLaws] and, for the theorems on amounts, how it rounds
      ([FixedRound]: products and ratios are cut off while the product fits [u128] and
      rounded to the nearest beyond); [RefFixed] is one implementation that rounds this
      way, which shows that the laws can hold and evaluates the samples.
    - [Chain.v]: types, storages, events, errors, origins.
    - [Traits.v]: [Oracle] and [MultiAsset], with the classes of laws ([OracleLaws],
      [MultiAssetLaws]) that lending is proved against.
    - [Assets.v]: the assets pallet, its ledger invariant [ledger_ok], and the
      instances that discharge the trait laws.
    - [Lending.v]: the lending pallet.  [LendingInterest.v]: accrual and views;
      [LendingPositions.v]: the position sets; [LendingSafety.v]: what a successful
      run did; [LendingProgress.v]: when a call succeeds and with which error it
      fails otherwise.
    - [Swap.v]: the swap pallet.  [SwapTrades.v]: formulas, trades, exchange accounts;
      [SwapLiquidity.v]: the share ledger and the payouts.
    - [OffchainWorker.v]: the price call, its validation, the JSON search, the cents
      and the worker's round.
    - [Runtime.v]: [dispatch], the genesis, the chain as a transition system ([step],
      [reachable]) and the invariant [chain_ok] by rule induction.
    - Above the runtime, one file per view of the whole chain: [Bank.v], an abstract
      bank (holdings, issued totals, steps on behalf of entitled accounts) and the
      refinement of every call to it; [Typed.v], the invariant that all stored numbers
      fit their Rust types, and [Pools.v], the parameters and indices of all lending
      pools, both by [yields]; [Solvency.v], the cash behind the lending pools, by [wp]
      over the lending calls; [Profiles.v], the agreement of the build with overflow
      checks and the one without; [Prices.v], the price table after any run; [Feed.v], the
      window of the price feed as blocks pass; [Genesis.v], the build of every configuration.
    - [Rpc.v]: the RPC methods over a client given as a class with laws - it begins the
      next block before it runs an api function -, their error value, and [create_full].
    - [ChainSpec.v]: keys from seeds, the full genesis, the two built-in
      specifications, [load_spec].
    - [Service.v]: [new_partial], [new_full], [new_light] as programs over a trace of
      library calls, each of which may be refused; a [Plan] is the same as a list.
    - [Command.v]: the command line's [run] over traces of commands and service calls.
    - [Extrinsic.v]: the runtime's constants and versions, [create_transaction] and the
      declined GRANDPA reports.
    - [Executive.v]: the outer call next to the framework's pallets, its unsigned
      validation, the whole runtime api and the benchmark dispatch, over the operations of
      the framework's executive and pallets.
    - [Samples.v]: a concrete chain with the mock runtime's genesis.  [Replays.v]: the
      tests of the lending and the swap pallet as scripts, all of which pass.
    - [AssetsSpec.v], [LendingSpec.v], [SwapSpec.v], [OffchainSpec.v],
      [RuntimeSpec.v], [MoneySpec.v]
      (the chain as a whole), [NodeSpec.v] (RPC, specifications, services, commands):
      the properties, each with an application to a concrete state.

    ** What is shown

    - Runtime: in every state reachable from any genesis with overflow checks, by
      calls of any origin (failed ones included), the balances of an asset sum up to
      its supply, the position sets match the positions, every position has its
      pool, and liquidity shares sum up to the pool's total; accepted prices are at
      least four blocks apart.
    - Prices: after any run of the pallets' calls the price table is what the root's
      [set_price] calls and the unsigned submissions wrote, in order; the validator
      accepts nothing unsigned but a submission in the window.
    - Chain as a whole: stored numbers fit their types in both builds, and every pool
      has its parameters and indices of at least one; a run of the checked build that
      does not trap is the run of the shipped one, even if its fixed-point numbers wrap;
      calls refine the bank in both, so that no account loses money without a signature of its own (or of its pallet);
      in a build with overflow checks, while the totals of the pools stay below
      [2^128 / 10^18] units - beyond, interest is rounded to the nearest unit -, the lending
      account covers every pool's [supply - debt] up to what liquidations took out of it,
      because interest credited is interest charged and every payment is booked, hence -
      before a liquidation - a loan or withdrawal that passes its guards is paid; the
      price feed can move again within four blocks of any state; every genesis builds.
    - Assets: the total behaviour of [transfer], [issue], [destroy] and of one genesis
      entry.
    - Lending: the total behaviour of the user calls, error branches included, against
      the laws of the traits; interest never shrinks a total or an index; the views
      report what an accrual would write; a call touches no one else's positions.
    - Swap: funded trades keep the product of the reserves from falling, through one
      pool or two; liquidity is minted and redeemed in proportion, and adding and
      removing at once gains nothing; quotes agree with trades where they do.
    - Offchain worker: the price in cents, the window of valid submissions, the effect
      of a submission and the round of the worker.
    - Where the code as written departs from its evident purpose, a theorem states what
      it does instead: exact-output trades, through one pool or two, charge the output
      amount and can drain a pool, refused payments are ignored, shares can be removed
      without owning them in a wrapping build, liquidation leaves pool totals alone and keeps the payment
      when the collateral cannot be handed out, anyone can reset a pool, the search for
      the price key misses a key that is not the first, one fraction digit is read as
      cents, the exponent of a price is dropped.

    No recursion of the source is unbounded: loops run over storage lists and bytes, so
    all definitions are structural and no fuel is used.

    ** Interfaces to code outside the repository

    [FixedOps] (fixed-point numbers), [LiteJson] (the JSON parser), [OffchainHost] (HTTP
    and the transaction pool) and the fields of [Config] (accounts, the hash behind
    exchange addresses, the account of the lending pallet) are arguments of the
    definitions.  So are the RPC client ([Client], [ClientLaws]), the key types ([Keys]),
    the node's roles ([Roles], [RolesLaws]), the answers of the service libraries
    ([ServiceLib]) and of the command line library ([CliLib]), the signing of payloads
    ([Signing]), and the executive with the framework's pallets ([Framework], of which
    nothing is assumed).  Properties use only the named laws; each law class has an
    instance.  [FixedRound] is used by the indices and rates of [Pools.v] and by the
    solvency argument; its sums trap, as those of a library built with overflow checks.

    ** What is not modelled

    The framework pallets (system apart from block number and events, balances, aura,
    grandpa, sudo, timestamp, transaction payment) and the executive behind
    [Framework], weights and fees; so a run of the chain is a run of the four pallets'
    calls and of new blocks, and root calls of the system pallet that overwrite raw
    storage or the code are outside of it; the code that macros generate (storage codecs,
    metadata, argument parsing, session keys, JSON decoding of RPC parameters); what the
    service libraries do once they are called; the type assignments of the pallets'
    configuration traits and of the mock runtimes; debug output.

    ** Plan

    Next: signed offchain transactions; that a supplier without debts can always leave;
    what a liquidation leaves of the positions against the pool totals; shares of wrapping builds; the
    session keys as pairs of an aura and a grandpa key. *)

From stdpp Require Export base list gmap fin_maps strings numbers.

#[global] Unset Suggest Proof Using.

(* ================================================================== *)
(** ** Outcomes and the state-and-error monad                          *)
(* ================================================================== *)

(** A Rust function of the runtime runs against the chain storage.  It either
    returns [Ok] or [Err] - in both cases the storage writes it made so far
    stay, since FRAME 2.0 does not roll a dispatchable back - or it panics. *)
Inductive Outcome (S E A : Type) : Type :=
| Ok (a : A) (s : S)
| Err (e : E) (s : S)
| Panic.

Arguments Ok {S E A} a s.
Arguments Err {S E A} e s.
Arguments Panic {S E A}.

Definition M (S E A : Type) : Type := S -> Outcome S E A.

Declare Scope rust_scope.
Delimit Scope rust_scope with rust.

Section Monad.
Context {S E A B : Type}.

Definition ret (a : A) : M S E A := fun s => Ok a s.

Definition bind (m : M S E A) (k : A -> M S E B) : M S E B :=
  fun s => match m s with
           | Ok a s' => k a s'
           | Err e s' => Err e s'
           | Panic => Panic
           end.

(** [return Err(e)] *)
Definition throw (e : E) : M S E A := fun s => Err e s.

(** an arithmetic trap, an [unwrap] of [None] or an [expect] that fails *)
Definition panic : M S E A := fun _ => Panic.

Definition gets (f : S -> A) : M S E A := fun s => Ok (f s) s.

Definition modify (f : S -> S) : M S E unit := fun s => Ok tt (f s).

(** [o.unwrap()] / [o.expect(..)]; also how partial arithmetic enters [M] *)
Definition or_panic (o : option A) : M S E A :=
  match o with Some a => ret a | None => panic end.

(** [o.ok_or(e)?] *)
Definition ok_or (o : option A) (e : E) : M S E A :=
  match o with Some a => ret a | None => throw e end.

(** [ensure!(b, e)] *)
Definition ensure (b : bool) (e : E) : M S E unit :=
  fun s => if b then Ok tt s else Err e s.
End Monad.

(** [m.map_err(f)?], which is also what [?] does when it converts the error *)
Definition map_err {S E F A} (f : E -> F) (m : M S E A) : M S F A :=
  fun s => match m s with
           | Ok a s' => Ok a s'
           | Err e s' => Err (f e) s'
           | Panic => Panic
           end.

(** [f(..);] on a call that returns a [Result]: the error value is dropped. *)
Definition ignore {S E F A} (m : M S E A) : M S F unit :=
  fun s => match m s with
           | Ok _ s' => Ok tt s'
           | Err _ s' => Ok tt s'
           | Panic => Panic
           end.

Notation "x <- m ;; k" := (bind m (fun x => k))
  (at level 100, m at next level, right associativity) : rust_scope.
Notation "m ;;; k" := (bind m (fun _ => k))
  (at level 100, right associativity) : rust_scope.
(** [for x in l { acc = f(acc, x) }] *)
Fixpoint foldM {S E A B} (f : A -> B -> M S E A) (l : list B) (acc : A) : M S E A :=
  match l with
  | [] => ret acc
  | x :: l' => bind (f acc x) (fun acc' => foldM f l' acc')
  end.

(** Partial arithmetic that may trap: [None] is a panic. *)
Definition obind {A B} (o : option A) (k : A -> option B) : option B :=
  match o with Some a => k a | None => None end.

Notation "x <-? o ;; k" := (obind o (fun x => k))
  (at level 100, o at next level, right associativity) : rust_scope.

(* ------------------------------------------------------------------ *)
(** *** Reading a run backwards                                         *)
(* ------------------------------------------------------------------ *)

Section RunInversion.
Context {S E F A B : Type}.

Lemma bind_Ok (m : M S E A) (k : A -> M S E B) s b s' :
  bind m k s = Ok b s' <-> exists a s1, m s = Ok a s1 /\ k a s1 = Ok b s'.
Proof.
  unfold bind. destruct (m s) as [a s1 | e s1 |] eqn:Hm; split.
  - intros H. eauto.
  - by intros (a' & s1' & [= -> ->] & H).
  - done.
  - by intros (a' & s1' & ? & _).
  - done.
  - by intros (a' & s1' & ? & _).
Qed.

Lemma bind_Err (m : M S E A) (k : A -> M S E B) s e s' :
  bind m k s = Err e s' <->
  m s = Err e s' \/ exists a s1, m s = Ok a s1 /\ k a s1 = Err e s'.
Proof.
  unfold bind. destruct (m s) as [a s1 | e1 s1 |] eqn:Hm; split.
  - intros H. eauto.
  - intros [? | (a' & s1' & [= -> ->] & H)]; done.
  - intros [= -> ->]. by left.
  - by intros [[= -> ->] | (a' & s1' & ? & _)].
  - done.
  - by intros [? | (a' & s1' & ? & _)].
Qed.

Lemma bind_run (m : M S E A) (k : A -> M S E B) s a s1 :
  m s = Ok a s1 -> bind m k s = k a s1.
Proof. unfold bind. by intros ->. Qed.

Lemma bind_run_err (m : M S E A) (k : A -> M S E B) s e s1 :
  m s = Err e s1 -> bind m k s = Err e s1.
Proof. unfold bind. by intros ->. Qed.

Lemma bind_run_panic (m : M S E A) (k : A -> M S E B) s :
  m s = Panic -> bind m k s = Panic.
Proof. unfold bind. by intros ->. Qed.

Lemma ret_Ok (a b : A) (s s' : S) : @ret S E A a s = Ok b s' <-> b = a /\ s' = s.
Proof. unfold ret. split; [by intros [= -> ->] | by intros [-> ->]]. Qed.

Lemma gets_Ok (f : S -> A) a s s' : @gets S E A f s = Ok a s' <-> a = f s /\ s' = s.
Proof. unfold gets. split; [by intros [= <- <-] | by intros [-> ->]]. Qed.

Lemma modify_Ok (f : S -> S) u s s' : @modify S E f s = Ok u s' <-> s' = f s.
Proof. unfold modify. destruct u. split; [by intros [= <-] | by intros ->]. Qed.

Lemma or_panic_Ok (o : option A) a s s' :
  @or_panic S E A o s = Ok a s' <-> o = Some a /\ s' = s.
Proof.
  destruct o; cbn; [rewrite ret_Ok; naive_solver | split; [done | by intros [? _]]].
Qed.

Lemma ok_or_Ok (o : option A) (e : E) a s s' :
  @ok_or S E A o e s = Ok a s' <-> o = Some a /\ s' = s.
Proof.
  destruct o; cbn; [rewrite ret_Ok; naive_solver | split; [done | by intros [? _]]].
Qed.

Lemma ensure_Ok b (e : E) u (s s' : S) : ensure b e s = Ok u s' <-> b = true /\ s' = s.
Proof. unfold ensure. destruct u, b; naive_solver. Qed.

Lemma throw_Ok (e : E) (a : A) (s s' : S) : throw e s = Ok a s' <-> False.
Proof. done. Qed.

Lemma panic_Ok (a : A) (s s' : S) : @panic S E A s = Ok a s' <-> False.
Proof. done. Qed.

Lemma map_err_Ok (f : E -> F) (m : M S E A) a s s' :
  map_err f m s = Ok a s' <-> m s = Ok a s'.
Proof. unfold map_err. destruct (m s); naive_solver. Qed.
End RunInversion.

Lemma obind_Some {A B} (o : option A) (k : A -> option B) b :
  obind o k = Some b <-> exists a, o = Some a /\ k a = Some b.
Proof. destruct o; cbn; naive_solver. Qed.

(** Takes the successful runs of the context apart into their steps. *)
Ltac inv_run_step :=
  match goal with
  | H : bind _ _ _ = Ok _ _ |- _ => apply bind_Ok in H; destruct H as (? & ? & ? & H)
  | H : ret _ _ = Ok _ _ |- _ => apply ret_Ok in H; destruct H
  | H : gets _ _ = Ok _ _ |- _ => apply gets_Ok in H; destruct H
  | H : modify _ _ = Ok _ _ |- _ => apply modify_Ok in H
  | H : or_panic _ _ = Ok _ _ |- _ => apply or_panic_Ok in H; destruct H
  | H : ok_or _ _ _ = Ok _ _ |- _ => apply ok_or_Ok in H; destruct H
  | H : ensure _ _ _ = Ok _ _ |- _ => apply ensure_Ok in H; destruct H
  | H : map_err _ _ _ = Ok _ _ |- _ => apply map_err_Ok in H
  | H : throw _ _ = Ok _ _ |- _ => discriminate H
  | H : panic _ = Ok _ _ |- _ => discriminate H
  | H : obind _ _ = Some _ |- _ => apply obind_Some in H; destruct H as (? & ? & H)
  | H : Some _ = Some _ |- _ => injection H as H
  | H : ?x = _ |- _ => is_var x; subst x
  | H : _ = ?x |- _ => is_var x; subst x
  end.
Ltac destruct_unit := repeat match goal with u : unit |- _ => destruct u end.
Ltac inv_run := repeat (inv_run_step; cbv beta in * ).

(* ------------------------------------------------------------------ *)
(** *** Relations respected by a run                                    *)
(* ------------------------------------------------------------------ *)

(** [respects R m]: whenever [m] returns - with [Ok] or with [Err] - the final
    storage is [R]-related to the initial one.  For a preorder [R] the notion
    composes, so it serves for frame conditions ([R s s' := f s' = f s]) and for
    invariants ([R s s' := I s -> I s']) alike. *)
Definition respects {S E A} (R : relation S) (m : M S E A) : Prop :=
  forall s, match m s with
            | Ok _ s' => R s s'
            | Err _ s' => R s s'
            | Panic => True
            end.

Section Respects.
Context {S E F A B : Type} (R : relation S) `{!PreOrder R}.

Lemma respects_pure (m : M S E A) :
  (forall s, match m s with Ok _ s' | Err _ s' => s' = s | Panic => True end) ->
  respects R m.
Proof. intros H s. specialize (H s). destruct (m s); subst; [reflexivity | reflexivity | done]. Qed.

Lemma respects_ret (a : A) : respects R (@ret S E A a).
Proof. intros s. cbn. reflexivity. Qed.
Lemma respects_gets (f : S -> A) : respects R (@gets S E A f).
Proof. intros s. cbn. first [reflexivity | exact I]. Qed.
Lemma respects_throw (e : E) : respects R (@throw S E A e).
Proof. intros s. cbn. first [reflexivity | exact I]. Qed.
Lemma respects_panic : respects R (@panic S E A).
Proof. intros s. cbn. first [reflexivity | exact I]. Qed.
Lemma respects_or_panic (o : option A) : respects R (@or_panic S E A o).
Proof. destruct o; [apply respects_ret | apply respects_panic]. Qed.
Lemma respects_ok_or (o : option A) (e : E) : respects R (@ok_or S E A o e).
Proof. destruct o; [apply respects_ret | apply respects_throw]. Qed.
Lemma respects_ensure b (e : E) : respects R (@ensure S E b e).
Proof. intros s. destruct b; cbn; reflexivity. Qed.

Lemma respects_modify (f : S -> S) :
  (forall s, R s (f s)) -> respects R (@modify S E f).
Proof. intros H s. apply H. Qed.

Lemma respects_bind (m : M S E A) (k : A -> M S E B) :
  respects R m -> (forall a, respects R (k a)) -> respects R (bind m k).
Proof.
  intros Hm Hk s. unfold bind. specialize (Hm s).
  destruct (m s) as [a s1 | e s1 |]; [|done|done].
  specialize (Hk a s1). destruct (k a s1); [by etrans | by etrans | done].
Qed.

Lemma respects_map_err (f : E -> F) (m : M S E A) :
  respects R m -> respects R (map_err f m).
Proof. intros Hm s. specialize (Hm s). unfold map_err. by destruct (m s). Qed.

Lemma respects_ignore (m : M S E A) : respects R m -> respects R (@ignore S E F A m).
Proof. intros Hm s. specialize (Hm s). unfold ignore. by destruct (m s). Qed.

Lemma respects_if (b : bool) (m1 m2 : M S E A) :
  respects R m1 -> respects R m2 -> respects R (if b then m1 else m2).
Proof. by destruct b. Qed.

Lemma respects_match_option {C} (o : option C) (m1 : C -> M S E A) (m2 : M S E A) :
  (forall c, respects R (m1 c)) -> respects R m2 ->
  respects R (match o with Some c => m1 c | None => m2 end).
Proof. by destruct o. Qed.

Lemma respects_Ok (m : M S E A) a s s' : respects R m -> m s = Ok a s' -> R s s'.
Proof. intros Hm Hs. specialize (Hm s). by rewrite Hs in Hm. Qed.

Lemma respects_Err (m : M S E A) e s s' : respects R m -> m s = Err e s' -> R s s'.
Proof. intros Hm Hs. specialize (Hm s). by rewrite Hs in Hm. Qed.
End Respects.

Lemma respects_foldM {S E A B} (R : relation S) `{!PreOrder R} (f : A -> B -> M S E A) l :
  (forall a b, respects R (f a b)) -> forall a, respects R (foldM f l a).
Proof.
  intros Hf. induction l as [|x l IH]; intros a; cbn [foldM];
    [by apply respects_ret | apply respects_bind; [done | apply Hf | intros; apply IH]].
Qed.

(** The two preorders used throughout: a projection is untouched; an invariant
    is preserved. *)
Definition keeps {S T} (f : S -> T) : relation S := fun s s' => f s' = f s.
Definition stable {S} (I : S -> Prop) : relation S := fun s s' => I s -> I s'.

#[export] Instance keeps_preorder {S T} (f : S -> T) : PreOrder (keeps f).
Proof. split; unfold keeps; [by intros s | intros s1 s2 s3 ? ?; congruence]. Qed.

#[export] Instance stable_preorder {S} (I : S -> Prop) : PreOrder (stable I).
Proof. split; unfold stable; [by intros s | intros s1 s2 s3 ? ?; tauto]. Qed.

(** A run that keeps what an invariant reads keeps the invariant. *)
Lemma respects_weaken {S E A} (R R' : relation S) (m : M S E A) :
  (forall s s', R s s' -> R' s s') -> respects R m -> respects R' m.
Proof. intros H Hm s. specialize (Hm s). destruct (m s); eauto. Qed.

Create HintDb respects.
#[export] Hint Resolve respects_ret respects_gets respects_throw respects_panic
  respects_or_panic respects_ok_or respects_ensure respects_map_err respects_ignore
  respects_if keeps_preorder stable_preorder : respects.

(** Walks a definition written in [M], leaving the writes ([modify]). *)
Ltac respects_step :=
  first
    [ assumption
    | solve [auto with respects nocore typeclass_instances]
    | apply respects_bind; [typeclasses eauto | | intros]
    | apply respects_if
    | apply respects_match_option; intros
    | apply respects_foldM; [typeclasses eauto | intros]
    | apply respects_map_err
    | apply respects_ignore
    | match goal with
      | |- respects _ (let '_ := ?x in _) => destruct x
      | |- respects _ (match ?x with _ => _ end) => destruct x
      end ].
Ltac respects := repeat respects_step.

(* ------------------------------------------------------------------ *)
(** *** Weakest preconditions                                           *)
(* ------------------------------------------------------------------ *)

(** [wp m Q R s]: if [m] returns from [s], then [Ok] results satisfy [Q] and
    [Err] results satisfy [R]. *)
Definition wp {S E A} (m : M S E A) (Q : A -> S -> Prop) (R : E -> S -> Prop) (s : S) : Prop :=
  match m s with Ok a s' => Q a s' | Err e s' => R e s' | Panic => True end.

Section Wp.
Context {S E F A B : Type}.

Lemma wp_bind (m : M S E A) (k : A -> M S E B) Q R s :
  wp m (fun a s' => wp (k a) Q R s') R s -> wp (bind m k) Q R s.
Proof. unfold wp, bind. by destruct (m s). Qed.

Lemma wp_ret (a : A) (Q : A -> S -> Prop) (R : E -> S -> Prop) s : Q a s -> wp (ret a) Q R s.
Proof. done. Qed.
Lemma wp_throw (e : E) (Q : A -> S -> Prop) R (s : S) : R e s -> wp (throw e) Q R s.
Proof. done. Qed.
Lemma wp_gets (f : S -> A) Q (R : E -> S -> Prop) s : Q (f s) s -> wp (gets f) Q R s.
Proof. done. Qed.
Lemma wp_modify (f : S -> S) Q (R : E -> S -> Prop) s : Q tt (f s) -> wp (modify f) Q R s.
Proof. done. Qed.
Lemma wp_or_panic (o : option A) Q (R : E -> S -> Prop) s :
  (forall a, o = Some a -> Q a s) -> wp (or_panic o) Q R s.
Proof. unfold wp. destruct o; cbn; eauto. Qed.
Lemma wp_ok_or (o : option A) (e : E) Q (R : E -> S -> Prop) s :
  (forall a, o = Some a -> Q a s) -> (o = None -> R e s) -> wp (ok_or o e) Q R s.
Proof. unfold wp. destruct o; cbn; eauto. Qed.
Lemma wp_ensure b (e : E) Q (R : E -> S -> Prop) s :
  (b = true -> Q tt s) -> (b = false -> R e s) -> wp (ensure b e) Q R s.
Proof. unfold wp, ensure. destruct b; eauto. Qed.
Lemma wp_map_err (f : E -> F) (m : M S E A) Q (R : F -> S -> Prop) s :
  wp m Q (fun e s' => R (f e) s') s -> wp (map_err f m) Q R s.
Proof. unfold wp, map_err. by destruct (m s). Qed.
Lemma wp_ignore (m : M S E A) Q (R : F -> S -> Prop) s :
  wp m (fun _ s' => Q tt s') (fun _ s' => Q tt s') s -> wp (ignore m) Q R s.
Proof. unfold wp, ignore. by destruct (m s). Qed.

Lemma wp_mono (m : M S E A) (Q Q' : A -> S -> Prop) (R R' : E -> S -> Prop) s :
  (forall a s', Q a s' -> Q' a s') -> (forall e s', R e s' -> R' e s') ->
  wp m Q R s -> wp m Q' R' s.
Proof. unfold wp. intros HQ HR. destruct (m s); eauto. Qed.

(** A run known only by the relation it respects. *)
Lemma wp_respects (T : relation S) (m : M S E A) Q R s :
  respects T m -> (forall a s', T s s' -> Q a s') -> (forall e s', T s s' -> R e s') ->
  wp m Q R s.
Proof. unfold wp. intros Hm HQ HR. specialize (Hm s). destruct (m s); eauto. Qed.

(** A read-only run: only its result matters. *)
Lemma wp_pure (m : M S E A) Q (R : E -> S -> Prop) s :
  respects eq m -> (forall a, m s = Ok a s -> Q a s) -> (forall e, m s = Err e s -> R e s) ->
  wp m Q R s.
Proof. unfold wp. intros Hm HQ HR. specialize (Hm s). destruct (m s); subst; eauto. Qed.

Lemma wp_Ok (m : M S E A) Q (R : E -> S -> Prop) s a s' :
  wp m Q R s -> m s = Ok a s' -> Q a s'.
Proof. unfold wp. intros H Hs. by rewrite Hs in H. Qed.

Lemma wp_Err (m : M S E A) (Q : A -> S -> Prop) (R : E -> S -> Prop) s e s' :
  wp m Q R s -> m s = Err e s' -> R e s'.
Proof. unfold wp. intros H Hs. by rewrite Hs in H. Qed.
End Wp.

(** One step of symbolic execution; branches on data are left to the proof. *)
Ltac wp_step :=
  lazymatch goal with
  | |- wp (bind _ _) _ _ _ => apply wp_bind
  | |- wp (ret _) _ _ _ => apply wp_ret
  | |- wp (throw _) _ _ _ => apply wp_throw
  | |- wp (gets _) _ _ _ => apply wp_gets
  | |- wp (modify _) _ _ _ => apply wp_modify
  | |- wp (or_panic _) _ _ _ => apply wp_or_panic; intros ? ?
  | |- wp (ok_or _ _) _ _ _ => apply wp_ok_or; [intros ? ?|intros _]
  | |- wp (ensure _ _) _ _ _ => apply wp_ensure; [intros ?|intros _]
  | |- wp (map_err _ _) _ _ _ => apply wp_map_err
  | |- wp (ignore _) _ _ _ => apply wp_ignore
  end.
Ltac wp_run := repeat (wp_step; cbv beta).

(** The value a run returns, if it returns one. *)
Definition result {S E A} (m : M S E A) (s : S) : option A :=
  match m s with Ok a _ => Some a | _ => None end.

Section Result.
Context {S E A B : Type}.

Lemma result_Ok (m : M S E A) s a s' : m s = Ok a s' -> result m s = Some a.
Proof. unfold result. by intros ->. Qed.

Lemma result_bind_pure (m : M S E A) (k : A -> M S E B) s :
  respects eq m -> result (bind m k) s = obind (result m s) (fun a => result (k a) s).
Proof.
  unfold result, bind. intros Hm. specialize (Hm s). destruct (m s); subst; done.
Qed.
End Result.

(** Two read-only loops whose bodies agree on the elements give one result. *)
Lemma result_foldM_ext {S E A B} (f : A -> B -> M S E A) l s s' :
  (forall a b, respects eq (f a b)) ->
  (forall a b, b ∈ l -> result (f a b) s' = result (f a b) s) ->
  forall a, result (foldM f l a) s' = result (foldM f l a) s.
Proof.
  intros Hpure. induction l as [|x l IH]; intros Hext a; cbn [foldM]; [done|].
  rewrite !result_bind_pure by apply Hpure. rewrite Hext by left.
  destruct (result (f a x) s); cbn; [|done]. apply IH. intros. apply Hext. by right.
Qed.

(* ================================================================== *)
(** ** Machine-width unsigned integers                                 *)
(* ================================================================== *)

Local Open Scope N_scope.

Definition u32_modulus : N := 4294967296.
Definition u64_modulus : N := 18446744073709551616.
Definition u128_modulus : N := 340282366920938463463374607431768211456.
Definition u128_max : N := 340282366920938463463374607431768211455.
Definition u64_max : N := 18446744073709551615.

Lemma u128_max_modulus n : n <= u128_max <-> n < u128_modulus.
Proof. unfold u128_max, u128_modulus. lia. Qed.

(** [+], [-], [*] of Rust on an unsigned type with the given modulus: with
    [overflow-checks] (debug and test builds) an overflow panics, without
    (release builds) it wraps. *)
Section Arith.
Context (checks : bool) (modulus : N).

Definition uadd (a b : N) : option N :=
  if a + b <? modulus then Some (a + b)
  else if checks then None else Some ((a + b) mod modulus).

Definition usub (a b : N) : option N :=
  if b <=? a then Some (a - b)
  else if checks then None else Some ((modulus + a - b) mod modulus).

Definition umul (a b : N) : option N :=
  if a * b <? modulus then Some (a * b)
  else if checks then None else Some ((a * b) mod modulus).

Lemma uadd_in_range a b : a + b < modulus -> uadd a b = Some (a + b).
Proof. unfold uadd. intros H. by rewrite (proj2 (N.ltb_lt _ _) H). Qed.

Lemma usub_in_range a b : b <= a -> usub a b = Some (a - b).
Proof. unfold usub. intros H. by rewrite (proj2 (N.leb_le _ _) H). Qed.

Lemma umul_in_range a b : a * b < modulus -> umul a b = Some (a * b).
Proof. unfold umul. intros H. by rewrite (proj2 (N.ltb_lt _ _) H). Qed.

Lemma uadd_lt a b c : 0 < modulus -> uadd a b = Some c -> c < modulus.
Proof.
  unfold uadd. intros Hm. destruct (N.ltb_spec (a + b) modulus); [by intros [= <-]|].
  destruct checks; [done|]. intros [= <-]. apply N.mod_lt. lia.
Qed.

Lemma umul_lt a b c : 0 < modulus -> umul a b = Some c -> c < modulus.
Proof.
  unfold umul. intros Hm. destruct (N.ltb_spec (a * b) modulus); [by intros [= <-]|].
  destruct checks; [done|]. intros [= <-]. apply N.mod_lt. lia.
Qed.

Lemma usub_lt a b c : a < modulus -> usub a b = Some c -> c < modulus.
Proof.
  unfold usub. intros Hm. destruct (N.leb_spec b a); [intros [= <-]; lia|].
  destruct checks; [done|]. intros [= <-]. apply N.mod_lt. lia.
Qed.

(** Whatever the build, a sum or a difference that returns is right modulo
    the width. *)
Lemma uadd_mod a b c : modulus <> 0 -> uadd a b = Some c -> c mod modulus = (a + b) mod modulus.
Proof.
  unfold uadd. intros Hm. destruct (a + b <? modulus); [by intros [= <-]|].
  destruct checks; [done|]. intros [= <-]. by apply N.Div0.mod_mod.
Qed.

Lemma usub_mod a b c :
  b <= modulus -> modulus <> 0 -> usub a b = Some c -> (c + b) mod modulus = a mod modulus.
Proof.
  unfold usub. intros Hb Hm. destruct (N.leb_spec b a).
  { intros [= <-]. f_equal. lia. }
  destruct checks; [done|]. intros [= <-].
  rewrite N.Div0.add_mod_idemp_l. replace (modulus + a - b + b) with (a + 1 * modulus) by lia.
  by rewrite N.Div0.mod_add.
Qed.

(** Division panics on zero in every build. *)
Definition udiv (a b : N) : option N := if b =? 0 then None else Some (a / b).

Lemma udiv_pos a b : 0 < b -> udiv a b = Some (a / b).
Proof. unfold udiv. destruct (N.eqb_spec b 0); [lia | done]. Qed.
End Arith.

(** With checks on, a result is the mathematical one. *)
Lemma uadd_checked m a b c : uadd true m a b = Some c <-> c = a + b /\ a + b < m.
Proof. unfold uadd. destruct (N.ltb_spec (a + b) m); naive_solver lia. Qed.
Lemma usub_checked m a b c : usub true m a b = Some c <-> c = a - b /\ b <= a.
Proof. unfold usub. destruct (N.leb_spec b a); naive_solver lia. Qed.
Lemma umul_checked m a b c : umul true m a b = Some c <-> c = a * b /\ a * b < m.
Proof. unfold umul. destruct (N.ltb_spec (a * b) m); naive_solver lia. Qed.

(** [TryInto::<u32>::try_into(n).ok()] *)
Definition try_into_u32 (n : N) : option N := if n <? u32_modulus then Some n else None.

(** [x as u32], [x as u64] on an unsigned [x] *)
Definition as_u32 (n : N) : N := n mod u32_modulus.

(** [SaturatedConversion::saturated_into::<u64>] of a wider unsigned *)
Definition saturated_into_u64 (n : N) : N := N.min n u64_max.

(* ================================================================== *)
(** ** Storage maps with a default                                     *)
(* ================================================================== *)

(** [StorageMap::get] on a map declared without [Option]: an absent key reads
    as the type's default. *)
Definition getd {K V} `{Countable K} (d : V) (m : gmap K V) (k : K) : V := default d (m !! k).

Section Getd.
Context {K V} `{Countable K} (d : V) (m : gmap K V).

Lemma getd_insert_eq k v : getd d (<[k:=v]> m) k = v.
Proof. unfold getd. by rewrite lookup_insert_eq. Qed.
Lemma getd_insert_ne k k' v : k <> k' -> getd d (<[k:=v]> m) k' = getd d m k'.
Proof. unfold getd. intros. by rewrite lookup_insert_ne. Qed.
Lemma getd_delete_eq k : getd d (delete k m) k = d.
Proof. unfold getd. by rewrite lookup_delete_eq. Qed.
Lemma getd_delete_ne k k' : k <> k' -> getd d (delete k m) k' = getd d m k'.
Proof. unfold getd. intros. by rewrite lookup_delete_ne. Qed.
Lemma getd_insert k k' v :
  getd d (<[k:=v]> m) k' = if decide (k = k') then v else getd d m k'.
Proof. case_decide; subst; [apply getd_insert_eq | by apply getd_insert_ne]. Qed.
End Getd.

Create Rewrite HintDb getd.
#[export] Hint Rewrite @getd_insert_eq @getd_delete_eq : getd.
#[export] Hint Rewrite @getd_insert_ne @getd_delete_ne using congruence : getd.

(* ------------------------------------------------------------------ *)
(** *** Sums over a storage map                                         *)
(* ------------------------------------------------------------------ *)

(** The sum of the entries of a ledger whose key is in [P]. *)
Definition msum {K} `{Countable K} (P : K -> bool) (m : gmap K N) : N :=
  map_fold (fun k v acc => (if P k then v else 0) + acc) 0 m.

Section Msum.
Context {K} `{Countable K} (P : K -> bool).

Lemma msum_empty : msum P ∅ = 0.
Proof. apply map_fold_empty. Qed.

Lemma msum_insert_None m k v :
  m !! k = None -> msum P (<[k:=v]> m) = (if P k then v else 0) + msum P m.
Proof. intros Hk. unfold msum. rewrite map_fold_insert_L; [done | intros; lia | done]. Qed.

Lemma msum_delete m k :
  msum P m = (if P k then getd 0 m k else 0) + msum P (delete k m).
Proof.
  unfold getd. destruct (m !! k) as [v|] eqn:Hk; cbn.
  - rewrite <- (insert_id m k v Hk) at 1. rewrite <- insert_delete_eq.
    apply msum_insert_None, lookup_delete_eq.
  - rewrite delete_id by done. by destruct (P k).
Qed.

Lemma msum_insert m k v :
  msum P (<[k:=v]> m) + (if P k then getd 0 m k else 0) = msum P m + (if P k then v else 0).
Proof.
  rewrite <- insert_delete_eq, msum_insert_None by apply lookup_delete_eq.
  rewrite (msum_delete m k). lia.
Qed.

Lemma msum_le m k : P k = true -> getd 0 m k <= msum P m.
Proof. intros HP. rewrite (msum_delete m k), HP. lia. Qed.

Lemma msum_le_two m k1 k2 :
  k1 <> k2 -> P k1 = true -> P k2 = true -> getd 0 m k1 + getd 0 m k2 <= msum P m.
Proof.
  intros Hne H1 H2. rewrite (msum_delete m k1), H1.
  pose proof (msum_le (delete k1 m) k2 H2) as Hle. rewrite getd_delete_ne in Hle by done. lia.
Qed.

Lemma msum_zero m : (forall k, P k = true -> getd 0 m k = 0) -> msum P m = 0.
Proof.
  induction m as [|k v m Hk IH] using map_ind; intros Hz; [apply msum_empty|].
  rewrite msum_insert_None by done. rewrite IH.
  - destruct (P k) eqn:HP; [|done]. specialize (Hz k HP). rewrite getd_insert_eq in Hz. lia.
  - intros k' HP'. specialize (Hz k' HP'). destruct (decide (k = k')) as [<-|Hne].
    + unfold getd. by rewrite Hk.
    + by rewrite getd_insert_ne in Hz.
Qed.
End Msum.
