(* ===== verification/Yields.v ===== *)
(** * Runs that yield values of a kind

    A rule system over the monad for invariants of the storage together with facts
    about the values a program passes on: [yields I P m].  The tactic [yields_with]
    walks a definition by the rules and leaves the reads, the writes and the
    arithmetic to a given tactic.  [Typed.v] uses it for machine widths, [Pools.v] for
    the parameters and indices of the lending pools. *)

From S2P Require Export Prelude.

Local Open Scope rust_scope.

(** [yields I P m]: from a state of the invariant [I], [m] ends in such a state
    and an [Ok] value satisfies [P].  Unlike [wp] it mentions no state, so facts
    about the parts of a program compose without looking at the storage. *)
Definition yields {S E A} (I : S -> Prop) (P : A -> Prop) (m : M S E A) : Prop :=
  forall s, I s -> wp m (fun a s' => P a /\ I s') (fun _ s' => I s') s.

Section Yields.
Context {S E F A B : Type} (I : S -> Prop).

Lemma yields_bind (P : A -> Prop) (Q : B -> Prop) (m : M S E A) (k : A -> M S E B) :
  yields I P m -> (forall a, P a -> yields I Q (k a)) -> yields I Q (bind m k).
Proof.
  intros Hm Hk s Hs. apply wp_bind. eapply wp_mono; [| |by apply Hm]; cbn; [|done].
  intros a s' [Ha Hs']. by apply Hk.
Qed.

Lemma yields_weaken (P Q : A -> Prop) (m : M S E A) :
  (forall a, P a -> Q a) -> yields I P m -> yields I Q m.
Proof. intros HPQ Hm s Hs. eapply wp_mono; [| |by apply Hm]; cbn; naive_solver. Qed.

Lemma yields_ret (P : A -> Prop) a : P a -> yields I P (@ret S E A a).
Proof. by intros ? s Hs. Qed.
Lemma yields_throw (P : A -> Prop) (e : E) : yields I P (@throw S E A e).
Proof. by intros s Hs. Qed.
Lemma yields_gets (P : A -> Prop) (f : S -> A) :
  (forall s, I s -> P (f s)) -> yields I P (@gets S E A f).
Proof. intros Hf s Hs. split; [by apply Hf | done]. Qed.
Lemma yields_modify (f : S -> S) :
  (forall s, I s -> I (f s)) -> yields I (fun _ => True) (@modify S E f).
Proof. intros Hf s Hs. split; [done | by apply Hf]. Qed.
Lemma yields_or_panic (P : A -> Prop) (o : option A) :
  (forall a, o = Some a -> P a) -> yields I P (@or_panic S E A o).
Proof. intros Ho s Hs. destruct o; [split; [by apply Ho | done] | done]. Qed.
Lemma yields_ok_or (P : A -> Prop) (o : option A) (e : E) :
  (forall a, o = Some a -> P a) -> yields I P (@ok_or S E A o e).
Proof. intros Ho s Hs. destruct o; [split; [by apply Ho | done] | done]. Qed.
Lemma yields_ensure b (e : E) : yields I (fun _ => True) (@ensure S E b e).
Proof. intros s Hs. unfold wp, ensure. by destruct b. Qed.
Lemma yields_map_err (P : A -> Prop) (f : E -> F) (m : M S E A) :
  yields I P m -> yields I P (map_err f m).
Proof. intros Hm s Hs. apply wp_map_err. by apply Hm. Qed.
Lemma yields_ignore (P : A -> Prop) (m : M S E A) :
  yields I P m -> yields I (fun _ => True) (@ignore S E F A m).
Proof. intros Hm s Hs. apply wp_ignore. eapply wp_mono; [| |by apply Hm]; cbn; naive_solver. Qed.
Lemma yields_pure (m : M S E A) : respects eq m -> yields I (fun _ => True) m.
Proof. intros Hm s Hs. apply wp_pure; [done | by intros | by intros]. Qed.
Lemma yields_if (P : A -> Prop) (b : bool) (m1 m2 : M S E A) :
  yields I P m1 -> yields I P m2 -> yields I P (if b then m1 else m2).
Proof. by destruct b. Qed.
Lemma yields_bind_if (Q : B -> Prop) (b : bool) (m1 m2 : M S E A) (k : A -> M S E B) :
  yields I Q (bind m1 k) -> yields I Q (bind m2 k) -> yields I Q (bind (if b then m1 else m2) k).
Proof. by destruct b. Qed.
End Yields.

Lemma yields_assoc {S E A B C} (I : S -> Prop) (P : C -> Prop) (m : M S E A) (f : A -> M S E B)
    (g : B -> M S E C) :
  yields I P (bind m (fun a => bind (f a) g)) -> yields I P (bind (bind m f) g).
Proof. intros H s Hs. specialize (H s Hs). unfold wp, bind in *. by destruct (m s). Qed.

Lemma yields_foldM {S E A B} (I : S -> Prop) (P : A -> Prop) (Q : B -> Prop)
    (f : A -> B -> M S E A) l :
  (forall a b, P a -> Q b -> yields I P (f a b)) -> Forall Q l ->
  forall a, P a -> yields I P (foldM f l a).
Proof.
  intros Hf. induction 1 as [|b l Hb _ IH]; intros a Ha; cbn [foldM]; [by apply yields_ret|].
  eapply yields_bind; [by apply Hf | done].
Qed.

(** Walks a definition: a checked result enters the context as the equation it
    comes from, a read with what the invariant says of its storage item. *)
Ltac yields_leaf auto_leaf :=
  first
    [ apply yields_ret; auto_leaf
    | apply yields_throw
    | apply yields_ensure
    | apply yields_or_panic; intros; auto_leaf
    | apply yields_ok_or; intros; auto_leaf
    | apply yields_modify; intros; auto_leaf
    | auto_leaf ].
Ltac yields_step auto_leaf :=
  lazymatch goal with
  | |- yields _ _ (bind (bind _ _) _) => apply yields_assoc
  | |- yields _ _ (bind (or_panic _) _) =>
      eapply yields_bind; [by apply yields_or_panic, (fun a H => H) | cbv beta; intros ? ?]
  | |- yields _ _ (bind (ok_or _ _) _) =>
      eapply yields_bind; [by apply yields_ok_or, (fun a H => H) | cbv beta; intros ? ?]
  | |- yields _ _ (bind (if _ then _ else _) _) => apply yields_bind_if
  | |- yields _ _ (bind _ _) =>
      eapply yields_bind; [yields_leaf auto_leaf | cbv beta; intros ? ?]
  | |- yields _ _ (if _ then _ else _) => apply yields_if
  | |- yields _ _ (match ?x with Some _ => _ | None => _ end) => destruct x eqn:?
  | |- yields _ _ (let '(_, _) := ?x in _) => destruct x
  | |- yields _ _ _ => yields_leaf auto_leaf
  end.
Ltac yields_with auto_leaf := cbv zeta; repeat (yields_step auto_leaf; cbv beta zeta).
