(* ===== verification/FixedPoint.v ===== *)
(** * FixedU128: the interface of the fixed-point numbers

    [sp_arithmetic::FixedU128] is a dependency, not part of the repository: the
    pallets are modelled against the operations of the class [FixedOps], and
    theorems that need to know what the operations compute take the documented
    facts of the class [FixedLaws].  A number is represented by its inner [u128]
    ([into_inner]), which counts units of [1 / 10^18]; [None] is a panic of the
    operator.  [RefFixed] is one concrete implementation, which rounds as the
    class [FixedRound] says; it satisfies the laws and serves to evaluate the model. *)

From S2P Require Import Prelude.

Local Open Scope N_scope.

Abbreviation FixedU128 := N (only parsing).

(** [FixedU128::accuracy()] *)
Definition DIV : N := 1000000000000000000.

Class FixedOps : Type := {
  fx_one : FixedU128;                                   (** [FixedU128::one()] *)
  fx_zero : FixedU128;                                  (** [FixedU128::zero()] *)
  fx_add : FixedU128 -> FixedU128 -> option FixedU128;  (** [a + b] *)
  fx_mul : FixedU128 -> FixedU128 -> option FixedU128;  (** [a * b] *)
  fx_div : FixedU128 -> FixedU128 -> option FixedU128;  (** [a / b] *)
  fx_mul_int : FixedU128 -> N -> N;                     (** [a.saturating_mul_int(n)] *)
  fx_from_integer : N -> FixedU128;                     (** [saturating_from_integer(n)] *)
  fx_from_rational : N -> N -> option FixedU128         (** [saturating_from_rational(n, d)] *)
}.

(** The same numbers with other partial operations: what a build does where they do
    not fit. *)
Definition with_partial (ops : FixedOps) (add mul div : FixedU128 -> FixedU128 -> option FixedU128)
    : FixedOps := {|
  fx_one := fx_one;
  fx_zero := fx_zero;
  fx_add := add;
  fx_mul := mul;
  fx_div := div;
  fx_mul_int := fx_mul_int;
  fx_from_integer := fx_from_integer;
  fx_from_rational := fx_from_rational
|}.

(** What the pallets rely on.  The rounding of products and quotients is left
    open: only exact cases and monotonicity are stated. *)
Class FixedLaws `(ops : FixedOps) : Prop := {
  fx_one_inner : fx_one = DIV;
  fx_zero_inner : fx_zero = 0;
  fx_add_exact : forall a b, a + b <= u128_max -> fx_add a b = Some (a + b);
  fx_add_bound : forall a b c, fx_add a b = Some c -> c <= u128_max;
  fx_mul_bound : forall a b c, fx_mul a b = Some c -> c <= u128_max;
  fx_mul_one_r : forall a, a <= u128_max -> fx_mul a fx_one = Some a;
  fx_mul_zero_r : forall a, a <= u128_max -> fx_mul a fx_zero = Some fx_zero;
  fx_mul_ge : forall a b c, a <= u128_max -> fx_one <= b -> fx_mul a b = Some c -> a <= c;
  fx_div_zero : forall a, fx_div a fx_zero = None;
  fx_div_self : forall a, 0 < a -> a <= u128_max -> fx_div a a = Some fx_one;
  fx_div_ge_one : forall a b q, 0 < b -> b <= a -> fx_div a b = Some q -> fx_one <= q;
  fx_mul_int_bound : forall a n, fx_mul_int a n <= u128_max;
  fx_mul_int_one : forall n, n <= u128_max -> fx_mul_int fx_one n = n;
  fx_mul_int_zero : forall a, fx_mul_int a 0 = 0;
  fx_mul_int_mono : forall a b n m, a <= b -> n <= m -> fx_mul_int a n <= fx_mul_int b m;
  fx_from_integer_zero : fx_from_integer 0 = fx_zero;
  fx_from_integer_bound : forall n, fx_from_integer n <= u128_max;
  fx_from_rational_total : forall n d, 0 < d -> is_Some (fx_from_rational n d);
  fx_from_rational_bound : forall n d c, fx_from_rational n d = Some c -> c <= u128_max;
  fx_from_rational_exact :
    forall n d c, 0 < d -> n * DIV = c * d -> c <= u128_max -> fx_from_rational n d = Some c
}.

(** How the operations round, for the theorems on amounts.  They all go through
    [multiply_by_rational(a, b, c)]: where [a * b] fits [u128] the quotient is cut
    off, and beyond that it is rounded to the nearest integer; an integer result
    saturates.  A sum that does not fit is not returned ([sp_arithmetic] built with
    overflow checks). *)
Class FixedRound `(ops : FixedOps) : Prop := {
  fx_add_sum : forall a b c, fx_add a b = Some c -> c = a + b;
  fx_mul_floor : forall a b c, fx_mul a b = Some c -> a * b <= u128_max -> c * DIV <= a * b;
  fx_mul_near : forall a b c, fx_mul a b = Some c -> c * DIV <= a * b + DIV / 2;
  fx_mul_gt : forall a b c, fx_mul a b = Some c -> a * b < (c + 1) * DIV;
  fx_mul_int_floor : forall a n, a * n <= u128_max -> fx_mul_int a n * DIV <= a * n;
  fx_mul_int_gt : forall a n, fx_mul_int a n = u128_max \/ a * n < (fx_mul_int a n + 1) * DIV;
  fx_from_integer_exact : forall n, n * DIV <= u128_max -> fx_from_integer n = n * DIV;
  fx_from_rational_floor : forall n d c,
    fx_from_rational n d = Some c -> n * DIV <= u128_max -> c * d <= n * DIV;
  fx_from_rational_near : forall n d c, fx_from_rational n d = Some c -> c * d <= n * DIV + d / 2
}.

Section Consequences.
Context `{FL : FixedLaws}.

(** Multiplying by a factor of at least one never shrinks an integer. *)
Lemma fx_mul_int_ge a n : fx_one <= a -> n <= u128_max -> n <= fx_mul_int a n.
Proof.
  intros Ha Hn. rewrite <- (fx_mul_int_one n Hn) at 1. apply fx_mul_int_mono; [done | lia].
Qed.

Lemma fx_one_pos : 0 < fx_one.
Proof. rewrite fx_one_inner. done. Qed.

Lemma fx_one_bound : fx_one <= u128_max.
Proof. rewrite fx_one_inner. done. Qed.

(** [1 + rate] is at least one when the addition stays in range. *)
Lemma fx_add_one_ge r m : fx_one + r <= u128_max -> fx_add fx_one r = Some m -> fx_one <= m.
Proof. intros Hr. rewrite (fx_add_exact _ _ Hr). intros [= <-]. lia. Qed.
End Consequences.

(** Rounding to the nearest never crosses an integer bound. *)
Section Rounding.
Context `{FR : FixedRound}.

Lemma half_DIV : DIV / 2 = 500000000000000000.
Proof. done. Qed.

(** A part of a whole is at most one. *)
Lemma fx_from_rational_part n d c : n <= d -> d <> 0 -> fx_from_rational n d = Some c -> c <= DIV.
Proof.
  intros Hle Hd Hc%fx_from_rational_near. apply N.lt_succ_r.
  assert (d / 2 < d) by (apply N.div_lt; lia).
  apply N.mul_lt_mono_pos_r with d; [lia|]. rewrite N.mul_succ_l.
  assert (n * DIV <= d * DIV) by by apply N.mul_le_mono_r. revert Hc H. generalize (d / 2). lia.
Qed.

(** A factor of at most one does not enlarge. *)
Lemma fx_mul_part a b c : b <= DIV -> fx_mul a b = Some c -> c <= a.
Proof.
  intros Hb Hc%fx_mul_near. assert (a * b <= a * DIV) by by apply N.mul_le_mono_l.
  rewrite half_DIV in Hc. unfold DIV in *. lia.
Qed.

(** A product with an integer is exact. *)
Lemma fx_mul_integer a n i c :
  n * DIV <= u128_max -> fx_from_integer n = i -> fx_mul a i = Some c -> c = a * n.
Proof.
  intros Hn <- Hc. rewrite (fx_from_integer_exact _ Hn) in Hc.
  pose proof (fx_mul_gt _ _ _ Hc) as Hgt.
  apply fx_mul_near in Hc. rewrite half_DIV in Hc. unfold DIV in *. lia.
Qed.
End Rounding.

(* ================================================================== *)
(** ** A concrete implementation                                       *)
(* ================================================================== *)

Module RefFixed.

Definition clamp (n : N) : N := N.min n u128_max.
Definition in_range (n : N) : option N := if n <=? u128_max then Some n else None.

(** [a * b / c], cut off while the product fits and to the nearest beyond. *)
Definition ratio (a b c : N) : N :=
  if a * b <=? u128_max then a * b / c else (a * b + (c - c / 2 - 1)) / c.

#[export] Instance ops : FixedOps := {|
  fx_one := DIV;
  fx_zero := 0;
  fx_add a b := in_range (a + b);
  fx_mul a b := in_range (ratio a b DIV);
  fx_div a b := if b =? 0 then None else in_range (ratio a DIV b);
  fx_mul_int a n := clamp (ratio a n DIV);
  fx_from_integer n := clamp (n * DIV);
  fx_from_rational n d := if d =? 0 then None else Some (clamp (ratio n DIV d))
|}.

Lemma in_range_Some n c : in_range n = Some c <-> c = n /\ n <= u128_max.
Proof. unfold in_range. destruct (N.leb_spec n u128_max); naive_solver lia. Qed.

Lemma div_floor n d : d <> 0 -> n / d * d <= n < (n / d + 1) * d.
Proof.
  intros Hd. pose proof (N.div_mod n d Hd). pose proof (N.mod_lt n d Hd).
  generalize dependent (n / d). generalize dependent (n mod d). intros. nia.
Qed.

(** The two sides of the rounding. *)
Lemma ratio_bounds a b c :
  c <> 0 -> ratio a b c * c <= a * b + c / 2 /\ a * b < (ratio a b c + 1) * c /\
  (a * b <= u128_max -> ratio a b c * c <= a * b).
Proof.
  intros Hc. unfold ratio. pose proof (div_floor c 2 ltac:(discriminate)).
  destruct (N.leb_spec (a * b) u128_max).
  - pose proof (div_floor (a * b) c Hc). split; [lia | tauto].
  - pose proof (div_floor (a * b + (c - c / 2 - 1)) c Hc). split; [lia|]. split; lia.
Qed.

Lemma ratio_exact a b c q : c <> 0 -> a * b = q * c -> ratio a b c = q.
Proof.
  intros Hc Heq. unfold ratio. rewrite Heq.
  destruct (q * c <=? u128_max); [by apply N.div_mul|].
  rewrite N.div_add_l, (N.div_small (c - c / 2 - 1)) by (done || (generalize (c / 2); lia)). lia.
Qed.

Lemma ratio_mono a b a' b' c : c <> 0 -> a * b <= a' * b' -> ratio a b c <= ratio a' b' c.
Proof.
  intros Hc Hle. unfold ratio.
  destruct (N.leb_spec (a * b) u128_max), (N.leb_spec (a' * b') u128_max);
    try apply N.Div0.div_le_mono; lia.
Qed.

Lemma ratio_DIV_ge a b q : q * DIV <= a * b -> q <= ratio a b DIV.
Proof.
  intros Hle. rewrite <- (ratio_exact q DIV DIV q) by done. by apply ratio_mono.
Qed.

#[export] Instance laws : FixedLaws ops.
Proof.
  split; cbn -[DIV u128_max N.mul N.div ratio]; unfold clamp.
  - done.
  - done.
  - intros a b Hab. by apply in_range_Some.
  - intros a b c [-> ?]%in_range_Some. done.
  - intros a b c [-> ?]%in_range_Some. done.
  - intros a Ha. apply in_range_Some. by rewrite (ratio_exact a DIV DIV a).
  - intros a Ha. by rewrite (ratio_exact a 0 DIV 0) by (done || lia).
  - intros a b c _ Hb [-> _]%in_range_Some. apply ratio_DIV_ge. nia.
  - done.
  - intros a Ha Hmax. destruct (N.eqb_spec a 0) as [->|Hz]; [lia|].
    by rewrite (ratio_exact a DIV a DIV) by (done || lia).
  - intros a b q Hb Hba. destruct (N.eqb_spec b 0); [lia|]. intros [-> _]%in_range_Some.
    assert (ratio b DIV b = DIV) as E by (apply ratio_exact; lia).
    etrans; [by apply N.eq_le_incl, eq_sym|]. apply ratio_mono; [done | by apply N.mul_le_mono_r].
  - intros. lia.
  - intros n Hn. rewrite (ratio_exact DIV n DIV n) by (done || lia). lia.
  - intros a. by rewrite (ratio_exact a 0 DIV 0) by (done || lia).
  - intros a b n m Ha Hn.
    assert (ratio a n DIV <= ratio b m DIV) by (apply ratio_mono; [done | nia]). lia.
  - done.
  - intros. lia.
  - intros n d Hd. destruct (N.eqb_spec d 0); [lia | eauto].
  - intros n d c. destruct (N.eqb_spec d 0); [done | intros [= <-]; lia].
  - intros n d c Hd Heq Hc. destruct (N.eqb_spec d 0); [lia|].
    rewrite (ratio_exact n DIV d c) by (done || lia). f_equal. lia.
Qed.

#[export] Instance round : FixedRound ops.
Proof.
  assert (DIV <> 0) as HD by done.
  split; cbn -[DIV u128_max N.mul N.div ratio]; unfold clamp.
  - by intros a b c [-> _]%in_range_Some.
  - intros a b c [-> _]%in_range_Some. by apply ratio_bounds.
  - intros a b c [-> _]%in_range_Some. by apply ratio_bounds.
  - intros a b c [-> _]%in_range_Some. by apply ratio_bounds.
  - intros a n Hfit. etrans; [apply N.mul_le_mono_r, N.le_min_l | by apply ratio_bounds].
  - intros a n. destruct (N.min_spec (ratio a n DIV) u128_max) as [[_ ->]|[_ ->]]; [right | by left].
    by apply ratio_bounds.
  - intros n Hn. lia.
  - intros n d c. destruct (N.eqb_spec d 0) as [|Hd]; [done|]. intros [= <-] Hfit.
    etrans; [apply N.mul_le_mono_r, N.le_min_l | by apply ratio_bounds].
  - intros n d c. destruct (N.eqb_spec d 0) as [|Hd]; [done|]. intros [= <-].
    etrans; [apply N.mul_le_mono_r, N.le_min_l | by apply ratio_bounds].
Qed.

End RefFixed.
