(* ===== verification/Chain.v ===== *)
(** * The chain: types, storage and events of the runtime

    The concrete types are the ones [runtime/src/lib.rs] gives the pallets
    ([Balance = u128], [AssetId = u64], [BlockNumber = u32], [FeeRate = u64]).
    Each [decl_storage!] block is a record, [Chain] puts the storages of the
    four pallets next to the part of [frame_system] they use (the block number
    and the event list).  [Accounts] holds what the runtime gets from outside - the
    account type, the account derived from the lending pallet id and the hash
    behind the exchange addresses - and [Config] adds the profile of the build. *)

From S2P Require Export Prelude FixedPoint.

Local Open Scope N_scope.

(* ================================================================== *)
(** ** Types of the runtime                                            *)
(* ================================================================== *)

Abbreviation AssetId := N (only parsing).      (** [u64] *)
Abbreviation Balance := N (only parsing).      (** [u128] *)
Abbreviation BlockNumber := N (only parsing).  (** [u32] *)
Abbreviation FeeRate := N (only parsing).      (** [u64] *)

(** The accounts of the chain. *)
Class Accounts : Type := {
  AccountId : Type;
  AccountId_eq_dec :: EqDecision AccountId;
  AccountId_countable :: Countable AccountId;
  AccountId_default : AccountId;                 (** [AccountId::default()] *)
  lending_account_id : AccountId;                (** the [ModuleId] Lending! as an account: [PALLET_ID.into_account()] *)
  hash_account : list N -> AccountId             (** [T::Hashing::hash(..).unchecked_into()] *)
}.

(** A build: the accounts and the profile.  The storage depends on the accounts
    alone, so that two profiles run on the same storage. *)
Class Config : Type := mkConfig {
  config_accounts :: Accounts;
  overflow_checks : bool                         (** [overflow-checks] of the profile *)
}.

(** [RawOrigin]: who dispatches a call. *)
Inductive Origin `{Accounts} : Type :=
| Root
| Signed (who : AccountId)
| NoOrigin.

(** The [decl_error!] of the lending pallet. *)
Inductive LendingError : Type :=
| TransferFailed
| NotEnoughLiquidity
| PoolNotExist
| AssetNotCollateral
| AboveLiquidationThreshold
| BelowLiquidationThreshold
| UserNoSupply
| UserNoDebt.

Inductive DispatchError : Type :=
| BadOrigin
| Other (msg : string)
| Module_ (e : LendingError).

#[export] Instance LendingError_eq_dec : EqDecision LendingError.
Proof. solve_decision. Defined.
#[export] Instance DispatchError_eq_dec : EqDecision DispatchError.
Proof. solve_decision. Defined.

(* ================================================================== *)
(** ** Events                                                          *)
(* ================================================================== *)

Section Events.
Context `{Accounts}.

Inductive AssetsEvent : Type :=
| Issued (id : AssetId) (owner : AccountId) (total : Balance)
| Transferred (id : AssetId) (from to : AccountId) (amount : Balance)
| Destroyed (id : AssetId) (owner : AccountId) (balance : Balance).

Inductive SwapEvent : Type :=
| AssetsSwapped (who : AccountId) (in_id : AssetId) (in_amount : Balance)
                (out_id : AssetId) (out_amount : Balance)
| LiquidityAdded (who : AccountId) (liquidity : Balance) (id : AssetId)
| LiquidityRemoved (who : AccountId) (liquidity : Balance) (id : AssetId)
| ReserveChanged (id : AssetId) (balance : Balance).

Inductive LendingEvent : Type :=
| Supplied (id : AssetId) (who : AccountId) (amount : Balance)
| Withdrawn (id : AssetId) (who : AccountId) (amount : Balance)
| Borrowed (id : AssetId) (who : AccountId) (amount : Balance)
| Repaid (id : AssetId) (who : AccountId) (amount : Balance)
| Liquidated (pay_id get_id : AssetId) (arbitrager target : AccountId)
             (pay_amount get_amount : Balance).

Inductive OffchainWorkerEvent : Type :=
| NewPrice (id : AssetId) (price : FixedU128).

(** The outer [Event] that [construct_runtime!] builds. *)
Inductive Event : Type :=
| EvAssets (e : AssetsEvent)
| EvSwap (e : SwapEvent)
| EvLending (e : LendingEvent)
| EvOffchainWorker (e : OffchainWorkerEvent).
End Events.

(* ================================================================== *)
(** ** Storage                                                         *)
(* ================================================================== *)

(** [struct Pool] of the lending pallet. *)
Record Pool : Type := mkPool {
  enabled : bool;
  can_be_collateral : bool;
  pool_asset : AssetId;
  pool_supply : Balance;
  pool_debt : Balance;
  safe_factor : FixedU128;
  close_factor : FixedU128;
  discount_factor : FixedU128;
  total_supply_index : FixedU128;
  total_debt_index : FixedU128;
  last_updated : BlockNumber;
  utilization_factor : FixedU128;
  initial_interest_rate : FixedU128
}.

(** [struct UserSupply] *)
Record UserSupply : Type := mkUserSupply { us_amount : Balance; us_index : FixedU128 }.

(** [struct UserDebt] *)
Record UserDebt : Type := mkUserDebt { ud_amount : Balance; ud_index : FixedU128 }.

Section Storage.
Context `{Accounts}.

(** [decl_storage!] of the assets pallet *)
Record AssetsStorage : Type := mkAssets {
  NextAssetId : AssetId;
  TotalSupply : gmap AssetId Balance;
  Balances : gmap (AssetId * AccountId) Balance;
  InherentAsset : AssetId;
  Price : gmap AssetId FixedU128;
  Owner : AccountId
}.

(** [decl_storage!] of the swap pallet *)
Record SwapStorage : Type := mkSwap {
  FeeRateGlobal : FeeRate;
  TotalLiquidities : gmap AssetId Balance;
  AccountLiquidities : gmap (AssetId * AccountId) Balance;
  ExchangeAccounts : gmap AssetId AccountId
}.

(** [decl_storage!] of the lending pallet *)
Record LendingStorage : Type := mkLending {
  UserDebts : gmap (AssetId * AccountId) UserDebt;
  UserSupplies : gmap (AssetId * AccountId) UserSupply;
  Pools : gmap AssetId Pool;
  UserSupplySet : gmap AccountId (list AssetId);
  UserDebtSet : gmap AccountId (list AssetId);
  LiquidationThreshold : FixedU128
}.

Record Chain : Type := mkChain {
  block_number : BlockNumber;       (** [frame_system] *)
  events : list Event;              (** [frame_system], oldest first *)
  assets : AssetsStorage;
  swap : SwapStorage;
  lending : LendingStorage;
  NextUnsignedAt : BlockNumber      (** the offchain worker's storage *)
}.

Definition set_assets (f : AssetsStorage -> AssetsStorage) (s : Chain) : Chain :=
  mkChain (block_number s) (events s) (f (assets s)) (swap s) (lending s) (NextUnsignedAt s).
Definition set_swap (f : SwapStorage -> SwapStorage) (s : Chain) : Chain :=
  mkChain (block_number s) (events s) (assets s) (f (swap s)) (lending s) (NextUnsignedAt s).
Definition set_lending (f : LendingStorage -> LendingStorage) (s : Chain) : Chain :=
  mkChain (block_number s) (events s) (assets s) (swap s) (f (lending s)) (NextUnsignedAt s).
Definition set_NextUnsignedAt (n : BlockNumber) (s : Chain) : Chain :=
  mkChain (block_number s) (events s) (assets s) (swap s) (lending s) n.
Definition set_block_number (n : BlockNumber) (s : Chain) : Chain :=
  mkChain n (events s) (assets s) (swap s) (lending s) (NextUnsignedAt s).
(** [frame_system::deposit_event]: the genesis block has no events. *)
Definition deposited (e : Event) (s : Chain) : list Event :=
  if block_number s =? 0 then events s else events s ++ [e].
Definition add_event (e : Event) (s : Chain) : Chain :=
  mkChain (block_number s) (deposited e s) (assets s) (swap s) (lending s) (NextUnsignedAt s).

Definition set_NextAssetId (f : AssetId -> AssetId) (a : AssetsStorage) : AssetsStorage :=
  mkAssets (f (NextAssetId a)) (TotalSupply a) (Balances a) (InherentAsset a) (Price a) (Owner a).
Definition set_TotalSupply (f : gmap AssetId Balance -> gmap AssetId Balance)
    (a : AssetsStorage) : AssetsStorage :=
  mkAssets (NextAssetId a) (f (TotalSupply a)) (Balances a) (InherentAsset a) (Price a) (Owner a).
Definition set_Balances
    (f : gmap (AssetId * AccountId) Balance -> gmap (AssetId * AccountId) Balance)
    (a : AssetsStorage) : AssetsStorage :=
  mkAssets (NextAssetId a) (TotalSupply a) (f (Balances a)) (InherentAsset a) (Price a) (Owner a).
Definition set_InherentAsset (id : AssetId) (a : AssetsStorage) : AssetsStorage :=
  mkAssets (NextAssetId a) (TotalSupply a) (Balances a) id (Price a) (Owner a).
Definition set_Price (f : gmap AssetId FixedU128 -> gmap AssetId FixedU128)
    (a : AssetsStorage) : AssetsStorage :=
  mkAssets (NextAssetId a) (TotalSupply a) (Balances a) (InherentAsset a) (f (Price a)) (Owner a).

Definition set_FeeRateGlobal (r : FeeRate) (w : SwapStorage) : SwapStorage :=
  mkSwap r (TotalLiquidities w) (AccountLiquidities w) (ExchangeAccounts w).
Definition set_TotalLiquidities (f : gmap AssetId Balance -> gmap AssetId Balance)
    (w : SwapStorage) : SwapStorage :=
  mkSwap (FeeRateGlobal w) (f (TotalLiquidities w)) (AccountLiquidities w) (ExchangeAccounts w).
Definition set_AccountLiquidities
    (f : gmap (AssetId * AccountId) Balance -> gmap (AssetId * AccountId) Balance)
    (w : SwapStorage) : SwapStorage :=
  mkSwap (FeeRateGlobal w) (TotalLiquidities w) (f (AccountLiquidities w)) (ExchangeAccounts w).
Definition set_ExchangeAccounts (f : gmap AssetId AccountId -> gmap AssetId AccountId)
    (w : SwapStorage) : SwapStorage :=
  mkSwap (FeeRateGlobal w) (TotalLiquidities w) (AccountLiquidities w) (f (ExchangeAccounts w)).

Definition set_UserDebts
    (f : gmap (AssetId * AccountId) UserDebt -> gmap (AssetId * AccountId) UserDebt)
    (l : LendingStorage) : LendingStorage :=
  mkLending (f (UserDebts l)) (UserSupplies l) (Pools l) (UserSupplySet l) (UserDebtSet l)
    (LiquidationThreshold l).
Definition set_UserSupplies
    (f : gmap (AssetId * AccountId) UserSupply -> gmap (AssetId * AccountId) UserSupply)
    (l : LendingStorage) : LendingStorage :=
  mkLending (UserDebts l) (f (UserSupplies l)) (Pools l) (UserSupplySet l) (UserDebtSet l)
    (LiquidationThreshold l).
Definition set_Pools (f : gmap AssetId Pool -> gmap AssetId Pool)
    (l : LendingStorage) : LendingStorage :=
  mkLending (UserDebts l) (UserSupplies l) (f (Pools l)) (UserSupplySet l) (UserDebtSet l)
    (LiquidationThreshold l).
Definition set_UserSupplySet (f : gmap AccountId (list AssetId) -> gmap AccountId (list AssetId))
    (l : LendingStorage) : LendingStorage :=
  mkLending (UserDebts l) (UserSupplies l) (Pools l) (f (UserSupplySet l)) (UserDebtSet l)
    (LiquidationThreshold l).
Definition set_UserDebtSet (f : gmap AccountId (list AssetId) -> gmap AccountId (list AssetId))
    (l : LendingStorage) : LendingStorage :=
  mkLending (UserDebts l) (UserSupplies l) (Pools l) (UserSupplySet l) (f (UserDebtSet l))
    (LiquidationThreshold l).
End Storage.

(* ================================================================== *)
(** ** The framework calls of the pallets                              *)
(* ================================================================== *)

(** A function of the runtime with error type [E]. *)
Abbreviation RT E A := (M Chain E A) (only parsing).

(** A Rust build's checked or wrapping operators at the widths the code uses. *)
Section Operators.
Context `{Config}.
Definition u128_add : N -> N -> option N := uadd overflow_checks u128_modulus.
Definition u128_sub : N -> N -> option N := usub overflow_checks u128_modulus.
Definition u128_mul : N -> N -> option N := umul overflow_checks u128_modulus.
Definition u64_add : N -> N -> option N := uadd overflow_checks u64_modulus.
Definition u32_add : N -> N -> option N := uadd overflow_checks u32_modulus.
Definition u32_sub : N -> N -> option N := usub overflow_checks u32_modulus.
Definition u32_mul : N -> N -> option N := umul overflow_checks u32_modulus.
End Operators.

Section Framework.
Context `{Accounts}.
Local Open Scope rust_scope.

(** [ensure_signed(origin)?], [ensure_root(origin)?], [ensure_none(origin)?] *)
Definition ensure_signed (origin : Origin) : RT DispatchError AccountId :=
  match origin with Signed who => ret who | _ => throw BadOrigin end.
Definition ensure_root (origin : Origin) : RT DispatchError unit :=
  match origin with Root => ret tt | _ => throw BadOrigin end.
Definition ensure_none (origin : Origin) : RT DispatchError unit :=
  match origin with NoOrigin => ret tt | _ => throw BadOrigin end.

(** [Self::deposit_event(e)] *)
Definition deposit_event {E} (e : Event) : RT E unit := modify (add_event e).

Definition get_assets {E A} (f : AssetsStorage -> A) : RT E A := gets (fun s => f (assets s)).
Definition get_swap {E A} (f : SwapStorage -> A) : RT E A := gets (fun s => f (swap s)).
Definition get_lending {E A} (f : LendingStorage -> A) : RT E A := gets (fun s => f (lending s)).
Definition put_assets {E} (f : AssetsStorage -> AssetsStorage) : RT E unit :=
  modify (set_assets f).
Definition put_swap {E} (f : SwapStorage -> SwapStorage) : RT E unit := modify (set_swap f).
Definition put_lending {E} (f : LendingStorage -> LendingStorage) : RT E unit :=
  modify (set_lending f).
End Framework.

(** The getters are read-only. *)
Section Getters.
Context `{Accounts} {E A : Type} (R : relation Chain) `{!PreOrder R}.

Lemma respects_get_assets (f : AssetsStorage -> A) : respects R (@get_assets _ E A f).
Proof. by apply respects_gets. Qed.
Lemma respects_get_swap (f : SwapStorage -> A) : respects R (@get_swap _ E A f).
Proof. by apply respects_gets. Qed.
Lemma respects_get_lending (f : LendingStorage -> A) : respects R (@get_lending _ E A f).
Proof. by apply respects_gets. Qed.
Lemma respects_ensure_signed origin : respects R (ensure_signed origin).
Proof. destruct origin; first [by apply respects_ret | by apply respects_throw]. Qed.
Lemma respects_ensure_root origin : respects R (ensure_root origin).
Proof. destruct origin; first [by apply respects_ret | by apply respects_throw]. Qed.
Lemma respects_ensure_none origin : respects R (ensure_none origin).
Proof. destruct origin; first [by apply respects_ret | by apply respects_throw]. Qed.

Lemma respects_signed who (k : AccountId -> RT DispatchError A) :
  respects R (k who) -> respects R (bind (ensure_signed (Signed who)) k).
Proof. done. Qed.
End Getters.

#[export] Hint Resolve respects_get_assets respects_get_swap respects_get_lending
  respects_ensure_signed respects_ensure_root respects_ensure_none : respects.

(** Symbolic execution through the framework calls. *)
Section WpFramework.
Context `{Accounts} {E A : Type}.

Lemma wp_deposit_event ev (Q : unit -> Chain -> Prop) (R : E -> Chain -> Prop) s :
  Q tt (add_event ev s) -> wp (deposit_event ev) Q R s.
Proof. done. Qed.
Lemma wp_get_assets f (Q : A -> Chain -> Prop) (R : E -> Chain -> Prop) s :
  Q (f (assets s)) s -> wp (get_assets f) Q R s.
Proof. done. Qed.
Lemma wp_get_swap f (Q : A -> Chain -> Prop) (R : E -> Chain -> Prop) s :
  Q (f (swap s)) s -> wp (get_swap f) Q R s.
Proof. done. Qed.
Lemma wp_get_lending f (Q : A -> Chain -> Prop) (R : E -> Chain -> Prop) s :
  Q (f (lending s)) s -> wp (get_lending f) Q R s.
Proof. done. Qed.
Lemma wp_put_assets f (Q : unit -> Chain -> Prop) (R : E -> Chain -> Prop) s :
  Q tt (set_assets f s) -> wp (put_assets f) Q R s.
Proof. done. Qed.
Lemma wp_put_swap f (Q : unit -> Chain -> Prop) (R : E -> Chain -> Prop) s :
  Q tt (set_swap f s) -> wp (put_swap f) Q R s.
Proof. done. Qed.
Lemma wp_put_lending f (Q : unit -> Chain -> Prop) (R : E -> Chain -> Prop) s :
  Q tt (set_lending f s) -> wp (put_lending f) Q R s.
Proof. done. Qed.
End WpFramework.

Ltac wp_go_step :=
  lazymatch goal with
  | |- wp (deposit_event _) _ _ _ => apply wp_deposit_event
  | |- wp (get_assets _) _ _ _ => apply wp_get_assets
  | |- wp (get_swap _) _ _ _ => apply wp_get_swap
  | |- wp (get_lending _) _ _ _ => apply wp_get_lending
  | |- wp (put_assets _) _ _ _ => apply wp_put_assets
  | |- wp (put_swap _) _ _ _ => apply wp_put_swap
  | |- wp (put_lending _) _ _ _ => apply wp_put_lending
  | |- _ => wp_step
  end.
Ltac wp_go := cbv beta iota zeta; repeat (wp_go_step; cbv beta iota zeta).

(** Uses a [wp] fact about the call at hand. *)
Tactic Notation "wp_apply" uconstr(lem) := eapply wp_mono; [| |apply lem].

Lemma respects_wp {S E A} (R : relation S) (m : M S E A) :
  (forall s, wp m (fun _ => R s) (fun _ => R s) s) -> respects R m.
Proof. done. Qed.
