(* ===== verification/Traits.v ===== *)
(** * The traits between the pallets ([pallets/traits/src/lib.rs])

    [Oracle] and [MultiAsset] are what the lending pallet knows of the assets
    pallet.  The laws are the contract its theorems are proved against; the
    assets pallet discharges them in [Assets.v]. *)

From S2P Require Export Chain.

Local Open Scope N_scope.

(** [trait Oracle<AssetId, Rate>] *)
Class Oracle `{Accounts} : Type := get_rate : AssetId -> Chain -> FixedU128.

(** [trait MultiAsset<AccountId, AssetId, Balance>] *)
Class MultiAsset `{Accounts} : Type :=
  ma_transfer : AccountId -> AssetId -> AccountId -> Balance -> RT string unit.

(** What a transfer may touch: everything the clients own is out of reach. *)
Record ledger_frame `{Accounts} (s s' : Chain) : Prop := {
  lf_block_number : block_number s' = block_number s;
  lf_swap : swap s' = swap s;
  lf_lending : lending s' = lending s;
  lf_next : NextUnsignedAt s' = NextUnsignedAt s;
  lf_price : Price (assets s') = Price (assets s)
}.

#[export] Instance ledger_frame_preorder `{Accounts} : PreOrder ledger_frame.
Proof.
  split; [by intros s | intros s1 s2 s3 [] []; split; congruence].
Qed.

Section Side.
Context `{Accounts}.

(** One side of a payment: [amount] of [id] at [who], as a function of the
    balance looked at. *)
Definition side (id : AssetId) (who : AccountId) (amount : Balance)
    (id' : AssetId) (who' : AccountId) : N :=
  if decide (id' = id /\ who' = who) then amount else 0.

Lemma side_other_asset id who amount id' who' : id' <> id -> side id who amount id' who' = 0.
Proof. unfold side. intros. case_decide; [naive_solver | done]. Qed.
Lemma side_other_account id who amount id' who' : who' <> who -> side id who amount id' who' = 0.
Proof. unfold side. intros. case_decide; [naive_solver | done]. Qed.
Lemma side_same id who amount : side id who amount id who = amount.
Proof. unfold side. case_decide; [done | naive_solver]. Qed.
End Side.

(** The contract of [MultiAsset::transfer]: it fails without effect, never moves
    a zero amount nor more than the sender has, and on success moves exactly the
    amount. [ma_inv] is the implementation's own invariant. *)
Class MultiAssetLaws `{Accounts} (ma : MultiAsset) : Type := {
  ma_balance : Chain -> AssetId -> AccountId -> N;
  ma_inv : Chain -> Prop;
  ma_inv_local : forall s s', assets s' = assets s -> ma_inv s -> ma_inv s';
  ma_balance_local : forall s s' id who,
    assets s' = assets s -> ma_balance s' id who = ma_balance s id who;
  ma_inv_stable : forall from id to amount, respects (stable ma_inv) (ma_transfer from id to amount);
  ma_framed : forall from id to amount, respects ledger_frame (ma_transfer from id to amount);
  ma_no_panic : forall from id to amount s, ma_inv s -> ma_transfer from id to amount s <> Panic;
  ma_failed : forall from id to amount s e s',
    ma_transfer from id to amount s = Err e s' -> s' = s;
  ma_accepts : forall from id to amount s, ma_inv s ->
    (exists s', ma_transfer from id to amount s = Ok tt s') <->
    0 < amount /\ amount <= ma_balance s id from;
  ma_positive : forall from id to amount s s',
    ma_transfer from id to amount s = Ok tt s' -> 0 < amount;
  ma_moves : forall from id to amount s s' id' who, ma_inv s ->
    ma_transfer from id to amount s = Ok tt s' ->
    ma_balance s' id' who +
      (if decide (id' = id /\ who = from) then amount else 0) =
    ma_balance s id' who +
      (if decide (id' = id /\ who = to) then amount else 0)
}.

(** The price feed reads the prices of the assets storage, which no transfer
    changes. *)
Class OracleLaws `{Accounts} (o : Oracle) : Prop := {
  get_rate_local : forall s s' id,
    Price (assets s') = Price (assets s) -> get_rate id s' = get_rate id s
}.
