(* ===== verification/Assets.v ===== *)
(** * The assets pallet ([pallets/assets/src/lib.rs])

    Issued assets, their balances and prices.  The [sp_runtime::print] debug
    lines are read-only (their [TryInto] conversions are identities at [u64] and
    [u128]) and are left out. *)

From S2P Require Export Traits.

Local Open Scope N_scope.
Local Open Scope rust_scope.

(* ================================================================== *)
(** ** Operations                                                      *)
(* ================================================================== *)

Section Getters.
Context {acc : Accounts}.

(** [get_asset_balance], [get_asset_total_supply], [price]: storage getters *)
Definition get_asset_balance (id : AssetId) (who : AccountId) (a : AssetsStorage) : Balance :=
  getd 0 (Balances a) (id, who).
Definition get_asset_total_supply (id : AssetId) (a : AssetsStorage) : Balance :=
  getd 0 (TotalSupply a) id.
Definition price (id : AssetId) (a : AssetsStorage) : FixedU128 := getd 0 (Price a) id.
End Getters.

Section Operations.
Context {cfg : Config} {fo : FixedOps}.

(** [Module::_issue] *)
Definition _issue (account : AccountId) (total : Balance) : RT string unit :=
  id <- get_assets NextAssetId ;;
  next <- or_panic (u64_add id 1) ;;
  put_assets (set_NextAssetId (fun _ => next)) ;;;
  put_assets (set_Balances <[(id, account) := total]>) ;;;
  put_assets (set_TotalSupply <[id := total]>) ;;;
  deposit_event (EvAssets (Issued id account total)).

(** The dispatchable [issue], which repeats the body of [_issue]. *)
Definition issue (origin : Origin) (total : Balance) : RT DispatchError unit :=
  origin <- ensure_signed origin ;;
  id <- get_assets NextAssetId ;;
  next <- or_panic (u64_add id 1) ;;
  put_assets (set_NextAssetId (fun _ => next)) ;;;
  put_assets (set_Balances <[(id, origin) := total]>) ;;;
  put_assets (set_TotalSupply <[id := total]>) ;;;
  deposit_event (EvAssets (Issued id origin total)).

Definition destroy (origin : Origin) (id : AssetId) : RT DispatchError unit :=
  origin <- ensure_signed origin ;;
  balance <- get_assets (get_asset_balance id origin) ;;
  put_assets (set_Balances (delete (id, origin))) ;;;
  ensure (negb (balance =? 0)) (Other "origin balance should be non-zero"%string) ;;;
  total_supply <- get_assets (get_asset_total_supply id) ;;
  total_supply <- or_panic (u128_sub total_supply balance) ;;
  put_assets (set_TotalSupply <[id := total_supply]>) ;;;
  deposit_event (EvAssets (Destroyed id origin balance)).

Definition set_inherent_asset (origin : Origin) (asset : AssetId) : RT DispatchError unit :=
  put_assets (set_InherentAsset asset).

Definition _set_price {E} (id : AssetId) (price : FixedU128) : RT E unit :=
  put_assets (set_Price <[id := price]>).

Definition transfer (from_account : AccountId) (id : AssetId) (to_account : AccountId)
    (amount : Balance) : RT string unit :=
  origin_balance <- get_assets (get_asset_balance id from_account) ;;
  ensure (negb (amount =? 0)) "transfer amount should be non-zero"%string ;;;
  ensure (amount <=? origin_balance)
    "origin account balance must be greater than or equal to the transfer amount"%string ;;;
  deposit_event (EvAssets (Transferred id from_account to_account amount)) ;;;
  rest <- or_panic (u128_sub origin_balance amount) ;;
  put_assets (set_Balances <[(id, from_account) := rest]>) ;;;
  balance <- get_assets (get_asset_balance id to_account) ;;
  balance <- or_panic (u128_add balance amount) ;;
  put_assets (set_Balances <[(id, to_account) := balance]>).

(** The dispatchable drops the [Result] of [transfer]. *)
Definition transfer_asset (origin : Origin) (id : AssetId) (to_account : AccountId)
    (amount : Balance) : RT DispatchError unit :=
  from_account <- ensure_signed origin ;;
  ignore (transfer from_account id to_account amount).

Definition set_price (origin : Origin) (id : AssetId) (price : FixedU128)
    : RT DispatchError unit :=
  ensure_root origin ;;;
  _set_price id price.

(** [Module::balance], [Module::total_supply] *)
Definition balance {E} (id : AssetId) (who : AccountId) : RT E Balance :=
  get_assets (get_asset_balance id who).
Definition total_supply {E} (id : AssetId) : RT E Balance :=
  get_assets (get_asset_total_supply id).

(** One round of the [build] closure of [add_extra_genesis]: the results of
    [_issue] and [transfer] are dropped. *)
Definition genesis_asset (entry : AccountId * Balance * N) : RT string unit :=
  let '(account, amount, p) := entry in
  ignore (_issue account amount) ;;;
  to_account <- get_assets Owner ;;
  next <- get_assets NextAssetId ;;
  asset_id <- or_panic (usub overflow_checks u64_modulus next 1) ;;
  ignore (transfer account asset_id to_account 500000) ;;;
  _set_price asset_id (fx_from_integer p).

Definition genesis_build (config : list (AccountId * Balance * N)) : RT string unit :=
  foldM (fun _ entry => genesis_asset entry) config tt.
End Operations.

(** The reads of the module are read-only. *)
Lemma respects_balance `{Config} {E} (R : relation Chain) `{!PreOrder R} id who :
  respects R (balance id who : RT E Balance).
Proof. by apply respects_get_assets. Qed.
#[export] Hint Resolve respects_balance : respects.

(** [impl Oracle for Module], [impl MultiAsset for Module] *)
#[export] Instance assets_oracle `{Accounts} : Oracle := fun id s => price id (assets s).
#[export] Instance assets_multi_asset `{Config} : MultiAsset := transfer.

(* ================================================================== *)
(** ** The ledger invariant                                            *)
(* ================================================================== *)

Section Books.
Context {acc : Accounts}.

Definition of_asset (id : AssetId) (k : AssetId * AccountId) : bool := fst k =? id.

(** What all accounts together hold of an asset. *)
Definition held (id : AssetId) (a : AssetsStorage) : N := msum (of_asset id) (Balances a).

(** The books balance: the accounts hold exactly the recorded total supply of
    every asset, no total exceeds [u128], and no unit of an asset not issued
    yet exists. *)
Record ledger_ok (a : AssetsStorage) : Prop := {
  lo_sum : forall id, held id a = get_asset_total_supply id a;
  lo_max : forall id, get_asset_total_supply id a <= u128_max;
  lo_fresh : forall id, NextAssetId a <= id -> get_asset_total_supply id a = 0
}.
End Books.

Section Ledger.
Context {cfg : Config} {fo : FixedOps}.

Lemma of_asset_pair id who : of_asset id (id, who) = true.
Proof. apply N.eqb_refl. Qed.

Lemma of_asset_other id id' who : id <> id' -> of_asset id' (id, who) = false.
Proof. intros. by apply N.eqb_neq. Qed.

Lemma balance_le_held id who a : get_asset_balance id who a <= held id a.
Proof. apply msum_le, of_asset_pair. Qed.

Lemma two_balances_le_held id who1 who2 a :
  who1 <> who2 -> get_asset_balance id who1 a + get_asset_balance id who2 a <= held id a.
Proof. intros. apply msum_le_two; [congruence | apply of_asset_pair | apply of_asset_pair]. Qed.

Lemma balance_le_max id who a : ledger_ok a -> get_asset_balance id who a <= u128_max.
Proof.
  intros [Hsum Hmax _]. pose proof (balance_le_held id who a) as Hle.
  rewrite Hsum in Hle. specialize (Hmax id). lia.
Qed.

Lemma fresh_balance id who a :
  ledger_ok a -> NextAssetId a <= id -> get_asset_balance id who a = 0.
Proof.
  intros [Hsum _ Hfresh] Hid. pose proof (balance_le_held id who a) as Hle.
  rewrite Hsum, (Hfresh id Hid) in Hle. lia.
Qed.

(** How one write to [Balances] changes the holdings. *)
Lemma held_insert id id' who v a :
  held id' (set_Balances <[(id, who) := v]> a) +
    (if id =? id' then get_asset_balance id who a else 0) =
  held id' a + (if id =? id' then v else 0).
Proof. exact (msum_insert (of_asset id') (Balances a) (id, who) v). Qed.

Lemma held_delete id id' who a :
  held id' a =
  (if id =? id' then get_asset_balance id who a else 0) +
  held id' (set_Balances (delete (id, who)) a).
Proof. exact (msum_delete (of_asset id') (Balances a) (id, who)). Qed.

(** Money moved within one asset: what [transfer] does to [Balances]. *)
Definition moved (from : AccountId) (id : AssetId) (to : AccountId) (amount : Balance)
    (m : gmap (AssetId * AccountId) Balance) : gmap (AssetId * AccountId) Balance :=
  let m1 := <[(id, from) := getd 0 m (id, from) - amount]> m in
  <[(id, to) := getd 0 m1 (id, to) + amount]> m1.

(** The state after a transfer that went through. *)
Definition transferred (from : AccountId) (id : AssetId) (to : AccountId) (amount : Balance)
    (s : Chain) : Chain :=
  set_assets (set_Balances (moved from id to amount))
    (add_event (EvAssets (Transferred id from to amount)) s).

Lemma credit_le_max from id to amount a :
  ledger_ok a -> amount <= get_asset_balance id from a ->
  getd 0 (<[(id, from) := get_asset_balance id from a - amount]> (Balances a)) (id, to) + amount
    <= u128_max.
Proof.
  intros Hok Hamt. rewrite getd_insert. case_decide as Heq.
  - injection Heq as <-. pose proof (balance_le_max id from a Hok). lia.
  - assert (from <> to) as Hne by congruence.
    pose proof (two_balances_le_held id from to a Hne) as Hle.
    destruct Hok as [Hsum Hmax _]. rewrite Hsum in Hle. specialize (Hmax id).
    unfold get_asset_balance in *. lia.
Qed.

Lemma transfer_run from id to amount s :
  ledger_ok (assets s) ->
  transfer from id to amount s =
    if amount =? 0 then Err "transfer amount should be non-zero"%string s
    else if get_asset_balance id from (assets s) <? amount
    then Err "origin account balance must be greater than or equal to the transfer amount"%string s
    else Ok tt (transferred from id to amount s).
Proof.
  intros Hok. unfold transfer, get_assets, deposit_event, put_assets, bind, gets, ensure, modify.
  destruct (amount =? 0); [done|]. cbn [negb].
  destruct (N.ltb_spec (get_asset_balance id from (assets s)) amount) as [Hlt|Hge].
  { by rewrite (proj2 (N.leb_gt _ _) Hlt). }
  rewrite (proj2 (N.leb_le _ _) Hge).
  unfold u128_sub. rewrite usub_in_range by done. cbn [or_panic ret].
  unfold u128_add. rewrite uadd_in_range; [done|].
  apply u128_max_modulus, credit_le_max; done.
Qed.

(** The four balances a transfer can touch. *)
Lemma moved_balance from id to amount m id' who :
  amount <= getd 0 m (id, from) ->
  getd 0 (moved from id to amount m) (id', who) +
    (if decide (id' = id /\ who = from) then amount else 0) =
  getd 0 m (id', who) + (if decide (id' = id /\ who = to) then amount else 0).
Proof.
  intros Hamt. unfold moved. rewrite !getd_insert.
  repeat case_decide; destruct_and?; simplify_eq; try tauto; lia.
Qed.

Lemma held_moved from id to amount a id' :
  amount <= get_asset_balance id from a ->
  held id' (set_Balances (moved from id to amount) a) = held id' a.
Proof.
  intros Hamt. set (v := get_asset_balance id from a - amount).
  set (a1 := set_Balances <[(id, from) := v]> a).
  set (w := get_asset_balance id to a1 + amount).
  pose proof (held_insert id id' from v a) as H1.
  pose proof (held_insert id id' to w a1) as H2. fold a1 in H1.
  change (held id' (set_Balances (moved from id to amount) a))
    with (held id' (set_Balances <[(id, to) := w]> a1)).
  destruct (id =? id'); lia.
Qed.

Lemma transferred_ok from id to amount s :
  amount <= get_asset_balance id from (assets s) ->
  ledger_ok (assets s) -> ledger_ok (assets (transferred from id to amount s)).
Proof.
  intros Hamt [Hsum Hmax Hfresh]. split; intros id'.
  - transitivity (held id' (assets s)); [|apply Hsum]. by apply held_moved.
  - exact (Hmax id').
  - exact (Hfresh id').
Qed.

Lemma transfer_stable from id to amount :
  respects (stable (fun s => ledger_ok (assets s))) (transfer from id to amount).
Proof.
  intros s. unfold stable. destruct (transfer from id to amount s) eqn:Hrun; [| |done];
    intros Hok; rewrite transfer_run in Hrun by done;
    destruct (amount =? 0); simplify_eq; [|done|];
    destruct (N.ltb_spec (get_asset_balance id from (assets s)) amount); simplify_eq.
  - by apply transferred_ok.
  - done.
Qed.

(** A transfer whose [Result] is dropped: it happens or it does not. *)
Definition attempted (from : AccountId) (id : AssetId) (to : AccountId) (amount : Balance)
    (s : Chain) : Chain :=
  if (amount =? 0) || (get_asset_balance id from (assets s) <? amount) then s
  else transferred from id to amount s.

Lemma attempt_run {F} from id to amount s :
  ledger_ok (assets s) ->
  @ignore _ _ F _ (transfer from id to amount) s = Ok tt (attempted from id to amount s).
Proof.
  intros Hok. unfold ignore, attempted. rewrite transfer_run by done.
  by destruct (amount =? 0), (get_asset_balance id from (assets s) <? amount).
Qed.

Lemma attempted_ok from id to amount s :
  ledger_ok (assets s) -> ledger_ok (assets (attempted from id to amount s)).
Proof.
  intros Hok. unfold attempted. destruct (amount =? 0); [done|].
  destruct (N.ltb_spec (get_asset_balance id from (assets s)) amount); [done|].
  by apply transferred_ok.
Qed.

Lemma attempted_balance from id to amount s id' who :
  amount <= get_asset_balance id from (assets s) ->
  get_asset_balance id' who (assets (attempted from id to amount s)) +
    (if decide (id' = id /\ who = from) then amount else 0) =
  get_asset_balance id' who (assets s) +
    (if decide (id' = id /\ who = to) then amount else 0).
Proof.
  intros Hamt. unfold attempted. destruct (N.eqb_spec amount 0) as [->|Hne]; cbn [orb].
  { by repeat case_decide. }
  rewrite (proj2 (N.ltb_ge _ _) Hamt). by apply moved_balance.
Qed.

Lemma attempted_refused from id to amount s :
  get_asset_balance id from (assets s) < amount -> attempted from id to amount s = s.
Proof.
  intros Hlt. unfold attempted. rewrite (proj2 (N.ltb_lt _ _) Hlt). by rewrite orb_true_r.
Qed.

Lemma attempted_frame from id to amount s :
  ledger_frame s (attempted from id to amount s) /\
  InherentAsset (assets (attempted from id to amount s)) = InherentAsset (assets s).
Proof. unfold attempted. by destruct (_ || _). Qed.

Lemma transfer_framed from id to amount :
  respects ledger_frame (transfer from id to amount).
Proof.
  unfold transfer, get_assets, deposit_event, put_assets. respects;
    apply respects_modify; intros s; by split.
Qed.
End Ledger.

(* ================================================================== *)
(** ** The other operations against the invariant                      *)
(* ================================================================== *)

Section Operations_facts.
Context {cfg : Config} {fo : FixedOps}.

(** The state after an issue. *)
Definition issued (account : AccountId) (total : Balance) (s : Chain) : Chain :=
  let id := NextAssetId (assets s) in
  add_event (EvAssets (Issued id account total))
    (set_assets (fun a =>
       set_TotalSupply <[id := total]>
         (set_Balances <[(id, account) := total]>
           (set_NextAssetId (fun _ => id + 1) a))) s).

Lemma issue_body account total s :
  NextAssetId (assets s) < u64_max -> _issue account total s = Ok tt (issued account total s).
Proof.
  intros Hid. unfold _issue, get_assets, put_assets, deposit_event, bind, gets, modify.
  unfold u64_add. rewrite uadd_in_range; [done|]. unfold u64_max, u64_modulus in *. lia.
Qed.

(** [issue] and [_issue] are the same code behind the origin check. *)
Lemma issue_is_issue who total s :
  issue (Signed who) total s = map_err Other (_issue who total) s.
Proof.
  unfold issue, _issue, map_err, ensure_signed, get_assets, put_assets, deposit_event,
    bind, gets, modify, ret. by destruct (u64_add (NextAssetId (assets s)) 1).
Qed.

Lemma issued_ok account total s :
  total <= u128_max -> ledger_ok (assets s) -> ledger_ok (assets (issued account total s)).
Proof.
  intros Htot Hok. pose proof (fresh_balance (NextAssetId (assets s)) account _ Hok) as Hzero.
  pose proof Hok as [Hsum Hmax Hfresh]. set (id := NextAssetId (assets s)) in *.
  assert (held id (assets s) = 0) as Hheld by (rewrite Hsum; apply Hfresh; lia).
  split; intros id'; unfold get_asset_total_supply; cbn; fold id.
  - pose proof (held_insert id id' account total (assets s)) as H.
    unfold held in H |- *. cbn in H |- *. rewrite getd_insert. rewrite Hzero in H by lia.
    specialize (Hsum id'). unfold held, get_asset_total_supply in Hsum, Hheld.
    destruct (N.eqb_spec id id'), (decide (id = id')); subst; try congruence; lia.
  - rewrite getd_insert. case_decide; [done | apply Hmax].
  - intros Hid. rewrite getd_insert_ne by lia. apply Hfresh. fold id. lia.
Qed.

Lemma destroy_ok a id who :
  ledger_ok a ->
  ledger_ok (set_TotalSupply
               <[id := get_asset_total_supply id a - get_asset_balance id who a]>
               (set_Balances (delete (id, who)) a)).
Proof.
  intros [Hsum Hmax Hfresh].
  pose proof (balance_le_held id who a) as Hle. rewrite Hsum in Hle.
  split; intros id'; unfold get_asset_total_supply; cbn.
  - pose proof (held_delete id id' who a) as H. rewrite Hsum in H.
    unfold held, get_asset_total_supply in *. cbn in H |- *. rewrite getd_insert.
    destruct (N.eqb_spec id id'), (decide (id = id')); subst; try congruence; lia.
  - rewrite getd_insert. case_decide; [|apply Hmax]. subst.
    specialize (Hmax id'). unfold get_asset_total_supply in *. lia.
  - intros Hid. specialize (Hfresh id' Hid). rewrite getd_insert. case_decide; [subst|done].
    unfold get_asset_total_supply in *. lia.
Qed.

(** Deleting an entry that reads as zero is invisible to the books. *)
Lemma delete_zero_ok a id who :
  get_asset_balance id who a = 0 -> ledger_ok a ->
  ledger_ok (set_Balances (delete (id, who)) a).
Proof.
  intros Hz [Hsum Hmax Hfresh]. split; intros id'; [|exact (Hmax id') | exact (Hfresh id')].
  pose proof (held_delete id id' who a) as H. rewrite Hz in H.
  transitivity (held id' a); [destruct (id =? id'); lia | apply Hsum].
Qed.

(** The state after a destroy. *)
Definition destroyed (who : AccountId) (id : AssetId) (s : Chain) : Chain :=
  add_event (EvAssets (Destroyed id who (get_asset_balance id who (assets s))))
    (set_assets (fun a =>
       set_TotalSupply <[id := get_asset_total_supply id a - get_asset_balance id who a]>
         (set_Balances (delete (id, who)) a)) s).

Lemma destroy_run who id s :
  ledger_ok (assets s) ->
  destroy (Signed who) id s =
    if get_asset_balance id who (assets s) =? 0
    then Err (Other "origin balance should be non-zero"%string)
           (set_assets (set_Balances (delete (id, who))) s)
    else Ok tt (destroyed who id s).
Proof.
  intros [Hsum _ _]. pose proof (balance_le_held id who (assets s)) as Hle. rewrite Hsum in Hle.
  unfold destroy, ensure_signed, get_assets, put_assets, deposit_event, bind, ret, gets,
    ensure, modify.
  destruct (get_asset_balance id who (assets s) =? 0); [done|]. cbn [negb].
  unfold u128_sub. by rewrite usub_in_range.
Qed.

Lemma ensure_signed_cases {A} origin (k : AccountId -> RT DispatchError A) (s : Chain) :
  bind (ensure_signed origin) k s =
  match origin with Signed who => k who s | _ => Err BadOrigin s end.
Proof. by destruct origin. Qed.

Lemma issue_stable origin total s :
  total <= u128_max -> NextAssetId (assets s) < u64_max ->
  match issue origin total s with
  | Ok _ s' | Err _ s' => ledger_ok (assets s) -> ledger_ok (assets s')
  | Panic => False
  end.
Proof.
  intros Htot Hid. destruct origin as [|who|]; [by cbn | | by cbn].
  rewrite issue_is_issue. unfold map_err. rewrite issue_body by done. by apply issued_ok.
Qed.

Lemma destroy_stable origin id :
  respects (stable (fun s => ledger_ok (assets s))) (destroy origin id).
Proof.
  intros s. destruct origin as [|who|]; [by cbn | | by cbn]. unfold stable.
  destruct (destroy (Signed who) id s) eqn:Hrun; [| |done]; intros Hok;
    rewrite destroy_run in Hrun by done;
    destruct (N.eqb_spec (get_asset_balance id who (assets s)) 0); simplify_eq; cbn.
  - by apply destroy_ok.
  - by apply delete_zero_ok.
Qed.

(** Writes outside the books. *)
Lemma set_price_stable {E} id p :
  respects (stable (fun s => ledger_ok (assets s))) (@_set_price _ E id p).
Proof. apply respects_modify. intros s [Hsum Hmax Hfresh]. by split. Qed.

Lemma set_inherent_stable origin id :
  respects (stable (fun s => ledger_ok (assets s))) (set_inherent_asset origin id).
Proof. apply respects_modify. intros s [Hsum Hmax Hfresh]. by split. Qed.
End Operations_facts.

(** The assets pallet honours the two traits. *)
#[export] Instance assets_multi_asset_laws `{Config} : MultiAssetLaws assets_multi_asset.
Proof.
  refine {| ma_balance := fun s id who => get_asset_balance id who (assets s);
            ma_inv := fun s => ledger_ok (assets s) |}; unfold ma_transfer, assets_multi_asset.
  - by intros s s' ->.
  - by intros s s' id who ->.
  - apply transfer_stable.
  - apply transfer_framed.
  - intros from id to amount s Hok. rewrite transfer_run by done.
    by destruct (amount =? 0), (get_asset_balance id from (assets s) <? amount).
  - intros from id to amount s e s'. unfold transfer, get_assets, bind, gets, ensure.
    destruct (negb (amount =? 0)); [|by intros [= _ ->]].
    destruct (amount <=? get_asset_balance id from (assets s)); [|by intros [= _ ->]].
    unfold deposit_event, put_assets, modify.
    destruct (u128_sub _ _); [|done]. cbn [or_panic ret]. by destruct (u128_add _ _).
  - intros from id to amount s Hok. rewrite transfer_run by done.
    destruct (N.eqb_spec amount 0); [split; [by intros [? ?] | lia]|].
    destruct (N.ltb_spec (get_asset_balance id from (assets s)) amount);
      (split; [by intros [? ?]; try lia | eauto; try lia]).
  - intros from id to amount s s'. unfold transfer. unfold get_assets, deposit_event, put_assets. intros Hrun. inv_run.
    destruct (N.eqb_spec amount 0); [done | lia].
  - intros from id to amount s s' id' who Hok. rewrite transfer_run by done.
    destruct (amount =? 0); [done|].
    destruct (N.ltb_spec (get_asset_balance id from (assets s)) amount); [done|].
    intros [= <-]. by apply moved_balance.
Defined.

#[export] Instance assets_oracle_laws `{Config} : OracleLaws assets_oracle.
Proof. split. intros s s' id Hp. unfold get_rate, assets_oracle, price. by rewrite Hp. Qed.
