(* ===== verification/Lending.v ===== *)
(** * The lending pallet ([pallets/lending/src/lib.rs])

    Pools with linear interest, user supplies and debts carried by an index, and
    the five user operations.  The pallet is written against the traits [Oracle]
    and [MultiAsset] and against [FixedOps]; the [debug::info!] lines are left
    out.  A [&mut Pool] argument becomes an argument and a result. *)

From S2P Require Export Traits.

Local Open Scope N_scope.
Local Open Scope rust_scope.

(* ================================================================== *)
(** ** Record updates                                                  *)
(* ================================================================== *)

Definition set_pool_supply (n : Balance) (p : Pool) : Pool :=
  mkPool (enabled p) (can_be_collateral p) (pool_asset p) n (pool_debt p) (safe_factor p)
    (close_factor p) (discount_factor p) (total_supply_index p) (total_debt_index p)
    (last_updated p) (utilization_factor p) (initial_interest_rate p).
Definition set_pool_debt (n : Balance) (p : Pool) : Pool :=
  mkPool (enabled p) (can_be_collateral p) (pool_asset p) (pool_supply p) n (safe_factor p)
    (close_factor p) (discount_factor p) (total_supply_index p) (total_debt_index p)
    (last_updated p) (utilization_factor p) (initial_interest_rate p).

(** The five fields [accrue_interest] writes. *)
Definition set_accrued (s : Balance) (si : FixedU128) (d : Balance) (di : FixedU128)
    (now : BlockNumber) (p : Pool) : Pool :=
  mkPool (enabled p) (can_be_collateral p) (pool_asset p) s d (safe_factor p) (close_factor p)
    (discount_factor p) si di now (utilization_factor p) (initial_interest_rate p).

(* ================================================================== *)
(** ** Interest rates and accrual                                      *)
(* ================================================================== *)

Section Interest.
Context {cfg : Config} {fo : FixedOps}.

Definition debt_rate_internal (pool : Pool) : option FixedU128 :=
  if pool_supply pool =? 0 then Some (initial_interest_rate pool)
  else
    utilization_ratio <-? fx_from_rational (pool_debt pool) (pool_supply pool) ;;
    scaled <-? fx_mul (utilization_factor pool) utilization_ratio ;;
    fx_add (initial_interest_rate pool) scaled.

Definition supply_rate_internal (pool : Pool) : option FixedU128 :=
  if pool_supply pool =? 0 then Some fx_zero
  else
    utilization_ratio <-? fx_from_rational (pool_debt pool) (pool_supply pool) ;;
    rate <-? debt_rate_internal pool ;;
    fx_mul rate utilization_ratio.

(** [FixedU128::one() + rate * FixedU128::saturating_from_integer(elapsed)] *)
Definition multiplier (rate : FixedU128) (elapsed : N) : option FixedU128 :=
  interest <-? fx_mul rate (fx_from_integer elapsed) ;;
  fx_add fx_one interest.

(** [block_number() - pool.last_updated], converted to [u32] *)
Definition elapsed_blocks (now : BlockNumber) (pool : Pool) : option N :=
  interval_block_number <-? u32_sub now (last_updated pool) ;;
  try_into_u32 interval_block_number.

Definition accrue_interest_at (now : BlockNumber) (pool : Pool) : option Pool :=
  if last_updated pool =? now then Some pool
  else
    elapsed_time_u32 <-? elapsed_blocks now pool ;;
    supply_rate <-? supply_rate_internal pool ;;
    supply_multiplier <-? multiplier supply_rate elapsed_time_u32 ;;
    debt_rate <-? debt_rate_internal pool ;;
    debt_multiplier <-? multiplier debt_rate elapsed_time_u32 ;;
    supply_index <-? fx_mul (total_supply_index pool) supply_multiplier ;;
    debt_index <-? fx_mul (total_debt_index pool) debt_multiplier ;;
    Some (set_accrued (fx_mul_int supply_multiplier (pool_supply pool)) supply_index
            (fx_mul_int debt_multiplier (pool_debt pool)) debt_index now pool).

Definition accrue_interest {E} (pool : Pool) : RT E Pool :=
  now <- gets block_number ;;
  or_panic (accrue_interest_at now pool).

(** The amount of a position brought from index [i] to index [total]. *)
Definition at_index (total i : FixedU128) (amount : Balance) : option Balance :=
  ratio <-? fx_div total i ;;
  Some (fx_mul_int ratio amount).
End Interest.

(* ================================================================== *)
(** ** Storage access and user positions                               *)
(* ================================================================== *)

Section Getters.
Context {acc : Accounts}.

(** The getters [pool], [user_supply], [user_debt], [user_supply_set],
    [user_debt_set] and [get_liquidation_threshold] of [decl_storage!]. *)
Definition pool (id : AssetId) (l : LendingStorage) : option Pool := Pools l !! id.
Definition user_supply (id : AssetId) (who : AccountId) (l : LendingStorage) : option UserSupply :=
  UserSupplies l !! (id, who).
Definition user_debt (id : AssetId) (who : AccountId) (l : LendingStorage) : option UserDebt :=
  UserDebts l !! (id, who).
Definition user_supply_set (who : AccountId) (l : LendingStorage) : list AssetId :=
  getd [] (UserSupplySet l) who.
Definition user_debt_set (who : AccountId) (l : LendingStorage) : list AssetId :=
  getd [] (UserDebtSet l) who.
End Getters.

Section Positions.
Context {cfg : Config} {fo : FixedOps}.

(** [assets.iter().any(|x| *x == asset_id)] and [assets.retain(|x| *x != asset_id)] *)
Definition contains (id : AssetId) (l : list AssetId) : bool := existsb (fun x => x =? id) l.
Definition retain_not (id : AssetId) (l : list AssetId) : list AssetId :=
  List.filter (fun x => negb (x =? id)) l.

(** [+=] or [-=] by the flag [positive] *)
Definition u128_move (positive : bool) (a b : Balance) : option Balance :=
  if positive then u128_add a b else u128_sub a b.

Definition update_user_supply {E} (pool : Pool) (asset_id : AssetId) (account : AccountId)
    (amount : Balance) (positive : bool) : RT E unit :=
  found <- get_lending (user_supply asset_id account) ;;
  match found with
  | Some us =>
      accrued <- or_panic (at_index (total_supply_index pool) (us_index us) (us_amount us)) ;;
      new_amount <- or_panic (u128_move positive accrued amount) ;;
      if negb (new_amount =? 0) then
        put_lending (set_UserSupplies
          <[(asset_id, account) := mkUserSupply new_amount (total_supply_index pool)]>)
      else
        put_lending (set_UserSupplies (delete (asset_id, account))) ;;;
        assets <- get_lending (user_supply_set account) ;;
        put_lending (set_UserSupplySet <[account := retain_not asset_id assets]>)
  | None =>
      if negb (amount =? 0) then
        put_lending (set_UserSupplies
          <[(asset_id, account) := mkUserSupply amount (total_supply_index pool)]>)
      else ret tt
  end.

Definition update_user_debt {E} (pool : Pool) (asset_id : AssetId) (account : AccountId)
    (amount : Balance) (positive : bool) : RT E unit :=
  found <- get_lending (user_debt asset_id account) ;;
  match found with
  | Some ud =>
      accrued <- or_panic (at_index (total_debt_index pool) (ud_index ud) (ud_amount ud)) ;;
      new_amount <- or_panic (u128_move positive accrued amount) ;;
      if negb (new_amount =? 0) then
        put_lending (set_UserDebts
          <[(asset_id, account) := mkUserDebt new_amount (total_debt_index pool)]>)
      else
        put_lending (set_UserDebts (delete (asset_id, account))) ;;;
        assets <- get_lending (user_debt_set account) ;;
        put_lending (set_UserDebtSet <[account := retain_not asset_id assets]>)
  | None =>
      if negb (amount =? 0) then
        put_lending (set_UserDebts
          <[(asset_id, account) := mkUserDebt amount (total_debt_index pool)]>)
      else ret tt
  end.

Definition update_pool_supply (pool : Pool) (amount : Balance) (positive : bool) : option Pool :=
  n <-? u128_move positive (pool_supply pool) amount ;;
  Some (set_pool_supply n pool).

Definition update_pool_debt (pool : Pool) (amount : Balance) (positive : bool) : option Pool :=
  n <-? u128_move positive (pool_debt pool) amount ;;
  Some (set_pool_debt n pool).

Definition accrue_debt_with_interest {E} (pool : Pool) (asset_id : AssetId) (user : AccountId)
    : RT E unit :=
  found <- get_lending (user_debt asset_id user) ;;
  match found with
  | Some ud =>
      amount <- or_panic (at_index (total_debt_index pool) (ud_index ud) (ud_amount ud)) ;;
      put_lending (set_UserDebts
        <[(asset_id, user) := mkUserDebt amount (total_debt_index pool)]>)
  | None => ret tt
  end.

Definition accrue_supply_with_interest {E} (pool : Pool) (asset_id : AssetId) (user : AccountId)
    : RT E unit :=
  found <- get_lending (user_supply asset_id user) ;;
  match found with
  | Some us =>
      amount <- or_panic (at_index (total_supply_index pool) (us_index us) (us_amount us)) ;;
      put_lending (set_UserSupplies
        <[(asset_id, user) := mkUserSupply amount (total_supply_index pool)]>)
  | None => ret tt
  end.

(** [Module::_init_pool]; the rationals are [7/10], [95/100], [385/10^10] and
    [385/10^11]. *)
Definition _init_pool {E} (id : AssetId) (can_be_collateral : bool) : RT E unit :=
  safe_factor <- or_panic (fx_from_rational 7 10) ;;
  discount_factor <- or_panic (fx_from_rational 95 100) ;;
  now <- gets block_number ;;
  utilization_factor <- or_panic (fx_from_rational 385 10000000000) ;;
  initial_interest_rate <- or_panic (fx_from_rational 385 100000000000) ;;
  put_lending (set_Pools
    <[id := mkPool true can_be_collateral id 0 0 safe_factor fx_one discount_factor
              fx_one fx_one now utilization_factor initial_interest_rate]>).

(** The [build] closure of [add_extra_genesis]. *)
Definition lending_genesis_build (pools : list AssetId) : RT string unit :=
  foldM (fun _ id => _init_pool id true) pools tt.
End Positions.

(* ================================================================== *)
(** ** The runtime api                                                 *)
(* ================================================================== *)

Section Views.
Context {cfg : Config} {fo : FixedOps} {orc : Oracle}.

Definition supply_rate {E} (id : AssetId) : RT E FixedU128 :=
  p <- get_lending (pool id) ;;
  match p with
  | None => ret fx_zero
  | Some p => or_panic (supply_rate_internal p)
  end.

Definition debt_rate {E} (id : AssetId) : RT E FixedU128 :=
  p <- get_lending (pool id) ;;
  match p with
  | None => ret fx_zero
  | Some p => or_panic (debt_rate_internal p)
  end.

Definition get_user_debt_with_interest {E} (asset_id : AssetId) (user : AccountId)
    : RT E Balance :=
  p <- get_lending (pool asset_id) ;;
  match p with
  | None => ret 0
  | Some p =>
      now <- gets block_number ;;
      elapsed_time_u32 <- or_panic (elapsed_blocks now p) ;;
      rate <- or_panic (debt_rate_internal p) ;;
      debt_multiplier <- or_panic (multiplier rate elapsed_time_u32) ;;
      total_debt_index <- or_panic (fx_mul (total_debt_index p) debt_multiplier) ;;
      found <- get_lending (user_debt asset_id user) ;;
      match found with
      | Some ud => or_panic (at_index total_debt_index (ud_index ud) (ud_amount ud))
      | None => ret 0
      end
  end.

Definition get_user_supply_with_interest {E} (asset_id : AssetId) (user : AccountId)
    : RT E Balance :=
  p <- get_lending (pool asset_id) ;;
  match p with
  | None => ret 0
  | Some p =>
      now <- gets block_number ;;
      elapsed_time_u32 <- or_panic (elapsed_blocks now p) ;;
      rate <- or_panic (supply_rate_internal p) ;;
      supply_multiplier <- or_panic (multiplier rate elapsed_time_u32) ;;
      total_supply_index <- or_panic (fx_mul (total_supply_index p) supply_multiplier) ;;
      found <- get_lending (user_supply asset_id user) ;;
      match found with
      | Some us => or_panic (at_index total_supply_index (us_index us) (us_amount us))
      | None => ret 0
      end
  end.

(** One round of the first loop of [get_user_info]. *)
Definition user_info_supply {E} (user : AccountId) (acc : Balance * Balance) (asset : AssetId)
    : RT E (Balance * Balance) :=
  amount <- get_user_supply_with_interest asset user ;;
  price <- gets (get_rate asset) ;;
  supply_balance <- or_panic (u128_add (fst acc) (fx_mul_int price amount)) ;;
  p <- get_lending (pool asset) ;;
  p <- or_panic p ;;
  factor <- or_panic (fx_mul price (safe_factor p)) ;;
  supply_converted <- or_panic (u128_add (snd acc) (fx_mul_int factor amount)) ;;
  ret (supply_balance, supply_converted).

(** One round of the second loop. *)
Definition user_info_debt {E} (user : AccountId) (debt_balance : Balance) (asset : AssetId)
    : RT E Balance :=
  amount <- get_user_debt_with_interest asset user ;;
  price <- gets (get_rate asset) ;;
  or_panic (u128_add debt_balance (fx_mul_int price amount)).

Definition get_user_info {E} (user : AccountId) : RT E (Balance * Balance * Balance) :=
  supplied <- get_lending (user_supply_set user) ;;
  acc <- foldM (user_info_supply user) supplied (0, 0) ;;
  borrowed <- get_lending (user_debt_set user) ;;
  debt_balance <- foldM (user_info_debt user) borrowed 0 ;;
  ret (fst acc, snd acc, debt_balance).
End Views.

(* ================================================================== *)
(** ** The dispatchables                                               *)
(* ================================================================== *)

Section Dispatchables.
Context {cfg : Config} {fo : FixedOps} {orc : Oracle} {ma : MultiAsset}.

Definition account_id : AccountId := lending_account_id.

(** [T::MultiAsset::transfer(..).map_err(|_| Error::<T>::TransferFailed)?] *)
Definition transfer_or_fail (from : AccountId) (id : AssetId) (to : AccountId)
    (amount : Balance) : RT DispatchError unit :=
  map_err (fun _ => Module_ TransferFailed) (ma_transfer from id to amount).

Definition get_liquidation_threshold : LendingStorage -> FixedU128 := LiquidationThreshold.

(** [assets.push(id)] and the insert, when the set does not hold [id] yet *)
Definition add_to_supply_set (account : AccountId) (asset_id : AssetId) : RT DispatchError unit :=
  assets <- get_lending (user_supply_set account) ;;
  if negb (contains asset_id assets)
  then put_lending (set_UserSupplySet <[account := assets ++ [asset_id]]>)
  else ret tt.

Definition add_to_debt_set (account : AccountId) (asset_id : AssetId) : RT DispatchError unit :=
  assets <- get_lending (user_debt_set account) ;;
  if negb (contains asset_id assets)
  then put_lending (set_UserDebtSet <[account := assets ++ [asset_id]]>)
  else ret tt.

Definition supply (origin : Origin) (asset_id : AssetId) (amount : Balance)
    : RT DispatchError unit :=
  account <- ensure_signed origin ;;
  found <- get_lending (pool asset_id) ;;
  pool <- ok_or found (Module_ PoolNotExist) ;;
  pool <- accrue_interest pool ;;
  transfer_or_fail account asset_id account_id amount ;;;
  update_user_supply pool asset_id account amount true ;;;
  pool <- or_panic (update_pool_supply pool amount true) ;;
  deposit_event (EvLending (Supplied asset_id account amount)) ;;;
  add_to_supply_set account asset_id ;;;
  put_lending (set_Pools <[asset_id := pool]>).

(** [pool.supply - pool.debt < amount] *)
Definition check_cash (pool : Pool) (amount : Balance) : RT DispatchError unit :=
  cash <- or_panic (u128_sub (pool_supply pool) (pool_debt pool)) ;;
  if cash <? amount then throw (Module_ NotEnoughLiquidity) else ret tt.

Definition withdraw (origin : Origin) (asset_id : AssetId) (amount : Balance)
    : RT DispatchError unit :=
  account <- ensure_signed origin ;;
  found <- get_lending (pool asset_id) ;;
  pool <- ok_or found (Module_ PoolNotExist) ;;
  pool <- accrue_interest pool ;;
  accrue_supply_with_interest pool asset_id account ;;;
  found <- get_lending (user_supply asset_id account) ;;
  us <- ok_or found (Module_ UserNoSupply) ;;
  let amount := if us_amount us <? amount then us_amount us else amount in
  info <- get_user_info account ;;
  let '(_, converted_supply, converted_borrow) := info in
  price <- gets (get_rate asset_id) ;;
  factor <- or_panic (fx_mul price (safe_factor pool)) ;;
  converted_supply <- or_panic (u128_sub converted_supply (fx_mul_int factor amount)) ;;
  threshold <- get_lending get_liquidation_threshold ;;
  ensure (fx_mul_int threshold converted_borrow <=? converted_supply)
    (Module_ BelowLiquidationThreshold) ;;;
  check_cash pool amount ;;;
  transfer_or_fail account_id asset_id account amount ;;;
  update_user_supply pool asset_id account amount false ;;;
  pool <- or_panic (update_pool_supply pool amount false) ;;
  deposit_event (EvLending (Withdrawn asset_id account amount)) ;;;
  put_lending (set_Pools <[asset_id := pool]>).

Definition borrow (origin : Origin) (asset_id : AssetId) (amount : Balance)
    : RT DispatchError unit :=
  account <- ensure_signed origin ;;
  found <- get_lending (pool asset_id) ;;
  pool <- ok_or found (Module_ PoolNotExist) ;;
  pool <- accrue_interest pool ;;
  check_cash pool amount ;;;
  accrue_debt_with_interest pool asset_id account ;;;
  info <- get_user_info account ;;
  let '(_, converted_supply, converted_borrow) := info in
  price <- gets (get_rate asset_id) ;;
  converted_borrow <- or_panic (u128_add converted_borrow (fx_mul_int price amount)) ;;
  threshold <- get_lending get_liquidation_threshold ;;
  ensure (fx_mul_int threshold converted_borrow <=? converted_supply)
    (Module_ BelowLiquidationThreshold) ;;;
  transfer_or_fail account_id asset_id account amount ;;;
  update_user_debt pool asset_id account amount true ;;;
  pool <- or_panic (update_pool_debt pool amount true) ;;
  deposit_event (EvLending (Borrowed asset_id account amount)) ;;;
  add_to_debt_set account asset_id ;;;
  put_lending (set_Pools <[asset_id := pool]>).

Definition repay (origin : Origin) (asset_id : AssetId) (amount : Balance)
    : RT DispatchError unit :=
  account <- ensure_signed origin ;;
  found <- get_lending (pool asset_id) ;;
  pool <- ok_or found (Module_ PoolNotExist) ;;
  pool <- accrue_interest pool ;;
  accrue_debt_with_interest pool asset_id account ;;;
  found <- get_lending (user_debt asset_id account) ;;
  ud <- ok_or found (Module_ UserNoDebt) ;;
  let amount := if ud_amount ud <? amount then ud_amount ud else amount in
  transfer_or_fail account asset_id account_id amount ;;;
  update_user_debt pool asset_id account amount false ;;;
  pool <- or_panic (update_pool_debt pool amount false) ;;
  deposit_event (EvLending (Repaid asset_id account amount)) ;;;
  put_lending (set_Pools <[asset_id := pool]>).

Definition liquidate (origin : Origin) (target_user : AccountId) (pay_asset_id get_asset_id : AssetId)
    (pay_asset_amount : Balance) : RT DispatchError unit :=
  account <- ensure_signed origin ;;
  found <- get_lending (pool get_asset_id) ;;
  get_pool <- ok_or found (Module_ PoolNotExist) ;;
  ensure (can_be_collateral get_pool) (Module_ AssetNotCollateral) ;;;
  found <- get_lending (pool pay_asset_id) ;;
  pay_pool <- ok_or found (Module_ PoolNotExist) ;;
  pay_pool <- accrue_interest pay_pool ;;
  get_pool <- accrue_interest get_pool ;;
  accrue_supply_with_interest get_pool get_asset_id target_user ;;;
  accrue_debt_with_interest pay_pool pay_asset_id target_user ;;;
  info <- get_user_info target_user ;;
  let '(_, converted_supply, converted_borrow) := info in
  threshold <- get_lending get_liquidation_threshold ;;
  ensure (converted_supply <? fx_mul_int threshold converted_borrow)
    (Module_ AboveLiquidationThreshold) ;;;
  found <- get_lending (user_supply get_asset_id target_user) ;;
  target_user_supply <- ok_or found (Module_ UserNoSupply) ;;
  let get_limit := fx_mul_int (close_factor get_pool) (us_amount target_user_supply) in
  get_price <- gets (get_rate get_asset_id) ;;
  pay_price <- gets (get_rate pay_asset_id) ;;
  rel <- or_panic (fx_div get_price pay_price) ;;
  rel <- or_panic (fx_mul rel (discount_factor get_pool)) ;;
  let pay_limit := fx_mul_int rel get_limit in
  found <- get_lending (user_debt pay_asset_id target_user) ;;
  target_user_debt <- ok_or found (Module_ UserNoSupply) ;;
  let pay_asset_amount := if pay_limit <? pay_asset_amount then pay_limit else pay_asset_amount in
  let pay_asset_amount :=
    if ud_amount target_user_debt <? pay_asset_amount
    then ud_amount target_user_debt else pay_asset_amount in
  inv <- or_panic (fx_div pay_price get_price) ;;
  inv <- or_panic (fx_div inv (discount_factor get_pool)) ;;
  let get_asset_amount := fx_mul_int inv pay_asset_amount in
  transfer_or_fail account pay_asset_id account_id pay_asset_amount ;;;
  transfer_or_fail account_id get_asset_id account get_asset_amount ;;;
  update_user_supply get_pool get_asset_id target_user get_asset_amount false ;;;
  update_user_debt pay_pool pay_asset_id target_user pay_asset_amount false ;;;
  put_lending (set_Pools <[get_asset_id := get_pool]>) ;;;
  put_lending (set_Pools <[pay_asset_id := pay_pool]>).

(** No origin check. *)
Definition init_pool (origin : Origin) (id : AssetId) (can_be_collateral : bool)
    : RT DispatchError unit :=
  _init_pool id can_be_collateral.
End Dispatchables.
