(* ===== verification/LendingInterest.v ===== *)
(** * Lending: interest accrual and the views on positions

    What [accrue_interest] does to a pool, and that the read-only views of the
    runtime api report exactly what an accrual would write. *)

From S2P Require Export Lending.

Local Open Scope N_scope.
Local Open Scope rust_scope.

(* ================================================================== *)
(** ** Sane pools                                                      *)
(* ================================================================== *)

Section Interest_facts.
Context {cfg : Config} {fo : FixedOps} {fl : FixedLaws fo}.

(** Indices start at one and never shrink; amounts and the rate fit [u128]. *)
Record pool_ok (p : Pool) : Prop := {
  pk_supply : pool_supply p <= u128_max;
  pk_debt : pool_debt p <= u128_max;
  pk_supply_index : fx_one <= total_supply_index p <= u128_max;
  pk_debt_index : fx_one <= total_debt_index p <= u128_max;
  pk_rate : initial_interest_rate p <= u128_max
}.

(** The interest of [elapsed] blocks fits a [FixedU128] next to one. *)
Definition interest_fits (rate : option FixedU128) (elapsed : option N) : Prop :=
  forall r t i, rate = Some r -> elapsed = Some t ->
    fx_mul r (fx_from_integer t) = Some i -> fx_one + i <= u128_max.

Definition accrual_fits (now : BlockNumber) (p : Pool) : Prop :=
  interest_fits (supply_rate_internal p) (elapsed_blocks now p) /\
  interest_fits (debt_rate_internal p) (elapsed_blocks now p).

Lemma multiplier_ge_one r t m :
  interest_fits (Some r) (Some t) -> multiplier r t = Some m -> fx_one <= m.
Proof.
  unfold multiplier. intros Hfit (i & Hi & Hm)%obind_Some.
  exact (fx_add_one_ge _ _ (Hfit r t i eq_refl eq_refl Hi) Hm).
Qed.

Lemma multiplier_zero r : r <= u128_max -> multiplier r 0 = Some fx_one.
Proof.
  intros Hr. unfold multiplier. rewrite fx_from_integer_zero, (fx_mul_zero_r r Hr). cbn.
  rewrite fx_add_exact; rewrite fx_zero_inner, N.add_0_r; [done | apply fx_one_bound].
Qed.

Lemma debt_rate_bound p r :
  pool_ok p -> debt_rate_internal p = Some r -> r <= u128_max.
Proof.
  intros Hp. unfold debt_rate_internal. destruct (pool_supply p =? 0).
  - intros [= <-]. apply Hp.
  - intros (? & _ & (? & _ & Hr)%obind_Some)%obind_Some. exact (fx_add_bound _ _ _ Hr).
Qed.

Lemma supply_rate_bound p r : supply_rate_internal p = Some r -> r <= u128_max.
Proof.
  unfold supply_rate_internal. destruct (pool_supply p =? 0).
  - intros [= <-]. rewrite fx_zero_inner. done.
  - intros (? & _ & (? & _ & Hr)%obind_Some)%obind_Some. exact (fx_mul_bound _ _ _ Hr).
Qed.

(** The steps of an accrual in a later block. *)
Lemma accrue_later now p p' :
  last_updated p <> now -> accrue_interest_at now p = Some p' ->
  exists t sr sm dr dm,
    elapsed_blocks now p = Some t /\
    supply_rate_internal p = Some sr /\ multiplier sr t = Some sm /\
    debt_rate_internal p = Some dr /\ multiplier dr t = Some dm /\
    fx_mul (total_supply_index p) sm = Some (total_supply_index p') /\
    fx_mul (total_debt_index p) dm = Some (total_debt_index p') /\
    pool_supply p' = fx_mul_int sm (pool_supply p) /\
    pool_debt p' = fx_mul_int dm (pool_debt p) /\
    p' = set_accrued (pool_supply p') (total_supply_index p') (pool_debt p')
           (total_debt_index p') now p.
Proof.
  intros Hne. unfold accrue_interest_at. rewrite (proj2 (N.eqb_neq _ _) Hne).
  intros H. inv_run. do 5 eexists. split_and!; eauto.
Qed.

Lemma accrue_same now p : last_updated p = now -> accrue_interest_at now p = Some p.
Proof. intros <-. unfold accrue_interest_at. by rewrite N.eqb_refl. Qed.

Lemma accrue_last_updated now p p' :
  accrue_interest_at now p = Some p' -> last_updated p' = now.
Proof.
  destruct (decide (last_updated p = now)) as [Heq|Hne].
  - rewrite (accrue_same _ _ Heq). by intros [= <-].
  - intros H. apply (accrue_later now p p' Hne) in H as (?&?&?&?&?&?&?&?&?&?&?&?&?&?&->). done.
Qed.

(** An accrual changes the amounts, the indices and the time stamp only. *)
Lemma accrue_frame now p p' :
  accrue_interest_at now p = Some p' ->
  p' = set_accrued (pool_supply p') (total_supply_index p') (pool_debt p')
         (total_debt_index p') now p.
Proof.
  destruct (decide (last_updated p = now)) as [Heq|Hne].
  - rewrite (accrue_same _ _ Heq). intros [= <-]. subst now. by destruct p.
  - intros H. by apply (accrue_later now p p' Hne) in H as (?&?&?&?&?&?&?&?&?&?&?&?&?&?&?).
Qed.

Lemma accrue_ok now p p' :
  pool_ok p -> accrual_fits now p -> accrue_interest_at now p = Some p' ->
  pool_ok p' /\ pool_supply p <= pool_supply p' /\ pool_debt p <= pool_debt p' /\
  total_supply_index p <= total_supply_index p' /\ total_debt_index p <= total_debt_index p'.
Proof.
  intros Hp [Hfs Hfd]. destruct (decide (last_updated p = now)) as [Heq|Hne].
  { rewrite (accrue_same _ _ Heq). intros [= <-]. split; [done | lia]. }
  intros H.
  apply (accrue_later now p p' Hne) in H
    as (t & sr & sm & dr & dm & Ht & Hsr & Hsm & Hdr & Hdm & Hsi & Hdi & Hs & Hd & Hframe).
  rewrite Ht, Hsr in Hfs. rewrite Ht, Hdr in Hfd.
  pose proof (multiplier_ge_one _ _ _ Hfs Hsm) as Hsm1.
  pose proof (multiplier_ge_one _ _ _ Hfd Hdm) as Hdm1.
  destruct Hp as [Hp1 Hp2 [Hp3 Hp3'] [Hp4 Hp4'] Hp5].
  pose proof (fx_mul_ge _ _ _ Hp3' Hsm1 Hsi). pose proof (fx_mul_ge _ _ _ Hp4' Hdm1 Hdi).
  pose proof (fx_mul_bound _ _ _ Hsi). pose proof (fx_mul_bound _ _ _ Hdi).
  pose proof (fx_mul_int_ge _ _ Hsm1 Hp1). pose proof (fx_mul_int_ge _ _ Hdm1 Hp2).
  assert (initial_interest_rate p' = initial_interest_rate p) as Hrate by (by rewrite Hframe).
  repeat split; try lia; rewrite ?Hs, ?Hd; try apply fx_mul_int_bound; lia.
Qed.
End Interest_facts.

(* ================================================================== *)
(** ** The views                                                       *)
(* ================================================================== *)

Section Views_facts.
Context {cfg : Config} {fo : FixedOps} {fl : FixedLaws fo} {orc : Oracle}.

(** The index the views bring a position to. *)
Definition supply_index_at (now : BlockNumber) (p : Pool) : option FixedU128 :=
  t <-? elapsed_blocks now p ;;
  r <-? supply_rate_internal p ;;
  m <-? multiplier r t ;;
  fx_mul (total_supply_index p) m.

Definition debt_index_at (now : BlockNumber) (p : Pool) : option FixedU128 :=
  t <-? elapsed_blocks now p ;;
  r <-? debt_rate_internal p ;;
  m <-? multiplier r t ;;
  fx_mul (total_debt_index p) m.

Lemma supply_view_result {E} id who s :
  result (@get_user_supply_with_interest _ _ E id who) s =
  match pool id (lending s) with
  | None => Some 0
  | Some p =>
      idx <-? supply_index_at (block_number s) p ;;
      match user_supply id who (lending s) with
      | Some us => at_index idx (us_index us) (us_amount us)
      | None => Some 0
      end
  end.
Proof.
  unfold get_user_supply_with_interest, supply_index_at, get_lending, result, bind, gets.
  destruct (pool id (lending s)) as [p|]; [|done].
  destruct (elapsed_blocks (block_number s) p) as [t|]; [|done]. cbn.
  destruct (supply_rate_internal p) as [r|]; [|done]. cbn.
  destruct (multiplier r t) as [m|]; [|done]. cbn.
  destruct (fx_mul (total_supply_index p) m) as [idx|]; [|done]. cbn.
  destruct (user_supply id who (lending s)) as [us|]; [|done]. cbn.
  by destruct (at_index idx (us_index us) (us_amount us)).
Qed.

Lemma debt_view_result {E} id who s :
  result (@get_user_debt_with_interest _ _ E id who) s =
  match pool id (lending s) with
  | None => Some 0
  | Some p =>
      idx <-? debt_index_at (block_number s) p ;;
      match user_debt id who (lending s) with
      | Some ud => at_index idx (ud_index ud) (ud_amount ud)
      | None => Some 0
      end
  end.
Proof.
  unfold get_user_debt_with_interest, debt_index_at, get_lending, result, bind, gets.
  destruct (pool id (lending s)) as [p|]; [|done].
  destruct (elapsed_blocks (block_number s) p) as [t|]; [|done]. cbn.
  destruct (debt_rate_internal p) as [r|]; [|done]. cbn.
  destruct (multiplier r t) as [m|]; [|done]. cbn.
  destruct (fx_mul (total_debt_index p) m) as [idx|]; [|done]. cbn.
  destruct (user_debt id who (lending s)) as [ud|]; [|done]. cbn.
  by destruct (at_index idx (ud_index ud) (ud_amount ud)).
Qed.

Lemma elapsed_zero p : elapsed_blocks (last_updated p) p = Some 0.
Proof. unfold elapsed_blocks, u32_sub. rewrite usub_in_range by done. by rewrite N.sub_diag. Qed.

(** The views' index is the index an accrual at this block writes. *)
Lemma supply_index_agrees now p p' idx :
  pool_ok p -> accrue_interest_at now p = Some p' -> supply_index_at now p = Some idx ->
  idx = total_supply_index p'.
Proof.
  intros Hp Hacc Hidx. 
  apply obind_Some in Hidx as (t & Ht & (r & Hr & (m & Hm & Hidx)%obind_Some)%obind_Some).
  destruct (decide (last_updated p = now)) as [Heq|Hne].
  - rewrite (accrue_same _ _ Heq) in Hacc. injection Hacc as <-. subst now.
    rewrite elapsed_zero in Ht. injection Ht as <-.
    rewrite (multiplier_zero r (supply_rate_bound _ _ Hr)) in Hm. injection Hm as <-.
    rewrite fx_mul_one_r in Hidx by apply Hp. congruence.
  - apply (accrue_later now p p' Hne) in Hacc as (?&?&?&?&?&?&?&?&?&?&?&?&?&?&?). congruence.
Qed.

Lemma debt_index_agrees now p p' idx :
  pool_ok p -> accrue_interest_at now p = Some p' -> debt_index_at now p = Some idx ->
  idx = total_debt_index p'.
Proof.
  intros Hp Hacc Hidx. 
  apply obind_Some in Hidx as (t & Ht & (r & Hr & (m & Hm & Hidx)%obind_Some)%obind_Some).
  destruct (decide (last_updated p = now)) as [Heq|Hne].
  - rewrite (accrue_same _ _ Heq) in Hacc. injection Hacc as <-. subst now.
    rewrite elapsed_zero in Ht. injection Ht as <-.
    rewrite (multiplier_zero r (debt_rate_bound _ _ Hp Hr)) in Hm. injection Hm as <-.
    rewrite fx_mul_one_r in Hidx by apply Hp. congruence.
  - apply (accrue_later now p p' Hne) in Hacc as (?&?&?&?&?&?&?&?&?&?&?&?&?&?&?). congruence.
Qed.

Lemma at_index_self i n : 0 < i -> i <= u128_max -> n <= u128_max -> at_index i i n = Some n.
Proof.
  intros Hi Hmax Hn. unfold at_index. rewrite fx_div_self by done. cbn.
  by rewrite fx_mul_int_one.
Qed.

Lemma at_index_bound t i n v : at_index t i n = Some v -> v <= u128_max.
Proof. unfold at_index. intros (r & _ & [= <-])%obind_Some. apply fx_mul_int_bound. Qed.

(** The views are read-only. *)
Lemma supply_view_pure {E} id who : respects eq (@get_user_supply_with_interest _ _ E id who).
Proof. unfold get_user_supply_with_interest. respects. Qed.
Lemma debt_view_pure {E} id who : respects eq (@get_user_debt_with_interest _ _ E id who).
Proof. unfold get_user_debt_with_interest. respects. Qed.
Hint Resolve supply_view_pure debt_view_pure : respects.
Lemma info_supply_pure {E} who acc id : respects eq (@user_info_supply _ _ _ E who acc id).
Proof. unfold user_info_supply. respects. Qed.
Lemma info_debt_pure {E} who acc id : respects eq (@user_info_debt _ _ _ E who acc id).
Proof. unfold user_info_debt. respects. Qed.
Hint Resolve info_supply_pure info_debt_pure : respects.
Lemma user_info_pure {E} who : respects eq (@get_user_info _ _ _ E who).
Proof. unfold get_user_info. respects. Qed.
End Views_facts.

#[export] Hint Resolve supply_view_pure debt_view_pure user_info_pure : respects.

(* ================================================================== *)
(** ** Accruing a position does not change what the views report       *)
(* ================================================================== *)

Section Accrued_positions.
Context {cfg : Config} {fo : FixedOps} {fl : FixedLaws fo} {orc : Oracle} {ol : OracleLaws orc}.

(** [accrue_supply_with_interest] and [accrue_debt_with_interest] rewrite one
    existing entry, or nothing. *)
Lemma accrue_supply_run {E} p id who s s1 :
  @accrue_supply_with_interest _ _ E p id who s = Ok tt s1 ->
  (user_supply id who (lending s) = None /\ s1 = s) \/
  exists us x,
    user_supply id who (lending s) = Some us /\
    at_index (total_supply_index p) (us_index us) (us_amount us) = Some x /\
    s1 = set_lending (set_UserSupplies
           <[(id, who) := mkUserSupply x (total_supply_index p)]>) s.
Proof.
  unfold accrue_supply_with_interest, get_lending, put_lending. intros H. inv_run.
  destruct (user_supply id who (lending s)) as [us|] eqn:Hus; inv_run; [right|by left].
  eauto.
Qed.

Lemma accrue_debt_run {E} p id who s s1 :
  @accrue_debt_with_interest _ _ E p id who s = Ok tt s1 ->
  (user_debt id who (lending s) = None /\ s1 = s) \/
  exists ud x,
    user_debt id who (lending s) = Some ud /\
    at_index (total_debt_index p) (ud_index ud) (ud_amount ud) = Some x /\
    s1 = set_lending (set_UserDebts
           <[(id, who) := mkUserDebt x (total_debt_index p)]>) s.
Proof.
  unfold accrue_debt_with_interest, get_lending, put_lending. intros H. inv_run.
  destruct (user_debt id who (lending s)) as [ud|] eqn:Hud; inv_run; [right|by left].
  eauto.
Qed.

(** What the two accruals leave alone. *)
Record accrual_frame (s s' : Chain) : Prop := {
  af_block_number : block_number s' = block_number s;
  af_assets : assets s' = assets s;
  af_pools : Pools (lending s') = Pools (lending s);
  af_supply_set : UserSupplySet (lending s') = UserSupplySet (lending s);
  af_debt_set : UserDebtSet (lending s') = UserDebtSet (lending s);
  af_threshold : LiquidationThreshold (lending s') = LiquidationThreshold (lending s);
  af_swap : swap s' = swap s;
  af_events : events s' = events s
}.

#[export] Instance accrual_frame_preorder : PreOrder accrual_frame.
Proof. split; [by intros s | intros s1 s2 s3 [] []; split; congruence]. Qed.

Lemma accrue_supply_framed {E} p id who :
  respects accrual_frame (@accrue_supply_with_interest _ _ E p id who).
Proof.
  unfold accrue_supply_with_interest, put_lending. respects.
  apply respects_modify. intros s. by split.
Qed.

Lemma accrue_debt_framed {E} p id who :
  respects accrual_frame (@accrue_debt_with_interest _ _ E p id who).
Proof.
  unfold accrue_debt_with_interest, put_lending. respects.
  apply respects_modify. intros s. by split.
Qed.

Lemma user_info_result {E} who s :
  result (@get_user_info _ _ _ E who) s =
  obind (result (foldM (@user_info_supply _ _ _ E who) (user_supply_set who (lending s)) (0, 0)) s)
    (fun acc =>
  obind (result (foldM (@user_info_debt _ _ _ E who) (user_debt_set who (lending s)) 0) s)
    (fun d => Some (fst acc, snd acc, d))).
Proof.
  unfold get_user_info. rewrite result_bind_pure by respects. cbn.
  rewrite result_bind_pure by (apply respects_foldM; [apply _ | apply info_supply_pure]).
  destruct (result (foldM (user_info_supply who) _ _) s) as [acc|]; [|done].
  unfold obind at 1. cbv beta.
  rewrite result_bind_pure by respects. cbn.
  by rewrite result_bind_pure by (apply respects_foldM; [apply _ | apply info_debt_pure]).
Qed.

(** [get_user_info] is determined by the views, the sets, the prices and the
    pools' safe factors. *)
Lemma user_info_ext {E} who s s' :
  accrual_frame s s' ->
  (forall id, result (@get_user_supply_with_interest _ _ E id who) s' =
              result (@get_user_supply_with_interest _ _ E id who) s) ->
  (forall id, result (@get_user_debt_with_interest _ _ E id who) s' =
              result (@get_user_debt_with_interest _ _ E id who) s) ->
  result (@get_user_info _ _ _ E who) s' = result (@get_user_info _ _ _ E who) s.
Proof.
  intros Hf Hs Hd. pose proof (af_assets _ _ Hf) as Ha.
  assert (forall id, get_rate id s' = get_rate id s) as Hrate.
  { intros id. apply get_rate_local. by rewrite Ha. }
  rewrite !user_info_result. unfold user_supply_set, user_debt_set.
  rewrite (af_supply_set _ _ Hf), (af_debt_set _ _ Hf).
  rewrite (result_foldM_ext (user_info_supply who) _ s s'); [|apply info_supply_pure|].
  - rewrite (result_foldM_ext (user_info_debt who) _ s s'); [done|apply info_debt_pure|].
    intros acc id _. unfold user_info_debt.
    rewrite !(result_bind_pure (get_user_debt_with_interest id who)) by apply debt_view_pure.
    rewrite Hd.
    destruct (result (get_user_debt_with_interest id who) s) as [n|]; [|done].
    cbn. unfold result, bind, gets. rewrite Hrate. by destruct (u128_add _ _).
  - intros acc id _. unfold user_info_supply.
    rewrite !(result_bind_pure (get_user_supply_with_interest id who)) by apply supply_view_pure.
    rewrite Hs.
    destruct (result (get_user_supply_with_interest id who) s) as [n|]; [|done].
    cbn. unfold result, bind, get_lending, gets, pool. rewrite Hrate.
    destruct (u128_add _ _); [|done]. cbn. rewrite (af_pools _ _ Hf).
    destruct (Pools (lending s) !! id); [|done]. cbn.
    destruct (fx_mul _ _); [|done]. cbn. by destruct (u128_add _ _).
Qed.

(** A position brought to the accrued index reads the same through the views. *)
Lemma accrue_supply_views {E F} p p' id who s s1 id' :
  pool id (lending s) = Some p -> pool_ok p -> pool_ok p' ->
  accrue_interest_at (block_number s) p = Some p' ->
  @accrue_supply_with_interest _ _ E p' id who s = Ok tt s1 ->
  result (@get_user_supply_with_interest _ _ F id' who) s1 =
  result (@get_user_supply_with_interest _ _ F id' who) s.
Proof.
  intros Hpool Hp Hp' Hacc [[_ ->] | (us & x & Hus & Hx & ->)]%accrue_supply_run; [done|].
  rewrite !supply_view_result. unfold user_supply, pool in *. cbn.
  destruct (Pools (lending s) !! id') as [q|] eqn:Hq; [|done].
  destruct (supply_index_at (block_number s) q) as [idx|] eqn:Hidx; [|done]. cbn.
  destruct (decide (id = id')) as [<-|Hne]; [|by rewrite lookup_insert_ne by congruence].
  rewrite lookup_insert_eq, Hus. cbn. rewrite Hpool in Hq. injection Hq as <-.
  rewrite (supply_index_agrees _ _ _ _ Hp Hacc Hidx), Hx.
  destruct Hp' as [_ _ [Hlo Hhi] _ _]. pose proof fx_one_pos.
  apply at_index_self; [lia | done | by eapply at_index_bound].
Qed.

Lemma accrue_debt_views {E F} p p' id who s s1 id' :
  pool id (lending s) = Some p -> pool_ok p -> pool_ok p' ->
  accrue_interest_at (block_number s) p = Some p' ->
  @accrue_debt_with_interest _ _ E p' id who s = Ok tt s1 ->
  result (@get_user_debt_with_interest _ _ F id' who) s1 =
  result (@get_user_debt_with_interest _ _ F id' who) s.
Proof.
  intros Hpool Hp Hp' Hacc [[_ ->] | (ud & x & Hud & Hx & ->)]%accrue_debt_run; [done|].
  rewrite !debt_view_result. unfold user_debt, pool in *. cbn.
  destruct (Pools (lending s) !! id') as [q|] eqn:Hq; [|done].
  destruct (debt_index_at (block_number s) q) as [idx|] eqn:Hidx; [|done]. cbn.
  destruct (decide (id = id')) as [<-|Hne]; [|by rewrite lookup_insert_ne by congruence].
  rewrite lookup_insert_eq, Hud. cbn. rewrite Hpool in Hq. injection Hq as <-.
  rewrite (debt_index_agrees _ _ _ _ Hp Hacc Hidx), Hx.
  destruct Hp' as [_ _ _ [Hlo Hhi] _]. pose proof fx_one_pos.
  apply at_index_self; [lia | done | by eapply at_index_bound].
Qed.

(** The other side's views do not look at the rewritten map. *)
Lemma debt_view_after_supply_accrual {E F} p id who s s1 id' who' :
  @accrue_supply_with_interest _ _ E p id who s = Ok tt s1 ->
  result (@get_user_debt_with_interest _ _ F id' who') s1 =
  result (@get_user_debt_with_interest _ _ F id' who') s.
Proof.
  intros [[_ ->] | (us & x & _ & _ & ->)]%accrue_supply_run; [done|].
  by rewrite !debt_view_result.
Qed.

Lemma supply_view_after_debt_accrual {E F} p id who s s1 id' who' :
  @accrue_debt_with_interest _ _ E p id who s = Ok tt s1 ->
  result (@get_user_supply_with_interest _ _ F id' who') s1 =
  result (@get_user_supply_with_interest _ _ F id' who') s.
Proof.
  intros [[_ ->] | (us & x & _ & _ & ->)]%accrue_debt_run; [done|].
  by rewrite !supply_view_result.
Qed.

Lemma user_info_after_supply_accrual {E F} p p' id who s s1 :
  pool id (lending s) = Some p -> pool_ok p -> pool_ok p' ->
  accrue_interest_at (block_number s) p = Some p' ->
  @accrue_supply_with_interest _ _ E p' id who s = Ok tt s1 ->
  result (@get_user_info _ _ _ F who) s1 = result (@get_user_info _ _ _ F who) s.
Proof.
  intros Hpool Hp Hp' Hacc Hrun. apply user_info_ext.
  - exact (respects_Ok _ _ _ _ _ (accrue_supply_framed _ _ _) Hrun).
  - intros. by eapply accrue_supply_views.
  - intros. by eapply debt_view_after_supply_accrual.
Qed.

Lemma user_info_after_debt_accrual {E F} p p' id who s s1 :
  pool id (lending s) = Some p -> pool_ok p -> pool_ok p' ->
  accrue_interest_at (block_number s) p = Some p' ->
  @accrue_debt_with_interest _ _ E p' id who s = Ok tt s1 ->
  result (@get_user_info _ _ _ F who) s1 = result (@get_user_info _ _ _ F who) s.
Proof.
  intros Hpool Hp Hp' Hacc Hrun. apply user_info_ext.
  - exact (respects_Ok _ _ _ _ _ (accrue_debt_framed _ _ _) Hrun).
  - intros. by eapply supply_view_after_debt_accrual.
  - intros. by eapply accrue_debt_views.
Qed.
End Accrued_positions.
