(* ===== verification/LendingPositions.v ===== *)
(** * Lending: the user position sets

    [UserSupplySet] and [UserDebtSet] are meant to list exactly the assets in
    which a user has a supply or a debt; [get_user_info] relies on it, and
    unwraps the pool of every listed asset.  The invariant is stated once, for a
    map of positions next to a map of sets, and every call preserves it. *)

From S2P Require Export Lending LendingInterest.

Local Open Scope N_scope.
Local Open Scope rust_scope.

(* ================================================================== *)
(** ** Lists of assets                                                 *)
(* ================================================================== *)

Lemma contains_spec id l : contains id l = true <-> id ∈ l.
Proof.
  unfold contains. rewrite existsb_exists. split.
  - intros (x & Hx & Heq%N.eqb_eq). subst. by apply list_elem_of_In.
  - intros Hid. exists id. split; [by apply list_elem_of_In | apply N.eqb_refl].
Qed.

Lemma not_contains_spec id l : contains id l = false <-> id ∉ l.
Proof. rewrite <- not_true_iff_false. by rewrite contains_spec. Qed.

Lemma elem_of_retain_not id x l : x ∈ retain_not id l <-> x <> id /\ x ∈ l.
Proof.
  unfold retain_not. rewrite !list_elem_of_In, filter_In.
  rewrite negb_true_iff, N.eqb_neq. tauto.
Qed.

Lemma NoDup_retain_not id l : NoDup l -> NoDup (retain_not id l).
Proof. rewrite !NoDup_ListNoDup. apply NoDup_filter. Qed.

(* ================================================================== *)
(** ** A map of positions and its index of assets                      *)
(* ================================================================== *)

Section Book.
Context {acc : Accounts} {V : Type}.

Record book_ok (m : gmap (AssetId * AccountId) V) (sets : gmap AccountId (list AssetId))
    (pools : gmap AssetId Pool) : Prop := {
  bk_set : forall who id, id ∈ getd [] sets who <-> is_Some (m !! (id, who));
  bk_nodup : forall who, NoDup (getd [] sets who);
  bk_pool : forall who id, is_Some (m !! (id, who)) -> is_Some (pools !! id)
}.

Lemma book_update m sets pools id who v :
  is_Some (m !! (id, who)) -> book_ok m sets pools -> book_ok (<[(id, who) := v]> m) sets pools.
Proof.
  intros Hsome [Hset Hnd Hpool].
  assert (forall who' id', is_Some (<[(id, who) := v]> m !! (id', who')) <->
                           is_Some (m !! (id', who'))) as Hdom.
  { intros. rewrite lookup_insert. case_decide; simplify_eq; [|done]. naive_solver. }
  split; [intros; by rewrite Hdom | done | intros ? ?; rewrite Hdom; apply Hpool].
Qed.

Lemma book_drop m sets pools id who :
  book_ok m sets pools ->
  book_ok (delete (id, who) m) (<[who := retain_not id (getd [] sets who)]> sets) pools.
Proof.
  intros [Hset Hnd Hpool]. split.
  - intros who' id'. rewrite getd_insert, lookup_delete.
    repeat case_decide; simplify_eq; rewrite ?elem_of_retain_not, ?Hset; [| |done].
    + split; [tauto | by intros [? ?]].
    + split; [tauto|]. intros Hs. split; [congruence | done].
  - intros who'. rewrite getd_insert. case_decide; [by apply NoDup_retain_not | done].
  - intros who' id'. rewrite lookup_delete. case_decide; [by intros [? ?] | apply Hpool].
Qed.

Lemma book_open m sets pools id who v :
  is_Some (pools !! id) -> m !! (id, who) = None -> book_ok m sets pools ->
  book_ok (<[(id, who) := v]> m) (<[who := getd [] sets who ++ [id]]> sets) pools.
Proof.
  intros Hp Hnone [Hset Hnd Hpool]. split.
  - intros who' id'. rewrite getd_insert, lookup_insert.
    repeat case_decide; simplify_eq; rewrite ?elem_of_app, ?list_elem_of_singleton, ?Hset;
      naive_solver.
  - intros who'. rewrite getd_insert. case_decide; [subst who'|done].
    apply list.NoDup_app. split; [done|]. split; [|apply NoDup_singleton].
    intros x Hx ->%list_elem_of_singleton. apply Hset in Hx. rewrite Hnone in Hx.
    by destruct Hx.
  - intros who' id'. rewrite lookup_insert. case_decide; simplify_eq; [done | apply Hpool].
Qed.

Lemma book_pools m sets pools pools' :
  (forall id, is_Some (pools !! id) -> is_Some (pools' !! id)) ->
  book_ok m sets pools -> book_ok m sets pools'.
Proof. intros Hp [Hset Hnd Hpool]. split; eauto. Qed.

Lemma book_contains m sets pools id who :
  book_ok m sets pools -> contains id (getd [] sets who) = true <-> is_Some (m !! (id, who)).
Proof. intros [Hset _ _]. by rewrite contains_spec, Hset. Qed.

Lemma book_contains_false m sets pools id who :
  book_ok m sets pools -> m !! (id, who) = None -> contains id (getd [] sets who) = false.
Proof.
  intros [Hset _ _] Hnone. rewrite not_contains_spec, Hset, Hnone. by intros [? ?].
Qed.

Lemma book_empty pools : book_ok ∅ ∅ pools.
Proof.
  split; intros; unfold getd in *; rewrite ?lookup_empty in *; cbn in *.
  - split; [by intros ?%not_elem_of_nil | by intros [? ?]].
  - constructor.
  - by destruct H.
Qed.
End Book.

(* ================================================================== *)
(** ** The invariant and the helpers                                   *)
(* ================================================================== *)

Section Position_books.
Context {acc : Accounts}.

(** The sets list exactly the assets with a position, without repetition, and
    every position belongs to an existing pool. *)
Definition positions_ok (l : LendingStorage) : Prop :=
  book_ok (UserSupplies l) (UserSupplySet l) (Pools l) /\
  book_ok (UserDebts l) (UserDebtSet l) (Pools l).

End Position_books.

Section Positions_ok.
Context {cfg : Config} {fo : FixedOps}.

Definition positions_stable : relation Chain := stable (fun s => positions_ok (lending s)).

#[export] Instance positions_stable_preorder : PreOrder positions_stable.
Proof. apply stable_preorder. Qed.

Lemma wp_stable {E A} (m : RT E A) s :
  (positions_ok (lending s) ->
   wp m (fun _ s' => positions_ok (lending s')) (fun _ s' => positions_ok (lending s')) s) ->
  wp m (fun _ => positions_stable s) (fun _ => positions_stable s) s.
Proof. unfold wp, positions_stable, stable. destruct (m s); eauto. Qed.

(** Steps that leave the storage of the pallet alone. *)
Lemma lending_keeps_positions {E A} (m : RT E A) :
  respects (keeps lending) m -> respects positions_stable m.
Proof. apply respects_weaken. unfold keeps, positions_stable, stable. by intros s s' ->. Qed.

Lemma put_pools_stable {E} id p :
  respects positions_stable (@put_lending _ E (set_Pools <[id := p]>)).
Proof.
  apply respects_modify. intros s [Hs Hd].
  assert (forall id', is_Some (Pools (lending s) !! id') ->
                      is_Some (<[id := p]> (Pools (lending s)) !! id')) as Hp.
  { intros id' Hid'. rewrite lookup_insert. by case_decide. }
  split; [exact (book_pools _ _ _ _ Hp Hs) | exact (book_pools _ _ _ _ Hp Hd)].
Qed.

Lemma init_pool_stable {E} id c : respects positions_stable (@_init_pool _ _ E id c).
Proof. unfold _init_pool. respects. apply put_pools_stable. Qed.

Lemma accrue_supply_stable {E} p id who :
  respects positions_stable (@accrue_supply_with_interest _ _ E p id who).
Proof.
  intros s. unfold accrue_supply_with_interest, get_lending, put_lending, bind, gets, modify.
  destruct (user_supply id who (lending s)) as [us|] eqn:Hus; cbn; [|done].
  destruct (at_index _ _ _); cbn; [|done]. intros [Hs Hd].
  split; [|done]. apply book_update; [|done]. unfold user_supply in Hus. by rewrite Hus.
Qed.

Lemma accrue_debt_stable {E} p id who :
  respects positions_stable (@accrue_debt_with_interest _ _ E p id who).
Proof.
  intros s. unfold accrue_debt_with_interest, get_lending, put_lending, bind, gets, modify.
  destruct (user_debt id who (lending s)) as [ud|] eqn:Hud; cbn; [|done].
  destruct (at_index _ _ _); cbn; [|done]. intros [Hs Hd].
  split; [done|]. apply book_update; [|done]. unfold user_debt in Hud. by rewrite Hud.
Qed.

(** Changing an existing position: the entry stays, or it leaves the map and
    the set together.  Either way the other side is untouched. *)
Lemma wp_update_supply {E} p id who amount positive (R : E -> Chain -> Prop) s :
  positions_ok (lending s) -> is_Some (user_supply id who (lending s)) ->
  wp (update_user_supply p id who amount positive)
    (fun _ s' => positions_ok (lending s') /\ UserDebts (lending s') = UserDebts (lending s)) R s.
Proof.
  intros [Hs Hd] [us Hus]. unfold update_user_supply. wp_go.
  rewrite Hus. wp_go. destruct (negb _); wp_go; (split; [|done]); split; try done.
  - apply book_update; [|done]. unfold user_supply in Hus. by rewrite Hus.
  - by apply book_drop.
Qed.

Lemma wp_update_debt {E} p id who amount positive (R : E -> Chain -> Prop) s :
  positions_ok (lending s) -> is_Some (user_debt id who (lending s)) ->
  wp (update_user_debt p id who amount positive)
    (fun _ s' => positions_ok (lending s') /\ UserSupplies (lending s') = UserSupplies (lending s))
    R s.
Proof.
  intros [Hs Hd] [ud Hud]. unfold update_user_debt. wp_go.
  rewrite Hud. wp_go. destruct (negb _); wp_go; (split; [|done]); split; try done.
  - apply book_update; [|done]. unfold user_debt in Hud. by rewrite Hud.
  - by apply book_drop.
Qed.

(** With overflow checks an addition of a positive amount is positive. *)
Lemma u128_move_add_pos a b c :
  overflow_checks = true -> 0 < b -> u128_move true a b = Some c -> negb (c =? 0) = true.
Proof.
  unfold u128_move, u128_add. intros -> Hb [-> _]%uadd_checked.
  apply negb_true_iff, N.eqb_neq. lia.
Qed.

(** Adding to a position writes its entry and nothing else. *)
Lemma wp_add_supply {E} p id who amount (R : E -> Chain -> Prop) s :
  overflow_checks = true -> 0 < amount ->
  wp (update_user_supply p id who amount true)
    (fun _ s' => exists us, s' = set_lending (set_UserSupplies <[(id, who) := us]>) s) R s.
Proof.
  intros Hc Hpos. unfold update_user_supply. wp_go.
  destruct (user_supply id who (lending s)) as [us|].
  - wp_go. rewrite (u128_move_add_pos _ _ _ Hc Hpos) by done. wp_go. eauto.
  - destruct (N.eqb_spec amount 0); [lia|]. cbn [negb]. wp_go. eauto.
Qed.

Lemma wp_add_debt {E} p id who amount (R : E -> Chain -> Prop) s :
  overflow_checks = true -> 0 < amount ->
  wp (update_user_debt p id who amount true)
    (fun _ s' => exists ud, s' = set_lending (set_UserDebts <[(id, who) := ud]>) s) R s.
Proof.
  intros Hc Hpos. unfold update_user_debt. wp_go.
  destruct (user_debt id who (lending s)) as [ud|].
  - wp_go. rewrite (u128_move_add_pos _ _ _ Hc Hpos) by done. wp_go. eauto.
  - destruct (N.eqb_spec amount 0); [lia|]. cbn [negb]. wp_go. eauto.
Qed.

(** Writing an entry and then listing its asset restores the invariant. *)
Lemma wp_list_supply id who us s :
  positions_ok (lending s) -> is_Some (pool id (lending s)) ->
  wp (add_to_supply_set who id) (fun _ s' => positions_ok (lending s'))
    (fun _ _ => False) (set_lending (set_UserSupplies <[(id, who) := us]>) s).
Proof.
  intros [Hs Hd] Hp. unfold add_to_supply_set. wp_go.
  unfold user_supply_set. cbn. destruct (UserSupplies (lending s) !! (id, who)) eqn:Hus.
  - rewrite (proj2 (book_contains _ _ _ id who Hs)) by by rewrite Hus. cbn [negb]. wp_go.
    split; [|done]. apply book_update; [by rewrite Hus | done].
  - rewrite (book_contains_false _ _ _ _ _ Hs Hus). cbn [negb]. wp_go.
    split; [|done]. by apply book_open.
Qed.

Lemma wp_list_debt id who ud s :
  positions_ok (lending s) -> is_Some (pool id (lending s)) ->
  wp (add_to_debt_set who id) (fun _ s' => positions_ok (lending s'))
    (fun _ _ => False) (set_lending (set_UserDebts <[(id, who) := ud]>) s).
Proof.
  intros [Hs Hd] Hp. unfold add_to_debt_set. wp_go.
  unfold user_debt_set. cbn. destruct (UserDebts (lending s) !! (id, who)) eqn:Hud.
  - rewrite (proj2 (book_contains _ _ _ id who Hd)) by by rewrite Hud. cbn [negb]. wp_go.
    split; [done|]. apply book_update; [by rewrite Hud | done].
  - rewrite (book_contains_false _ _ _ _ _ Hd Hud). cbn [negb]. wp_go.
    split; [done|]. by apply book_open.
Qed.
End Positions_ok.

(* ================================================================== *)
(** ** Every call preserves it                                         *)
(* ================================================================== *)

Section Calls.
Context {cfg : Config} {fo : FixedOps} {orc : Oracle} {ma : MultiAsset} {mal : MultiAssetLaws ma}.

Lemma wp_transfer from id to amount s :
  wp (transfer_or_fail from id to amount)
    (fun _ s' => ledger_frame s s' /\ 0 < amount)
    (fun e s' => s' = s /\ e = Module_ TransferFailed) s.
Proof.
  unfold transfer_or_fail. apply wp_map_err. unfold wp.
  destruct (ma_transfer from id to amount s) as [[] s'|e s'|] eqn:Hrun; [| |done].
  - split; [exact (respects_Ok _ _ _ _ _ (ma_framed from id to amount) Hrun)|].
    by eapply ma_positive.
  - split; [by eapply ma_failed | done].
Qed.

Lemma positions_put_pool id p s :
  positions_ok (lending s) -> positions_ok (lending (set_lending (set_Pools <[id := p]>) s)).
Proof. exact (put_pools_stable (E := unit) id p s). Qed.

(** The common prologue: the signer and the accrued pool; nothing is written. *)
Lemma wp_prologue {A} origin id (k : AccountId -> Pool -> RT DispatchError A) Q
    (R : DispatchError -> Chain -> Prop) s :
  (forall e, e <> Module_ TransferFailed -> R e s) ->
  (forall who p p', origin = Signed who -> pool id (lending s) = Some p ->
     accrue_interest_at (block_number s) p = Some p' -> wp (k who p') Q R s) ->
  wp (account <- ensure_signed origin ;;
      found <- get_lending (pool id) ;;
      p <- ok_or found (Module_ PoolNotExist) ;;
      p <- accrue_interest p ;;
      k account p) Q R s.
Proof.
  intros HR Hk. apply wp_bind. destruct origin as [|who|]; [by apply wp_throw, HR| |by apply wp_throw, HR].
  apply wp_ret, wp_bind, wp_get_lending, wp_bind, wp_ok_or; [|intros; by apply HR].
  intros p Hp. apply wp_bind. unfold accrue_interest. apply wp_bind, wp_gets, wp_or_panic.
  intros p' Hp'. by eapply Hk.
Qed.

Lemma supply_positions origin id amount :
  overflow_checks = true -> respects positions_stable (supply origin id amount).
Proof.
  intros Hc. apply respects_wp. intros s. apply wp_stable. intros Hok.
  apply wp_prologue; [done|]. intros who p p' _ Hp _.
  apply wp_bind. wp_apply wp_transfer; [|by intros e s' [-> _]].
  intros _ s1 [[_ _ Hl _ _] Hpos]. apply wp_bind.
  eapply wp_mono; [| |by apply (wp_add_supply _ _ _ _ (fun _ _ => False))]; [|done].
  intros _ s2 [us ->]. wp_go.
  eapply wp_mono; [| |apply (wp_list_supply id who us (add_event _ s1)); cbn; rewrite Hl;
    [done | by rewrite Hp]]; [|done].
  intros [] s3 Hok3. wp_go. by apply positions_put_pool.
Qed.

Lemma check_cash_pure p amount : respects eq (check_cash p amount).
Proof. unfold check_cash. respects. Qed.

Lemma wp_check_cash p amount (R : DispatchError -> Chain -> Prop) (Q : unit -> Chain -> Prop) s :
  R (Module_ NotEnoughLiquidity) s ->
  (forall cash, u128_sub (pool_supply p) (pool_debt p) = Some cash -> amount <= cash -> Q tt s) ->
  wp (check_cash p amount) Q R s.
Proof.
  intros HR HQ. unfold check_cash. wp_go. destruct (N.ltb_spec a amount); wp_go; eauto.
Qed.

(** A stable helper keeps the invariant and the pools. *)
Lemma wp_accrue_supply {E} p id who s :
  positions_ok (lending s) ->
  wp (@accrue_supply_with_interest _ _ E p id who)
    (fun _ s' => positions_ok (lending s') /\ Pools (lending s') = Pools (lending s))
    (fun _ _ => False) s.
Proof.
  intros Hok. pose proof (accrue_supply_stable (E := E) p id who s) as Hst. revert Hst.
  unfold accrue_supply_with_interest, wp, bind, get_lending, gets.
  destruct (user_supply id who (lending s)) as [us|]; [|done].
  destruct (at_index _ _ _); [|done]. cbn. auto.
Qed.

Lemma wp_accrue_debt {E} p id who s :
  positions_ok (lending s) ->
  wp (@accrue_debt_with_interest _ _ E p id who)
    (fun _ s' => positions_ok (lending s') /\ Pools (lending s') = Pools (lending s))
    (fun _ _ => False) s.
Proof.
  intros Hok. pose proof (accrue_debt_stable (E := E) p id who s) as Hst. revert Hst.
  unfold accrue_debt_with_interest, wp, bind, get_lending, gets.
  destruct (user_debt id who (lending s)) as [ud|]; [|done].
  destruct (at_index _ _ _); [|done]. cbn. auto.
Qed.

Lemma withdraw_positions origin id amount :
  respects positions_stable (withdraw origin id amount).
Proof.
  apply respects_wp. intros s. apply wp_stable. intros Hok.
  apply wp_prologue; [done|]. intros who p p' _ _ _.
  apply wp_bind. wp_apply wp_accrue_supply; [|done|done]. intros [] s1 [Hok1 _].
  wp_go; [|done]. rename a into us.
  apply wp_pure; [apply user_info_pure| |done]. intros [[b cs] cd] _. wp_go; [|done].
  apply wp_check_cash; [done|]. intros _ _ _. wp_go.
  wp_apply wp_transfer; [|by intros e s' [-> _]].
  intros [] s2 [[_ _ Hl _ _] _]. wp_go.
  wp_apply (wp_update_supply _ _ _ _ _ (fun _ _ => False)); [|done| |]; rewrite ?Hl; [|done|].
  - intros [] s3 [Hok3 _]. wp_go. by apply positions_put_pool.
  - eexists. eassumption.
Qed.

Lemma borrow_positions origin id amount :
  overflow_checks = true -> respects positions_stable (borrow origin id amount).
Proof.
  intros Hc. apply respects_wp. intros s. apply wp_stable. intros Hok.
  apply wp_prologue; [done|]. intros who p p' _ Hp _.
  apply wp_bind, wp_check_cash; [done|]. intros _ _ _. apply wp_bind.
  wp_apply wp_accrue_debt; [|done|done]. intros [] s1 [Hok1 Hpools]. wp_go.
  apply wp_pure; [apply user_info_pure| |done]. intros [[b cs] cd] _. wp_go; [|done].
  wp_apply wp_transfer; [|by intros e s' [-> _]].
  intros [] s2 [[_ _ Hl _ _] Hpos]. wp_go.
  eapply wp_mono; [| |by apply (wp_add_debt _ _ _ _ (fun _ _ => False))]; [|done].
  intros [] s3 [ud ->]. wp_go.
  eapply wp_mono; [| |apply (wp_list_debt id who ud (add_event _ s2)); cbn; rewrite Hl;
    [done | unfold pool in *; by rewrite Hpools, Hp]]; [|done].
  intros [] s4 Hok4. wp_go. by apply positions_put_pool.
Qed.

Lemma repay_positions origin id amount :
  respects positions_stable (repay origin id amount).
Proof.
  apply respects_wp. intros s. apply wp_stable. intros Hok.
  apply wp_prologue; [done|]. intros who p p' _ _ _.
  apply wp_bind. wp_apply wp_accrue_debt; [|done|done]. intros [] s1 [Hok1 _].
  wp_go; [|done]. rename a into ud.
  wp_apply wp_transfer; [|by intros e s' [-> _]].
  intros [] s2 [[_ _ Hl _ _] _]. wp_go.
  wp_apply (wp_update_debt _ _ _ _ _ (fun _ _ => False)); [|done| |]; rewrite ?Hl; [|done|].
  - intros [] s3 [Hok3 _]. wp_go. by apply positions_put_pool.
  - eexists. eassumption.
Qed.

Lemma liquidate_positions origin target pay_id get_id amount :
  respects positions_stable (liquidate origin target pay_id get_id amount).
Proof.
  apply respects_wp. intros s. apply wp_stable. intros Hok. unfold liquidate.
  apply wp_bind. destruct origin as [|who|]; [done| |done]. apply wp_ret. wp_go; try done.
  unfold accrue_interest at 1. wp_go. unfold accrue_interest. wp_go.
  wp_apply wp_accrue_supply; [|done|done]. intros [] s1 [Hok1 _]. wp_go.
  wp_apply wp_accrue_debt; [|done|done]. intros [] s2 [Hok2 _]. wp_go.
  apply wp_pure; [apply user_info_pure| |done]. intros [[b cs] cd] _. wp_go; try done.
  wp_apply wp_transfer; [|by intros e s' [-> _]]. intros [] s3 [[_ _ Hl3 _ _] _]. wp_go.
  wp_apply wp_transfer; [|intros e s' [-> _]; by rewrite Hl3].
  intros [] s4 [[_ _ Hl4 _ _] _]. wp_go.
  wp_apply (wp_update_supply _ _ _ _ _ (fun _ _ => False)); [|done| |];
    rewrite ?Hl4, ?Hl3; [|done|by eexists].
  intros [] s5 [Hok5 Hdebts]. wp_go.
  wp_apply (wp_update_debt _ _ _ _ _ (fun _ _ => False)); [|done|done|].
  - intros [] s6 [Hok6 _]. wp_go. by do 2 apply positions_put_pool.
  - unfold user_debt in *. rewrite Hdebts, ?Hl4, ?Hl3. by eexists.
Qed.
End Calls.
