(* ===== verification/LendingSafety.v ===== *)
(** * Lending: what the calls guarantee

    Inversion of the successful runs of the dispatchables, the effect of a call
    on positions and pools, and who can be touched by a call. *)

From S2P Require Export LendingInterest LendingPositions.

Local Open Scope N_scope.
Local Open Scope rust_scope.

(* ================================================================== *)
(** ** Isolation                                                       *)
(* ================================================================== *)

Section Isolation.
Context {cfg : Config} {fo : FixedOps} {orc : Oracle} {ma : MultiAsset} {mal : MultiAssetLaws ma}.

(** Only the positions and the sets of [who] may change. *)
Record only_of (who : AccountId) (s s' : Chain) : Prop := {
  oo_supply : forall id u, u <> who -> user_supply id u (lending s') = user_supply id u (lending s);
  oo_debt : forall id u, u <> who -> user_debt id u (lending s') = user_debt id u (lending s);
  oo_supply_set : forall u, u <> who ->
    user_supply_set u (lending s') = user_supply_set u (lending s);
  oo_debt_set : forall u, u <> who -> user_debt_set u (lending s') = user_debt_set u (lending s)
}.

#[export] Instance only_of_preorder who : PreOrder (only_of who).
Proof.
  split; [by intros s|]. intros s1 s2 s3 [A1 B1 C1 D1] [A2 B2 C2 D2].
  split; intros; [rewrite A2, A1 | rewrite B2, B1 | rewrite C2, C1 | rewrite D2, D1]; done.
Qed.

Lemma only_of_lending who s s' : lending s' = lending s -> only_of who s s'.
Proof. by intros H; split; intros; rewrite H. Qed.

(** The writes of the pallet, by the map they go to. *)
Ltac only_write :=
  apply respects_modify; intros s; split; intros;
  unfold user_supply, user_debt, user_supply_set, user_debt_set; cbn;
  rewrite ?lookup_insert_ne, ?lookup_delete_ne, ?getd_insert_ne by congruence; done.

Lemma only_put_supply {E} who id us :
  respects (only_of who) (@put_lending _ E (set_UserSupplies <[(id, who) := us]>)).
Proof. only_write. Qed.
Lemma only_drop_supply {E} who id :
  respects (only_of who) (@put_lending _ E (set_UserSupplies (delete (id, who)))).
Proof. only_write. Qed.
Lemma only_put_debt {E} who id ud :
  respects (only_of who) (@put_lending _ E (set_UserDebts <[(id, who) := ud]>)).
Proof. only_write. Qed.
Lemma only_drop_debt {E} who id :
  respects (only_of who) (@put_lending _ E (set_UserDebts (delete (id, who)))).
Proof. only_write. Qed.
Lemma only_put_supply_set {E} who l :
  respects (only_of who) (@put_lending _ E (set_UserSupplySet <[who := l]>)).
Proof. only_write. Qed.
Lemma only_put_debt_set {E} who l :
  respects (only_of who) (@put_lending _ E (set_UserDebtSet <[who := l]>)).
Proof. only_write. Qed.
Lemma only_put_pool {E} who id p :
  respects (only_of who) (@put_lending _ E (set_Pools <[id := p]>)).
Proof. only_write. Qed.
Lemma only_event {E} who ev : respects (only_of who) (@deposit_event _ E ev).
Proof. only_write. Qed.
Lemma only_transfer who from id to amount :
  respects (only_of who) (transfer_or_fail from id to amount).
Proof.
  apply respects_map_err. eapply respects_weaken; [|apply ma_framed].
  intros s s' Hf. by apply only_of_lending, lf_lending.
Qed.
Lemma only_pure {E A} who (m : RT E A) : respects eq m -> respects (only_of who) m.
Proof. apply respects_weaken. by intros s s' ->. Qed.
Lemma only_user_info {E} who u : respects (only_of who) (@get_user_info _ _ _ E u).
Proof. apply only_pure, user_info_pure. Qed.

#[local] Hint Resolve only_put_supply only_drop_supply only_put_debt only_drop_debt
  only_put_supply_set only_put_debt_set only_put_pool only_event only_transfer
  only_user_info only_of_preorder : respects.

Lemma only_supply who id amount : respects (only_of who) (supply (Signed who) id amount).
Proof. apply respects_signed. respects. Qed.
Lemma only_withdraw who id amount : respects (only_of who) (withdraw (Signed who) id amount).
Proof. apply respects_signed. respects. Qed.
Lemma only_borrow who id amount : respects (only_of who) (borrow (Signed who) id amount).
Proof. apply respects_signed. respects. Qed.
Lemma only_repay who id amount : respects (only_of who) (repay (Signed who) id amount).
Proof. apply respects_signed. respects. Qed.
Lemma only_liquidate who target pay_id get_id amount :
  respects (only_of target) (liquidate (Signed who) target pay_id get_id amount).
Proof. apply respects_signed. respects. Qed.
End Isolation.

(* ================================================================== *)
(** ** Effects on a position                                           *)
(* ================================================================== *)

Section Position_effects.
Context {cfg : Config} {fo : FixedOps}.

(** What a position is worth at an index; no position is worth nothing. *)
Definition supply_worth (idx : FixedU128) (id : AssetId) (who : AccountId) (l : LendingStorage)
    : option Balance :=
  match user_supply id who l with
  | Some us => at_index idx (us_index us) (us_amount us)
  | None => Some 0
  end.

Definition debt_worth (idx : FixedU128) (id : AssetId) (who : AccountId) (l : LendingStorage)
    : option Balance :=
  match user_debt id who l with
  | Some ud => at_index idx (ud_index ud) (ud_amount ud)
  | None => Some 0
  end.

(** A position of [n] units, which is none at all when [n] is zero. *)
Definition supply_of_amount (n : Balance) (idx : FixedU128) : option UserSupply :=
  if n =? 0 then None else Some (mkUserSupply n idx).
Definition debt_of_amount (n : Balance) (idx : FixedU128) : option UserDebt :=
  if n =? 0 then None else Some (mkUserDebt n idx).

Lemma u128_move_zero b : b <= u128_max -> u128_move true 0 b = Some b.
Proof.
  intros Hb. unfold u128_move, u128_add. rewrite uadd_in_range; [by rewrite N.add_0_l|].
  apply u128_max_modulus. lia.
Qed.

(** Outside the pallet's two position maps and two sets nothing moves. *)
Record position_frame (s s' : Chain) : Prop := {
  pf_block_number : block_number s' = block_number s;
  pf_assets : assets s' = assets s;
  pf_pools : Pools (lending s') = Pools (lending s);
  pf_threshold : LiquidationThreshold (lending s') = LiquidationThreshold (lending s);
  pf_swap : swap s' = swap s;
  pf_next : NextUnsignedAt s' = NextUnsignedAt s;
  pf_events : events s' = events s
}.

#[export] Instance position_frame_preorder : PreOrder position_frame.
Proof. split; [by intros s | intros s1 s2 s3 [] []; split; congruence]. Qed.

Lemma update_supply_frame {E} p id who amount positive :
  respects position_frame (@update_user_supply _ _ E p id who amount positive).
Proof.
  unfold update_user_supply, put_lending. respects; apply respects_modify; intros s; by split.
Qed.

Lemma update_debt_frame {E} p id who amount positive :
  respects position_frame (@update_user_debt _ _ E p id who amount positive).
Proof.
  unfold update_user_debt, put_lending. respects; apply respects_modify; intros s; by split.
Qed.

Lemma add_to_supply_set_frame who id : respects position_frame (add_to_supply_set who id).
Proof.
  unfold add_to_supply_set, put_lending. respects; apply respects_modify; intros s; by split.
Qed.

Lemma add_to_debt_set_frame who id : respects position_frame (add_to_debt_set who id).
Proof.
  unfold add_to_debt_set, put_lending. respects; apply respects_modify; intros s; by split.
Qed.

(** The supply side of an update: the new amount, the map entry, the debts. *)
Lemma update_supply_Ok {E} p id who amount positive s s' :
  amount <= u128_max -> (user_supply id who (lending s) = None -> positive = true) ->
  @update_user_supply _ _ E p id who amount positive s = Ok tt s' ->
  exists x n,
    supply_worth (total_supply_index p) id who (lending s) = Some x /\
    u128_move positive x amount = Some n /\
    user_supply id who (lending s') = supply_of_amount n (total_supply_index p) /\
    UserDebts (lending s') = UserDebts (lending s) /\
    UserDebtSet (lending s') = UserDebtSet (lending s).
Proof.
  intros Hamt Hpos. unfold update_user_supply, supply_worth, get_lending, put_lending.
  intros H. inv_run. unfold supply_of_amount.
  destruct (user_supply id who (lending s)) as [us|] eqn:Hus; inv_run.
  - eexists _, _. split; [done|]. split; [done|].
    match type of H with context [negb (?v =? 0)] => destruct (v =? 0) end;
      cbn [negb] in H; inv_run; unfold user_supply; cbn.
    + by rewrite lookup_delete_eq.
    + by rewrite lookup_insert_eq.
  - rewrite Hpos by done. exists 0, amount. split; [done|]. split; [by apply u128_move_zero|].
    destruct (amount =? 0); cbn [negb] in H; inv_run; unfold user_supply in *; cbn.
    + done.
    + by rewrite lookup_insert_eq.
Qed.

Lemma update_debt_Ok {E} p id who amount positive s s' :
  amount <= u128_max -> (user_debt id who (lending s) = None -> positive = true) ->
  @update_user_debt _ _ E p id who amount positive s = Ok tt s' ->
  exists x n,
    debt_worth (total_debt_index p) id who (lending s) = Some x /\
    u128_move positive x amount = Some n /\
    user_debt id who (lending s') = debt_of_amount n (total_debt_index p) /\
    UserSupplies (lending s') = UserSupplies (lending s) /\
    UserSupplySet (lending s') = UserSupplySet (lending s).
Proof.
  intros Hamt Hpos. unfold update_user_debt, debt_worth, get_lending, put_lending.
  intros H. inv_run. unfold debt_of_amount.
  destruct (user_debt id who (lending s)) as [ud|] eqn:Hud; inv_run.
  - eexists _, _. split; [done|]. split; [done|].
    match type of H with context [negb (?v =? 0)] => destruct (v =? 0) end;
      cbn [negb] in H; inv_run; unfold user_debt; cbn.
    + by rewrite lookup_delete_eq.
    + by rewrite lookup_insert_eq.
  - rewrite Hpos by done. exists 0, amount. split; [done|]. split; [by apply u128_move_zero|].
    destruct (amount =? 0); cbn [negb] in H; inv_run; unfold user_debt in *; cbn.
    + done.
    + by rewrite lookup_insert_eq.
Qed.
End Position_effects.

(* ================================================================== *)
(** ** Inversion of the calls                                          *)
(* ================================================================== *)

Section Call_effects.
Context {cfg : Config} {fo : FixedOps} {fl : FixedLaws fo} {orc : Oracle} {ol : OracleLaws orc}.
Context {ma : MultiAsset} {mal : MultiAssetLaws ma}.

Lemma transfer_or_fail_Ok from id to amount s s' :
  transfer_or_fail from id to amount s = Ok tt s' ->
  ma_transfer from id to amount s = Ok tt s' /\ ledger_frame s s' /\ 0 < amount.
Proof.
  unfold transfer_or_fail. intros H%map_err_Ok. split; [done|].
  split; [exact (respects_Ok _ _ _ _ _ (ma_framed from id to amount) H) | by eapply ma_positive].
Qed.

Lemma update_pool_supply_Ok p amount positive q :
  update_pool_supply p amount positive = Some q ->
  exists n, u128_move positive (pool_supply p) amount = Some n /\ q = set_pool_supply n p.
Proof. unfold update_pool_supply. intros H. inv_run. eauto. Qed.

Lemma update_pool_debt_Ok p amount positive q :
  update_pool_debt p amount positive = Some q ->
  exists n, u128_move positive (pool_debt p) amount = Some n /\ q = set_pool_debt n p.
Proof. unfold update_pool_debt. intros H. inv_run. eauto. Qed.

Lemma add_to_supply_set_Ok who id s s' :
  add_to_supply_set who id s = Ok tt s' ->
  id ∈ user_supply_set who (lending s') /\ UserSupplies (lending s') = UserSupplies (lending s) /\
  UserDebts (lending s') = UserDebts (lending s).
Proof.
  unfold add_to_supply_set, get_lending, put_lending. intros H. inv_run.
  destruct (contains id (user_supply_set who (lending s))) eqn:Hc; cbn [negb] in H; inv_run.
  - split; [by apply contains_spec | done].
  - split; [|done]. unfold user_supply_set. cbn. rewrite getd_insert_eq.
    apply elem_of_app. right. by apply list_elem_of_singleton.
Qed.

Lemma add_to_debt_set_Ok who id s s' :
  add_to_debt_set who id s = Ok tt s' ->
  id ∈ user_debt_set who (lending s') /\ UserDebts (lending s') = UserDebts (lending s) /\
  UserSupplies (lending s') = UserSupplies (lending s).
Proof.
  unfold add_to_debt_set, get_lending, put_lending. intros H. inv_run.
  destruct (contains id (user_debt_set who (lending s))) eqn:Hc; cbn [negb] in H; inv_run.
  - split; [by apply contains_spec | done].
  - split; [|done]. unfold user_debt_set. cbn. rewrite getd_insert_eq.
    apply elem_of_app. right. by apply list_elem_of_singleton.
Qed.

(** The prologue of a successful run. *)
Lemma prologue_Ok {A} who id (k : AccountId -> Pool -> RT DispatchError A) s a s' :
  (account <- ensure_signed (Signed who) ;;
   found <- get_lending (pool id) ;;
   p <- ok_or found (Module_ PoolNotExist) ;;
   p <- accrue_interest p ;;
   k account p) s = Ok a s' ->
  exists p p', pool id (lending s) = Some p /\
    accrue_interest_at (block_number s) p = Some p' /\ k who p' s = Ok a s'.
Proof.
  cbn [ensure_signed]. unfold accrue_interest, get_lending. intros H. inv_run. eauto.
Qed.

Lemma supply_Ok who id amount s s' :
  amount <= u128_max -> supply (Signed who) id amount s = Ok tt s' ->
  exists p p' s1 x n q,
    pool id (lending s) = Some p /\ accrue_interest_at (block_number s) p = Some p' /\
    ma_transfer who id account_id amount s = Ok tt s1 /\ assets s' = assets s1 /\
    supply_worth (total_supply_index p') id who (lending s) = Some x /\
    u128_add x amount = Some n /\ u128_add (pool_supply p') amount = Some q /\
    user_supply id who (lending s') = supply_of_amount n (total_supply_index p') /\
    id ∈ user_supply_set who (lending s') /\
    Pools (lending s') = <[id := set_pool_supply q p']> (Pools (lending s)) /\
    UserDebts (lending s') = UserDebts (lending s) /\
    events s' = deposited (EvLending (Supplied id who amount)) s1.
Proof.
  intros Hamt. intros (p & p' & Hp & Hacc & H)%prologue_Ok.
  unfold deposit_event, put_lending in H. inv_run. destruct_unit.
  match goal with H : transfer_or_fail _ _ _ _ _ = _ |- _ =>
    apply transfer_or_fail_Ok in H as (Htr & [_ _ Hl _ _] & Hpos) end.
  match goal with H : update_user_supply _ _ _ _ _ _ = _ |- _ =>
    pose proof (respects_Ok _ _ _ _ _ (update_supply_frame _ _ _ _ _) H) as Hf;
    apply update_supply_Ok in H as (x & n & Hx & Hn & Hus & Hud & _); [|done|done] end.
  match goal with H : update_pool_supply _ _ _ = _ |- _ =>
    apply update_pool_supply_Ok in H as (q & Hq & ->) end.
  match goal with H : add_to_supply_set _ _ _ = _ |- _ =>
    pose proof (respects_Ok _ _ _ _ _ (add_to_supply_set_frame _ _) H) as Hf2;
    apply add_to_supply_set_Ok in H as (Hin & Hus2 & Hud2) end.
  destruct Hf as [Hb1 Ha1 Hp1 _ _ _ He1], Hf2 as [Hb2 Ha2 Hp2 _ _ _ He2].
  cbn in Hb2, Ha2, Hp2, He2, Hus2, Hud2. unfold deposited in *.
  unfold supply_worth in Hx. rewrite Hl in *. do 6 eexists.
  repeat (split; [eassumption|]). cbn. split; [congruence|].
  repeat (split; [eassumption|]). unfold user_supply in *.
  split; [congruence|]. split; [done|]. split; [congruence|].
  split; [congruence | by rewrite He2, Hb1, He1].
Qed.

(** After the accrual the position holds its worth at the new index. *)
Lemma accrued_supply p id who s s1 us :
  accrue_supply_with_interest p id who s = @Ok _ DispatchError _ tt s1 ->
  user_supply id who (lending s1) = Some us ->
  accrual_frame s s1 /\ UserDebts (lending s1) = UserDebts (lending s) /\
  supply_worth (total_supply_index p) id who (lending s) = Some (us_amount us) /\
  us_index us = total_supply_index p /\ is_Some (user_supply id who (lending s)).
Proof.
  intros Hrun Hus.
  pose proof (respects_Ok _ _ _ _ _ (accrue_supply_framed _ _ _) Hrun) as Hf.
  split; [done|]. unfold supply_worth.
  apply accrue_supply_run in Hrun as [[Hnone ->] | (us0 & x & Hus0 & Hx & ->)]; [congruence|].
  unfold user_supply in *. cbn in Hus. rewrite lookup_insert_eq in Hus. injection Hus as <-.
  rewrite Hus0. eauto.
Qed.

Lemma accrued_debt p id who s s1 ud :
  accrue_debt_with_interest p id who s = @Ok _ DispatchError _ tt s1 ->
  user_debt id who (lending s1) = Some ud ->
  accrual_frame s s1 /\ UserSupplies (lending s1) = UserSupplies (lending s) /\
  debt_worth (total_debt_index p) id who (lending s) = Some (ud_amount ud) /\
  ud_index ud = total_debt_index p /\ is_Some (user_debt id who (lending s)).
Proof.
  intros Hrun Hud.
  pose proof (respects_Ok _ _ _ _ _ (accrue_debt_framed _ _ _) Hrun) as Hf.
  split; [done|]. unfold debt_worth.
  apply accrue_debt_run in Hrun as [[Hnone ->] | (ud0 & x & Hud0 & Hx & ->)]; [congruence|].
  unfold user_debt in *. cbn in Hud. rewrite lookup_insert_eq in Hud. injection Hud as <-.
  rewrite Hud0. eauto.
Qed.

Lemma cap_min (a b : N) : (if b <? a then b else a) = N.min a b.
Proof. destruct (N.ltb_spec b a); lia. Qed.

Lemma worth_again p n : pool_ok p -> n <= u128_max ->
  at_index (total_supply_index p) (total_supply_index p) n = Some n /\
  at_index (total_debt_index p) (total_debt_index p) n = Some n.
Proof.
  intros [_ _ [? ?] [? ?] _] Hn. pose proof fx_one_pos. split; apply at_index_self; lia.
Qed.

Lemma check_cash_Ok p amount s s' :
  check_cash p amount s = Ok tt s' ->
  s' = s /\ exists cash, u128_sub (pool_supply p) (pool_debt p) = Some cash /\ amount <= cash.
Proof.
  unfold check_cash. intros H. inv_run.
  match type of H with context [?c <? ?a] => destruct (N.ltb_spec c a) end; [done|].
  inv_run. eauto.
Qed.

Lemma user_info_Ok who s info s' :
  @get_user_info _ _ _ DispatchError who s = Ok info s' ->
  s' = s /\ result (@get_user_info _ _ _ DispatchError who) s = Some info.
Proof.
  intros H. pose proof (respects_Ok _ _ _ _ _ (user_info_pure who) H) as <-.
  split; [done | by eapply result_Ok].
Qed.

Lemma worth_bound idx id who l x : supply_worth idx id who l = Some x -> x <= u128_max.
Proof.
  unfold supply_worth. destruct (user_supply id who l); [apply at_index_bound | by intros [= <-]].
Qed.

Lemma debt_worth_bound idx id who l x : debt_worth idx id who l = Some x -> x <= u128_max.
Proof.
  unfold debt_worth. destruct (user_debt id who l); [apply at_index_bound | by intros [= <-]].
Qed.

Lemma withdraw_Ok who id amount s s' p :
  pool id (lending s) = Some p -> pool_ok p -> accrual_fits (block_number s) p ->
  withdraw (Signed who) id amount s = Ok tt s' ->
  exists p' x s0 s1 b cs cd f cs' cash q,
    let a := N.min amount x in
    accrue_interest_at (block_number s) p = Some p' /\
    is_Some (user_supply id who (lending s)) /\
    supply_worth (total_supply_index p') id who (lending s) = Some x /\
    result (@get_user_info _ _ _ DispatchError who) s = Some (b, cs, cd) /\
    fx_mul (get_rate id s) (safe_factor p') = Some f /\
    u128_sub cs (fx_mul_int f a) = Some cs' /\
    fx_mul_int (LiquidationThreshold (lending s)) cd <= cs' /\
    u128_sub (pool_supply p') (pool_debt p') = Some cash /\ a <= cash /\
    assets s0 = assets s /\ ma_transfer account_id id who a s0 = Ok tt s1 /\
    assets s' = assets s1 /\
    user_supply id who (lending s') = supply_of_amount (x - a) (total_supply_index p') /\
    u128_sub (pool_supply p') a = Some q /\
    Pools (lending s') = <[id := set_pool_supply q p']> (Pools (lending s)) /\
    UserDebts (lending s') = UserDebts (lending s).
Proof.
  intros Hp Hok Hfits (p0 & p' & Hp0 & Hacc & H)%prologue_Ok.
  rewrite Hp in Hp0. injection Hp0 as <-.
  pose proof (accrue_ok _ _ _ Hok Hfits Hacc) as [Hok' _].
  unfold deposit_event, put_lending, get_lending, get_liquidation_threshold in H.
  inv_run. destruct_unit.
  match goal with H : accrue_supply_with_interest _ _ _ _ = Ok _ ?t,
                  H2 : user_supply _ _ (lending ?t) = Some _ |- _ =>
    pose proof (user_info_after_supply_accrual (F := DispatchError) _ _ _ _ _ _ Hp Hok Hok' Hacc H)
      as Hinfo;
    pose proof (accrued_supply _ _ _ _ _ _ H H2) as (Hf & Hdebts & Hx & Hidx & Hsome);
    rename t into s1; rename H2 into Hus1; clear H end.
  match goal with H : get_user_info _ _ = _ |- _ =>
    apply user_info_Ok in H as [-> Hi]; rewrite Hinfo in Hi end.
  match goal with i : (Balance * Balance * Balance)%type |- _ => destruct i as [[b cs] cd] end.
  rewrite !cap_min in H. match goal with u : UserSupply |- _ => set (a := N.min amount (us_amount u)) in * end. inv_run. destruct_unit.
  match goal with H : check_cash _ _ _ = _ |- _ =>
    apply check_cash_Ok in H as (-> & cash & Hcash & Hle) end.
  match goal with H : transfer_or_fail _ _ _ _ _ = _ |- _ =>
    apply transfer_or_fail_Ok in H as (Htr & [_ _ Hl _ _] & Hpos) end.
  match goal with H : update_pool_supply _ _ _ = _ |- _ =>
    apply update_pool_supply_Ok in H as (q & Hq & ->) end.
  pose proof (worth_bound _ _ _ _ _ Hx) as Hxb.
  match goal with H : update_user_supply _ _ _ _ _ _ = _ |- _ =>
    pose proof (respects_Ok _ _ _ _ _ (update_supply_frame _ _ _ _ _) H) as [_ Ha Hpl _ _ _ _];
    apply update_supply_Ok in H as (y & n & Hy & Hn & Hus & Hud & _) end;
    [|lia|rewrite Hl, Hus1; done].
  unfold supply_worth in Hy. rewrite Hl, Hus1, Hidx in Hy.
  rewrite (proj1 (worth_again _ _ Hok' Hxb)) in Hy. injection Hy as <-.
  unfold u128_move, u128_sub in Hn. rewrite usub_in_range in Hn by lia. injection Hn as <-.
  destruct Hf as [_ Has Hpools _ _ Hthr _ _]. rewrite Hthr in *.
  match goal with H : fx_mul _ _ = Some _ |- _ =>
    rewrite (get_rate_local s s1) in H by (by rewrite Has) end.
  unfold a in *.
  do 11 eexists. cbv zeta. repeat (split; [eassumption|]).
  split; [by apply N.leb_le|]. repeat (split; [eassumption|]). cbn.
  split; congruence.
Qed.

(** An accrual does not change what a position is worth at the accrued index. *)
Lemma debt_worth_accrued p id who s s1 :
  pool_ok p -> accrue_debt_with_interest p id who s = @Ok _ DispatchError _ tt s1 ->
  debt_worth (total_debt_index p) id who (lending s1) =
  debt_worth (total_debt_index p) id who (lending s).
Proof.
  intros Hok [[_ ->] | (ud & x & Hud & Hx & ->)]%accrue_debt_run; [done|].
  unfold debt_worth, user_debt in *. cbn. rewrite lookup_insert_eq, Hud, Hx. cbn.
  by apply (worth_again p x Hok), (at_index_bound _ _ _ _ Hx).
Qed.

Lemma borrow_Ok who id amount s s' p :
  amount <= u128_max ->
  pool id (lending s) = Some p -> pool_ok p -> accrual_fits (block_number s) p ->
  borrow (Signed who) id amount s = Ok tt s' ->
  exists p' x n s0 s1 b cs cd total cash q,
    accrue_interest_at (block_number s) p = Some p' /\
    u128_sub (pool_supply p') (pool_debt p') = Some cash /\ amount <= cash /\
    debt_worth (total_debt_index p') id who (lending s) = Some x /\
    result (@get_user_info _ _ _ DispatchError who) s = Some (b, cs, cd) /\
    u128_add cd (fx_mul_int (get_rate id s) amount) = Some total /\
    fx_mul_int (LiquidationThreshold (lending s)) total <= cs /\
    assets s0 = assets s /\ ma_transfer account_id id who amount s0 = Ok tt s1 /\
    assets s' = assets s1 /\
    u128_add x amount = Some n /\
    user_debt id who (lending s') = debt_of_amount n (total_debt_index p') /\
    id ∈ user_debt_set who (lending s') /\
    u128_add (pool_debt p') amount = Some q /\
    Pools (lending s') = <[id := set_pool_debt q p']> (Pools (lending s)) /\
    UserSupplies (lending s') = UserSupplies (lending s).
Proof.
  intros Hamt Hp Hok Hfits (p0 & p' & Hp0 & Hacc & H)%prologue_Ok.
  rewrite Hp in Hp0. injection Hp0 as <-.
  pose proof (accrue_ok _ _ _ Hok Hfits Hacc) as [Hok' _].
  unfold deposit_event, put_lending, get_lending, get_liquidation_threshold in H.
  inv_run. destruct_unit.
  match goal with H : check_cash _ _ _ = _ |- _ =>
    apply check_cash_Ok in H as (-> & cash & Hcash & Hle) end.
  match goal with H : accrue_debt_with_interest _ _ _ _ = Ok _ ?t |- _ =>
    pose proof (user_info_after_debt_accrual (F := DispatchError) _ _ _ _ _ _ Hp Hok Hok' Hacc H)
      as Hinfo;
    pose proof (debt_worth_accrued _ _ _ _ _ Hok' H) as Hworth;
    pose proof (respects_Ok _ _ _ _ _ (accrue_debt_framed _ _ _) H)
      as [_ Has Hpools _ _ Hthr _ _];
    assert (UserSupplies (lending t) = UserSupplies (lending s)) as Hsup
      by (apply accrue_debt_run in H as [[_ ->] | (? & ? & _ & _ & ->)]; done);
    rename t into s1; clear H end.
  match goal with H : get_user_info _ _ = _ |- _ =>
    apply user_info_Ok in H as [-> Hi]; rewrite Hinfo in Hi end.
  match goal with i : (Balance * Balance * Balance)%type |- _ => destruct i as [[b cs] cd] end.
  inv_run. destruct_unit.
  match goal with H : transfer_or_fail _ _ _ _ _ = _ |- _ =>
    apply transfer_or_fail_Ok in H as (Htr & [_ _ Hl _ _] & Hpos) end.
  match goal with H : update_pool_debt _ _ _ = _ |- _ =>
    apply update_pool_debt_Ok in H as (q & Hq & ->) end.
  match goal with H : update_user_debt _ _ _ _ _ _ = _ |- _ =>
    pose proof (respects_Ok _ _ _ _ _ (update_debt_frame _ _ _ _ _) H) as [_ Ha Hpl _ _ _ _];
    apply update_debt_Ok in H as (x & n & Hx & Hn & Hud & Hus & _); [|done|done] end.
  match goal with H : add_to_debt_set _ _ _ = _ |- _ =>
    pose proof (respects_Ok _ _ _ _ _ (add_to_debt_set_frame _ _) H) as [_ Ha2 Hpl2 _ _ _ _];
    apply add_to_debt_set_Ok in H as (Hin & Hud2 & Hus2) end.
  rewrite Hl in Hx. rewrite Hworth in Hx. rewrite Hthr in *.
  match goal with H : u128_add _ (fx_mul_int _ _) = Some _ |- _ =>
    rewrite (get_rate_local s s1) in H by (by rewrite Has) end.
  cbn in Ha2, Hpl2, Hud2, Hus2. unfold user_debt in *.
  do 11 eexists. repeat (split; [eassumption|]).
  split; [by apply N.leb_le|]. repeat (split; [eassumption|]). cbn.
  split; [congruence|]. split; [eassumption|]. split; [congruence|]. split; [done|].
  split; [eassumption|]. split; congruence.
Qed.

Lemma repay_Ok who id amount s s' p :
  pool id (lending s) = Some p -> pool_ok p -> accrual_fits (block_number s) p ->
  repay (Signed who) id amount s = Ok tt s' ->
  exists p' x s0 s1 q,
    let a := N.min amount x in
    accrue_interest_at (block_number s) p = Some p' /\
    is_Some (user_debt id who (lending s)) /\
    debt_worth (total_debt_index p') id who (lending s) = Some x /\
    assets s0 = assets s /\ ma_transfer who id account_id a s0 = Ok tt s1 /\
    assets s' = assets s1 /\
    user_debt id who (lending s') = debt_of_amount (x - a) (total_debt_index p') /\
    u128_sub (pool_debt p') a = Some q /\
    Pools (lending s') = <[id := set_pool_debt q p']> (Pools (lending s)) /\
    UserSupplies (lending s') = UserSupplies (lending s).
Proof.
  intros Hp Hok Hfits (p0 & p' & Hp0 & Hacc & H)%prologue_Ok.
  rewrite Hp in Hp0. injection Hp0 as <-.
  pose proof (accrue_ok _ _ _ Hok Hfits Hacc) as [Hok' _].
  unfold deposit_event, put_lending, get_lending in H. inv_run. destruct_unit.
  match goal with H : accrue_debt_with_interest _ _ _ _ = Ok _ ?t,
                  H2 : user_debt _ _ (lending ?t) = Some _ |- _ =>
    pose proof (accrued_debt _ _ _ _ _ _ H H2) as (Hf & Hsup & Hx & Hidx & Hsome);
    rename t into s1; rename H2 into Hud1; clear H end.
  rewrite !cap_min in *.
  match goal with u : UserDebt |- _ => set (a := N.min amount (ud_amount u)) in * end.
  match goal with H : transfer_or_fail _ _ _ _ _ = _ |- _ =>
    apply transfer_or_fail_Ok in H as (Htr & [_ _ Hl _ _] & Hpos) end.
  match goal with H : update_pool_debt _ _ _ = _ |- _ =>
    apply update_pool_debt_Ok in H as (q & Hq & ->) end.
  pose proof (debt_worth_bound _ _ _ _ _ Hx) as Hxb.
  match goal with H : update_user_debt _ _ _ _ _ _ = _ |- _ =>
    pose proof (respects_Ok _ _ _ _ _ (update_debt_frame _ _ _ _ _) H) as [_ Ha Hpl _ _ _ _];
    apply update_debt_Ok in H as (y & n & Hy & Hn & Hud & Hus & _) end;
    [|lia|rewrite Hl, Hud1; done].
  unfold debt_worth in Hy. rewrite Hl, Hud1, Hidx in Hy.
  rewrite (proj2 (worth_again _ _ Hok' Hxb)) in Hy. injection Hy as <-.
  unfold u128_move, u128_sub in Hn. rewrite usub_in_range in Hn by lia. injection Hn as <-.
  destruct Hf as [_ Has Hpools _ _ _ _ _]. unfold a in *.
  do 5 eexists. cbv zeta. repeat (split; [eassumption|]). cbn. split; congruence.
Qed.

(** The first half of a liquidation: both accruals, then the health check, which
    sees what [get_user_info] reports of the original state. *)
Lemma liquidate_prologue target pay_id get_id gp pp gp' pp' s s1 s2 info s3 :
  pool get_id (lending s) = Some gp -> pool pay_id (lending s) = Some pp ->
  pool_ok gp -> pool_ok pp -> pool_ok gp' -> pool_ok pp' ->
  accrue_interest_at (block_number s) gp = Some gp' ->
  accrue_interest_at (block_number s) pp = Some pp' ->
  accrue_supply_with_interest gp' get_id target s = @Ok _ DispatchError _ tt s1 ->
  accrue_debt_with_interest pp' pay_id target s1 = @Ok _ DispatchError _ tt s2 ->
  @get_user_info _ _ _ DispatchError target s2 = Ok info s3 ->
  s3 = s2 /\ result (@get_user_info _ _ _ DispatchError target) s = Some info /\
  accrual_frame s s2 /\
  supply_worth (total_supply_index gp') get_id target (lending s2) =
    supply_worth (total_supply_index gp') get_id target (lending s) /\
  debt_worth (total_debt_index pp') pay_id target (lending s2) =
    debt_worth (total_debt_index pp') pay_id target (lending s) /\
  (forall us, user_supply get_id target (lending s2) = Some us ->
    us_index us = total_supply_index gp' /\
    supply_worth (total_supply_index gp') get_id target (lending s) = Some (us_amount us)) /\
  (forall ud, user_debt pay_id target (lending s2) = Some ud ->
    ud_index ud = total_debt_index pp' /\
    debt_worth (total_debt_index pp') pay_id target (lending s) = Some (ud_amount ud)).
Proof.
  intros Hg Hp Hgok Hpok Hgok' Hpok' Hga Hpa H1 H2 H3.
  pose proof (respects_Ok _ _ _ _ _ (accrue_supply_framed _ _ _) H1) as Hf1.
  pose proof (respects_Ok _ _ _ _ _ (accrue_debt_framed _ _ _) H2) as Hf2.
  assert (pool pay_id (lending s1) = Some pp) as Hp1
    by (unfold pool in *; by rewrite (af_pools _ _ Hf1)).
  assert (accrue_interest_at (block_number s1) pp = Some pp') as Hpa1
    by (by rewrite (af_block_number _ _ Hf1)).
  apply user_info_Ok in H3 as [-> Hi].
  rewrite (user_info_after_debt_accrual _ _ _ _ _ _ Hp1 Hpok Hpok' Hpa1 H2) in Hi.
  rewrite (user_info_after_supply_accrual _ _ _ _ _ _ Hg Hgok Hgok' Hga H1) in Hi.
  assert (UserSupplies (lending s2) = UserSupplies (lending s1)) as Hus2
    by (apply accrue_debt_run in H2 as [[_ ->] | (? & ? & _ & _ & ->)]; done).
  assert (UserDebts (lending s1) = UserDebts (lending s)) as Hud1
    by (apply accrue_supply_run in H1 as [[_ ->] | (? & ? & _ & _ & ->)]; done).
  pose proof (debt_worth_accrued _ _ _ _ _ Hpok' H2) as Hdw.
  assert (debt_worth (total_debt_index pp') pay_id target (lending s1) =
          debt_worth (total_debt_index pp') pay_id target (lending s)) as Hdw1
    by (unfold debt_worth, user_debt; by rewrite Hud1).
  split; [done|]. split; [done|]. split; [by etrans|].
  split.
  { unfold supply_worth, user_supply. rewrite Hus2.
    apply accrue_supply_run in H1 as [[_ ->] | (us & x & Hus & Hx & ->)]; [done|].
    unfold user_supply in *. cbn. rewrite lookup_insert_eq, Hus, Hx. cbn.
    by apply (worth_again gp' x Hgok'), (at_index_bound _ _ _ _ Hx). }
  split; [by rewrite Hdw|]. split.
  - intros us Hus. unfold user_supply in Hus. rewrite Hus2 in Hus.
    by destruct (accrued_supply _ _ _ _ _ _ H1 Hus) as (_ & _ & ? & ? & _).
  - intros ud Hud. destruct (accrued_debt _ _ _ _ _ _ H2 Hud) as (_ & _ & Hw & ? & _).
    by rewrite <- Hdw1.
Qed.

(** The second half: two transfers, two position updates, two pool writes. *)
Lemma settle_Ok who target pay_id get_id pay got gp' pp' us ud s s1 s2 s3 s' :
  pool_ok gp' -> pool_ok pp' ->
  user_supply get_id target (lending s) = Some us -> us_index us = total_supply_index gp' ->
  us_amount us <= u128_max ->
  user_debt pay_id target (lending s) = Some ud -> ud_index ud = total_debt_index pp' ->
  pay <= ud_amount ud -> ud_amount ud <= u128_max -> got <= u128_max ->
  transfer_or_fail who pay_id account_id pay s = Ok tt s1 ->
  transfer_or_fail account_id get_id who got s1 = Ok tt s2 ->
  update_user_supply gp' get_id target got false s2 = @Ok _ DispatchError _ tt s3 ->
  update_user_debt pp' pay_id target pay false s3 = @Ok _ DispatchError _ tt s' ->
  exists n,
    ma_transfer who pay_id account_id pay s = Ok tt s1 /\
    ma_transfer account_id get_id who got s1 = Ok tt s2 /\ assets s' = assets s2 /\
    u128_sub (us_amount us) got = Some n /\
    user_supply get_id target (lending s') = supply_of_amount n (total_supply_index gp') /\
    user_debt pay_id target (lending s') =
      debt_of_amount (ud_amount ud - pay) (total_debt_index pp') /\
    Pools (lending s') = Pools (lending s).
Proof.
  intros Hgok Hpok Hus Husi Husb Hud Hudi Hpay Hudb Hgot H1 H2 H3 H4.
  apply transfer_or_fail_Ok in H1 as (Htr1 & [_ _ Hl1 _ _] & _).
  apply transfer_or_fail_Ok in H2 as (Htr2 & [_ _ Hl _ _] & _). rewrite Hl1 in Hl.
  pose proof (respects_Ok _ _ _ _ _ (update_supply_frame _ _ _ _ _) H3) as [_ Ha1 Hp1 _ _ _ _].
  apply update_supply_Ok in H3 as (x & n & Hx & Hn & Hs1 & Hd1 & _); [|done|by rewrite Hl, Hus].
  pose proof (respects_Ok _ _ _ _ _ (update_debt_frame _ _ _ _ _) H4) as [_ Ha2 Hp2 _ _ _ _].
  apply update_debt_Ok in H4 as (y & m & Hy & Hm & Hd2 & Hs2 & _);
    [|lia|unfold user_debt in *; by rewrite Hd1, Hl, Hud].
  unfold supply_worth in Hx. rewrite Hl, Hus, Husi in Hx.
  rewrite (proj1 (worth_again _ _ Hgok Husb)) in Hx. injection Hx as <-.
  unfold debt_worth, user_debt in Hy. rewrite Hd1, Hl in Hy. unfold user_debt in Hud.
  rewrite Hud, Hudi in Hy. rewrite (proj2 (worth_again _ _ Hpok Hudb)) in Hy. injection Hy as <-.
  unfold u128_move in Hm, Hn. unfold u128_sub in Hm. rewrite usub_in_range in Hm by lia.
  injection Hm as <-. unfold user_supply, user_debt in *. cbn.
  exists n. repeat (split; [eassumption|]). split; [congruence|].
  split; [eassumption|]. split; [congruence|]. split; [done | congruence].
Qed.

Lemma liquidate_Ok who target pay_id get_id amount s s' gp pp :
  pool get_id (lending s) = Some gp -> pool pay_id (lending s) = Some pp ->
  pool_ok gp -> pool_ok pp ->
  accrual_fits (block_number s) gp -> accrual_fits (block_number s) pp ->
  liquidate (Signed who) target pay_id get_id amount s = Ok tt s' ->
  exists gp' pp' sx dx b cs cd r rel inv got_rate n s0 s1 s2,
    let pay_limit := fx_mul_int rel (fx_mul_int (close_factor gp') sx) in
    let pay := N.min (N.min amount pay_limit) dx in
    let got := fx_mul_int got_rate pay in
    can_be_collateral gp = true /\
    accrue_interest_at (block_number s) gp = Some gp' /\
    accrue_interest_at (block_number s) pp = Some pp' /\
    result (@get_user_info _ _ _ DispatchError target) s = Some (b, cs, cd) /\
    cs < fx_mul_int (LiquidationThreshold (lending s)) cd /\
    supply_worth (total_supply_index gp') get_id target (lending s) = Some sx /\
    debt_worth (total_debt_index pp') pay_id target (lending s) = Some dx /\
    fx_div (get_rate get_id s) (get_rate pay_id s) = Some r /\
    fx_mul r (discount_factor gp') = Some rel /\
    fx_div (get_rate pay_id s) (get_rate get_id s) = Some inv /\
    fx_div inv (discount_factor gp') = Some got_rate /\
    assets s0 = assets s /\
    ma_transfer who pay_id account_id pay s0 = Ok tt s1 /\
    ma_transfer account_id get_id who got s1 = Ok tt s2 /\ assets s' = assets s2 /\
    u128_sub sx got = Some n /\
    user_supply get_id target (lending s') = supply_of_amount n (total_supply_index gp') /\
    user_debt pay_id target (lending s') = debt_of_amount (dx - pay) (total_debt_index pp') /\
    Pools (lending s') = <[pay_id := pp']> (<[get_id := gp']> (Pools (lending s))).
Proof.
  intros Hg Hp Hgok Hpok Hgf Hpf H. unfold liquidate in H. cbn [ensure_signed] in H.
  unfold accrue_interest, get_lending, get_liquidation_threshold in H.
  inv_run. destruct_unit.
  repeat match goal with
  | H : pool get_id (lending s) = Some ?x |- _ => rewrite Hg in H; injection H as <-
  | H : pool pay_id (lending s) = Some ?x |- _ => rewrite Hp in H; injection H as <- end.
  match goal with
  | Ha : accrue_interest_at _ gp = Some ?g, Hb : accrue_interest_at _ pp = Some ?q |- _ =>
    rename Ha into Hga; rename Hb into Hpa; rename g into gp'; rename q into pp' end.
  pose proof (accrue_ok _ _ _ Hgok Hgf Hga) as [Hgok' _].
  pose proof (accrue_ok _ _ _ Hpok Hpf Hpa) as [Hpok' _].
  match goal with
  | H1 : accrue_supply_with_interest _ _ _ _ = _, H2 : accrue_debt_with_interest _ _ _ _ = _,
    H3 : get_user_info _ _ = _ |- _ =>
    destruct (liquidate_prologue _ _ _ _ _ _ _ _ _ _ _ _ Hg Hp Hgok Hpok Hgok' Hpok' Hga Hpa
      H1 H2 H3) as (-> & Hi & Hf & _ & _ & Hsup & Hdebt); clear H1 H2 H3 end.
  match goal with i : (Balance * Balance * Balance)%type |- _ => destruct i as [[b cs] cd] end.
  inv_run. destruct_unit.
  match goal with
  | Hu : user_supply get_id target _ = Some ?u, Hd : user_debt pay_id target _ = Some ?d |- _ =>
    destruct (Hsup _ Hu) as [Husi Hsw]; destruct (Hdebt _ Hd) as [Hudi Hdw];
    rename Hu into Hus; rename Hd into Hud; rename u into us; rename d into ud end.
  match type of Hf with accrual_frame _ ?t => rename t into s0 end.
  destruct Hf as [_ Has Hpools _ _ Hthr _ _]. rewrite Hthr in *.
  pose proof (worth_bound _ _ _ _ _ Hsw). pose proof (debt_worth_bound _ _ _ _ _ Hdw).
  assert (forall i, get_rate i s0 = get_rate i s) as Hrate
    by (intros i; apply get_rate_local; by rewrite Has).
  rewrite !Hrate in *. rewrite !cap_min in *.
  match goal with
  | H1 : transfer_or_fail who _ _ _ _ = _, H2 : transfer_or_fail account_id _ _ _ _ = _,
    H3 : update_user_supply _ _ _ _ _ _ = _, H4 : update_user_debt _ _ _ _ _ _ = _ |- _ =>
    epose proof (settle_Ok _ _ _ _ _ _ _ _ us ud _ _ _ _ _ Hgok' Hpok' Hus Husi _
      Hud Hudi _ _ _ H1 H2 H3 H4) as Hset end.
  destruct Hset as (n & ? & ? & ? & ? & ? & ? & ?).
  Unshelve. 2-5: first [done | lia | apply fx_mul_int_bound].
  unfold put_lending in *. inv_run.
  do 15 eexists. cbv zeta. repeat (split; [eassumption|]).
  split; [by apply N.ltb_lt|]. repeat (split; [eassumption|]). cbn. congruence.
Qed.
End Call_effects.
