(* ===== verification/LendingProgress.v ===== *)
(** * Lending: when the calls succeed

    The forward direction: with the pool accrued, the amounts in range and the
    money there, each call returns [Ok]; with a guard violated it returns that
    guard's error.  Together with the inversions of [LendingSafety.v] this gives
    the total behaviour of the calls. *)

From S2P Require Export LendingSafety.

Local Open Scope N_scope.
Local Open Scope rust_scope.

Section Steps.
Context {cfg : Config} {fo : FixedOps} {fl : FixedLaws fo} {orc : Oracle} {ol : OracleLaws orc}.
Context {ma : MultiAsset} {mal : MultiAssetLaws ma}.

Lemma transfer_goes from id to amount s :
  ma_inv s -> 0 < amount -> amount <= ma_balance s id from ->
  exists s', transfer_or_fail from id to amount s = Ok tt s'.
Proof.
  intros Hinv Hpos Hle.
  destruct (proj2 (ma_accepts from id to amount s Hinv) (conj Hpos Hle)) as [s' Hrun].
  exists s'. unfold transfer_or_fail, map_err. by rewrite Hrun.
Qed.

Lemma transfer_refused from id to amount s :
  ma_inv s -> amount = 0 \/ ma_balance s id from < amount ->
  transfer_or_fail from id to amount s = Err (Module_ TransferFailed) s.
Proof.
  intros Hinv Hbad. unfold transfer_or_fail, map_err.
  destruct (ma_transfer from id to amount s) as [[] s'|e s'|] eqn:Hrun.
  - assert (exists s', ma_transfer from id to amount s = Ok tt s') as Hok by eauto.
    apply ma_accepts in Hok; [lia | done].
  - by rewrite (ma_failed _ _ _ _ _ _ _ Hrun).
  - by destruct (ma_no_panic from id to amount s Hinv).
Qed.

(** The common prologue, run. *)
Lemma prologue_run {A} who id (k : AccountId -> Pool -> RT DispatchError A) s p p' :
  pool id (lending s) = Some p -> accrue_interest_at (block_number s) p = Some p' ->
  (account <- ensure_signed (Signed who) ;;
   found <- get_lending (pool id) ;;
   p <- ok_or found (Module_ PoolNotExist) ;;
   p <- accrue_interest p ;;
   k account p) s = k who p' s.
Proof.
  intros Hp Hacc. unfold accrue_interest, bind, ensure_signed, ret, get_lending, gets, ok_or.
  rewrite Hp. cbv [ret]. by rewrite Hacc.
Qed.

Lemma update_supply_total {E} p id who amount positive s x n :
  supply_worth (total_supply_index p) id who (lending s) = Some x ->
  u128_move positive x amount = Some n ->
  exists s', @update_user_supply _ _ E p id who amount positive s = Ok tt s'.
Proof.
  intros Hx Hn. unfold supply_worth in Hx.
  unfold update_user_supply, get_lending, put_lending, bind, gets.
  destruct (user_supply id who (lending s)) as [us|].
  - rewrite Hx. cbn. rewrite Hn. cbn. destruct (n =? 0); cbn; eauto.
  - destruct (amount =? 0); cbn; eauto.
Qed.

Lemma update_debt_total {E} p id who amount positive s x n :
  debt_worth (total_debt_index p) id who (lending s) = Some x ->
  u128_move positive x amount = Some n ->
  exists s', @update_user_debt _ _ E p id who amount positive s = Ok tt s'.
Proof.
  intros Hx Hn. unfold debt_worth in Hx.
  unfold update_user_debt, get_lending, put_lending, bind, gets.
  destruct (user_debt id who (lending s)) as [ud|].
  - rewrite Hx. cbn. rewrite Hn. cbn. destruct (n =? 0); cbn; eauto.
  - destruct (amount =? 0); cbn; eauto.
Qed.

Lemma add_to_supply_set_total who id s : exists s', add_to_supply_set who id s = Ok tt s'.
Proof.
  unfold add_to_supply_set, get_lending, put_lending, bind, gets.
  destruct (contains _ _); cbn; eauto.
Qed.

Lemma add_to_debt_set_total who id s : exists s', add_to_debt_set who id s = Ok tt s'.
Proof.
  unfold add_to_debt_set, get_lending, put_lending, bind, gets.
  destruct (contains _ _); cbn; eauto.
Qed.

Lemma accrue_supply_total {E} p id who s x :
  supply_worth (total_supply_index p) id who (lending s) = Some x ->
  exists s1, @accrue_supply_with_interest _ _ E p id who s = Ok tt s1.
Proof.
  unfold supply_worth, accrue_supply_with_interest, get_lending, put_lending, bind, gets.
  destruct (user_supply id who (lending s)); [intros ->|]; cbn; eauto.
Qed.

Lemma accrue_debt_total {E} p id who s x :
  debt_worth (total_debt_index p) id who (lending s) = Some x ->
  exists s1, @accrue_debt_with_interest _ _ E p id who s = Ok tt s1.
Proof.
  unfold debt_worth, accrue_debt_with_interest, get_lending, put_lending, bind, gets.
  destruct (user_debt id who (lending s)); [intros ->|]; cbn; eauto.
Qed.

(** A read-only run with a known value. *)
Lemma pure_run {E A} (m : RT E A) s a : respects eq m -> result m s = Some a -> m s = Ok a s.
Proof.
  intros Hpure. specialize (Hpure s). unfold result. destruct (m s); [|done|done].
  subst. by intros [= ->].
Qed.

Lemma check_cash_run p amount s cash :
  u128_sub (pool_supply p) (pool_debt p) = Some cash ->
  check_cash p amount s =
    if cash <? amount then Err (Module_ NotEnoughLiquidity) s else Ok tt s.
Proof.
  intros Hcash. unfold check_cash. rewrite Hcash. unfold bind; cbn. by destruct (cash <? amount).
Qed.

(** The money of a call, told at the state before it. *)
Lemma money_moved from id to amount s s0 s1 s' :
  ma_inv s -> assets s0 = assets s -> ma_transfer from id to amount s0 = Ok tt s1 ->
  assets s' = assets s1 ->
  forall id' u,
    ma_balance s' id' u + (if decide (id' = id /\ u = from) then amount else 0) =
    ma_balance s id' u + (if decide (id' = id /\ u = to) then amount else 0).
Proof.
  intros Hinv H0 Hrun H1 id' u. rewrite (ma_balance_local s1 s' id' u H1).
  rewrite <- (ma_balance_local s s0 id' u H0).
  apply (ma_moves _ _ _ _ _ _ _ _ (ma_inv_local s s0 H0 Hinv) Hrun).
Qed.

(* ---------------------------------------------------------------- *)
(** *** The calls                                                     *)
(* ---------------------------------------------------------------- *)

Section Supply.
Context (who : AccountId) (id : AssetId) (amount : Balance) (s : Chain) (p p' : Pool) (x : Balance).
Hypothesis inv : ma_inv s.
Hypothesis Hp : pool id (lending s) = Some p.
Hypothesis Hacc : accrue_interest_at (block_number s) p = Some p'.
Hypothesis Hx : supply_worth (total_supply_index p') id who (lending s) = Some x.
Hypothesis Hfit : x + amount <= u128_max.
Hypothesis Hfit_pool : pool_supply p' + amount <= u128_max.

Lemma supply_refused :
  amount = 0 \/ ma_balance s id who < amount ->
  supply (Signed who) id amount s = Err (Module_ TransferFailed) s.
Proof.
  intros Hbad. unfold supply. rewrite (prologue_run _ _ _ _ _ _ Hp Hacc).
  apply bind_run_err, transfer_refused; done.
Qed.

Lemma supply_succeeds :
  0 < amount -> amount <= ma_balance s id who ->
  exists s', supply (Signed who) id amount s = Ok tt s'.
Proof.
  intros Hpos Hle. unfold supply. rewrite (prologue_run _ _ _ _ _ _ Hp Hacc).
  destruct (transfer_goes who id account_id amount s inv Hpos Hle) as [s1 Hs1].
  rewrite (bind_run _ _ _ _ _ Hs1).
  apply transfer_or_fail_Ok in Hs1 as (_ & [_ _ Hl _ _] & _).
  edestruct (update_supply_total (E := DispatchError) p' id who amount true s1) as [s2 Hs2];
    [by rewrite Hl | apply uadd_in_range; by apply u128_max_modulus |].
  rewrite (bind_run _ _ _ _ _ Hs2). unfold update_pool_supply, u128_move, u128_add.
  rewrite uadd_in_range by (by apply u128_max_modulus). cbn [obind or_panic].
  unfold bind at 1, ret at 1, bind at 1, deposit_event at 1, modify at 1.
  edestruct add_to_supply_set_total as [s3 Hs3].
  rewrite (bind_run _ _ _ _ _ Hs3). eauto.
Qed.
End Supply.

Section Borrow.
Context (who : AccountId) (id : AssetId) (amount : Balance) (s : Chain) (p p' : Pool).
Context (x cash b cs cd total : Balance).
Hypothesis inv : ma_inv s.
Hypothesis Hp : pool id (lending s) = Some p.
Hypothesis Hok : pool_ok p.
Hypothesis Hfits : accrual_fits (block_number s) p.
Hypothesis Hacc : accrue_interest_at (block_number s) p = Some p'.
Hypothesis Hcash : u128_sub (pool_supply p') (pool_debt p') = Some cash.
Hypothesis Hx : debt_worth (total_debt_index p') id who (lending s) = Some x.
Hypothesis Hinfo : result (@get_user_info _ _ _ DispatchError who) s = Some (b, cs, cd).
Hypothesis Htotal : u128_add cd (fx_mul_int (get_rate id s) amount) = Some total.
Hypothesis Hfit : x + amount <= u128_max.
Hypothesis Hfit_pool : pool_debt p' + amount <= u128_max.

Lemma borrow_no_cash :
  cash < amount -> borrow (Signed who) id amount s = Err (Module_ NotEnoughLiquidity) s.
Proof.
  intros Hlt. unfold borrow. rewrite (prologue_run _ _ _ _ _ _ Hp Hacc).
  apply bind_run_err. rewrite (check_cash_run _ _ _ _ Hcash).
  by rewrite (proj2 (N.ltb_lt _ _) Hlt).
Qed.

(** Up to the collateral check: the debt is accrued, nothing else moves. *)
Lemma borrow_checked :
  amount <= cash ->
  exists s1, accrual_frame s s1 /\
    debt_worth (total_debt_index p') id who (lending s1) = Some x /\
    borrow (Signed who) id amount s =
      (ensure (fx_mul_int (LiquidationThreshold (lending s)) total <=? cs)
         (Module_ BelowLiquidationThreshold) ;;;
       transfer_or_fail account_id id who amount ;;;
       update_user_debt p' id who amount true ;;;
       pool <- or_panic (update_pool_debt p' amount true) ;;
       deposit_event (EvLending (Borrowed id who amount)) ;;;
       add_to_debt_set who id ;;;
       put_lending (set_Pools <[id := pool]>)) s1.
Proof.
  intros Hle. pose proof (accrue_ok _ _ _ Hok Hfits Hacc) as [Hok' _].
  destruct (accrue_debt_total (E := DispatchError) p' id who s x Hx) as [s1 Hs1].
  pose proof (respects_Ok _ _ _ _ _ (accrue_debt_framed _ _ _) Hs1) as Hf.
  exists s1. split; [done|]. split; [by rewrite (debt_worth_accrued _ _ _ _ _ Hok' Hs1)|].
  unfold borrow. rewrite (prologue_run _ _ _ _ _ _ Hp Hacc).
  rewrite (bind_run _ _ s tt s)
    by (by rewrite (check_cash_run _ _ _ _ Hcash), (proj2 (N.ltb_ge _ _) Hle)).
  rewrite (bind_run _ _ _ _ _ Hs1).
  rewrite (bind_run _ _ s1 (b, cs, cd) s1)
    by (apply pure_run; [apply user_info_pure|];
        by rewrite (user_info_after_debt_accrual _ _ _ _ _ _ Hp Hok Hok' Hacc Hs1)).
  unfold bind at 1, gets at 1. rewrite (get_rate_local s s1) by (by rewrite (af_assets _ _ Hf)).
  rewrite Htotal. unfold bind at 1, or_panic at 1, ret at 1, bind at 1, get_lending, gets,
    get_liquidation_threshold. by rewrite (af_threshold _ _ Hf).
Qed.

Lemma borrow_below :
  amount <= cash -> cs < fx_mul_int (LiquidationThreshold (lending s)) total ->
  exists s1, accrual_frame s s1 /\
    borrow (Signed who) id amount s = Err (Module_ BelowLiquidationThreshold) s1.
Proof.
  intros Hle Hlt. destruct (borrow_checked Hle) as (s1 & Hf & _ & ->). exists s1.
  split; [done|]. apply bind_run_err. unfold ensure. by rewrite (proj2 (N.leb_gt _ _) Hlt).
Qed.

Lemma borrow_refused :
  amount <= cash -> fx_mul_int (LiquidationThreshold (lending s)) total <= cs ->
  amount = 0 \/ ma_balance s id account_id < amount ->
  exists s1, accrual_frame s s1 /\
    borrow (Signed who) id amount s = Err (Module_ TransferFailed) s1.
Proof.
  intros Hle Hge Hbad. destruct (borrow_checked Hle) as (s1 & Hf & _ & ->). exists s1.
  split; [done|]. unfold ensure at 1, bind at 1. rewrite (proj2 (N.leb_le _ _) Hge).
  apply bind_run_err, transfer_refused.
  - by apply (ma_inv_local s), inv; apply Hf.
  - by rewrite (ma_balance_local s s1) by apply Hf.
Qed.

Lemma borrow_succeeds :
  amount <= cash -> fx_mul_int (LiquidationThreshold (lending s)) total <= cs ->
  0 < amount -> amount <= ma_balance s id account_id ->
  exists s', borrow (Signed who) id amount s = Ok tt s'.
Proof.
  intros Hle Hge Hpos Hbal. destruct (borrow_checked Hle) as (s1 & Hf & Hx1 & ->).
  unfold ensure at 1, bind at 1. rewrite (proj2 (N.leb_le _ _) Hge).
  destruct (transfer_goes account_id id who amount s1) as [s2 Hs2];
    [by apply (ma_inv_local s), inv; apply Hf | done |
     by rewrite (ma_balance_local s s1) by apply Hf |].
  rewrite (bind_run _ _ _ _ _ Hs2).
  apply transfer_or_fail_Ok in Hs2 as (_ & [_ _ Hl _ _] & _).
  edestruct (update_debt_total (E := DispatchError) p' id who amount true s2) as [s3 Hs3];
    [by rewrite Hl | apply uadd_in_range; by apply u128_max_modulus |].
  rewrite (bind_run _ _ _ _ _ Hs3). unfold update_pool_debt, u128_move, u128_add.
  rewrite uadd_in_range by (by apply u128_max_modulus). cbn [obind or_panic].
  unfold bind at 1, ret at 1, bind at 1, deposit_event at 1, modify at 1.
  edestruct add_to_debt_set_total as [s4 Hs4].
  rewrite (bind_run _ _ _ _ _ Hs4). eauto.
Qed.
End Borrow.

Section Repay.
Context (who : AccountId) (id : AssetId) (amount : Balance) (s : Chain) (p p' : Pool) (x : Balance).
Hypothesis inv : ma_inv s.
Hypothesis Hp : pool id (lending s) = Some p.
Hypothesis Hok : pool_ok p.
Hypothesis Hfits : accrual_fits (block_number s) p.
Hypothesis Hacc : accrue_interest_at (block_number s) p = Some p'.

Lemma repay_no_debt :
  user_debt id who (lending s) = None ->
  repay (Signed who) id amount s = Err (Module_ UserNoDebt) s.
Proof.
  intros Hnone. unfold repay. rewrite (prologue_run _ _ _ _ _ _ Hp Hacc).
  unfold accrue_debt_with_interest, get_lending, bind, gets. rewrite Hnone.
  unfold ret. by rewrite Hnone.
Qed.

Hypothesis Hsome : is_Some (user_debt id who (lending s)).
Hypothesis Hx : debt_worth (total_debt_index p') id who (lending s) = Some x.
Let a : Balance := N.min amount x.
Hypothesis Hpool : a <= pool_debt p'.

(** Up to the payment: the debt is accrued and its worth is known. *)
Lemma repay_checked :
  exists s1, accrual_frame s s1 /\
    debt_worth (total_debt_index p') id who (lending s1) = Some x /\
    repay (Signed who) id amount s =
      (transfer_or_fail who id account_id a ;;;
       update_user_debt p' id who a false ;;;
       pool <- or_panic (update_pool_debt p' a false) ;;
       deposit_event (EvLending (Repaid id who a)) ;;;
       put_lending (set_Pools <[id := pool]>)) s1.
Proof.
  pose proof (accrue_ok _ _ _ Hok Hfits Hacc) as [Hok' _].
  destruct (accrue_debt_total (E := DispatchError) p' id who s x Hx) as [s1 Hs1].
  pose proof (respects_Ok _ _ _ _ _ (accrue_debt_framed _ _ _) Hs1) as Hf.
  pose proof (debt_worth_accrued _ _ _ _ _ Hok' Hs1) as Hw.
  assert (is_Some (user_debt id who (lending s1))) as [ud Hud].
  { apply accrue_debt_run in Hs1 as [[Hn ->] | (? & ? & _ & _ & ->)]; [done|].
    unfold user_debt. cbn. by rewrite lookup_insert_eq. }
  destruct (accrued_debt _ _ _ _ _ _ Hs1 Hud) as (_ & _ & Hw1 & _ & _).
  rewrite Hx in Hw1. injection Hw1 as Hamt.
  exists s1. split; [done|]. split; [by rewrite Hw|].
  unfold repay. rewrite (prologue_run _ _ _ _ _ _ Hp Hacc), (bind_run _ _ _ _ _ Hs1).
  unfold bind at 1, get_lending, gets. rewrite Hud. cbn [ok_or]. unfold bind at 1, ret at 1.
  by rewrite cap_min, <- Hamt.
Qed.

Lemma repay_refused :
  a = 0 \/ ma_balance s id who < a ->
  exists s1, accrual_frame s s1 /\ repay (Signed who) id amount s = Err (Module_ TransferFailed) s1.
Proof.
  intros Hbad. destruct repay_checked as (s1 & Hf & _ & ->). exists s1. split; [done|].
  apply bind_run_err, transfer_refused.
  - by apply (ma_inv_local s), inv; apply Hf.
  - by rewrite (ma_balance_local s s1) by apply Hf.
Qed.

Lemma repay_succeeds :
  0 < a -> a <= ma_balance s id who -> exists s', repay (Signed who) id amount s = Ok tt s'.
Proof.
  intros Hpos Hbal. destruct repay_checked as (s1 & Hf & Hx1 & ->).
  destruct (transfer_goes who id account_id a s1) as [s2 Hs2];
    [by apply (ma_inv_local s), inv; apply Hf | done |
     by rewrite (ma_balance_local s s1) by apply Hf |].
  rewrite (bind_run _ _ _ _ _ Hs2).
  apply transfer_or_fail_Ok in Hs2 as (_ & [_ _ Hl _ _] & _).
  edestruct (update_debt_total (E := DispatchError) p' id who a false s2) as [s3 Hs3];
    [by rewrite Hl | apply usub_in_range; unfold a; lia |].
  rewrite (bind_run _ _ _ _ _ Hs3). unfold update_pool_debt, u128_move, u128_sub.
  rewrite usub_in_range by done. cbn. eauto.
Qed.
End Repay.

Section Withdraw.
Context (who : AccountId) (id : AssetId) (amount : Balance) (s : Chain) (p p' : Pool).
Context (x b cs cd f cs' cash : Balance).
Hypothesis inv : ma_inv s.
Hypothesis Hp : pool id (lending s) = Some p.
Hypothesis Hok : pool_ok p.
Hypothesis Hfits : accrual_fits (block_number s) p.
Hypothesis Hacc : accrue_interest_at (block_number s) p = Some p'.

Lemma withdraw_no_supply :
  user_supply id who (lending s) = None ->
  withdraw (Signed who) id amount s = Err (Module_ UserNoSupply) s.
Proof.
  intros Hnone. unfold withdraw. rewrite (prologue_run _ _ _ _ _ _ Hp Hacc).
  unfold accrue_supply_with_interest, get_lending, bind, gets. rewrite Hnone.
  unfold ret. by rewrite Hnone.
Qed.

Hypothesis Hsome : is_Some (user_supply id who (lending s)).
Hypothesis Hx : supply_worth (total_supply_index p') id who (lending s) = Some x.
Let a : Balance := N.min amount x.
Hypothesis Hinfo : result (@get_user_info _ _ _ DispatchError who) s = Some (b, cs, cd).
Hypothesis Hf : fx_mul (get_rate id s) (safe_factor p') = Some f.
Hypothesis Hcs : u128_sub cs (fx_mul_int f a) = Some cs'.
Hypothesis Hcash : u128_sub (pool_supply p') (pool_debt p') = Some cash.
Hypothesis Hpool : a <= pool_supply p'.

(** Up to the collateral check. *)
Lemma withdraw_checked :
  exists s1, accrual_frame s s1 /\
    supply_worth (total_supply_index p') id who (lending s1) = Some x /\
    withdraw (Signed who) id amount s =
      (ensure (fx_mul_int (LiquidationThreshold (lending s)) cd <=? cs')
         (Module_ BelowLiquidationThreshold) ;;;
       check_cash p' a ;;;
       transfer_or_fail account_id id who a ;;;
       update_user_supply p' id who a false ;;;
       pool <- or_panic (update_pool_supply p' a false) ;;
       deposit_event (EvLending (Withdrawn id who a)) ;;;
       put_lending (set_Pools <[id := pool]>)) s1.
Proof.
  pose proof (accrue_ok _ _ _ Hok Hfits Hacc) as [Hok' _].
  destruct (accrue_supply_total (E := DispatchError) p' id who s x Hx) as [s1 Hs1].
  pose proof (respects_Ok _ _ _ _ _ (accrue_supply_framed _ _ _) Hs1) as Hfr.
  assert (is_Some (user_supply id who (lending s1))) as [us Hus].
  { apply accrue_supply_run in Hs1 as [[Hn ->] | (? & ? & _ & _ & ->)]; [done|].
    unfold user_supply. cbn. by rewrite lookup_insert_eq. }
  destruct (accrued_supply _ _ _ _ _ _ Hs1 Hus) as (_ & _ & Hw1 & Hidx & _).
  rewrite Hx in Hw1. injection Hw1 as Hamt.
  exists s1. split; [done|]. split.
  { unfold supply_worth. rewrite Hus, Hidx, <- Hamt.
    by apply (worth_again _ _ Hok'), (worth_bound _ _ _ _ _ Hx). }
  unfold withdraw. rewrite (prologue_run _ _ _ _ _ _ Hp Hacc), (bind_run _ _ _ _ _ Hs1).
  unfold bind at 1, get_lending at 1, gets at 1. rewrite Hus. cbn [ok_or].
  unfold bind at 1, ret at 1. rewrite cap_min, <- Hamt. fold a.
  rewrite (bind_run _ _ s1 (b, cs, cd) s1)
    by (apply pure_run; [apply user_info_pure|];
        by rewrite (user_info_after_supply_accrual _ _ _ _ _ _ Hp Hok Hok' Hacc Hs1)).
  unfold bind at 1, gets at 1. rewrite (get_rate_local s s1) by (by rewrite (af_assets _ _ Hfr)).
  rewrite Hf. cbn [or_panic]. unfold bind at 1, ret at 1. rewrite Hcs. cbn [or_panic].
  unfold bind at 1, ret at 1. unfold bind at 1, get_lending, gets, get_liquidation_threshold.
  by rewrite (af_threshold _ _ Hfr).
Qed.

Lemma withdraw_below :
  cs' < fx_mul_int (LiquidationThreshold (lending s)) cd ->
  exists s1, accrual_frame s s1 /\
    withdraw (Signed who) id amount s = Err (Module_ BelowLiquidationThreshold) s1.
Proof.
  intros Hlt. destruct withdraw_checked as (s1 & Hfr & _ & ->). exists s1.
  split; [done|]. apply bind_run_err. unfold ensure. by rewrite (proj2 (N.leb_gt _ _) Hlt).
Qed.

Lemma withdraw_no_cash :
  fx_mul_int (LiquidationThreshold (lending s)) cd <= cs' -> cash < a ->
  exists s1, accrual_frame s s1 /\
    withdraw (Signed who) id amount s = Err (Module_ NotEnoughLiquidity) s1.
Proof.
  intros Hge Hlt. destruct withdraw_checked as (s1 & Hfr & _ & ->). exists s1.
  split; [done|]. unfold ensure at 1, bind at 1. rewrite (proj2 (N.leb_le _ _) Hge).
  apply bind_run_err. rewrite (check_cash_run _ _ _ _ Hcash).
  by rewrite (proj2 (N.ltb_lt _ _) Hlt).
Qed.

Lemma withdraw_refused :
  fx_mul_int (LiquidationThreshold (lending s)) cd <= cs' -> a <= cash ->
  a = 0 \/ ma_balance s id account_id < a ->
  exists s1, accrual_frame s s1 /\ withdraw (Signed who) id amount s = Err (Module_ TransferFailed) s1.
Proof.
  intros Hge Hle Hbad. destruct withdraw_checked as (s1 & Hfr & _ & ->). exists s1. split; [done|].
  unfold ensure at 1, bind at 1. rewrite (proj2 (N.leb_le _ _) Hge).
  rewrite (bind_run _ _ s1 tt s1)
    by (by rewrite (check_cash_run _ _ _ _ Hcash), (proj2 (N.ltb_ge _ _) Hle)).
  apply bind_run_err, transfer_refused.
  - by apply (ma_inv_local s), inv; apply Hfr.
  - by rewrite (ma_balance_local s s1) by apply Hfr.
Qed.

Lemma withdraw_succeeds :
  fx_mul_int (LiquidationThreshold (lending s)) cd <= cs' -> a <= cash ->
  0 < a -> a <= ma_balance s id account_id ->
  exists s', withdraw (Signed who) id amount s = Ok tt s'.
Proof.
  intros Hge Hle Hpos Hbal. destruct withdraw_checked as (s1 & Hfr & Hx1 & ->).
  unfold ensure at 1, bind at 1. rewrite (proj2 (N.leb_le _ _) Hge).
  rewrite (bind_run _ _ s1 tt s1)
    by (by rewrite (check_cash_run _ _ _ _ Hcash), (proj2 (N.ltb_ge _ _) Hle)).
  destruct (transfer_goes account_id id who a s1) as [s2 Hs2];
    [by apply (ma_inv_local s), inv; apply Hfr | done |
     by rewrite (ma_balance_local s s1) by apply Hfr |].
  rewrite (bind_run _ _ _ _ _ Hs2).
  apply transfer_or_fail_Ok in Hs2 as (_ & [_ _ Hl _ _] & _).
  edestruct (update_supply_total (E := DispatchError) p' id who a false s2) as [s3 Hs3];
    [by rewrite Hl | apply usub_in_range; unfold a; lia |].
  rewrite (bind_run _ _ _ _ _ Hs3). unfold update_pool_supply, u128_move, u128_sub.
  rewrite usub_in_range by done. cbn. eauto.
Qed.
End Withdraw.

Section Liquidate.
Context (who target : AccountId) (pay_id get_id : AssetId) (amount : Balance) (s : Chain).
Context (gp pp gp' pp' : Pool) (sx dx b cs cd r rel inverse got_rate : N).
Hypothesis inv : ma_inv s.
Hypothesis Hg : pool get_id (lending s) = Some gp.
Hypothesis Hp : pool pay_id (lending s) = Some pp.
Hypothesis Hcol : can_be_collateral gp = true.
Hypothesis Hgok : pool_ok gp.
Hypothesis Hpok : pool_ok pp.
Hypothesis Hgf : accrual_fits (block_number s) gp.
Hypothesis Hpf : accrual_fits (block_number s) pp.
Hypothesis Hga : accrue_interest_at (block_number s) gp = Some gp'.
Hypothesis Hpa : accrue_interest_at (block_number s) pp = Some pp'.
Hypothesis Hsx : supply_worth (total_supply_index gp') get_id target (lending s) = Some sx.
Hypothesis Hdx : debt_worth (total_debt_index pp') pay_id target (lending s) = Some dx.
Hypothesis Hinfo : result (@get_user_info _ _ _ DispatchError target) s = Some (b, cs, cd).

(** What [liquidate] does from the health check on. *)
Definition liquidate_tail : RT DispatchError unit :=
  threshold <- get_lending get_liquidation_threshold ;;
  ensure (cs <? fx_mul_int threshold cd) (Module_ AboveLiquidationThreshold) ;;;
  found <- get_lending (user_supply get_id target) ;;
  target_user_supply <- ok_or found (Module_ UserNoSupply) ;;
  let get_limit := fx_mul_int (close_factor gp') (us_amount target_user_supply) in
  get_price <- gets (get_rate get_id) ;;
  pay_price <- gets (get_rate pay_id) ;;
  rel <- or_panic (fx_div get_price pay_price) ;;
  rel <- or_panic (fx_mul rel (discount_factor gp')) ;;
  let pay_limit := fx_mul_int rel get_limit in
  found <- get_lending (user_debt pay_id target) ;;
  target_user_debt <- ok_or found (Module_ UserNoSupply) ;;
  let pay := if pay_limit <? amount then pay_limit else amount in
  let pay := if ud_amount target_user_debt <? pay then ud_amount target_user_debt else pay in
  inv <- or_panic (fx_div pay_price get_price) ;;
  inv <- or_panic (fx_div inv (discount_factor gp')) ;;
  let got := fx_mul_int inv pay in
  transfer_or_fail who pay_id account_id pay ;;;
  transfer_or_fail account_id get_id who got ;;;
  update_user_supply gp' get_id target got false ;;;
  update_user_debt pp' pay_id target pay false ;;;
  put_lending (set_Pools <[get_id := gp']>) ;;;
  put_lending (set_Pools <[pay_id := pp']>).

(** Up to the health check: both positions accrued, nothing else moves. *)
Lemma liquidate_checked :
  exists s2, accrual_frame s s2 /\
    supply_worth (total_supply_index gp') get_id target (lending s2) = Some sx /\
    debt_worth (total_debt_index pp') pay_id target (lending s2) = Some dx /\
    (forall us, user_supply get_id target (lending s2) = Some us -> us_amount us = sx) /\
    (forall ud, user_debt pay_id target (lending s2) = Some ud -> ud_amount ud = dx) /\
    (user_supply get_id target (lending s2) = None <->
     user_supply get_id target (lending s) = None) /\
    (user_debt pay_id target (lending s2) = None <->
     user_debt pay_id target (lending s) = None) /\
    liquidate (Signed who) target pay_id get_id amount s = liquidate_tail s2.
Proof.
  pose proof (accrue_ok _ _ _ Hgok Hgf Hga) as [Hgok' _].
  pose proof (accrue_ok _ _ _ Hpok Hpf Hpa) as [Hpok' _].
  destruct (accrue_supply_total (E := DispatchError) gp' get_id target s sx Hsx) as [s1 Hs1].
  assert (UserDebts (lending s1) = UserDebts (lending s)) as Hud
    by (apply accrue_supply_run in Hs1 as [[_ ->] | (? & ? & _ & _ & ->)]; done).
  destruct (accrue_debt_total (E := DispatchError) pp' pay_id target s1 dx) as [s2 Hs2];
    [unfold debt_worth, user_debt in *; by rewrite Hud|].
  pose proof (respects_Ok _ _ _ _ _ (accrue_supply_framed _ _ _) Hs1) as Hf1.
  pose proof (respects_Ok _ _ _ _ _ (accrue_debt_framed _ _ _) Hs2) as Hf2.
  assert (pool pay_id (lending s1) = Some pp) as Hp1
    by (unfold pool in *; by rewrite (af_pools _ _ Hf1)).
  assert (result (@get_user_info _ _ _ DispatchError target) s2 = Some (b, cs, cd)) as Hi2.
  { assert (accrue_interest_at (block_number s1) pp = Some pp') as Hpa1
      by (by rewrite (af_block_number _ _ Hf1)).
    rewrite (user_info_after_debt_accrual _ _ _ _ _ _ Hp1 Hpok Hpok' Hpa1 Hs2).
    by rewrite (user_info_after_supply_accrual _ _ _ _ _ _ Hg Hgok Hgok' Hga Hs1). }
  pose proof (pure_run _ _ _ (user_info_pure target) Hi2) as H3.
  destruct (liquidate_prologue _ _ _ _ _ _ _ _ _ _ _ _ Hg Hp Hgok Hpok Hgok' Hpok' Hga Hpa
    Hs1 Hs2 H3) as (_ & _ & Hf & Hw & Hdw & Hsup & Hdebt).
  exists s2. split; [done|]. split; [by rewrite Hw|]. split; [by rewrite Hdw|]. split_and!.
  - intros us Hus. destruct (Hsup _ Hus) as [_ H]. rewrite Hsx in H. by injection H.
  - intros ud Hd. destruct (Hdebt _ Hd) as [_ H]. rewrite Hdx in H. by injection H.
  - assert (UserSupplies (lending s2) = UserSupplies (lending s1)) as Heq
      by (apply accrue_debt_run in Hs2 as [[_ ->] | (? & ? & _ & _ & ->)]; done).
    unfold user_supply. rewrite Heq.
    apply accrue_supply_run in Hs1 as [[_ ->] | (us & y & Hus & _ & ->)]; [done|].
    unfold user_supply in Hus. cbn. by rewrite lookup_insert_eq, Hus.
  - unfold user_debt. rewrite <- Hud.
    apply accrue_debt_run in Hs2 as [[_ ->] | (ud & y & Hd & _ & ->)]; [done|].
    unfold user_debt in Hd. cbn. by rewrite lookup_insert_eq, Hd.
  - unfold liquidate, accrue_interest, ensure_signed, bind at 1, ret at 1.
    rewrite (bind_run _ _ s (Some gp) s) by (unfold get_lending, gets; by rewrite Hg).
    unfold ok_or at 1, bind at 1, ret at 1. unfold ensure at 1, bind at 1. rewrite Hcol.
    rewrite (bind_run _ _ s (Some pp) s) by (unfold get_lending, gets; by rewrite Hp).
    unfold ok_or at 1, bind at 1, ret at 1.
    rewrite (bind_run _ _ s pp' s) by (unfold bind, gets; by rewrite Hpa).
    rewrite (bind_run _ _ s gp' s) by (unfold bind, gets; by rewrite Hga).
    by rewrite (bind_run _ _ _ _ _ Hs1), (bind_run _ _ _ _ _ Hs2), (bind_run _ _ _ _ _ H3).
Qed.

Lemma liquidate_healthy :
  fx_mul_int (LiquidationThreshold (lending s)) cd <= cs ->
  exists s2, accrual_frame s s2 /\
    liquidate (Signed who) target pay_id get_id amount s =
      Err (Module_ AboveLiquidationThreshold) s2.
Proof.
  intros Hge. destruct liquidate_checked as (s2 & Hf & _ & _ & _ & _ & _ & _ & ->).
  exists s2. split; [done|]. unfold liquidate_tail, bind at 1, get_lending at 1, gets at 1.
  unfold get_liquidation_threshold. rewrite (af_threshold _ _ Hf).
  apply bind_run_err. unfold ensure. by rewrite (proj2 (N.ltb_ge _ _) Hge).
Qed.

Lemma liquidate_no_supply :
  cs < fx_mul_int (LiquidationThreshold (lending s)) cd ->
  user_supply get_id target (lending s) = None ->
  exists s2, accrual_frame s s2 /\
    liquidate (Signed who) target pay_id get_id amount s = Err (Module_ UserNoSupply) s2.
Proof.
  intros Hlt Hnone. destruct liquidate_checked as (s2 & Hf & _ & _ & _ & _ & Hn & _ & ->).
  exists s2. split; [done|]. apply Hn in Hnone.
  unfold liquidate_tail, bind at 1, get_lending at 1, gets at 1.
  unfold get_liquidation_threshold. rewrite (af_threshold _ _ Hf).
  unfold bind at 1, ensure at 1. rewrite (proj2 (N.ltb_lt _ _) Hlt).
  rewrite (bind_run _ _ s2 None s2) by (unfold get_lending, gets; by rewrite Hnone). done.
Qed.

Hypothesis Hr : fx_div (get_rate get_id s) (get_rate pay_id s) = Some r.
Hypothesis Hrel : fx_mul r (discount_factor gp') = Some rel.
Hypothesis Hinv : fx_div (get_rate pay_id s) (get_rate get_id s) = Some inverse.
Hypothesis Hgot : fx_div inverse (discount_factor gp') = Some got_rate.
Hypothesis Hlt : cs < fx_mul_int (LiquidationThreshold (lending s)) cd.
Let pay : N := N.min (N.min amount (fx_mul_int rel (fx_mul_int (close_factor gp') sx))) dx.
Let got : N := fx_mul_int got_rate pay.

(** A target without the debt is reported as one without a supply. *)
Lemma liquidate_no_debt :
  is_Some (user_supply get_id target (lending s)) ->
  user_debt pay_id target (lending s) = None ->
  exists s2, accrual_frame s s2 /\
    liquidate (Signed who) target pay_id get_id amount s = Err (Module_ UserNoSupply) s2.
Proof.
  intros Hus Hnone. destruct liquidate_checked as (s2 & Hf & _ & _ & _ & _ & Hn1 & Hn2 & ->).
  exists s2. split; [done|]. apply Hn2 in Hnone.
  destruct (user_supply get_id target (lending s2)) as [us|] eqn:Eus;
    [|rewrite (proj1 Hn1 eq_refl) in Hus; by destruct Hus].
  unfold liquidate_tail, bind at 1, get_lending at 1, gets at 1.
  unfold get_liquidation_threshold. rewrite (af_threshold _ _ Hf).
  unfold bind at 1, ensure at 1. rewrite (proj2 (N.ltb_lt _ _) Hlt).
  rewrite (bind_run _ _ s2 (Some us) s2) by (unfold get_lending, gets; by rewrite Eus).
  unfold ok_or at 1, bind at 1, ret at 1. cbv zeta. unfold bind at 1, gets at 1.
  unfold bind at 1, gets at 1. rewrite !(get_rate_local s s2), Hr by (by rewrite (af_assets _ _ Hf)).
  unfold or_panic at 1, bind at 1, ret at 1. rewrite Hrel. unfold or_panic at 1, bind at 1, ret at 1.
  rewrite (bind_run _ _ s2 None s2) by (unfold get_lending, gets; by rewrite Hnone). done.
Qed.

(** Up to the payments, with the amounts worked out. *)
Lemma liquidate_payments :
  is_Some (user_supply get_id target (lending s)) ->
  is_Some (user_debt pay_id target (lending s)) ->
  exists s2, accrual_frame s s2 /\
    supply_worth (total_supply_index gp') get_id target (lending s2) = Some sx /\
    debt_worth (total_debt_index pp') pay_id target (lending s2) = Some dx /\
    is_Some (user_supply get_id target (lending s2)) /\
    liquidate (Signed who) target pay_id get_id amount s =
      (transfer_or_fail who pay_id account_id pay ;;;
       transfer_or_fail account_id get_id who got ;;;
       update_user_supply gp' get_id target got false ;;;
       update_user_debt pp' pay_id target pay false ;;;
       put_lending (set_Pools <[get_id := gp']>) ;;;
       put_lending (set_Pools <[pay_id := pp']>)) s2.
Proof.
  intros Hus Hud.
  destruct liquidate_checked as (s2 & Hf & Hw & Hdw & Hsup & Hdebt & Hn1 & Hn2 & ->).
  exists s2. split; [done|]. split; [done|]. split; [done|].
  destruct (user_supply get_id target (lending s2)) as [us|] eqn:Eus;
    [|rewrite (proj1 Hn1 eq_refl) in Hus; by destruct Hus].
  split; [by eexists|].
  destruct (user_debt pay_id target (lending s2)) as [ud|] eqn:Eud;
    [|rewrite (proj1 Hn2 eq_refl) in Hud; by destruct Hud].
  assert (forall i, get_rate i s2 = get_rate i s) as Hrate
    by (intros i; apply get_rate_local; by rewrite (af_assets _ _ Hf)).
  unfold liquidate_tail, bind at 1, get_lending at 1, gets at 1.
  unfold get_liquidation_threshold. rewrite (af_threshold _ _ Hf).
  unfold bind at 1, ensure at 1. rewrite (proj2 (N.ltb_lt _ _) Hlt).
  rewrite (bind_run _ _ s2 (Some us) s2) by (unfold get_lending, gets; by rewrite Eus).
  unfold ok_or at 1, bind at 1, ret at 1. rewrite (Hsup _ eq_refl). cbv zeta.
  unfold bind at 1, gets at 1. unfold bind at 1, gets at 1. rewrite !Hrate, Hr.
  unfold or_panic at 1, bind at 1, ret at 1. rewrite Hrel.
  unfold or_panic at 1, bind at 1, ret at 1.
  rewrite (bind_run _ _ s2 (Some ud) s2) by (unfold get_lending, gets; by rewrite Eud).
  unfold ok_or at 1, bind at 1, ret at 1. rewrite (Hdebt _ eq_refl), !cap_min, Hinv.
  unfold or_panic at 1, bind at 1, ret at 1. rewrite Hgot. done.
Qed.

Lemma liquidate_refused :
  is_Some (user_supply get_id target (lending s)) ->
  is_Some (user_debt pay_id target (lending s)) ->
  pay = 0 \/ ma_balance s pay_id who < pay ->
  exists s2, accrual_frame s s2 /\
    liquidate (Signed who) target pay_id get_id amount s = Err (Module_ TransferFailed) s2.
Proof.
  intros Hus Hud Hbad. destruct (liquidate_payments Hus Hud) as (s2 & Hf & _ & _ & _ & ->).
  exists s2. split; [done|]. apply bind_run_err, transfer_refused.
  - by apply (ma_inv_local s), inv; apply Hf.
  - by rewrite (ma_balance_local s s2) by apply Hf.
Qed.

(** The liquidator has paid. *)
Lemma liquidate_paid :
  is_Some (user_supply get_id target (lending s)) ->
  is_Some (user_debt pay_id target (lending s)) ->
  0 < pay -> pay <= ma_balance s pay_id who ->
  exists s3, ma_inv s3 /\
    supply_worth (total_supply_index gp') get_id target (lending s3) = Some sx /\
    debt_worth (total_debt_index pp') pay_id target (lending s3) = Some dx /\
    is_Some (user_supply get_id target (lending s3)) /\
    (forall id u, ma_balance s3 id u + (if decide (id = pay_id /\ u = who) then pay else 0) =
                  ma_balance s id u + (if decide (id = pay_id /\ u = account_id) then pay else 0)) /\
    liquidate (Signed who) target pay_id get_id amount s =
      (transfer_or_fail account_id get_id who got ;;;
       update_user_supply gp' get_id target got false ;;;
       update_user_debt pp' pay_id target pay false ;;;
       put_lending (set_Pools <[get_id := gp']>) ;;;
       put_lending (set_Pools <[pay_id := pp']>)) s3.
Proof.
  intros Hus Hud Hpos Hbal. destruct (liquidate_payments Hus Hud) as (s2 & Hf & Hw & Hdw & Hs2 & ->).
  assert (ma_inv s2) as inv2 by (by apply (ma_inv_local s), inv; apply Hf).
  destruct (transfer_goes who pay_id account_id pay s2 inv2) as [s3 Hs3];
    [done | by rewrite (ma_balance_local s s2) by apply Hf |].
  rewrite (bind_run _ _ _ _ _ Hs3).
  apply transfer_or_fail_Ok in Hs3 as (Ht & [_ _ Hl3 _ _] & _).
  exists s3. rewrite Hl3. split; [|split; [done|split; [done|split; [done|split; [|done]]]]].
  - exact (respects_Ok _ _ _ _ _ (ma_inv_stable who pay_id account_id pay) Ht inv2).
  - intros id u. pose proof (ma_moves _ _ _ _ _ _ id u inv2 Ht) as Hm.
    by rewrite (ma_balance_local s s2) in Hm by apply Hf.
Qed.

Lemma liquidate_succeeds :
  is_Some (user_supply get_id target (lending s)) ->
  is_Some (user_debt pay_id target (lending s)) ->
  who <> account_id -> 0 < pay -> pay <= ma_balance s pay_id who ->
  0 < got -> got <= sx -> got <= ma_balance s get_id account_id ->
  exists s', liquidate (Signed who) target pay_id get_id amount s = Ok tt s'.
Proof.
  intros Hus Hud Hne Hpos Hbal Hgpos Hgle Hgbal.
  destruct (liquidate_paid Hus Hud Hpos Hbal) as (s3 & inv3 & Hw & Hdw & _ & Hm & ->).
  assert (got <= ma_balance s3 get_id account_id) as Hg3.
  { specialize (Hm get_id account_id).
    rewrite (decide_False (P := get_id = pay_id /\ account_id = who)) in Hm by naive_solver. lia. }
  destruct (transfer_goes account_id get_id who got s3 inv3 Hgpos Hg3) as [s4 Hs4].
  rewrite (bind_run _ _ _ _ _ Hs4).
  apply transfer_or_fail_Ok in Hs4 as (_ & [_ _ Hl4 _ _] & _).
  edestruct (update_supply_total (E := DispatchError) gp' get_id target got false s4) as [s5 Hs5];
    [by rewrite Hl4 | by apply usub_in_range |].
  rewrite (bind_run _ _ _ _ _ Hs5).
  apply update_supply_Ok in Hs5 as (_ & _ & _ & _ & _ & Hd5 & _);
    [|apply fx_mul_int_bound|].
  2: { intros Hnone. unfold supply_worth in Hw. rewrite Hl4 in Hnone. rewrite Hnone in Hw.
       injection Hw as <-. lia. }
  edestruct (update_debt_total (E := DispatchError) pp' pay_id target pay false s5) as [s6 Hs6];
    [unfold debt_worth, user_debt in *; by rewrite Hd5, Hl4 |
     apply usub_in_range; unfold pay; lia |].
  rewrite (bind_run _ _ _ _ _ Hs6). cbn. eauto.
Qed.

(** More is seized than the target owns: the subtraction traps. *)
Lemma liquidate_overseized :
  overflow_checks = true ->
  is_Some (user_supply get_id target (lending s)) ->
  is_Some (user_debt pay_id target (lending s)) ->
  who <> account_id -> 0 < pay -> pay <= ma_balance s pay_id who ->
  sx < got -> got <= ma_balance s get_id account_id ->
  liquidate (Signed who) target pay_id get_id amount s = Panic.
Proof.
  intros Hc Hus Hud Hne Hpos Hbal Hgt Hgbal.
  destruct (liquidate_paid Hus Hud Hpos Hbal) as (s3 & inv3 & Hw & _ & [us Hus3] & Hm & ->).
  assert (got <= ma_balance s3 get_id account_id) as Hg3.
  { specialize (Hm get_id account_id).
    rewrite (decide_False (P := get_id = pay_id /\ account_id = who)) in Hm by naive_solver. lia. }
  destruct (transfer_goes account_id get_id who got s3 inv3) as [s4 Hs4]; [lia | done |].
  rewrite (bind_run _ _ _ _ _ Hs4).
  apply transfer_or_fail_Ok in Hs4 as (_ & [_ _ Hl4 _ _] & _).
  apply bind_run_panic. unfold update_user_supply, get_lending, bind, gets. rewrite Hl4, Hus3.
  unfold supply_worth in Hw. rewrite Hus3 in Hw. rewrite Hw. cbn.
  unfold u128_sub, usub. by rewrite (proj2 (N.leb_gt _ _) Hgt), Hc.
Qed.

(** The liquidator has paid, and there is nothing to hand out or the account cannot
    hand it out: the call fails and the payment is kept. *)
Lemma liquidate_half_paid :
  is_Some (user_supply get_id target (lending s)) ->
  is_Some (user_debt pay_id target (lending s)) ->
  who <> account_id -> pay_id <> get_id ->
  0 < pay -> pay <= ma_balance s pay_id who -> got = 0 \/ ma_balance s get_id account_id < got ->
  exists s', liquidate (Signed who) target pay_id get_id amount s =
               Err (Module_ TransferFailed) s' /\
    ma_balance s' pay_id who + pay = ma_balance s pay_id who /\
    supply_worth (total_supply_index gp') get_id target (lending s') = Some sx /\
    debt_worth (total_debt_index pp') pay_id target (lending s') = Some dx.
Proof.
  intros Hus Hud Hne Hids Hpos Hbal Hgbal.
  destruct (liquidate_paid Hus Hud Hpos Hbal) as (s3 & inv3 & Hw & Hdw & _ & Hm & ->).
  exists s3. split; [|split; [|done]].
  - apply bind_run_err, transfer_refused; [done|]. specialize (Hm get_id account_id).
    rewrite !decide_False in Hm by naive_solver. lia.
  - specialize (Hm pay_id who). rewrite decide_True, decide_False in Hm by naive_solver. lia.
Qed.
End Liquidate.
End Steps.
