(* ===== verification/Swap.v ===== *)
(** * The swap pallet ([pallets/swap/src/lib.rs])

    Paired pools of the inherent asset and another asset, held by an exchange
    account per pair.  The dispatchables, the six trade routines, the four
    quotes, the constant-product formulas and the liquidity ledger, one
    definition each.  [sp_runtime::print] lines and the identity conversions
    between [Balance] and [u128] are left out; arguments the code takes and never
    reads ([min_output], [max_input], [fee_rate], ...) are kept. *)

From S2P Require Export Assets.

Local Open Scope N_scope.
Local Open Scope rust_scope.

(* ================================================================== *)
(** ** Exchange accounts                                               *)
(* ================================================================== *)

(** [trait ExchangeFactory] *)
Class ExchangeFactory `{Accounts} : Type :=
  make_exchange_address : AssetId -> AssetId -> AccountId.

(** [x.to_le()] reinterpreted as eight bytes, least significant first *)
Fixpoint le_bytes (n : nat) (x : N) : list N :=
  match n with
  | O => []
  | S n' => x mod 256 :: le_bytes n' (x / 256)
  end.
Definition u64_to_bytes (x : N) : list N := le_bytes 8 x.

(** The bytes of a Rust byte string literal. *)
Definition bytes_of (s : string) : list N := map Ascii.N_of_ascii (String.list_ascii_of_string s).

(** The buffer [ExchangeAddress::make_exchange_address] hashes. *)
Definition exchange_buffer (inherent_asset_id asset_id : AssetId) : list N :=
  bytes_of "substrate-uniswap:" ++ u64_to_bytes inherent_asset_id ++ u64_to_bytes asset_id.

(** [impl ExchangeFactory for ExchangeAddress] *)
Definition ExchangeAddress `{Accounts} : ExchangeFactory :=
  fun inherent_asset_id asset_id => hash_account (exchange_buffer inherent_asset_id asset_id).

(* ================================================================== *)
(** ** Prices: constant product                                        *)
(* ================================================================== *)

Section Formulas.
Context {cfg : Config}.

Definition calc_output_at_known_input (input_amount input_part_balance output_part_balance : Balance)
    (fee_rate : FeeRate) : RT string Balance :=
  if (input_part_balance =? 0) || (output_part_balance =? 0) then throw "Empty Pool."%string
  else
    denominator <- or_panic (u128_add input_amount input_part_balance) ;;
    product <- or_panic (u128_mul output_part_balance input_amount) ;;
    or_panic (udiv product denominator).

(** The last [let] of the source converts [output_volumn], so the quotient
    [input_volumn] computed before it is evaluated and dropped. *)
Definition calc_input_at_known_output (output_amount input_part_balance output_part_balance : Balance)
    (fee_rate : FeeRate) : RT string Balance :=
  if (input_part_balance =? 0) || (output_part_balance =? 0) then throw "Empty Pool."%string
  else if output_part_balance <=? output_amount then ret u128_max
  else
    denominator <- or_panic (u128_sub output_part_balance output_amount) ;;
    product <- or_panic (u128_mul input_part_balance output_amount) ;;
    input_volumn <- or_panic (udiv product denominator) ;;
    ret output_amount.
End Formulas.

(* ================================================================== *)
(** ** Quotes                                                          *)
(* ================================================================== *)

Section Quotes.
Context {cfg : Config} {fo : FixedOps} {ef : ExchangeFactory}.

Definition get_exchange_address (inherent_asset_id asset_id : AssetId) : AccountId :=
  make_exchange_address inherent_asset_id asset_id.

(** How much inherent asset buys [amount] of the paired asset. *)
Definition calc_inherent_asset_input_amount (asset_id : AssetId) (amount : Balance)
    (fee_rate : FeeRate) : RT string Balance :=
  inherent_asset_id <- get_assets InherentAsset ;;
  let exchange_address := get_exchange_address inherent_asset_id asset_id in
  inherent_asset_balance <- balance inherent_asset_id exchange_address ;;
  paired_asset_balance <- balance asset_id exchange_address ;;
  calc_input_at_known_output amount inherent_asset_balance paired_asset_balance fee_rate.

(** How much inherent asset [amount] of the paired asset buys. *)
Definition calc_inherent_asset_output_amount (asset_id : AssetId) (amount : Balance)
    (fee_rate : FeeRate) : RT string Balance :=
  inherent_asset_id <- get_assets InherentAsset ;;
  let exchange_address := get_exchange_address inherent_asset_id asset_id in
  inherent_asset_balance <- balance inherent_asset_id exchange_address ;;
  paired_asset_balance <- balance asset_id exchange_address ;;
  calc_output_at_known_input amount paired_asset_balance inherent_asset_balance fee_rate.

(** How much paired asset buys [amount] of the inherent asset. *)
Definition calc_paired_asset_input_amount (asset_id : AssetId) (amount : Balance)
    (fee_rate : FeeRate) : RT string Balance :=
  inherent_asset_id <- get_assets InherentAsset ;;
  let exchange_address := get_exchange_address inherent_asset_id asset_id in
  inherent_asset_balance <- balance inherent_asset_id exchange_address ;;
  paired_asset_balance <- balance asset_id exchange_address ;;
  calc_input_at_known_output amount paired_asset_balance inherent_asset_balance fee_rate.

(** How much paired asset [amount] of the inherent asset buys. *)
Definition calc_paired_asset_output_amount (asset_id : AssetId) (amount : Balance)
    (fee_rate : FeeRate) : RT string Balance :=
  inherent_asset_id <- get_assets InherentAsset ;;
  let exchange_address := get_exchange_address inherent_asset_id asset_id in
  inherent_asset_balance <- balance inherent_asset_id exchange_address ;;
  paired_asset_balance <- balance asset_id exchange_address ;;
  calc_output_at_known_input amount inherent_asset_balance paired_asset_balance fee_rate.

Definition fee_rate (w : SwapStorage) : FeeRate := FeeRateGlobal w.

(** [.unwrap()] of a [Result]: an error panics. *)
Definition unwrap {E A} (m : RT string A) : RT E A :=
  fun s => match m s with Ok a s' => Ok a s' | Err _ _ => Panic | Panic => Panic end.

(** The quote of the runtime api.  The second branch reads the pool of
    [out_id]. *)
Definition calculate_output {E} (in_id out_id : AssetId) (amount_in : Balance) : RT E Balance :=
  inherent_asset_id <- get_assets InherentAsset ;;
  fee_rate <- get_swap fee_rate ;;
  if in_id =? inherent_asset_id
  then unwrap (calc_paired_asset_output_amount out_id amount_in fee_rate)
  else unwrap (calc_inherent_asset_output_amount out_id amount_in fee_rate).
End Quotes.

(* ================================================================== *)
(** ** The liquidity ledger                                            *)
(* ================================================================== *)

Section Getters.
Context {acc : Accounts}.

Definition account_liquidity (id : AssetId) (who : AccountId) (w : SwapStorage) : Balance :=
  getd 0 (AccountLiquidities w) (id, who).
Definition total_liquidity (id : AssetId) (w : SwapStorage) : Balance :=
  getd 0 (TotalLiquidities w) id.
End Getters.

Section LiquidityLedger.
Context {cfg : Config}.

Definition set_liquidity {E} (asset_id : AssetId) (account : AccountId) (liquidity : Balance)
    : RT E unit :=
  put_swap (set_AccountLiquidities <[(asset_id, account) := liquidity]>).

Definition get_liquidity {E} (asset_id : AssetId) (account : AccountId) : RT E Balance :=
  get_swap (account_liquidity asset_id account).

Definition increase_total_liquidity {E} (asset_id : AssetId) (liquidity : Balance) : RT E unit :=
  b <- get_swap (total_liquidity asset_id) ;;
  b <- or_panic (u128_add b liquidity) ;;
  put_swap (set_TotalLiquidities <[asset_id := b]>).

Definition decrease_total_liquidity {E} (asset_id : AssetId) (liquidity : Balance) : RT E unit :=
  b <- get_swap (total_liquidity asset_id) ;;
  b <- or_panic (u128_sub b liquidity) ;;
  put_swap (set_TotalLiquidities <[asset_id := b]>).

Definition get_total_liquidity {E} (asset_id : AssetId) : RT E Balance :=
  get_swap (total_liquidity asset_id).
End LiquidityLedger.

(* ================================================================== *)
(** ** Trades                                                          *)
(* ================================================================== *)

Section Trades.
Context {cfg : Config} {fo : FixedOps} {ef : ExchangeFactory}.

(** The pool balance of [id] at [exchange_address], as an event. *)
Definition reserve_changed {E} (id : AssetId) (exchange_address : AccountId) : RT E unit :=
  in_pool <- balance id exchange_address ;;
  deposit_event (EvSwap (ReserveChanged id in_pool)).

Definition inherent_asset_to_paired_asset_with_exact_input (input_account output_account : AccountId)
    (paired_asset_id : AssetId) (input_amount min_output_amount : Balance) (fee_rate : FeeRate)
    : RT string Balance :=
  paired_asset_output_amount <-
    calc_paired_asset_output_amount paired_asset_id input_amount fee_rate ;;
  inherent_asset_id <- get_assets InherentAsset ;;
  let exchange_address := get_exchange_address inherent_asset_id paired_asset_id in
  ignore (transfer input_account inherent_asset_id exchange_address input_amount) ;;;
  ignore (transfer exchange_address paired_asset_id output_account paired_asset_output_amount) ;;;
  deposit_event (EvSwap (AssetsSwapped input_account inherent_asset_id input_amount
                           paired_asset_id paired_asset_output_amount)) ;;;
  reserve_changed paired_asset_id exchange_address ;;;
  reserve_changed inherent_asset_id exchange_address ;;;
  ret paired_asset_output_amount.

Definition inherent_asset_to_paired_asset_with_exact_output (input_account output_account : AccountId)
    (paired_asset_id : AssetId) (output_amount max_input_amount : Balance) (fee_rate : FeeRate)
    : RT string Balance :=
  inherent_asset_input_amount <-
    calc_inherent_asset_input_amount paired_asset_id output_amount fee_rate ;;
  inherent_asset_id <- get_assets InherentAsset ;;
  let exchange_address := get_exchange_address inherent_asset_id paired_asset_id in
  ignore (transfer input_account inherent_asset_id exchange_address inherent_asset_input_amount) ;;;
  ignore (transfer exchange_address paired_asset_id output_account output_amount) ;;;
  deposit_event (EvSwap (AssetsSwapped input_account inherent_asset_id inherent_asset_input_amount
                           paired_asset_id output_amount)) ;;;
  reserve_changed paired_asset_id exchange_address ;;;
  reserve_changed inherent_asset_id exchange_address ;;;
  ret inherent_asset_input_amount.

Definition paired_asset_to_inherent_asset_with_exact_input (input_account output_account : AccountId)
    (paired_asset_id : AssetId) (input_amount min_output_amount : Balance) (fee_rate : FeeRate)
    : RT string Balance :=
  inherent_asset_output_amount <-
    calc_inherent_asset_output_amount paired_asset_id input_amount fee_rate ;;
  inherent_asset_id <- get_assets InherentAsset ;;
  let exchange_address := get_exchange_address inherent_asset_id paired_asset_id in
  ignore (transfer input_account paired_asset_id exchange_address input_amount) ;;;
  ignore (transfer exchange_address inherent_asset_id output_account
            inherent_asset_output_amount) ;;;
  deposit_event (EvSwap (AssetsSwapped input_account paired_asset_id input_amount
                           inherent_asset_id inherent_asset_output_amount)) ;;;
  reserve_changed paired_asset_id exchange_address ;;;
  reserve_changed inherent_asset_id exchange_address ;;;
  ret inherent_asset_output_amount.

Definition paired_asset_to_inherent_asset_with_exact_output (input_account output_account : AccountId)
    (paired_asset_id : AssetId) (output_amount max_input_amount : Balance) (fee_rate : FeeRate)
    : RT string Balance :=
  paired_asset_input_amount <-
    calc_paired_asset_input_amount paired_asset_id output_amount fee_rate ;;
  inherent_asset_id <- get_assets InherentAsset ;;
  let exchange_address := get_exchange_address inherent_asset_id paired_asset_id in
  ignore (transfer input_account paired_asset_id exchange_address paired_asset_input_amount) ;;;
  ignore (transfer exchange_address inherent_asset_id output_account output_amount) ;;;
  deposit_event (EvSwap (AssetsSwapped input_account paired_asset_id paired_asset_input_amount
                           inherent_asset_id output_amount)) ;;;
  reserve_changed paired_asset_id exchange_address ;;;
  reserve_changed inherent_asset_id exchange_address ;;;
  ret paired_asset_input_amount.

Definition asset_a_to_asset_b_with_exact_input (input_account output_account : AccountId)
    (asset_a asset_b : AssetId) (input_amount min_output_amount : Balance) (fee_rate : FeeRate)
    : RT string Balance :=
  inherent_asset_id <- get_assets InherentAsset ;;
  let exchange_a_address := get_exchange_address inherent_asset_id asset_a in
  let exchange_b_address := get_exchange_address inherent_asset_id asset_b in
  inherent_asset_output_amount <-
    calc_inherent_asset_output_amount asset_a input_amount fee_rate ;;
  asset_b_output_amount <-
    calc_paired_asset_output_amount asset_b inherent_asset_output_amount fee_rate ;;
  ignore (transfer input_account asset_a exchange_a_address input_amount) ;;;
  ignore (transfer exchange_a_address inherent_asset_id exchange_b_address
            inherent_asset_output_amount) ;;;
  ignore (transfer exchange_b_address asset_b output_account asset_b_output_amount) ;;;
  deposit_event (EvSwap (AssetsSwapped input_account asset_a input_amount
                           asset_b asset_b_output_amount)) ;;;
  reserve_changed asset_a exchange_a_address ;;;
  reserve_changed inherent_asset_id exchange_a_address ;;;
  reserve_changed asset_b exchange_b_address ;;;
  reserve_changed inherent_asset_id exchange_b_address ;;;
  ret asset_b_output_amount.

Definition asset_a_to_asset_b_with_exact_output (input_account output_account : AccountId)
    (asset_a asset_b : AssetId) (output_amount max_input_amount : Balance) (fee_rate : FeeRate)
    : RT string Balance :=
  inherent_asset_id <- get_assets InherentAsset ;;
  let exchange_a_address := get_exchange_address inherent_asset_id asset_a in
  let exchange_b_address := get_exchange_address inherent_asset_id asset_b in
  inherent_asset_input_amount <-
    calc_inherent_asset_input_amount asset_b output_amount fee_rate ;;
  asset_a_input_amount <-
    calc_paired_asset_input_amount asset_a inherent_asset_input_amount fee_rate ;;
  ignore (transfer input_account asset_a exchange_a_address asset_a_input_amount) ;;;
  ignore (transfer exchange_a_address inherent_asset_id exchange_b_address
            inherent_asset_input_amount) ;;;
  ignore (transfer exchange_b_address asset_b output_account output_amount) ;;;
  deposit_event (EvSwap (AssetsSwapped input_account asset_a asset_a_input_amount
                           asset_b output_amount)) ;;;
  reserve_changed asset_a exchange_a_address ;;;
  reserve_changed inherent_asset_id exchange_a_address ;;;
  reserve_changed asset_b exchange_b_address ;;;
  reserve_changed inherent_asset_id exchange_b_address ;;;
  ret asset_a_input_amount.

(** [_add_liquidity] and [_remove_liquidity] return nothing, so they leave the
    error type open. *)
Definition _add_liquidity {E} (account : AccountId) (asset_id : AssetId)
    (inherent_asset_amount asset_amount min_liquidity : Balance) : RT E unit :=
  inherent_asset_id <- get_assets InherentAsset ;;
  let exchange_address := get_exchange_address inherent_asset_id asset_id in
  total_liquidity <- get_total_liquidity asset_id ;;
  (if total_liquidity =? 0 then
     ignore (transfer account inherent_asset_id exchange_address inherent_asset_amount) ;;;
     ignore (transfer account asset_id exchange_address asset_amount) ;;;
     set_liquidity asset_id account inherent_asset_amount ;;;
     increase_total_liquidity asset_id inherent_asset_amount
   else
     inherent_asset_in_pool <- balance inherent_asset_id exchange_address ;;
     asset_in_pool <- balance asset_id exchange_address ;;
     ignore (transfer account inherent_asset_id exchange_address inherent_asset_amount) ;;;
     ignore (transfer account asset_id exchange_address asset_amount) ;;;
     product <- or_panic (u128_mul total_liquidity inherent_asset_amount) ;;
     minted_liquidity <- or_panic (udiv product inherent_asset_in_pool) ;;
     pool_liquidity <- get_liquidity asset_id account ;;
     new_liquidity <- or_panic (u128_add pool_liquidity minted_liquidity) ;;
     set_liquidity asset_id account new_liquidity ;;;
     increase_total_liquidity asset_id minted_liquidity) ;;;
  put_swap (set_ExchangeAccounts <[asset_id := exchange_address]>) ;;;
  reserve_changed asset_id exchange_address ;;;
  reserve_changed inherent_asset_id exchange_address.

Definition _remove_liquidity {E} (account : AccountId) (asset_id : AssetId)
    (liquidity min_inherent_asset_amount min_asset_amount : Balance) : RT E unit :=
  inherent_asset_id <- get_assets InherentAsset ;;
  let exchange_address := get_exchange_address inherent_asset_id asset_id in
  account_liquidity <- get_liquidity asset_id account ;;
  total_liquidity <- get_total_liquidity asset_id ;;
  inherent_asset_in_pool <- balance inherent_asset_id exchange_address ;;
  asset_in_pool <- balance asset_id exchange_address ;;
  product <- or_panic (u128_mul inherent_asset_in_pool liquidity) ;;
  inherent_asset_amount <- or_panic (udiv product total_liquidity) ;;
  product <- or_panic (u128_mul asset_in_pool liquidity) ;;
  asset_amount <- or_panic (udiv product total_liquidity) ;;
  ignore (transfer exchange_address inherent_asset_id account inherent_asset_amount) ;;;
  ignore (transfer exchange_address asset_id account asset_amount) ;;;
  rest <- or_panic (u128_sub account_liquidity liquidity) ;;
  set_liquidity asset_id account rest ;;;
  decrease_total_liquidity asset_id liquidity ;;;
  reserve_changed asset_id exchange_address ;;;
  reserve_changed inherent_asset_id exchange_address.
End Trades.

(* ================================================================== *)
(** ** The dispatchables                                               *)
(* ================================================================== *)

Section Dispatchables.
Context {cfg : Config} {fo : FixedOps} {ef : ExchangeFactory}.

(** The [ensure_root] of the source is commented out. *)
Definition set_fee_rate (origin : Origin) (fee_rate : FeeRate) : RT DispatchError unit :=
  put_swap (set_FeeRateGlobal fee_rate).

(** [f(..)?;] on a [&'static str] error inside a dispatchable *)
Definition try_str {A} (m : RT string A) : RT DispatchError unit :=
  map_err Other m ;;; ret tt.

Definition swap_assets_with_exact_input (origin : Origin) (output_account : AccountId)
    (asset_input asset_output : AssetId) (input_amount min_output : Balance)
    : RT DispatchError unit :=
  input_account <- ensure_signed origin ;;
  inherent_asset_id <- get_assets InherentAsset ;;
  fee_rate <- get_swap fee_rate ;;
  if asset_input =? inherent_asset_id then
    try_str (inherent_asset_to_paired_asset_with_exact_input input_account output_account
               asset_output input_amount min_output fee_rate)
  else if asset_output =? inherent_asset_id then
    try_str (paired_asset_to_inherent_asset_with_exact_input input_account output_account
               asset_input input_amount min_output fee_rate)
  else
    try_str (asset_a_to_asset_b_with_exact_input input_account output_account
               asset_input asset_output input_amount min_output fee_rate).

Definition swap_assets_with_exact_output (origin : Origin) (output_account : AccountId)
    (asset_input asset_output : AssetId) (output_amount max_input : Balance)
    : RT DispatchError unit :=
  input_account <- ensure_signed origin ;;
  inherent_asset_id <- get_assets InherentAsset ;;
  fee_rate <- get_swap fee_rate ;;
  if asset_input =? inherent_asset_id then
    try_str (inherent_asset_to_paired_asset_with_exact_output input_account output_account
               asset_output output_amount max_input fee_rate)
  else if asset_output =? inherent_asset_id then
    try_str (paired_asset_to_inherent_asset_with_exact_output input_account output_account
               asset_input output_amount max_input fee_rate)
  else
    try_str (asset_a_to_asset_b_with_exact_output input_account output_account
               asset_input asset_output output_amount max_input fee_rate).

Definition add_liquidity (origin : Origin) (asset_id : AssetId)
    (inherent_asset_amount asset_amount min_liquidity : Balance) : RT DispatchError unit :=
  account <- ensure_signed origin ;;
  _add_liquidity account asset_id inherent_asset_amount asset_amount min_liquidity ;;;
  deposit_event (EvSwap (LiquidityAdded account inherent_asset_amount asset_id)).

Definition remove_liquidity (origin : Origin) (asset_id : AssetId)
    (liquidity min_inherent_asset_amount min_asset_amount : Balance) : RT DispatchError unit :=
  account <- ensure_signed origin ;;
  _remove_liquidity account asset_id liquidity min_inherent_asset_amount min_asset_amount ;;;
  deposit_event (EvSwap (LiquidityRemoved account liquidity asset_id)).
End Dispatchables.
