(* ===== verification/SwapTrades.v ===== *)
(** * Facts about the trades of the swap pallet

    The constant-product formulas, what a trade does to the balances and the
    reserves, and the encoding of the exchange accounts. *)

From S2P Require Export Swap.

Local Open Scope N_scope.

(* ================================================================== *)
(** ** The exchange accounts                                           *)
(* ================================================================== *)

(** Reading the bytes back. *)
Fixpoint from_le_bytes (l : list N) : N :=
  match l with
  | [] => 0
  | b :: l' => b + 256 * from_le_bytes l'
  end.

Lemma le_bytes_round_trip n x : x < 256 ^ N.of_nat n -> from_le_bytes (le_bytes n x) = x.
Proof.
  revert x. induction n as [|n IH]; intros x Hx; cbn [le_bytes from_le_bytes].
  - cbn in Hx. lia.
  - rewrite Nat2N.inj_succ, N.pow_succ_r' in Hx. rewrite IH.
    + pose proof (N.div_mod x 256). lia.
    + apply N.Div0.div_lt_upper_bound. lia.
Qed.

Lemma le_bytes_length n x : length (le_bytes n x) = n.
Proof. revert x. induction n; intros x; cbn; congruence. Qed.

Lemma le_bytes_byte n x : Forall (fun b => b < 256) (le_bytes n x).
Proof.
  revert x. induction n; intros x; cbn; constructor; [|done]. by apply N.mod_lt.
Qed.

Lemma u64_to_bytes_inj x y :
  x < u64_modulus -> y < u64_modulus -> u64_to_bytes x = u64_to_bytes y -> x = y.
Proof.
  intros Hx Hy Heq. rewrite <- (le_bytes_round_trip 8 x Hx), <- (le_bytes_round_trip 8 y Hy).
  by f_equal.
Qed.

Lemma exchange_buffer_inj i a i' a' :
  i < u64_modulus -> a < u64_modulus -> i' < u64_modulus -> a' < u64_modulus ->
  exchange_buffer i a = exchange_buffer i' a' -> i = i' /\ a = a'.
Proof.
  unfold exchange_buffer. intros Hi Ha Hi' Ha' Heq. apply app_inv_head in Heq.
  apply app_inj_1 in Heq as [H1 H2]; [|by unfold u64_to_bytes; rewrite !le_bytes_length].
  split; by apply u64_to_bytes_inj.
Qed.

(* ================================================================== *)
(** ** The formulas                                                    *)
(* ================================================================== *)

(** What [input] buys from reserves [x] and [y]. *)
Definition output_for (input x y : N) : N := y * input / (input + x).

Section Formula_facts.
Context {cfg : Config}.

Lemma output_lt input x y : 0 < x -> 0 < y -> output_for input x y < y.
Proof. intros. unfold output_for. apply N.Div0.div_lt_upper_bound. nia. Qed.

Lemma product_grows input x y :
  0 < x -> 0 < y -> x * y <= (x + input) * (y - output_for input x y).
Proof.
  intros Hx Hy. pose proof (output_lt input x y Hx Hy) as Hlt. unfold output_for in *.
  pose proof (N.Div0.mul_div_le (y * input) (input + x)) as Hle.
  rewrite N.mul_sub_distr_l. nia.
Qed.

Lemma calc_output_run input x y fee s :
  0 < x -> 0 < y -> input + x < u128_modulus -> y * input < u128_modulus ->
  calc_output_at_known_input input x y fee s = Ok (output_for input x y) s.
Proof.
  intros Hx Hy Hsum Hprod. unfold calc_output_at_known_input.
  rewrite (proj2 (N.eqb_neq x 0)), (proj2 (N.eqb_neq y 0)) by lia. cbn [orb].
  unfold u128_add, u128_mul. rewrite uadd_in_range, umul_in_range by done. unfold bind; cbn.
  by rewrite udiv_pos by lia.
Qed.

Lemma calc_output_empty input x y fee s :
  x = 0 \/ y = 0 -> calc_output_at_known_input input x y fee s = Err "Empty Pool."%string s.
Proof.
  unfold calc_output_at_known_input. intros [-> | ->]; [done|]. by rewrite orb_true_r.
Qed.

Lemma calc_input_run output x y fee s :
  0 < x -> output < y -> x * output < u128_modulus ->
  calc_input_at_known_output output x y fee s = Ok output s.
Proof.
  intros Hx Hlt Hprod. unfold calc_input_at_known_output.
  rewrite (proj2 (N.eqb_neq x 0)), (proj2 (N.eqb_neq y 0)) by lia. cbn [orb].
  rewrite (proj2 (N.leb_gt _ _)) by done.
  unfold u128_sub, u128_mul. rewrite usub_in_range, umul_in_range by (done || lia). unfold bind; cbn.
  by rewrite udiv_pos by lia.
Qed.

Lemma calc_input_too_much output x y fee s :
  0 < x -> 0 < y -> y <= output -> calc_input_at_known_output output x y fee s = Ok u128_max s.
Proof.
  intros Hx Hy Hle. unfold calc_input_at_known_output.
  rewrite (proj2 (N.eqb_neq x 0)), (proj2 (N.eqb_neq y 0)) by lia. cbn [orb].
  by rewrite (proj2 (N.leb_le _ _) Hle).
Qed.
End Formula_facts.

(* ================================================================== *)
(** ** The trades                                                      *)
(* ================================================================== *)

Section Trade_facts.
Context {cfg : Config} {fo : FixedOps} {ef : ExchangeFactory}.

(** The balance of an account, on the chain. *)
Definition bal (id : AssetId) (who : AccountId) (s : Chain) : N :=
  get_asset_balance id who (assets s).

(** The exchange account of the pool of [id]. *)
Definition pool_account (id : AssetId) (s : Chain) : AccountId :=
  get_exchange_address (InherentAsset (assets s)) id.

(** The state with the pool's balance of [id] reported. *)
Definition reported (id : AssetId) (ea : AccountId) (s : Chain) : Chain :=
  add_event (EvSwap (ReserveChanged id (bal id ea s))) s.

(** A payment into a pool, a payment out of it, and the events. *)
Definition traded (p : AssetId) (ea who to : AccountId) (in_id : AssetId) (input : Balance)
    (out_id : AssetId) (output : Balance) (s : Chain) : Chain :=
  reported (InherentAsset (assets s)) ea (reported p ea
    (add_event (EvSwap (AssetsSwapped who in_id input out_id output))
      (attempted ea out_id to output (attempted who in_id ea input s)))).

Lemma traded_assets p ea who to in_id input out_id output s :
  assets (traded p ea who to in_id input out_id output s) =
  assets (attempted ea out_id to output (attempted who in_id ea input s)).
Proof. done. Qed.

Lemma inherent_quote id amount fee s :
  calc_inherent_asset_output_amount id amount fee s =
  calc_output_at_known_input amount (bal id (pool_account id s) s)
    (bal (InherentAsset (assets s)) (pool_account id s) s) fee s.
Proof. done. Qed.

Lemma paired_quote id amount fee s :
  calc_paired_asset_output_amount id amount fee s =
  calc_output_at_known_input amount (bal (InherentAsset (assets s)) (pool_account id s) s)
    (bal id (pool_account id s) s) fee s.
Proof. done. Qed.

Lemma inherent_cost id amount fee s :
  calc_inherent_asset_input_amount id amount fee s =
  calc_input_at_known_output amount (bal (InherentAsset (assets s)) (pool_account id s) s)
    (bal id (pool_account id s) s) fee s.
Proof. done. Qed.

Lemma paired_cost id amount fee s :
  calc_paired_asset_input_amount id amount fee s =
  calc_input_at_known_output amount (bal id (pool_account id s) s)
    (bal (InherentAsset (assets s)) (pool_account id s) s) fee s.
Proof. done. Qed.

(** The asset that is not the inherent one, of the two sides of a trade. *)
Definition paired_side (in_id out_id : AssetId) (s : Chain) : AssetId :=
  if in_id =? InherentAsset (assets s) then out_id else in_id.

(** A trade in one pool: one side is the inherent asset. *)
Definition one_pool (in_id out_id : AssetId) (s : Chain) : Prop :=
  in_id <> out_id /\
  (in_id = InherentAsset (assets s) \/ out_id = InherentAsset (assets s)).

Lemma get_inherent {E A} (k : AssetId -> RT E A) s :
  bind (get_assets InherentAsset) k s = k (InherentAsset (assets s)) s.
Proof. done. Qed.

Lemma attempt_then {E A} from id to amount (k : unit -> RT E A) s :
  ledger_ok (assets s) ->
  bind (ignore (transfer from id to amount)) k s = k tt (attempted from id to amount s).
Proof. intros Hok. by rewrite (bind_run _ _ _ _ _ (attempt_run from id to amount s Hok)). Qed.

(** Runs the payments and the events of a trade whose quote is known. *)
Ltac trade Hok :=
  rewrite ?get_inherent; cbv zeta;
  repeat (rewrite attempt_then by (repeat apply attempted_ok; exact Hok));
  reflexivity.

Lemma inherent_to_paired_run who to p input m fee output s :
  ledger_ok (assets s) -> calc_paired_asset_output_amount p input fee s = Ok output s ->
  inherent_asset_to_paired_asset_with_exact_input who to p input m fee s =
    Ok output (traded p (pool_account p s) who to (InherentAsset (assets s)) input p output s).
Proof.
  intros Hok Hq. unfold inherent_asset_to_paired_asset_with_exact_input.
  rewrite (bind_run _ _ _ _ _ Hq). trade Hok.
Qed.

Lemma inherent_to_paired_out_run who to p output m fee input s :
  ledger_ok (assets s) -> calc_inherent_asset_input_amount p output fee s = Ok input s ->
  inherent_asset_to_paired_asset_with_exact_output who to p output m fee s =
    Ok input (traded p (pool_account p s) who to (InherentAsset (assets s)) input p output s).
Proof.
  intros Hok Hq. unfold inherent_asset_to_paired_asset_with_exact_output.
  rewrite (bind_run _ _ _ _ _ Hq). trade Hok.
Qed.

Lemma paired_to_inherent_run who to p input m fee output s :
  ledger_ok (assets s) -> calc_inherent_asset_output_amount p input fee s = Ok output s ->
  paired_asset_to_inherent_asset_with_exact_input who to p input m fee s =
    Ok output (traded p (pool_account p s) who to p input (InherentAsset (assets s)) output s).
Proof.
  intros Hok Hq. unfold paired_asset_to_inherent_asset_with_exact_input.
  rewrite (bind_run _ _ _ _ _ Hq). trade Hok.
Qed.

Lemma paired_to_inherent_out_run who to p output m fee input s :
  ledger_ok (assets s) -> calc_paired_asset_input_amount p output fee s = Ok input s ->
  paired_asset_to_inherent_asset_with_exact_output who to p output m fee s =
    Ok input (traded p (pool_account p s) who to p input (InherentAsset (assets s)) output s).
Proof.
  intros Hok Hq. unfold paired_asset_to_inherent_asset_with_exact_output.
  rewrite (bind_run _ _ _ _ _ Hq). trade Hok.
Qed.

Lemma try_str_run {A} (m : RT string A) a s s' : m s = Ok a s' -> try_str m s = Ok tt s'.
Proof. intros H. unfold try_str, map_err, bind. by rewrite H. Qed.

(** The two dispatchables choose the routine by the inherent asset. *)
Lemma exact_input_cases who to in_id out_id input min_output s :
  swap_assets_with_exact_input (Signed who) to in_id out_id input min_output s =
    if in_id =? InherentAsset (assets s) then
      try_str (inherent_asset_to_paired_asset_with_exact_input who to
                 out_id input min_output (fee_rate (swap s))) s
    else if out_id =? InherentAsset (assets s) then
      try_str (paired_asset_to_inherent_asset_with_exact_input who to
                 in_id input min_output (fee_rate (swap s))) s
    else
      try_str (asset_a_to_asset_b_with_exact_input who to in_id out_id input min_output
                 (fee_rate (swap s))) s.
Proof.
  unfold swap_assets_with_exact_input, ensure_signed, get_assets, get_swap, bind, ret, gets.
  by destruct (in_id =? InherentAsset (assets s)), (out_id =? InherentAsset (assets s)).
Qed.

Lemma exact_output_cases who to in_id out_id output max_input s :
  swap_assets_with_exact_output (Signed who) to in_id out_id output max_input s =
    if in_id =? InherentAsset (assets s) then
      try_str (inherent_asset_to_paired_asset_with_exact_output who to
                 out_id output max_input (fee_rate (swap s))) s
    else if out_id =? InherentAsset (assets s) then
      try_str (paired_asset_to_inherent_asset_with_exact_output who to
                 in_id output max_input (fee_rate (swap s))) s
    else
      try_str (asset_a_to_asset_b_with_exact_output who to in_id out_id output max_input
                 (fee_rate (swap s))) s.
Proof.
  unfold swap_assets_with_exact_output, ensure_signed, get_assets, get_swap, bind, ret, gets.
  by destruct (in_id =? InherentAsset (assets s)), (out_id =? InherentAsset (assets s)).
Qed.

(** A one-pool trade at a known quote, in either direction. *)
Lemma exact_input_run who to in_id out_id input min_output output s :
  ledger_ok (assets s) -> one_pool in_id out_id s ->
  let p := paired_side in_id out_id s in let ea := pool_account p s in
  (forall fee, calc_output_at_known_input input (bal in_id ea s) (bal out_id ea s) fee s =
     Ok output s) ->
  swap_assets_with_exact_input (Signed who) to in_id out_id input min_output s =
    Ok tt (traded p ea who to in_id input out_id output s).
Proof.
  intros Hok [Hne Hside] p ea Hq. subst p ea. unfold paired_side in *.
  rewrite exact_input_cases.
  destruct (N.eqb_spec in_id (InherentAsset (assets s))) as [->|Hin].
  - eapply try_str_run, inherent_to_paired_run; [done|]. rewrite paired_quote. apply Hq.
  - destruct Hside as [? | ->]; [done|]. rewrite N.eqb_refl.
    eapply try_str_run, paired_to_inherent_run; [done|]. rewrite inherent_quote. apply Hq.
Qed.

Lemma exact_output_run who to in_id out_id output max_input input s :
  ledger_ok (assets s) -> one_pool in_id out_id s ->
  let p := paired_side in_id out_id s in let ea := pool_account p s in
  (forall fee, calc_input_at_known_output output (bal in_id ea s) (bal out_id ea s) fee s =
     Ok input s) ->
  swap_assets_with_exact_output (Signed who) to in_id out_id output max_input s =
    Ok tt (traded p ea who to in_id input out_id output s).
Proof.
  intros Hok [Hne Hside] p ea Hq. subst p ea. unfold paired_side in *.
  rewrite exact_output_cases.
  destruct (N.eqb_spec in_id (InherentAsset (assets s))) as [->|Hin].
  - eapply try_str_run, inherent_to_paired_out_run; [done|]. rewrite inherent_cost. apply Hq.
  - destruct Hside as [? | ->]; [done|]. rewrite N.eqb_refl.
    eapply try_str_run, paired_to_inherent_out_run; [done|]. rewrite paired_cost. apply Hq.
Qed.

(** A trade through two pools. *)
Definition routed (who to : AccountId) (a : AssetId) (input mid : Balance) (b : AssetId)
    (output : Balance) (s : Chain) : Chain :=
  let i := InherentAsset (assets s) in
  let ea := pool_account a s in let eb := pool_account b s in
  reported i eb (reported b eb (reported i ea (reported a ea
    (add_event (EvSwap (AssetsSwapped who a input b output))
      (attempted eb b to output (attempted ea i eb mid (attempted who a ea input s))))))).

Definition two_pool (a b : AssetId) (s : Chain) : Prop :=
  a <> b /\ a <> InherentAsset (assets s) /\ b <> InherentAsset (assets s).

Lemma route_in_run who to a b input min_output mid output s :
  ledger_ok (assets s) -> two_pool a b s ->
  let i := InherentAsset (assets s) in
  let ea := pool_account a s in let eb := pool_account b s in
  (forall fee, calc_output_at_known_input input (bal a ea s) (bal i ea s) fee s = Ok mid s) ->
  (forall fee, calc_output_at_known_input mid (bal i eb s) (bal b eb s) fee s = Ok output s) ->
  swap_assets_with_exact_input (Signed who) to a b input min_output s =
    Ok tt (routed who to a input mid b output s).
Proof.
  intros Hok (_ & Ha & Hb) i ea eb Hmid Hout.
  rewrite exact_input_cases, (proj2 (N.eqb_neq _ _) Ha), (proj2 (N.eqb_neq _ _) Hb).
  eapply try_str_run. unfold asset_a_to_asset_b_with_exact_input. rewrite get_inherent. cbv zeta.
  rewrite (bind_run _ _ s mid s) by (rewrite inherent_quote; apply Hmid).
  rewrite (bind_run _ _ s output s) by (rewrite paired_quote; apply Hout). trade Hok.
Qed.

Lemma route_out_run who to a b output max_input mid input s :
  ledger_ok (assets s) -> two_pool a b s ->
  let i := InherentAsset (assets s) in
  let ea := pool_account a s in let eb := pool_account b s in
  (forall fee, calc_input_at_known_output output (bal i eb s) (bal b eb s) fee s = Ok mid s) ->
  (forall fee, calc_input_at_known_output mid (bal a ea s) (bal i ea s) fee s = Ok input s) ->
  swap_assets_with_exact_output (Signed who) to a b output max_input s =
    Ok tt (routed who to a input mid b output s).
Proof.
  intros Hok (_ & Ha & Hb) i ea eb Hmid Hin.
  rewrite exact_output_cases, (proj2 (N.eqb_neq _ _) Ha), (proj2 (N.eqb_neq _ _) Hb).
  eapply try_str_run. unfold asset_a_to_asset_b_with_exact_output. rewrite get_inherent. cbv zeta.
  rewrite (bind_run _ _ s mid s) by (rewrite inherent_cost; apply Hmid).
  rewrite (bind_run _ _ s input s) by (rewrite paired_cost; apply Hin). trade Hok.
Qed.
End Trade_facts.

(* ================================================================== *)
(** ** Balances after a trade                                          *)
(* ================================================================== *)

Section Trade_balances.
Context {cfg : Config} {fo : FixedOps} {ef : ExchangeFactory}.

Lemma attempted_bal from id to amount s id' who :
  amount <= bal id from s ->
  bal id' who (attempted from id to amount s) + side id from amount id' who =
  bal id' who s + side id to amount id' who.
Proof. intros. by apply attempted_balance. Qed.

Lemma attempted_other from id to amount s id' who :
  id' <> id -> bal id' who (attempted from id to amount s) = bal id' who s.
Proof.
  intros Hne. destruct (decide (amount <= bal id from s)) as [Hle|Hgt].
  - pose proof (attempted_bal from id to amount s id' who Hle) as H.
    rewrite !side_other_asset in H by done. lia.
  - rewrite attempted_refused; [done|]. unfold bal in Hgt. lia.
Qed.

(** Both payments of a one-pool trade go through. *)
Lemma traded_bal p ea who to in_id input out_id output s id acct :
  in_id <> out_id -> input <= bal in_id who s -> output <= bal out_id ea s ->
  bal id acct (traded p ea who to in_id input out_id output s)
    + side in_id who input id acct + side out_id ea output id acct =
  bal id acct s + side in_id ea input id acct + side out_id to output id acct.
Proof.
  intros Hne Hin Hout. unfold bal at 1. rewrite traded_assets.
  set (s1 := attempted who in_id ea input s).
  pose proof (attempted_bal who in_id ea input s id acct Hin) as H1. fold s1 in H1.
  assert (output <= bal out_id ea s1) as Hout1
    by (subst s1; by rewrite attempted_other by congruence).
  pose proof (attempted_bal ea out_id to output s1 id acct Hout1) as H2.
  unfold bal at 1 in H2. lia.
Qed.

(** The payment in is refused, the payment out is made all the same. *)
Lemma traded_unpaid_bal p ea who to in_id input out_id output s id acct :
  bal in_id who s < input -> output <= bal out_id ea s ->
  bal id acct (traded p ea who to in_id input out_id output s) + side out_id ea output id acct =
  bal id acct s + side out_id to output id acct.
Proof.
  intros Hlt Hout. unfold bal at 1. rewrite traded_assets, (attempted_refused who) by done.
  by apply attempted_bal.
Qed.

Lemma routed_bal who to a input mid b output s id acct :
  two_pool a b s -> let i := InherentAsset (assets s) in
  let ea := pool_account a s in let eb := pool_account b s in
  input <= bal a who s -> mid <= bal i ea s -> output <= bal b eb s ->
  bal id acct (routed who to a input mid b output s)
    + side a who input id acct + side i ea mid id acct + side b eb output id acct =
  bal id acct s
    + side a ea input id acct + side i eb mid id acct + side b to output id acct.
Proof.
  intros (Hab & Hai & Hbi) i ea eb Hin Hmid Hout. unfold bal at 1.
  change (assets (routed who to a input mid b output s)) with
    (assets (attempted eb b to output (attempted ea i eb mid (attempted who a ea input s)))).
  set (s1 := attempted who a ea input s). set (s2 := attempted ea i eb mid s1).
  assert (mid <= bal i ea s1) as Hmid1 by (subst s1; by rewrite attempted_other by (intros He; by apply Hai)).
  assert (output <= bal b eb s2) as Hout2
    by (subst s2 s1; rewrite (attempted_other ea) by exact Hbi; by rewrite attempted_other by (intros He; by apply Hab)).
  pose proof (attempted_bal who a ea input s id acct Hin) as H1. fold s1 in H1.
  pose proof (attempted_bal ea i eb mid s1 id acct Hmid1) as H2. fold s2 in H2.
  pose proof (attempted_bal eb b to output s2 id acct Hout2) as H3.
  unfold bal at 1 in H3. lia.
Qed.

(** Both payments into the pools are refused. *)
Lemma routed_unpaid_bal who to a input mid b output s id acct :
  let i := InherentAsset (assets s) in
  let ea := pool_account a s in let eb := pool_account b s in
  bal a who s < input -> bal i ea s < mid -> output <= bal b eb s ->
  bal id acct (routed who to a input mid b output s) + side b eb output id acct =
  bal id acct s + side b to output id acct.
Proof.
  intros i ea eb Hin Hmid Hout. unfold bal at 1.
  change (assets (routed who to a input mid b output s)) with
    (assets (attempted eb b to output (attempted ea i eb mid (attempted who a ea input s)))).
  rewrite (attempted_refused who), (attempted_refused ea) by done. by apply attempted_bal.
Qed.

(** The reserves after a funded trade through one pool, and through two. *)
Lemma traded_reserves p ea who to in_id input out_id output s :
  in_id <> out_id -> who <> ea -> to <> ea -> input <= bal in_id who s -> output <= bal out_id ea s ->
  let s' := traded p ea who to in_id input out_id output s in
  bal in_id ea s' = bal in_id ea s + input /\ bal out_id ea s' = bal out_id ea s - output.
Proof.
  intros Hne Hwho Hto Hin Hout s'.
  pose proof (traded_bal p ea who to in_id input out_id output s in_id ea Hne Hin Hout) as E1.
  pose proof (traded_bal p ea who to in_id input out_id output s out_id ea Hne Hin Hout) as E2.
  fold s' in E1, E2.
  rewrite side_same, (side_other_account in_id who), !(fun w n => side_other_asset out_id w n in_id)
    in E1 by congruence.
  rewrite side_same, (side_other_account out_id to), !(fun w n => side_other_asset in_id w n out_id)
    in E2 by congruence.
  split; lia.
Qed.

Lemma routed_reserves who to a input mid b output s :
  two_pool a b s -> let i := InherentAsset (assets s) in
  let ea := pool_account a s in let eb := pool_account b s in
  ea <> eb -> who <> ea -> to <> eb ->
  input <= bal a who s -> mid <= bal i ea s -> output <= bal b eb s ->
  let s' := routed who to a input mid b output s in
  (bal a ea s' = bal a ea s + input /\ bal i ea s' = bal i ea s - mid) /\
  (bal i eb s' = bal i eb s + mid /\ bal b eb s' = bal b eb s - output).
Proof.
  intros Htwo i ea eb Hab Hwho Hto Hin Hmid Hout s'.
  pose proof (fun id u => routed_bal who to a input mid b output s id u Htwo Hin Hmid Hout) as Hbal.
  fold i ea eb s' in Hbal. destruct Htwo as (H1 & H2 & H3). fold i in H2, H3.
  pose proof (Hbal a ea) as E1. pose proof (Hbal i ea) as E2.
  pose proof (Hbal i eb) as E3. pose proof (Hbal b eb) as E4.
  rewrite side_same, (side_other_account a who), !(fun w n => side_other_asset i w n a), !(fun w n => side_other_asset b w n a)
    in E1 by congruence.
  rewrite side_same, (side_other_account i eb), !(fun w n => side_other_asset a w n i), !(fun w n => side_other_asset b w n i)
    in E2 by congruence.
  rewrite side_same, (side_other_account i ea), !(fun w n => side_other_asset a w n i), !(fun w n => side_other_asset b w n i)
    in E3 by congruence.
  rewrite side_same, (side_other_account b to), !(fun w n => side_other_asset a w n b), !(fun w n => side_other_asset i w n b)
    in E4 by congruence.
  split; split; lia.
Qed.

(** A payment into the pool fits the width because the money exists. *)
Lemma deposit_fits who ea id input s :
  ledger_ok (assets s) -> who <> ea -> input <= bal id who s ->
  input + bal id ea s < u128_modulus.
Proof.
  intros [Hsum Hmax _] Hne Hle. pose proof (two_balances_le_held id who ea (assets s) Hne) as H.
  rewrite Hsum in H. specialize (Hmax id). apply u128_max_modulus. unfold bal in *. lia.
Qed.
End Trade_balances.
