(* ===== verification/SwapLiquidity.v ===== *)
(** * Facts about the liquidity of the swap pallet

    The ledger of liquidity shares against its totals, what adding and removing
    liquidity pay, and what either does to the reserves. *)

From S2P Require Export SwapTrades.

Local Open Scope N_scope.
Local Open Scope rust_scope.

(* ================================================================== *)
(** ** The share ledger                                                *)
(* ================================================================== *)

Section Share_books.
Context {acc : Accounts}.

(** All shares of the pool of [id]. *)
Definition shares (id : AssetId) (w : SwapStorage) : N :=
  msum (of_asset id) (AccountLiquidities w).

(** The recorded total of every pool is the sum of the accounts' shares. *)
Definition liquidity_ok (w : SwapStorage) : Prop :=
  forall id, shares id w = total_liquidity id w.
End Share_books.

Section Shares.
Context {cfg : Config} {fo : FixedOps} {ef : ExchangeFactory}.

Lemma share_le id who w : liquidity_ok w -> account_liquidity id who w <= total_liquidity id w.
Proof. intros Hok. rewrite <- Hok. apply msum_le, of_asset_pair. Qed.

(** Writing one account's share and the total together. *)
Lemma shares_rewritten id who v total w :
  liquidity_ok w -> total + account_liquidity id who w = total_liquidity id w + v ->
  liquidity_ok (set_TotalLiquidities <[id := total]>
                  (set_AccountLiquidities <[(id, who) := v]> w)).
Proof.
  intros Hok Heq id'. unfold shares, total_liquidity. cbn.
  pose proof (msum_insert (of_asset id') (AccountLiquidities w) (id, who) v) as H.
  specialize (Hok id'). unfold shares, total_liquidity, account_liquidity in *.
  unfold of_asset in H at 2 4. cbn in H. rewrite getd_insert.
  destruct (N.eqb_spec id id'), (decide (id = id')); subst; try congruence; lia.
Qed.

(** Transfers with a dropped [Result] leave the pallet's storage alone. *)
Lemma wp_attempt {E} from id to amount (Q : unit -> Chain -> Prop) (R : E -> Chain -> Prop) s :
  (forall s', swap s' = swap s -> Q tt s') ->
  wp (ignore (transfer from id to amount)) Q R s.
Proof.
  intros HQ. apply wp_ignore, (wp_respects ledger_frame); [apply transfer_framed | |];
    intros ? s' [_ Hsw _ _ _]; by apply HQ.
Qed.

Ltac swap_step :=
  first [ apply wp_attempt; intros ? ? | wp_go_step ]; cbv beta iota zeta.

Lemma wp_reserve_changed {E} id ea (Q : unit -> Chain -> Prop) (R : E -> Chain -> Prop) s :
  Q tt (reported id ea s) -> wp (reserve_changed id ea) Q R s.
Proof. done. Qed.

Hypothesis checked : overflow_checks = true.

Lemma add_liquidity_shares {E} who id i a m :
  respects (stable (fun s => liquidity_ok (swap s))) (_add_liquidity who id i a m : RT E unit).
Proof.
  apply respects_wp. intros s. unfold _add_liquidity, get_total_liquidity, balance, get_liquidity,
    set_liquidity, increase_total_liquidity, reserve_changed, balance.
  do 5 swap_step. destruct (N.eqb_spec (total_liquidity id (swap s)) 0) as [Hz|Hz];
    repeat swap_step; intros Hok; cbn in *;
    repeat match goal with H : swap _ = swap _ |- _ => rewrite H in *; clear H end.
  - unfold u128_add in *. rewrite checked in *.
    match goal with H : uadd _ _ _ _ = _ |- _ => apply uadd_checked in H as [-> _] end.
    apply shares_rewritten; [done|]. cbn. unfold total_liquidity in *. cbn in *.
    pose proof (share_le id who _ Hok) as Hle. unfold total_liquidity in Hle. lia.
  - unfold u128_add in *. rewrite checked in *.
    repeat match goal with H : uadd _ _ _ _ = _ |- _ => apply uadd_checked in H as [-> _] end.
    apply shares_rewritten; [done|]. unfold total_liquidity. cbn. lia.
Qed.

Lemma remove_liquidity_shares {E} who id l mi ma :
  respects (stable (fun s => liquidity_ok (swap s))) (_remove_liquidity who id l mi ma : RT E unit).
Proof.
  apply respects_wp. intros s. unfold _remove_liquidity, get_total_liquidity, balance, get_liquidity,
    set_liquidity, decrease_total_liquidity, reserve_changed, balance.
  repeat swap_step; intros Hok; cbn in *;
    repeat match goal with H : swap _ = swap _ |- _ => rewrite H in *; clear H end.
  unfold u128_sub in *. rewrite checked in *.
  repeat match goal with H : usub _ _ _ _ = _ |- _ => apply usub_checked in H as [-> ?] end.
  apply shares_rewritten; [done|]. unfold total_liquidity in *. cbn in *. lia.
Qed.
End Shares.

(* ================================================================== *)
(** ** Adding and removing liquidity, run                              *)
(* ================================================================== *)

Section Runs.
Context {cfg : Config} {fo : FixedOps} {ef : ExchangeFactory}.

(** The reserves of the pool of [id]. *)
Definition inherent_reserve (id : AssetId) (s : Chain) : N :=
  bal (InherentAsset (assets s)) (pool_account id s) s.
Definition paired_reserve (id : AssetId) (s : Chain) : N := bal id (pool_account id s) s.

(** Shares minted for [x] of the inherent asset. *)
Definition minted (id : AssetId) (x : Balance) (s : Chain) : N :=
  if total_liquidity id (swap s) =? 0 then x
  else total_liquidity id (swap s) * x / inherent_reserve id s.

(** What [l] shares are worth of a reserve. *)
Definition payout (id : AssetId) (reserve l : N) (s : Chain) : N :=
  reserve * l / total_liquidity id (swap s).

Definition with_shares (id : AssetId) (who : AccountId) (own total : N) (s : Chain) : Chain :=
  set_swap (fun w => set_TotalLiquidities <[id := total]>
                       (set_AccountLiquidities <[(id, who) := own]> w)) s.

(** Both pool balances reported. *)
Definition reported_pool (id : AssetId) (i : AssetId) (ea : AccountId) (s : Chain) : Chain :=
  reported i ea (reported id ea s).

Definition provided (who : AccountId) (id : AssetId) (x y : Balance) (s : Chain) : Chain :=
  let i := InherentAsset (assets s) in let ea := pool_account id s in
  let n := minted id x s in
  reported_pool id i ea
    (set_swap (set_ExchangeAccounts <[id := ea]>)
      (with_shares id who (account_liquidity id who (swap s) + n)
         (total_liquidity id (swap s) + n)
         (attempted who id ea y (attempted who i ea x s)))).

Definition redeemed (who : AccountId) (id : AssetId) (l own total : N) (s : Chain) : Chain :=
  let i := InherentAsset (assets s) in let ea := pool_account id s in
  reported_pool id i ea
    (with_shares id who own total
      (attempted ea id who (payout id (paired_reserve id s) l s)
        (attempted ea i who (payout id (inherent_reserve id s) l s) s))).

Lemma attempted_swap from id to amount s : swap (attempted from id to amount s) = swap s.
Proof. by destruct (attempted_frame from id to amount s) as [[] _]. Qed.

Lemma get_swap_at {E A B} (f : SwapStorage -> A) (k : A -> RT E B) s :
  bind (get_swap f) k s = k (f (swap s)) s.
Proof. done. Qed.

Lemma get_assets_at {E A B} (f : AssetsStorage -> A) (k : A -> RT E B) s :
  bind (get_assets f) k s = k (f (assets s)) s.
Proof. done. Qed.

Lemma put_swap_at {E A} f (k : unit -> RT E A) s :
  bind (put_swap f) k s = k tt (set_swap f s).
Proof. done. Qed.

Lemma some_then {E A B} (o : option A) (k : A -> RT E B) a s :
  o = Some a -> bind (or_panic o) k s = k a s.
Proof. by intros ->. Qed.

Lemma bind_assoc {E A B C} (m : RT E A) (k : A -> RT E B) (h : B -> RT E C) s :
  bind (bind m k) h s = bind m (fun a => bind (k a) h) s.
Proof. unfold bind. by destruct (m s). Qed.

Lemma add_liquidity_run {E} who id x y m s :
  ledger_ok (assets s) -> liquidity_ok (swap s) ->
  (total_liquidity id (swap s) = 0 \/ 0 < inherent_reserve id s) ->
  total_liquidity id (swap s) * x < u128_modulus ->
  total_liquidity id (swap s) + minted id x s < u128_modulus ->
  (_add_liquidity who id x y m : RT E unit) s = Ok tt (provided who id x y s).
Proof.
  intros Hok Hsh Hres Hprod Hsum. pose proof (share_le id who _ Hsh) as Hle.
  unfold _add_liquidity, get_total_liquidity, get_liquidity, set_liquidity,
    increase_total_liquidity, balance. rewrite get_assets_at, get_swap_at. cbv zeta.
  unfold provided, minted in *.
  destruct (N.eqb_spec (total_liquidity id (swap s)) 0) as [Hz|Hz].
  - rewrite !bind_assoc, attempt_then by done.
    rewrite !bind_assoc, attempt_then by (by apply attempted_ok).
    rewrite !bind_assoc, put_swap_at, !bind_assoc, get_swap_at, bind_assoc.
    set (s2 := attempted who id _ y _).
    assert (swap s2 = swap s) as Hsw by (subst s2; by rewrite !attempted_swap).
    change (total_liquidity id (swap (set_swap ?f s2))) with (total_liquidity id (swap s2)).
    rewrite Hsw, Hz in *. rewrite (some_then (u128_add _ _) _ (0 + x)) by (by apply uadd_in_range).
    replace (account_liquidity id who (swap s) + x) with x by lia. done.
  - destruct Hres as [?|Hres]; [done|].
    rewrite !bind_assoc, !get_assets_at, !bind_assoc, !get_assets_at, !bind_assoc, attempt_then by done.
    rewrite !bind_assoc, attempt_then by (by apply attempted_ok).
    rewrite !bind_assoc, (some_then (u128_mul _ _) _ _ _ (umul_in_range _ _ _ _ Hprod)).
    change (get_asset_balance _ (get_exchange_address _ id) (assets s))
      with (inherent_reserve id s).
    rewrite !bind_assoc, (some_then _ _ _ _ (udiv_pos _ _ Hres)).
    rewrite !bind_assoc, get_swap_at, !bind_assoc.
    set (s2 := attempted who id _ y _).
    assert (swap s2 = swap s) as Hsw by (subst s2; by rewrite !attempted_swap).
    rewrite Hsw.
    rewrite (some_then (u128_add _ _) _ (account_liquidity id who (swap s) +
      total_liquidity id (swap s) * x / inherent_reserve id s)) by (apply uadd_in_range; lia).
    rewrite !bind_assoc, put_swap_at, !bind_assoc, get_swap_at, bind_assoc.
    change (total_liquidity id (swap (set_swap ?f s2))) with (total_liquidity id (swap s2)).
    rewrite Hsw. by rewrite (some_then (u128_add _ _) _ _ _ (uadd_in_range _ _ _ _ Hsum)).
Qed.

Lemma remove_liquidity_run {E} who id l mi ma own total s :
  ledger_ok (assets s) -> 0 < total_liquidity id (swap s) ->
  inherent_reserve id s * l < u128_modulus -> paired_reserve id s * l < u128_modulus ->
  u128_sub (account_liquidity id who (swap s)) l = Some own ->
  u128_sub (total_liquidity id (swap s)) l = Some total ->
  (_remove_liquidity who id l mi ma : RT E unit) s = Ok tt (redeemed who id l own total s).
Proof.
  intros Hok Hpos Hi Hp Hown Htot.
  unfold _remove_liquidity, get_total_liquidity, get_liquidity, set_liquidity,
    decrease_total_liquidity, balance.
  rewrite get_assets_at. cbv zeta. rewrite !get_swap_at, !get_assets_at.
  change (get_asset_balance (InherentAsset (assets s)) (get_exchange_address _ id) (assets s))
    with (inherent_reserve id s).
  change (get_asset_balance id (get_exchange_address _ id) (assets s))
    with (paired_reserve id s).
  rewrite (some_then (u128_mul _ _) _ _ _ (umul_in_range _ _ _ _ Hi)).
  rewrite (some_then _ _ _ _ (udiv_pos _ _ Hpos)).
  rewrite (some_then (u128_mul _ _) _ _ _ (umul_in_range _ _ _ _ Hp)).
  rewrite (some_then _ _ _ _ (udiv_pos _ _ Hpos)).
  rewrite attempt_then by done. rewrite attempt_then by (by apply attempted_ok).
  rewrite (some_then _ _ _ _ Hown). rewrite put_swap_at, bind_assoc, get_swap_at.
  set (s2 := attempted _ id who _ _).
  assert (swap s2 = swap s) as Hsw by (subst s2; by rewrite !attempted_swap).
  change (total_liquidity id (swap (set_swap ?f s2))) with (total_liquidity id (swap s2)).
  rewrite Hsw, bind_assoc. by rewrite (some_then _ _ _ _ Htot).
Qed.

(** Without the shares (or with a product out of range) a checked build
    traps, so nothing happens. *)
Lemma remove_liquidity_panics {E} who id l mi ma s :
  ledger_ok (assets s) -> 0 < total_liquidity id (swap s) ->
  inherent_reserve id s * l < u128_modulus -> paired_reserve id s * l < u128_modulus ->
  u128_sub (account_liquidity id who (swap s)) l = None ->
  (_remove_liquidity who id l mi ma : RT E unit) s = Panic.
Proof.
  intros Hok Hpos Hi Hp Hown.
  unfold _remove_liquidity, get_total_liquidity, get_liquidity, set_liquidity,
    decrease_total_liquidity, balance.
  rewrite get_assets_at. cbv zeta. rewrite !get_swap_at, !get_assets_at.
  change (get_asset_balance (InherentAsset (assets s)) (get_exchange_address _ id) (assets s))
    with (inherent_reserve id s).
  change (get_asset_balance id (get_exchange_address _ id) (assets s))
    with (paired_reserve id s).
  rewrite (some_then (u128_mul _ _) _ _ _ (umul_in_range _ _ _ _ Hi)).
  rewrite (some_then _ _ _ _ (udiv_pos _ _ Hpos)).
  rewrite (some_then (u128_mul _ _) _ _ _ (umul_in_range _ _ _ _ Hp)).
  rewrite (some_then _ _ _ _ (udiv_pos _ _ Hpos)).
  rewrite attempt_then by done. rewrite attempt_then by (by apply attempted_ok).
  by rewrite Hown.
Qed.

(** The balances after either. *)
Lemma provided_bal who id x y s id' acct :
  id <> InherentAsset (assets s) ->
  x <= bal (InherentAsset (assets s)) who s -> y <= bal id who s ->
  bal id' acct (provided who id x y s)
    + side (InherentAsset (assets s)) who x id' acct + side id who y id' acct =
  bal id' acct s + side (InherentAsset (assets s)) (pool_account id s) x id' acct
    + side id (pool_account id s) y id' acct.
Proof.
  intros Hne Hx Hy. set (ea := pool_account id s). set (i := InherentAsset (assets s)) in *.
  change (bal id' acct (provided who id x y s))
    with (bal id' acct (attempted who id ea y (attempted who i ea x s))).
  pose proof (attempted_bal who i ea x s id' acct Hx) as H1.
  assert (y <= bal id who (attempted who i ea x s)) as Hy1
    by (by rewrite attempted_other).
  pose proof (attempted_bal who id ea y _ id' acct Hy1) as H2. lia.
Qed.

Lemma payout_le id reserve l s :
  l <= total_liquidity id (swap s) -> payout id reserve l s <= reserve.
Proof.
  unfold payout. intros Hl. destruct (N.eq_dec (total_liquidity id (swap s)) 0) as [->|Hne].
  - rewrite N.div_0_r. lia.
  - apply N.Div0.div_le_upper_bound. nia.
Qed.

Lemma redeemed_bal who id l own total s id' acct :
  id <> InherentAsset (assets s) -> l <= total_liquidity id (swap s) ->
  let pi := payout id (inherent_reserve id s) l s in
  let pp := payout id (paired_reserve id s) l s in
  bal id' acct (redeemed who id l own total s)
    + side (InherentAsset (assets s)) (pool_account id s) pi id' acct
    + side id (pool_account id s) pp id' acct =
  bal id' acct s + side (InherentAsset (assets s)) who pi id' acct + side id who pp id' acct.
Proof.
  intros Hne Hl pi pp. set (ea := pool_account id s). set (i := InherentAsset (assets s)) in *.
  change (bal id' acct (redeemed who id l own total s))
    with (bal id' acct (attempted ea id who pp (attempted ea i who pi s))).
  assert (pi <= bal i ea s) as Hpi by (by apply payout_le).
  pose proof (attempted_bal ea i who pi s id' acct Hpi) as H1.
  assert (pp <= bal id ea (attempted ea i who pi s)) as Hpp
    by (rewrite attempted_other by done; by apply payout_le).
  pose proof (attempted_bal ea id who pp _ id' acct Hpp) as H2. lia.
Qed.

(** Shares bought now and redeemed at once return no more than they cost. *)
Lemma redeem_le_cost r x t :
  0 < t -> 0 < r -> (r + x) * (t * x / r) / (t + t * x / r) <= x.
Proof.
  intros Ht Hr. pose proof (N.Div0.mul_div_le (t * x) r) as Hm.
  set (n := t * x / r) in *. apply N.Div0.div_le_upper_bound. nia.
Qed.
End Runs.
