(* ===== verification/OffchainWorker.v ===== *)
(** * The offchain worker ([pallets/offchain-worker/src/lib.rs])

    The price feed of asset 4: an offchain worker downloads a JSON document,
    extracts a price in cents and submits it as an unsigned transaction, which
    the pool validates against the block window and the dispatchable stores.

    The HTTP host, the transaction pool and [lite_json] are outside the
    repository.  They are the classes [OffchainHost] and [LiteJson], with exactly
    the results and the views of a JSON value the source looks at. *)

From S2P Require Export Swap.

Local Open Scope N_scope.
Local Open Scope rust_scope.

(** [T::UnsignedInterval] and [T::UnsignedPriority] *)
Class OffchainConfig : Type := {
  UnsignedInterval : BlockNumber;
  UnsignedPriority : N
}.

(* ================================================================== *)
(** ** The dispatchable and its validation                             *)
(* ================================================================== *)

(** [enum Call]; [decl_module!] adds the phantom variant. *)
Inductive OffchainCall : Type :=
| call_submit_price_unsigned (_block_number : BlockNumber) (price : N)
| call_phantom.

(** The [TransactionValidity] values the pallet builds. *)
Inductive InvalidTransaction : Type := Stale | Future | Call_.
Inductive TransactionValidity : Type :=
| Valid (tag_prefix : string) (priority provides longevity : N) (propagate : bool)
| Invalid (reason : InvalidTransaction).

Section Dispatch.
Context {cfg : Config} {fo : FixedOps} {oc : OffchainConfig}.

Definition submit_price_unsigned (origin : Origin) (_block_number : BlockNumber) (price : N)
    : RT DispatchError unit :=
  ensure_none origin ;;;
  price <- or_panic (fx_from_rational price 100) ;;
  _set_price 4 price ;;;
  current_block <- gets block_number ;;
  next <- or_panic (u32_add current_block UnsignedInterval) ;;
  modify (set_NextUnsignedAt next) ;;;
  deposit_event (EvOffchainWorker (NewPrice 4 price)).
End Dispatch.

Section Validation.
Context {acc : Accounts} {oc : OffchainConfig}.

Definition validate_transaction_parameters (bn : BlockNumber) (new_price : N) (s : Chain)
    : TransactionValidity :=
  let next_unsigned_at := NextUnsignedAt s in
  if bn <? next_unsigned_at then Invalid Stale
  else
    let current_block := block_number s in
    if current_block <? bn then Invalid Future
    else Valid "OffchainWorker" UnsignedPriority next_unsigned_at 5 true.

Definition validate_unsigned (call : OffchainCall) (s : Chain) : TransactionValidity :=
  match call with
  | call_submit_price_unsigned bn new_price => validate_transaction_parameters bn new_price s
  | call_phantom => Invalid Call_
  end.
End Validation.

(* ================================================================== *)
(** ** Reading the price out of the document                           *)
(* ================================================================== *)

(** [lite_json]'s number: a signed integer part, the digits of the fraction as a
    [u64], how many digits they are, and the power of ten, which the source never
    reads. *)
Record NumberValue : Type := mkNumber {
  integer : Z;
  fraction : N;
  fraction_length : N;
  exponent : Z
}.

(** A [str] is its bytes, a [char] its code point. *)
Class LiteJson : Type := {
  JsonValue : Type;
  parse_json : list N -> option JsonValue;
  as_object : JsonValue -> option (list (list N * JsonValue));  (** [JsonValue::Object(obj)] *)
  as_number : JsonValue -> option NumberValue                   (** [JsonValue::Number(number)] *)
}.

(** [k.iter().all(|k| Some( *k ) == chars.next())]: every round takes one
    character from [chars], and the first difference stops the loop. *)
Fixpoint all_match (k chars : list N) : bool * list N :=
  match k with
  | [] => (true, chars)
  | c :: k' =>
      match chars with
      | [] => (false, [])
      | d :: rest => if c =? d then all_match k' rest else (false, rest)
      end
  end.

(** [obj.into_iter().find(..)]: the iterator [chars] lives outside the closure,
    so a key resumes where the previous one left it. *)
Fixpoint find_key {V} (obj : list (list N * V)) (chars : list N) : option (list N * V) :=
  match obj with
  | [] => None
  | (k, v) :: obj' =>
      let (found, rest) := all_match k chars in
      if found then Some (k, v) else find_key obj' rest
  end.

Section Parse.
Context {cfg : Config} {lj : LiteJson}.

(** [10_u64.pow(exp)] *)
Definition u64_pow10 (exp : N) : option N :=
  let p := 10 ^ exp in
  if p <? u64_modulus then Some p
  else if overflow_checks then None else Some (p mod u64_modulus).

(** [x as u32] of a signed [x] *)
Definition z_as_u32 (x : Z) : N := Z.to_N (x mod Z.of_N u32_modulus)%Z.

(** [price.integer as u32 * 100 + (price.fraction / 10_u64.pow(exp)) as u32] *)
Definition cents (price : NumberValue) : option N :=
  let exp := fraction_length price - 2 in
  scaled <-? u32_mul (z_as_u32 (integer price)) 100 ;;
  power <-? u64_pow10 exp ;;
  digits <-? udiv (fraction price) power ;;
  u32_add scaled (as_u32 digits).

Definition usd : list N := bytes_of "USD".

(** The number under the key the loop stops at. *)
Definition price_number (price_str : list N) : option NumberValue :=
  match parse_json price_str with
  | None => None
  | Some v =>
      match as_object v with
      | Some obj =>
          match find_key obj usd with
          | Some (_, w) => as_number w
          | None => None
          end
      | None => None
      end
  end.

(** [Ok (Some p)], [Ok None], or a panic of the arithmetic. *)
Definition parse_price {E} (price_str : list N) : RT E (option N) :=
  match price_number price_str with
  | None => ret None
  | Some number => p <- or_panic (cents number) ;; ret (Some p)
  end.
End Parse.

(* ================================================================== *)
(** ** UTF-8                                                           *)
(* ================================================================== *)

Definition in_between (lo hi b : N) : bool := (lo <=? b) && (b <=? hi).
Definition continuation : N -> bool := in_between 128 191.

(** [str::from_utf8(..).is_ok()] *)
Fixpoint utf8_valid (l : list N) : bool :=
  match l with
  | [] => true
  | a :: l1 =>
      if a <=? 127 then utf8_valid l1
      else match l1 with
      | [] => false
      | b :: l2 =>
          if in_between 194 223 a then continuation b && utf8_valid l2
          else match l2 with
          | [] => false
          | c :: l3 =>
              if in_between 224 239 a then
                (if a =? 224 then in_between 160 191 b
                 else if a =? 237 then in_between 128 159 b else continuation b)
                && continuation c && utf8_valid l3
              else match l3 with
              | [] => false
              | d :: l4 =>
                  in_between 240 244 a &&
                  (if a =? 240 then in_between 144 191 b
                   else if a =? 244 then in_between 128 143 b else continuation b)
                  && continuation c && continuation d && utf8_valid l4
              end
          end
      end
  end.

Definition from_utf8 (body : list N) : option (list N) :=
  if utf8_valid body then Some body else None.

(* ================================================================== *)
(** ** The worker                                                      *)
(* ================================================================== *)

(** [sp_runtime::offchain::http::Error] *)
Inductive HttpError : Type := DeadlineReached | IoError | UnknownError.

Record Response : Type := mkResponse { code : N; body : list N }.

(** The host calls, as the answers they give: [send] of a GET request for a url
    with a deadline, [try_wait] with its two layers of errors, and the pool's
    answer to a submitted call. *)
Class OffchainHost : Type := {
  timestamp : N;
  PendingRequest : Type;
  send_get : string -> N -> option PendingRequest;
  try_wait : PendingRequest -> N -> option (HttpError + Response);
  submit_unsigned_transaction : OffchainCall -> bool
}.

Section Worker.
Context {cfg : Config} {fo : FixedOps} {lj : LiteJson} {host : OffchainHost}.

Definition price_url : string :=
  "https://min-api.cryptocompare.com/data/price?fsym=BTC&tsyms=USD".

Definition fetch_price : RT HttpError N :=
  let deadline := timestamp + 2000 in
  pending <- ok_or (send_get price_url deadline) IoError ;;
  answer <- ok_or (try_wait pending deadline) DeadlineReached ;;
  response <- (match answer with inl e => throw e | inr r => ret r end) ;;
  (if negb (code response =? 200) then throw UnknownError else ret tt) ;;;
  body_str <- ok_or (from_utf8 (body response)) UnknownError ;;
  price <- parse_price body_str ;;
  ok_or price UnknownError.

Definition fetch_price_and_send_raw_unsigned (bn : BlockNumber) : RT string unit :=
  next_unsigned_at <- gets NextUnsignedAt ;;
  (if bn <? next_unsigned_at
   then throw "Too early to send unsigned transaction"%string else ret tt) ;;;
  price <- map_err (fun _ => "Failed to fetch price"%string) fetch_price ;;
  let call := call_submit_price_unsigned bn price in
  ensure (submit_unsigned_transaction call) "Unable to submit unsigned transaction."%string.

(** The hook: an error is logged and dropped. *)
Definition offchain_worker {E} (bn : BlockNumber) : RT E unit :=
  ignore (fetch_price_and_send_raw_unsigned bn).
End Worker.

(* ================================================================== *)
(** ** Facts about the key search and the arithmetic                   *)
(* ================================================================== *)

Lemma all_match_true k chars rest :
  all_match k chars = (true, rest) <-> chars = k ++ rest.
Proof.
  revert chars. induction k as [|c k IH]; intros chars; cbn; [split; [by intros [= ->] | by intros ->]|].
  destruct chars as [|d chars]; [done|].
  destruct (N.eqb_spec c d) as [->|Hne].
  - rewrite IH. split; [by intros -> | by intros [= ->]].
  - split; [done | by intros [= -> _]].
Qed.

(** A failed comparison consumes a non-empty part of the characters, or finds
    none left. *)
Lemma all_match_false k chars rest :
  all_match k chars = (false, rest) ->
  (chars = [] /\ rest = []) \/ exists pre, pre <> [] /\ chars = pre ++ rest.
Proof.
  revert chars. induction k as [|c k IH]; intros chars; cbn; [done|].
  destruct chars as [|d chars]; [left; by simplify_eq|]. right.
  destruct (N.eqb_spec c d) as [->|Hne].
  - destruct (IH chars) as [[-> ->] | (pre & Hpre & ->)]; [done | by exists [d] |].
    by exists (d :: pre).
  - exists [d]. by simplify_eq.
Qed.

(** Whatever the loop finds is a piece of what was left of the characters. *)
Lemma find_key_infix {V} (obj : list (list N * V)) chars k v :
  find_key obj chars = Some (k, v) -> exists pre post, chars = pre ++ k ++ post.
Proof.
  revert chars. induction obj as [|[k0 v0] obj IH]; intros chars; cbn; [done|].
  destruct (all_match k0 chars) as [[|] rest] eqn:Hm.
  - intros [= -> ->]. apply all_match_true in Hm as ->. by exists [], rest.
  - intros Hf. apply IH in Hf as (pre & post & ->).
    apply all_match_false in Hm as [[-> Hnil] | (p & _ & ->)].
    + exists pre, post. done.
    + exists (p ++ pre), post. by rewrite <- app_assoc.
Qed.

(** After a failed key, only a strictly shorter piece can be found. *)
Lemma find_key_after_failure {V} (obj : list (list N * V)) k0 v0 chars k v :
  chars <> [] -> fst (all_match k0 chars) = false ->
  find_key ((k0, v0) :: obj) chars = Some (k, v) -> (length k < length chars)%nat.
Proof.
  cbn. destruct (all_match k0 chars) as [b rest] eqn:Hm. cbn. intros Hne ->.
  intros Hf. apply find_key_infix in Hf as (pre & post & ->).
  apply all_match_false in Hm as [[-> _] | (p & Hp & ->)]; [done|].
  rewrite !length_app. destruct p; [done|]. cbn. lia.
Qed.

(** The first key decides when it is a prefix of the characters. *)
Lemma find_key_first {V} (obj : list (list N * V)) k0 v0 chars :
  k0 `prefix_of` chars -> find_key ((k0, v0) :: obj) chars = Some (k0, v0).
Proof.
  intros [rest ->]. cbn. by rewrite (proj2 (all_match_true k0 (k0 ++ rest) rest) eq_refl).
Qed.

Section Cents_facts.
Context {cfg : Config}.

(** A price below the range of [u32] cents. *)
Definition price_in_range (n : NumberValue) : Prop :=
  (0 <= integer n)%Z /\ Z.to_N (integer n) * 100 + 100 <= u32_modulus.

Lemma u64_pow10_small e : e <= 19 -> u64_pow10 e = Some (10 ^ e).
Proof.
  intros He. unfold u64_pow10. assert (10 ^ e < u64_modulus) as Hlt.
  { apply N.le_lt_trans with (10 ^ 19); [by apply N.pow_le_mono_r | done]. }
  by rewrite (proj2 (N.ltb_lt _ _) Hlt).
Qed.

Lemma z_as_u32_small z : (0 <= z)%Z -> Z.to_N z < u32_modulus -> z_as_u32 z = Z.to_N z.
Proof. intros Hz Hlt. unfold z_as_u32. rewrite Z.mod_small; [done | lia]. Qed.

(** The scaled fraction when it fits: [integer * 100 + fraction / 10^(len-2)]. *)
Lemma cents_run n :
  price_in_range n -> fraction_length n <= 21 ->
  fraction n / 10 ^ (fraction_length n - 2) < 100 ->
  cents n = Some (Z.to_N (integer n) * 100 + fraction n / 10 ^ (fraction_length n - 2)).
Proof.
  intros [Hz Hmax] Hlen Hfrac. set (d := fraction n / 10 ^ (fraction_length n - 2)) in *.
  unfold cents, u32_mul, u32_add. rewrite z_as_u32_small by (done || lia).
  rewrite umul_in_range by lia. cbn [obind].
  rewrite u64_pow10_small by lia. cbn [obind].
  assert (10 ^ (fraction_length n - 2) <> 0) by (by apply N.pow_nonzero).
  rewrite udiv_pos by lia. cbn [obind]. fold d.
  assert (as_u32 d = d) as -> by (apply N.mod_small; unfold u32_modulus; lia).
  apply uadd_in_range. lia.
Qed.

(** Dropping digits of the fraction is dropping fractions of a cent. *)
Lemma cents_floor i f len :
  2 <= len -> f < 10 ^ len ->
  i * 100 + f / 10 ^ (len - 2) = (i * 10 ^ len + f) * 100 / 10 ^ len.
Proof.
  intros Hlen Hf. set (q := 10 ^ (len - 2)).
  assert (10 ^ len = q * 100) as ->.
  { subst q. change 100 with (10 ^ 2). rewrite <- N.pow_add_r. f_equal. lia. }
  assert (q <> 0) by (by apply N.pow_nonzero).
  rewrite N.Div0.div_mul_cancel_r by done.
  replace (i * (q * 100) + f) with (f + i * 100 * q) by lia.
  rewrite N.div_add by done. lia.
Qed.

(** The price a number stands for, in cents rounded down:
    [integer.fraction * 10^exponent * 100]. *)
Definition price_cents (n : NumberValue) : N :=
  let mantissa := Z.to_N (integer n) * 10 ^ fraction_length n + fraction n in
  mantissa * 10 ^ Z.to_N (exponent n) * 100 / (10 ^ fraction_length n * 10 ^ Z.to_N (- exponent n)).

Lemma price_cents_plain n :
  exponent n = 0%Z ->
  price_cents n = (Z.to_N (integer n) * 10 ^ fraction_length n + fraction n) * 100 / 10 ^ fraction_length n.
Proof. intros He. unfold price_cents. rewrite He. cbn [Z.to_N Z.opp]. by rewrite N.pow_0_r, !N.mul_1_r. Qed.

(** A power of ten that is left out makes the price at least ten times too small. *)
Lemma price_cents_scaled n :
  (0 < exponent n)%Z ->
  10 * ((Z.to_N (integer n) * 10 ^ fraction_length n + fraction n) * 100 / 10 ^ fraction_length n) <= price_cents n.
Proof.
  intros He. unfold price_cents. cbv zeta. set (m := _ + fraction n). set (d := 10 ^ fraction_length n).
  assert (d <> 0) as Hd by (by apply N.pow_nonzero).
  replace (Z.to_N (- exponent n)) with 0 by lia. rewrite N.pow_0_r, N.mul_1_r.
  apply N.div_le_lower_bound; [done|].
  assert (10 <= 10 ^ Z.to_N (exponent n)) as H10.
  { change 10 with (10 ^ 1) at 1. apply N.pow_le_mono_r; lia. }
  assert (d * (m * 100 / d) <= m * 100) by by apply N.Div0.mul_div_le.
  assert (m * 100 * 10 <= m * 100 * 10 ^ Z.to_N (exponent n)) by by apply N.mul_le_mono_l. lia.
Qed.

Lemma fraction_small f len :
  2 <= len -> f < 10 ^ len -> f / 10 ^ (len - 2) < 100.
Proof.
  intros Hlen Hf. apply N.Div0.div_lt_upper_bound.
  rewrite N.mul_comm. change 100 with (10 ^ 2). rewrite <- N.pow_add_r.
  by replace (2 + (len - 2)) with len by lia.
Qed.
End Cents_facts.

(* ================================================================== *)
(** ** Facts about the price transaction and the worker                *)
(* ================================================================== *)

Section Price_facts.
Context {cfg : Config} {fo : FixedOps} {fl : FixedLaws fo} {oc : OffchainConfig}.

(** An accepted price, run. *)
Definition priced (q : FixedU128) (next : BlockNumber) (s : Chain) : Chain :=
  add_event (EvOffchainWorker (NewPrice 4 q))
    (set_NextUnsignedAt next (set_assets (set_Price <[4 := q]>) s)).

Lemma submit_price_run bn price s q next :
  fx_from_rational price 100 = Some q -> u32_add (block_number s) UnsignedInterval = Some next ->
  submit_price_unsigned NoOrigin bn price s = Ok tt (priced q next s).
Proof.
  intros Hq Hn. unfold submit_price_unsigned, bind, ensure_none, ret. rewrite Hq. cbn. by rewrite Hn.
Qed.

Lemma submit_price_Ok bn price s s' :
  submit_price_unsigned NoOrigin bn price s = Ok tt s' ->
  exists q next, fx_from_rational price 100 = Some q /\
    u32_add (block_number s) UnsignedInterval = Some next /\ s' = priced q next s.
Proof.
  unfold submit_price_unsigned, bind, ensure_none, ret.
  destruct (fx_from_rational price 100) as [q|]; [|done]. cbn.
  destruct (u32_add (block_number s) UnsignedInterval) as [next|]; [|done]. cbn.
  intros [= <-]. by exists q, next.
Qed.

(** An unsigned price is stored or traps. *)
Lemma submit_price_no_error bn price e s s' : submit_price_unsigned NoOrigin bn price s <> Err e s'.
Proof.
  unfold submit_price_unsigned, bind, ensure_none, ret.
  destruct (fx_from_rational price 100); [|done]. cbn. by destruct (u32_add (block_number s) UnsignedInterval).
Qed.

(** A price in cents is stored as the exact number of hundredths. *)
Lemma cents_rational price :
  price < u32_modulus -> fx_from_rational price 100 = Some (price * 10000000000000000).
Proof.
  intros Hp. apply fx_from_rational_exact; [done | unfold DIV; lia |].
  unfold u32_modulus, u128_max in *. lia.
Qed.
End Price_facts.

Section Worker_facts.
Context {cfg : Config} {fo : FixedOps} {lj : LiteJson} {host : OffchainHost}.

(** The download at hand yields the price [p]: status 200 is checked apart. *)
Inductive downloads (r : Response) (p : N) : Prop :=
| downloads_intro pending number :
    send_get price_url (timestamp + 2000) = Some pending ->
    try_wait pending (timestamp + 2000) = Some (inr r) ->
    utf8_valid (body r) = true -> price_number (body r) = Some number -> cents number = Some p ->
    downloads r p.

Lemma fetch_price_run r p s :
  downloads r p -> fetch_price s = if code r =? 200 then Ok p s else Err UnknownError s.
Proof.
  intros [pending n Hsend Hwait Hutf Hn Hp].
  unfold fetch_price. cbv zeta. rewrite Hsend. unfold bind at 1, ok_or at 1, ret at 1.
  rewrite Hwait. unfold bind at 1, ok_or at 1, ret at 1. unfold bind at 1, ret at 1.
  destruct (code r =? 200); cbn [negb]; [|done]. unfold bind at 1, ret at 1.
  unfold from_utf8. rewrite Hutf. unfold bind at 1, ok_or at 1, ret at 1.
  unfold bind at 1, parse_price. rewrite Hn. unfold bind at 1. rewrite Hp. done.
Qed.

Lemma worker_sends bn r p s :
  NextUnsignedAt s <= bn -> downloads r p ->
  fetch_price_and_send_raw_unsigned bn s =
    if code r =? 200 then
      if submit_unsigned_transaction (call_submit_price_unsigned bn p) then Ok tt s
      else Err "Unable to submit unsigned transaction."%string s
    else Err "Failed to fetch price"%string s.
Proof.
  intros Hle Hd. unfold fetch_price_and_send_raw_unsigned, bind at 1, gets.
  rewrite (proj2 (N.ltb_ge _ _) Hle). unfold bind at 1, ret at 1.
  unfold bind at 1, map_err. rewrite (fetch_price_run r p s Hd).
  by destruct (code r =? 200).
Qed.

(** Whatever the host answers, a round writes nothing. *)
Lemma offchain_worker_pure {E} bn : respects eq (offchain_worker bn : RT E unit).
Proof.
  unfold offchain_worker, fetch_price_and_send_raw_unsigned, fetch_price, parse_price. respects.
Qed.

(** The price a document yields fits the [u32] of the call. *)
Lemma cents_bound n p : cents n = Some p -> p < u32_modulus.
Proof.
  unfold cents. intros (a & _ & (b & _ & (c & _ & H)%obind_Some)%obind_Some)%obind_Some.
  by eapply uadd_lt.
Qed.
End Worker_facts.
