(* ===== verification/Runtime.v ===== *)
(** * The runtime ([runtime/src/lib.rs], genesis of [node/src/chain_spec.rs])

    The four pallets put together: which pallet stands behind which trait, the
    outer [Call] and its dispatch, the runtime apis, the genesis storage, and the
    chain as a transition system whose reachable states carry the invariants of
    the pallets. *)

From S2P Require Export LendingSafety SwapLiquidity OffchainWorker.

Local Open Scope N_scope.
Local Open Scope rust_scope.

(** [impl pallet_swap::Trait for Runtime] and
    [impl pallet_offchain_worker::Trait for Runtime]; the lending pallet gets the
    assets pallet through the instances of [Assets.v]. *)
#[export] Instance runtime_exchange `{Accounts} : ExchangeFactory := ExchangeAddress.
#[export] Instance runtime_offchain : OffchainConfig :=
  {| UnsignedInterval := 4; UnsignedPriority := 5 |}.

(* ================================================================== *)
(** ** Calls                                                           *)
(* ================================================================== *)

Section Calls.
Context {acc : Accounts}.

Inductive AssetsCall : Type :=
| call_issue (total : Balance)
| call_destroy (id : AssetId)
| call_set_inherent_asset (asset : AssetId)
| call_transfer_asset (id : AssetId) (to : AccountId) (amount : Balance)
| call_set_price (id : AssetId) (price : FixedU128).

Inductive SwapCall : Type :=
| call_set_fee_rate (rate : FeeRate)
| call_swap_exact_input (to : AccountId) (in_id out_id : AssetId) (input min_output : Balance)
| call_swap_exact_output (to : AccountId) (in_id out_id : AssetId) (output max_input : Balance)
| call_add_liquidity (id : AssetId) (inherent_amount amount min_liquidity : Balance)
| call_remove_liquidity (id : AssetId) (liquidity min_inherent min_amount : Balance).

Inductive LendingCall : Type :=
| call_supply (id : AssetId) (amount : Balance)
| call_withdraw (id : AssetId) (amount : Balance)
| call_borrow (id : AssetId) (amount : Balance)
| call_repay (id : AssetId) (amount : Balance)
| call_liquidate (target : AccountId) (pay_id get_id : AssetId) (amount : Balance)
| call_init_pool (id : AssetId) (can_be_collateral : bool).

(** The outer [Call] of [construct_runtime!], at the pallets modelled. *)
Inductive Call : Type :=
| CallAssets (c : AssetsCall)
| CallSwap (c : SwapCall)
| CallLending (c : LendingCall)
| CallOffchainWorker (c : OffchainCall).
End Calls.

Section Dispatch.
Context {cfg : Config} {fo : FixedOps}.

Definition dispatch_assets (origin : Origin) (c : AssetsCall) : RT DispatchError unit :=
  match c with
  | call_issue total => issue origin total
  | call_destroy id => destroy origin id
  | call_set_inherent_asset asset => set_inherent_asset origin asset
  | call_transfer_asset id to amount => transfer_asset origin id to amount
  | call_set_price id price => set_price origin id price
  end.

Definition dispatch_swap (origin : Origin) (c : SwapCall) : RT DispatchError unit :=
  match c with
  | call_set_fee_rate rate => set_fee_rate origin rate
  | call_swap_exact_input to in_id out_id input m =>
      swap_assets_with_exact_input origin to in_id out_id input m
  | call_swap_exact_output to in_id out_id output m =>
      swap_assets_with_exact_output origin to in_id out_id output m
  | call_add_liquidity id x y m => add_liquidity origin id x y m
  | call_remove_liquidity id l x y => remove_liquidity origin id l x y
  end.

Definition dispatch_lending (origin : Origin) (c : LendingCall) : RT DispatchError unit :=
  match c with
  | call_supply id amount => supply origin id amount
  | call_withdraw id amount => withdraw origin id amount
  | call_borrow id amount => borrow origin id amount
  | call_repay id amount => repay origin id amount
  | call_liquidate target pay_id get_id amount => liquidate origin target pay_id get_id amount
  | call_init_pool id c => init_pool origin id c
  end.

Definition dispatch (origin : Origin) (c : Call) : RT DispatchError unit :=
  match c with
  | CallAssets c => dispatch_assets origin c
  | CallSwap c => dispatch_swap origin c
  | CallLending c => dispatch_lending origin c
  | CallOffchainWorker (call_submit_price_unsigned bn price) =>
      submit_price_unsigned origin bn price
  | CallOffchainWorker call_phantom => ret tt
  end.

(** The runtime apis of the swap and the lending pallet: plain calls, and for the
    user info three saturating conversions. *)
Definition api_calculate_output {E} (in_id out_id : AssetId) (amount_in : Balance) : RT E Balance :=
  calculate_output in_id out_id amount_in.

Definition api_supply_rate {E} (id : AssetId) : RT E FixedU128 := supply_rate id.

Definition api_debt_rate {E} (id : AssetId) : RT E FixedU128 := debt_rate id.

Definition api_get_user_info {E} (user : AccountId) : RT E (N * N * N) :=
  info <- get_user_info user ;;
  let '(a, b, c) := info in
  ret (saturated_into_u64 a, saturated_into_u64 b, saturated_into_u64 c).

Definition api_get_user_debt_with_interest {E} (asset_id : AssetId) (user : AccountId)
    : RT E Balance := get_user_debt_with_interest asset_id user.

Definition api_get_user_supply_with_interest {E} (asset_id : AssetId) (user : AccountId)
    : RT E Balance := get_user_supply_with_interest asset_id user.
End Dispatch.

(* ================================================================== *)
(** ** Genesis                                                         *)
(* ================================================================== *)

Section Genesis_config.
Context {acc : Accounts} {fo : FixedOps}.

(** The fields of [GenesisConfig] the modelled pallets read. *)
Record GenesisConfig : Type := mkGenesis {
  genesis_owner : AccountId;
  genesis_assets : list (AccountId * Balance * N);
  genesis_fee_rate : FeeRate;
  genesis_pools : list AssetId
}.

(** The pallet sections of [testnet_genesis], given two development accounts. *)
Definition testnet_pallets (alice bob : AccountId) : GenesisConfig :=
  mkGenesis bob
    [(alice, 1000000000000000000, 100); (alice, 1000000000000000000, 60);
     (alice, 1000000000000000000, 5); (alice, 1000000000000000000, 600);
     (alice, 1000000000000000000, 20000)]
    1 [0; 1; 2; 3; 4].

(** The storage before the [build] closures: every item at its default, the
    [config()] items set. *)
Definition genesis_storage (g : GenesisConfig) : Chain :=
  mkChain 0 []
    (mkAssets 0 ∅ ∅ 0 ∅ (genesis_owner g))
    (mkSwap (genesis_fee_rate g) ∅ ∅ ∅)
    (mkLending ∅ ∅ ∅ ∅ ∅ fx_one)
    0.
End Genesis_config.

Section Genesis.
Context {cfg : Config} {fo : FixedOps}.

Definition build_genesis (g : GenesisConfig) : Outcome Chain string unit :=
  (genesis_build (genesis_assets g) ;;; lending_genesis_build (genesis_pools g))
    (genesis_storage g).
End Genesis.

(* ================================================================== *)
(** ** The chain as a transition system                                *)
(* ================================================================== *)

Section States.
Context {acc : Accounts}.
(** The storage after an extrinsic: kept on [Ok] and on [Err] alike; a panic
    produces no block. *)
Definition final {E A} (o : Outcome Chain E A) : option Chain :=
  match o with Ok _ s | Err _ s => Some s | Panic => None end.

(** Arguments are decoded at their width. *)
Definition u128_fits (n : N) : bool := n <=? u128_max.
Definition u64_fits (n : N) : bool := n <? u64_modulus.
Definition u32_fits (n : N) : bool := n <? u32_modulus.

Definition call_fits (c : Call) : bool :=
  match c with
  | CallAssets (call_issue total) => u128_fits total
  | CallAssets (call_destroy id) | CallAssets (call_set_inherent_asset id) => u64_fits id
  | CallAssets (call_transfer_asset id _ x) | CallAssets (call_set_price id x) =>
      u64_fits id && u128_fits x
  | CallSwap (call_set_fee_rate rate) => u64_fits rate
  | CallSwap (call_swap_exact_input _ a b x y) | CallSwap (call_swap_exact_output _ a b x y) =>
      u64_fits a && u64_fits b && u128_fits x && u128_fits y
  | CallSwap (call_add_liquidity id x y z) | CallSwap (call_remove_liquidity id x y z) =>
      u64_fits id && u128_fits x && u128_fits y && u128_fits z
  | CallLending (call_supply id x) | CallLending (call_withdraw id x)
  | CallLending (call_borrow id x) | CallLending (call_repay id x) => u64_fits id && u128_fits x
  | CallLending (call_liquidate _ a b x) => u64_fits a && u64_fits b && u128_fits x
  | CallLending (call_init_pool id _) => u64_fits id
  | CallOffchainWorker (call_submit_price_unsigned bn price) => u32_fits bn && u32_fits price
  | CallOffchainWorker call_phantom => true
  end.

Definition call_decodes (c : Call) : Prop := call_fits c = true.

(** The next block: a new number, the events of the last one dropped. *)
Definition next_block (s : Chain) : Chain :=
  mkChain (block_number s + 1) [] (assets s) (swap s) (lending s) (NextUnsignedAt s).

(** The invariants of the three ledgers. *)
Record chain_ok (s : Chain) : Prop := {
  co_ledger : ledger_ok (assets s);
  co_positions : positions_ok (lending s);
  co_shares : liquidity_ok (swap s)
}.
End States.

Section Transitions.
Context {cfg : Config} {fo : FixedOps}.

(** A signed or sudo call, an unsigned price that validates, a new block. *)
Inductive step : Chain -> Chain -> Prop :=
| step_call origin c s s' :
    origin <> NoOrigin -> call_decodes c -> final (dispatch origin c s) = Some s' -> step s s'
| step_unsigned call s s' prefix priority provides longevity propagate :
    call_decodes (CallOffchainWorker call) ->
    validate_unsigned call s = Valid prefix priority provides longevity propagate ->
    final (dispatch NoOrigin (CallOffchainWorker call) s) = Some s' -> step s s'
| step_block s :
    block_number s + 1 < u32_modulus -> step s (next_block s).

(** States reachable from the genesis of a configuration. *)
Inductive reachable (g : GenesisConfig) : Chain -> Prop :=
| reachable_genesis s : build_genesis g = Ok tt s -> reachable g s
| reachable_step s s' : reachable g s -> step s s' -> reachable g s'.
End Transitions.

(* ================================================================== *)
(** ** What each pallet leaves alone                                   *)
(* ================================================================== *)

Section Frames.
Context {cfg : Config} {fo : FixedOps} {fl : FixedLaws fo}.

Definition ledger_stable : relation Chain := stable (fun s => ledger_ok (assets s)).
Definition shares_stable : relation Chain := stable (fun s => liquidity_ok (swap s)).

#[local] Instance ledger_stable_preorder : PreOrder ledger_stable.
Proof. apply stable_preorder. Qed.
#[local] Instance shares_stable_preorder : PreOrder shares_stable.
Proof. apply stable_preorder. Qed.

(** Writes to the other storages. *)
Lemma ledger_put_lending {E} f : respects ledger_stable (@put_lending _ E f).
Proof. apply respects_modify. intros s H. exact H. Qed.
Lemma ledger_put_swap {E} f : respects ledger_stable (@put_swap _ E f).
Proof. apply respects_modify. intros s H. exact H. Qed.
Lemma ledger_event {E} ev : respects ledger_stable (@deposit_event _ E ev).
Proof. apply respects_modify. intros s H. exact H. Qed.
Lemma ledger_transfer from id to amount : respects ledger_stable (transfer from id to amount).
Proof. apply transfer_stable. Qed.
Lemma ledger_transfer_or_fail from id to amount :
  respects ledger_stable (transfer_or_fail from id to amount).
Proof. apply respects_map_err, transfer_stable. Qed.
Lemma ledger_user_info {E} u : respects ledger_stable (get_user_info u : RT E _).
Proof. eapply respects_weaken; [|apply user_info_pure]. by intros s s' ->. Qed.
Lemma ledger_reserve {E} id ea : respects ledger_stable (reserve_changed id ea : RT E _).
Proof. unfold reserve_changed, balance. respects. apply ledger_event. Qed.

Lemma lending_put_swap {E} f : respects (keeps lending) (@put_swap _ E f).
Proof. by apply respects_modify. Qed.
Lemma lending_put_assets {E} f : respects (keeps lending) (@put_assets _ E f).
Proof. by apply respects_modify. Qed.
Lemma lending_event {E} ev : respects (keeps lending) (@deposit_event _ E ev).
Proof. by apply respects_modify. Qed.
Lemma lending_transfer from id to amount : respects (keeps lending) (transfer from id to amount).
Proof. eapply respects_weaken; [|apply transfer_framed]. by intros s s' []. Qed.

Lemma swap_put_lending {E} f : respects (keeps swap) (@put_lending _ E f).
Proof. by apply respects_modify. Qed.
Lemma swap_put_assets {E} f : respects (keeps swap) (@put_assets _ E f).
Proof. by apply respects_modify. Qed.
Lemma swap_event {E} ev : respects (keeps swap) (@deposit_event _ E ev).
Proof. by apply respects_modify. Qed.
Lemma swap_transfer from id to amount : respects (keeps swap) (transfer from id to amount).
Proof. eapply respects_weaken; [|apply transfer_framed]. by intros s s' []. Qed.
Lemma swap_transfer_or_fail from id to amount :
  respects (keeps swap) (transfer_or_fail from id to amount).
Proof. apply respects_map_err, swap_transfer. Qed.
Lemma swap_user_info {E} u : respects (keeps swap) (get_user_info u : RT E _).
Proof. eapply respects_weaken; [|apply user_info_pure]. by intros s s' ->. Qed.

#[local] Hint Resolve ledger_put_lending ledger_put_swap ledger_event ledger_transfer
  ledger_transfer_or_fail ledger_user_info ledger_reserve lending_put_swap lending_put_assets
  lending_event lending_transfer swap_put_lending swap_put_assets swap_event swap_transfer
  swap_transfer_or_fail swap_user_info ledger_stable_preorder shares_stable_preorder : respects.

(** Walks a call down to the writes, opening the one-line helpers. *)
Ltac call_frame :=
  respects;
  unfold set_fee_rate, set_inherent_asset, _set_price, set_liquidity, get_liquidity,
    get_total_liquidity, init_pool, _init_pool;
  respects.

Lemma lending_call_ledger origin c : respects ledger_stable (dispatch_lending origin c).
Proof. destruct c; cbn [dispatch_lending]; call_frame. Qed.

Lemma lending_call_swap origin c : respects (keeps swap) (dispatch_lending origin c).
Proof. destruct c; cbn [dispatch_lending]; call_frame. Qed.

Lemma swap_call_ledger origin c : respects ledger_stable (dispatch_swap origin c).
Proof. destruct c; cbn [dispatch_swap]; call_frame. Qed.

Lemma swap_call_lending origin c : respects (keeps lending) (dispatch_swap origin c).
Proof. destruct c; cbn [dispatch_swap]; call_frame. Qed.

Lemma assets_call_lending origin c : respects (keeps lending) (dispatch_assets origin c).
Proof. destruct c; cbn [dispatch_assets]; call_frame. Qed.

Lemma assets_call_swap origin c : respects (keeps swap) (dispatch_assets origin c).
Proof. destruct c; cbn [dispatch_assets]; call_frame. Qed.

(** The block number is the executive's and the price window the offchain
    worker's: no other call touches them. *)
Definition clock (s : Chain) : BlockNumber * BlockNumber := (block_number s, NextUnsignedAt s).

Lemma clock_write {E} (f : Chain -> Chain) :
  (forall s, clock (f s) = clock s) ->
  respects (keeps clock) (@modify _ E f).
Proof. intros H. by apply respects_modify. Qed.
Lemma clock_put_lending {E} f : respects (keeps clock) (@put_lending _ E f).
Proof. by apply clock_write. Qed.
Lemma clock_put_swap {E} f : respects (keeps clock) (@put_swap _ E f).
Proof. by apply clock_write. Qed.
Lemma clock_put_assets {E} f : respects (keeps clock) (@put_assets _ E f).
Proof. by apply clock_write. Qed.
Lemma clock_event {E} ev : respects (keeps clock) (@deposit_event _ E ev).
Proof. by apply clock_write. Qed.
Lemma clock_transfer from id to amount :
  respects (keeps clock) (transfer from id to amount).
Proof. eapply respects_weaken; [|apply transfer_framed]. intros s s' [H _ _ H' _].
  unfold keeps, clock. by rewrite H, H'. Qed.
Lemma clock_transfer_or_fail from id to amount :
  respects (keeps clock) (transfer_or_fail from id to amount).
Proof. apply respects_map_err, clock_transfer. Qed.
Lemma clock_user_info {E} u : respects (keeps clock) (get_user_info u : RT E _).
Proof. eapply respects_weaken; [|apply user_info_pure]. by intros s s' ->. Qed.
#[local] Hint Resolve clock_put_lending clock_put_swap clock_put_assets clock_event clock_transfer
  clock_transfer_or_fail clock_user_info : respects.

Lemma pallet_keeps_clock origin c :
  (forall bn p, c <> CallOffchainWorker (call_submit_price_unsigned bn p)) ->
  respects (keeps clock) (dispatch origin c).
Proof.
  intros Hc. destruct c as [c|c|c|[bn p|]]; cbn [dispatch].
  - destruct c; cbn [dispatch_assets]; call_frame.
  - destruct c; cbn [dispatch_swap]; call_frame.
  - destruct c; cbn [dispatch_lending]; call_frame.
  - by destruct (Hc bn p).
  - by apply respects_ret, keeps_preorder.
Qed.

Lemma call_keeps_clock origin c :
  origin <> NoOrigin -> respects (keeps clock) (dispatch origin c).
Proof.
  intros Ho. destruct c as [c|c|c|[bn p|]]; try (by apply pallet_keeps_clock).
  destruct origin; [|by intros s|done]. by intros s.
Qed.

(** No call touches the block number. *)
Lemma call_keeps_number o c : respects (keeps block_number) (dispatch o c).
Proof.
  assert (forall m, respects (keeps clock) m -> respects (keeps block_number) (m : RT DispatchError unit))
    as Hclock by (intros m; apply respects_weaken; unfold keeps, clock; congruence).
  destruct c as [c|c|c|[bn p|]]; try (by apply Hclock, pallet_keeps_clock).
  destruct o as [|who|]; [by intros s..|]. intros s. cbn [dispatch].
  destruct (submit_price_unsigned NoOrigin bn p s) as [[] t|e t|] eqn:Hrun; [| |done].
  - by apply submit_price_Ok in Hrun as (q & next & _ & _ & ->).
  - by apply submit_price_no_error in Hrun.
Qed.

Lemma genesis_keeps_clock l ids :
  respects (keeps clock) (genesis_build l ;;; lending_genesis_build ids).
Proof.
  unfold genesis_build, lending_genesis_build, genesis_asset, _issue. call_frame.
Qed.

(** A trade moves money, never shares. *)
Lemma trade_in_swap origin to i o x m :
  respects (keeps swap) (swap_assets_with_exact_input origin to i o x m).
Proof. call_frame. Qed.

Lemma trade_out_swap origin to i o x m :
  respects (keeps swap) (swap_assets_with_exact_output origin to i o x m).
Proof. call_frame. Qed.

(** The price transaction writes a price, the window and an event. *)
Lemma submit_frame origin bn price :
  respects ledger_stable (submit_price_unsigned origin bn price) /\
  respects (keeps swap) (submit_price_unsigned origin bn price) /\
  respects (keeps lending) (submit_price_unsigned origin bn price).
Proof.
  split_and!.
  - call_frame; [apply set_price_stable | apply respects_modify; intros s H; exact H].
  - call_frame. by apply respects_modify.
  - call_frame. by apply respects_modify.
Qed.

Lemma genesis_frames l ids :
  respects (keeps lending) (genesis_build l) /\ respects (keeps swap) (genesis_build l) /\
  respects ledger_stable (lending_genesis_build ids : RT string unit) /\
  respects (keeps swap) (lending_genesis_build ids : RT string unit) /\
  respects positions_stable (lending_genesis_build ids : RT string unit).
Proof.
  unfold genesis_build, lending_genesis_build, genesis_asset, _issue, _set_price.
  split_and!; [call_frame | call_frame | call_frame | call_frame |].
  apply respects_foldM; [apply positions_stable_preorder|]. intros _ id. apply init_pool_stable.
Qed.

Lemma final_respects {E A} (R : relation Chain) (m : RT E A) s s' :
  respects R m -> final (m s) = Some s' -> R s s'.
Proof. intros H. specialize (H s). unfold final. destruct (m s); naive_solver. Qed.
End Frames.

(* ================================================================== *)
(** ** The invariants hold in every reachable state                    *)
(* ================================================================== *)

Section Invariant.
Context {cfg : Config} {fo : FixedOps} {fl : FixedLaws fo}.

(** A call that keeps the three ledgers well-formed, one by one. *)
Lemma chain_ok_call {A} (m : RT DispatchError A) s s' :
  respects ledger_stable m -> respects positions_stable m -> respects shares_stable m ->
  final (m s) = Some s' -> chain_ok s -> chain_ok s'.
Proof.
  intros Hl Hp Hw Hf [H1 H2 H3].
  split; [by apply (final_respects _ _ _ _ Hl Hf) | by apply (final_respects _ _ _ _ Hp Hf) |
          by apply (final_respects _ _ _ _ Hw Hf)].
Qed.

Lemma keeps_positions {A} (m : RT DispatchError A) :
  respects (keeps lending) m -> respects positions_stable m.
Proof. apply respects_weaken. unfold keeps, positions_stable, stable. by intros s s' ->. Qed.

Lemma keeps_shares {A} (m : RT DispatchError A) :
  respects (keeps swap) m -> respects shares_stable m.
Proof. apply respects_weaken. unfold keeps, shares_stable, stable. by intros s s' ->. Qed.

Hypothesis checked : overflow_checks = true.

(** In a checked build an issue either fits the id or traps. *)
Lemma issue_ledger origin total :
  total <= u128_max -> respects ledger_stable (issue origin total).
Proof.
  intros Htot s. destruct origin as [|who|]; [by cbn| |by cbn]. rewrite issue_is_issue.
  destruct (N.lt_ge_cases (NextAssetId (assets s)) u64_max) as [Hlt|Hge].
  - unfold map_err. rewrite issue_body by done. intros Hok. by apply issued_ok.
  - unfold map_err, _issue, get_assets, bind, gets. unfold u64_add. rewrite checked.
    unfold uadd. destruct (N.ltb_spec (NextAssetId (assets s) + 1) u64_modulus); [|done].
    unfold u64_max, u64_modulus in *. lia.
Qed.

Lemma assets_call_ledger origin c :
  call_decodes (CallAssets c) -> respects ledger_stable (dispatch_assets origin c).
Proof.
  unfold call_decodes. destruct c; cbn [call_fits dispatch_assets]; intros Hdec.
  - by apply issue_ledger, N.leb_le.
  - apply destroy_stable.
  - apply set_inherent_stable.
  - apply respects_bind; [apply stable_preorder|by apply respects_ensure_signed, stable_preorder|].
    intros who. apply respects_ignore, transfer_stable.
  - apply respects_bind; [apply stable_preorder|by apply respects_ensure_root, stable_preorder|].
    intros _. apply set_price_stable.
Qed.

Lemma lending_call_positions origin c : respects positions_stable (dispatch_lending origin c).
Proof.
  destruct c; cbn [dispatch_lending].
  - by apply supply_positions.
  - apply withdraw_positions.
  - by apply borrow_positions.
  - apply repay_positions.
  - apply liquidate_positions.
  - apply init_pool_stable.
Qed.

Lemma swap_call_shares origin c : respects shares_stable (dispatch_swap origin c).
Proof.
  assert (PreOrder shares_stable) by apply stable_preorder.
  destruct c as [r | | | id x y m | id l x y]; cbn [dispatch_swap].
  - apply respects_modify. intros s H0. exact H0.
  - apply keeps_shares, trade_in_swap.
  - apply keeps_shares, trade_out_swap.
  - apply respects_bind; [done|by apply respects_ensure_signed|]. intros who.
    apply respects_bind; [done|by apply add_liquidity_shares|]. intros _.
    apply respects_modify. intros s H0. exact H0.
  - apply respects_bind; [done|by apply respects_ensure_signed|]. intros who.
    apply respects_bind; [done|by apply remove_liquidity_shares|]. intros _.
    apply respects_modify. intros s H0. exact H0.
Qed.

Lemma dispatch_chain_ok origin c s s' :
  call_decodes c -> final (dispatch origin c s) = Some s' -> chain_ok s -> chain_ok s'.
Proof.
  intros Hdec. destruct c as [c|c|c|[bn p|]]; cbn [dispatch].
  - apply chain_ok_call; [by apply assets_call_ledger | apply keeps_positions, assets_call_lending |
      apply keeps_shares, assets_call_swap].
  - apply chain_ok_call; [apply swap_call_ledger | apply keeps_positions, swap_call_lending |
      apply swap_call_shares].
  - apply chain_ok_call; [apply lending_call_ledger | apply lending_call_positions |
      apply keeps_shares, lending_call_swap].
  - destruct (submit_frame origin bn p) as (H1 & H2 & H3).
    apply chain_ok_call; [done | by apply keeps_positions | by apply keeps_shares].
  - by intros [= <-].
Qed.

Lemma step_chain_ok s s' : step s s' -> chain_ok s -> chain_ok s'.
Proof.
  destruct 1 as [origin c s s' _ Hdec Hf | call s s' ????? Hdec _ Hf | s _].
  - by eapply dispatch_chain_ok.
  - by eapply dispatch_chain_ok; [|exact Hf].
  - by intros [H1 H2 H3].
Qed.

(** Genesis amounts are decoded at their width too. *)
Definition genesis_decodes (g : GenesisConfig) : Prop :=
  Forall (fun entry => snd (fst entry) <= u128_max) (genesis_assets g).

Lemma genesis_asset_ledger entry :
  snd (fst entry) <= u128_max -> respects ledger_stable (genesis_asset entry).
Proof.
  destruct entry as [[account amount] p]. cbn [fst snd]. intros Hamt.
  assert (PreOrder ledger_stable) by apply stable_preorder.
  apply respects_bind; [done| |intros _].
  2: { apply respects_bind; [done | by apply respects_get_assets | intros to].
       apply respects_bind; [done | by apply respects_get_assets | intros next].
       apply respects_bind; [done | by apply respects_or_panic | intros id].
       apply respects_bind; [done | apply respects_ignore, transfer_stable | intros _].
       apply set_price_stable. }
  apply respects_ignore. pose proof (issue_ledger (Signed account) amount Hamt) as H1.
  intros s. specialize (H1 s). rewrite issue_is_issue in H1. unfold map_err in H1.
  by destruct (_issue account amount s).
Qed.

Lemma genesis_build_ledger l :
  Forall (fun entry => snd (fst entry) <= u128_max) l -> respects ledger_stable (genesis_build l).
Proof.
  unfold genesis_build. assert (PreOrder ledger_stable) by apply stable_preorder.
  generalize tt. induction l as [|e l IH]; intros u; cbn [foldM]; [by intros ?; apply respects_ret|].
  inversion 1; subst. apply respects_bind; [done | by apply genesis_asset_ledger | auto].
Qed.

Lemma genesis_storage_ok g : chain_ok (genesis_storage g).
Proof.
  split; cbn.
  - split; intros id; unfold held, get_asset_total_supply, getd; cbn;
      rewrite ?lookup_empty; cbn; [apply msum_empty | lia | done].
  - split; apply book_empty.
  - intros id. unfold shares, total_liquidity, getd. cbn. rewrite lookup_empty. apply msum_empty.
Qed.

Lemma genesis_chain_ok g s : genesis_decodes g -> build_genesis g = Ok tt s -> chain_ok s.
Proof.
  intros Hdec. unfold build_genesis. rewrite bind_Ok. intros (u & s1 & H1 & H2).
  destruct (genesis_storage_ok g) as [Hl Hp Hw].
  destruct (genesis_frames (genesis_assets g) (genesis_pools g)) as (F1 & F2 & F3 & F4 & F5).
  pose proof (respects_Ok _ _ _ _ _ (genesis_build_ledger _ Hdec) H1 Hl) as Hl1.
  pose proof (respects_Ok _ _ _ _ _ F1 H1) as E1. pose proof (respects_Ok _ _ _ _ _ F2 H1) as E2.
  pose proof (respects_Ok _ _ _ _ _ F4 H2) as E4. unfold keeps in *.
  split.
  - exact (respects_Ok _ _ _ _ _ F3 H2 Hl1).
  - apply (respects_Ok _ _ _ _ _ F5 H2). by rewrite E1.
  - by rewrite E4, E2.
Qed.

Lemma reachable_chain_ok g s : genesis_decodes g -> reachable g s -> chain_ok s.
Proof.
  intros Hdec. induction 1 as [s Hs | s s' _ IH Hstep].
  - by eapply genesis_chain_ok.
  - by eapply step_chain_ok.
Qed.
End Invariant.
