(* ===== verification/Bank.v ===== *)
(** * The money of the chain: an abstract bank and its refinement

    What the four pallets together promise about money, without storage maps,
    errors or events: holdings per asset and account, the issued totals and the
    next asset id.  A step of the bank moves money out of an account that is
    entitled to act, issues a fresh asset or burns a holding.  Every call of the
    runtime - failed ones included - is matched by a sequence of such steps. *)

From S2P Require Export Runtime.
From stdpp Require Import relations.

Local Open Scope N_scope.
Local Open Scope rust_scope.

(* ================================================================== *)
(** ** The specification                                               *)
(* ================================================================== *)

Section Spec.
Context {acc : Accounts}.

Record Bank : Type := mkBank {
  holding : AssetId -> AccountId -> N;
  issued_total : AssetId -> N;
  next_asset : AssetId
}.

(** Two banks with the same books. *)
Definition same_books (b b' : Bank) : Prop :=
  (forall id who, holding b' id who = holding b id who) /\
  (forall id, issued_total b' id = issued_total b id) /\ next_asset b' = next_asset b.

#[export] Instance Bank_equiv : Equiv Bank := same_books.
#[export] Instance Bank_equivalence : Equivalence (≡@{Bank}).
Proof.
  split.
  - by intros b.
  - intros b b' (H1 & H2 & H3). split_and!; [intros; by rewrite H1 | intros; by rewrite H2 | done].
  - intros b1 b2 b3 (H1 & H2 & H3) (K1 & K2 & K3).
    split_and!; intros; [by rewrite K1, H1 | by rewrite K2, H2 | by rewrite K3, H3].
Qed.

(** [acts]: the accounts on whose behalf the step may be taken. *)
Inductive bank_step (acts : AccountId -> Prop) (b b' : Bank) : Prop :=
| bank_move from id to amount :
    acts from -> amount <= holding b id from ->
    (forall id' who, holding b' id' who + side id from amount id' who =
                     holding b id' who + side id to amount id' who) ->
    (forall id', issued_total b' id' = issued_total b id') ->
    next_asset b' = next_asset b ->
    bank_step acts b b'
| bank_issue who total :
    acts who -> total <= u128_max ->
    let id := next_asset b in
    (forall u, holding b id u = 0) -> issued_total b id = 0 ->
    (forall id' u, holding b' id' u = holding b id' u + side id who total id' u) ->
    (forall id', issued_total b' id' = issued_total b id' + (if decide (id' = id) then total else 0)) ->
    next_asset b' = id + 1 ->
    bank_step acts b b'
| bank_burn who id :
    acts who ->
    (forall id' u, holding b' id' u + side id who (holding b id who) id' u = holding b id' u) ->
    (forall id', issued_total b' id' + (if decide (id' = id) then holding b id who else 0) =
                 issued_total b id') ->
    next_asset b' = next_asset b ->
    bank_step acts b b'
| bank_idle : b ≡ b' -> bank_step acts b b'.

Definition empty_bank : Bank := mkBank (fun _ _ => 0) (fun _ => 0) 0.

(** Who is not entitled to act loses nothing. *)
Lemma bank_step_holding acts b b' id u :
  bank_step acts b b' -> ~ acts u -> holding b id u <= holding b' id u.
Proof.
  intros Hstep Hu. destruct Hstep as [from i to n Hf _ Hb _ _ | who n Hw _ i _ _ Hb _ _ |
    who i Hw Hb _ _ | [Hb _]].
  - specialize (Hb id u). rewrite (side_other_account i from) in Hb by congruence. lia.
  - specialize (Hb id u). lia.
  - specialize (Hb id u). rewrite side_other_account in Hb by congruence. lia.
  - by rewrite Hb.
Qed.

Lemma bank_steps_holding acts b b' id u :
  rtc (bank_step acts) b b' -> ~ acts u -> holding b id u <= holding b' id u.
Proof.
  intros Hsteps Hu. induction Hsteps as [|b1 b2 b3 Hstep _ IH]; [done|].
  etrans; [by eapply bank_step_holding | done].
Qed.

Lemma bank_step_mono (acts acts' : AccountId -> Prop) b b' :
  (forall a, acts a -> acts' a) -> bank_step acts b b' -> bank_step acts' b b'.
Proof.
  intros Hsub [from i to n ? ? ? ? ? | who n ? ? i ? ? ? ? ? | who i ? ? ? ? | ?];
    [eapply bank_move | eapply bank_issue | eapply bank_burn | eapply bank_idle]; eauto.
Qed.
End Spec.

(* ================================================================== *)
(** ** The runtime refines the bank                                    *)
(* ================================================================== *)

Section Refinement.
Context {cfg : Config} {fo : FixedOps} {fl : FixedLaws fo}.

(** The bank a chain state stands for. *)
Definition bank_of (s : Chain) : Bank :=
  mkBank (fun id who => get_asset_balance id who (assets s))
    (fun id => get_asset_total_supply id (assets s)) (NextAssetId (assets s)).

(** From a state with balanced books, a run ends in one, and the bank follows. *)
Definition refines (acts : AccountId -> Prop) : relation Chain := fun s s' =>
  ledger_ok (assets s) ->
  ledger_ok (assets s') /\ rtc (bank_step acts) (bank_of s) (bank_of s').

#[export] Instance refines_preorder acts : PreOrder (refines acts).
Proof.
  split; [by intros s|]. intros s1 s2 s3 H12 H23 Hok.
  destruct (H12 Hok) as [Hok2 Hs]. destruct (H23 Hok2) as [Hok3 Hs'].
  split; [done | by etrans].
Qed.

(** One step of the bank, and no step at all. *)
Lemma refines_one acts s s' :
  (ledger_ok (assets s) -> ledger_ok (assets s') /\ bank_step acts (bank_of s) (bank_of s')) ->
  refines acts s s'.
Proof. intros H Hok. destruct (H Hok). split; [done | by apply rtc_once]. Qed.

Lemma refines_same acts s s' :
  Balances (assets s') = Balances (assets s) -> TotalSupply (assets s') = TotalSupply (assets s) ->
  NextAssetId (assets s') = NextAssetId (assets s) -> refines acts s s'.
Proof.
  intros H1 H2 H3. apply refines_one. intros Hok. split.
  - destruct Hok as [K1 K2 K3]. split; unfold held, get_asset_total_supply in *; by rewrite ?H1, ?H2, ?H3.
  - apply bank_idle. split_and!; intros; cbn; unfold get_asset_balance, get_asset_total_supply;
      by rewrite ?H1, ?H2, ?H3.
Qed.

Lemma refines_transfer acts from id to amount :
  acts from -> respects (refines acts) (transfer from id to amount).
Proof.
  intros Hfrom. apply respects_wp. intros s. unfold wp.
  destruct (transfer from id to amount s) as [u s'|e s'|] eqn:Hrun; [| |done];
    apply refines_one; intros Hok; rewrite transfer_run in Hrun by done;
    destruct (amount =? 0); simplify_eq;
    try (destruct (N.ltb_spec (get_asset_balance id from (assets s)) amount); simplify_eq).
  - split; [by apply transferred_ok|].
    apply (bank_move acts _ _ from id to amount); [done | done | | done | done].
    intros id' who. by apply moved_balance.
  - split; [done | by apply bank_idle].
  - split; [done | by apply bank_idle].
Qed.

Lemma refines_transfer_or_fail acts from id to amount :
  acts from -> respects (refines acts) (transfer_or_fail from id to amount).
Proof. intros. by apply respects_map_err, refines_transfer. Qed.

Lemma refines_put_lending {E} acts f : respects (refines acts) (@put_lending _ E f).
Proof. apply respects_modify. intros s. by apply refines_same. Qed.
Lemma refines_put_swap {E} acts f : respects (refines acts) (@put_swap _ E f).
Proof. apply respects_modify. intros s. by apply refines_same. Qed.
Lemma refines_event {E} acts ev : respects (refines acts) (@deposit_event _ E ev).
Proof. apply respects_modify. intros s. by apply refines_same. Qed.
Lemma refines_set_price {E} acts id p : respects (refines acts) (@_set_price _ E id p).
Proof. apply respects_modify. intros s. by apply refines_same. Qed.
Lemma refines_user_info {E} acts u : respects (refines acts) (get_user_info u : RT E _).
Proof. eapply respects_weaken; [|apply user_info_pure]. by intros s s' ->. Qed.

Lemma refines_signed {A} acts origin (k : AccountId -> RT DispatchError A) :
  (forall who, origin = Signed who -> respects (refines acts) (k who)) ->
  respects (refines acts) (bind (ensure_signed origin) k).
Proof.
  intros Hk. destruct origin as [|who|]; [by intros s | | by intros s].
  exact (Hk who eq_refl).
Qed.

(** On whose behalf a call moves money: the signer, the lending account for a call of
    its pallet, and the accounts of the pools a swap call names. *)
Definition exchange_account (a : AccountId) : Prop := exists i id, a = get_exchange_address i id.
Definition pallet_account (a : AccountId) : Prop := a = account_id \/ exchange_account a.
(** The pools a swap call names. *)
Definition swap_pools (c : SwapCall) : list AssetId :=
  match c with
  | call_set_fee_rate _ => []
  | call_swap_exact_input _ in_id out_id _ _ | call_swap_exact_output _ in_id out_id _ _ => [in_id; out_id]
  | call_add_liquidity id _ _ _ | call_remove_liquidity id _ _ _ => [id]
  end.

Definition entitled (origin : Origin) (c : Call) (a : AccountId) : Prop :=
  match origin with
  | Signed who =>
      a = who \/
      match c with
      | CallLending _ => a = account_id
      | CallSwap c => exists i id, id ∈ swap_pools c /\ a = get_exchange_address i id
      | _ => False
      end
  | _ => False
  end.

Lemma entitled_signer who c : entitled (Signed who) c who.
Proof. by left. Qed.
Lemma entitled_lending who c : entitled (Signed who) (CallLending c) account_id.
Proof. by right. Qed.
Lemma entitled_exchange who c i id :
  id ∈ swap_pools c -> entitled (Signed who) (CallSwap c) (get_exchange_address i id).
Proof. intros Hid. right. by exists i, id. Qed.
Lemma entitled_first who c i id l :
  swap_pools c = id :: l -> entitled (Signed who) (CallSwap c) (get_exchange_address i id).
Proof. intros Hc. apply entitled_exchange. rewrite Hc. by left. Qed.
Lemma entitled_second who c i id id' l :
  swap_pools c = id' :: id :: l -> entitled (Signed who) (CallSwap c) (get_exchange_address i id).
Proof. intros Hc. apply entitled_exchange. rewrite Hc. right. by left. Qed.
Lemma entitled_who origin c a : entitled origin c a -> origin = Signed a \/ pallet_account a.
Proof.
  unfold entitled, pallet_account. destruct origin as [|who|]; [done| |done].
  intros [->|H]; [by left|]. right. destruct c as [c|c|c|c]; try done; [|by left].
  destruct H as (i & id & _ & ->). right. by exists i, id.
Qed.

#[local] Hint Resolve entitled_signer entitled_lending entitled_first entitled_second : core.
#[local] Hint Resolve refines_put_lending refines_put_swap refines_event refines_set_price
  refines_user_info refines_preorder : respects.

(** Walks a signed call; the transfers ask who is debited. *)
Ltac call_money :=
  repeat first
    [ apply refines_transfer_or_fail; solve [eauto]
    | apply refines_transfer; solve [eauto]
    | respects_step ];
  unfold reserve_changed, balance, set_liquidity, get_liquidity, get_total_liquidity, set_fee_rate;
  repeat respects_step.

Lemma lending_call_money origin c : respects (refines (entitled origin (CallLending c))) (dispatch_lending origin c).
Proof.
  destruct c; cbn [dispatch_lending]; try (apply refines_signed; intros who ->); call_money.
Qed.

Lemma swap_call_money origin c : respects (refines (entitled origin (CallSwap c))) (dispatch_swap origin c).
Proof.
  destruct c; cbn [dispatch_swap]; try (apply refines_signed; intros who ->); call_money.
Qed.

(** Asset ids run out after [2^64] issues: a checked build then traps, an unchecked
    one starts again at zero.  [ids_left n]: [n] more issues get fresh ids. *)
Definition next_id (s : Chain) : AssetId := NextAssetId (assets s).
Definition ids_left (n : N) (s : Chain) : Prop :=
  overflow_checks = true \/ next_id s + n <= u64_max.

Lemma ids_left_le n m s : m <= n -> ids_left n s -> ids_left m s.
Proof. unfold ids_left. intros ? [?|?]; [by left | right; lia]. Qed.
Lemma ids_left_next n s s' : next_id s' <= next_id s + 1 -> ids_left (1 + n) s -> ids_left n s'.
Proof. unfold ids_left. intros ? [?|?]; [by left | right; lia]. Qed.

Lemma refines_issue_body (acts : AccountId -> Prop) who total s :
  acts who -> total <= u128_max -> ids_left 1 s ->
  wp (_issue who total) (fun _ s' => refines acts s s' /\ next_id s' <= next_id s + 1)
    (fun _ _ => False) s.
Proof.
  intros Hwho Htot Hids. unfold wp.
  destruct (N.lt_ge_cases (NextAssetId (assets s)) u64_max) as [Hlt|Hge].
  - rewrite issue_body by done. split; [|done]. apply refines_one. intros Hok.
    split; [by apply issued_ok|].
    apply (bank_issue acts _ _ who total); cbn [bank_of holding issued_total next_asset]; try done.
    + intros u. by apply fresh_balance.
    + apply Hok. done.
    + intros id' u. unfold get_asset_balance. cbn. rewrite getd_insert. unfold side.
      repeat case_decide; destruct_and?; simplify_eq; try tauto; [|lia].
      pose proof (fresh_balance (NextAssetId (assets s)) who _ Hok) as Hz.
      unfold get_asset_balance in Hz. rewrite Hz; lia.
    + intros id'. unfold get_asset_total_supply. cbn. rewrite getd_insert.
      destruct Hok as [_ _ Hfresh]. specialize (Hfresh (NextAssetId (assets s)) (N.le_refl _)).
      unfold get_asset_total_supply in Hfresh. repeat case_decide; simplify_eq; lia.
  - destruct Hids as [checked | Hids]; [|unfold next_id in *; lia].
    unfold _issue, get_assets, bind, gets. unfold u64_add. rewrite checked. unfold uadd.
    destruct (N.ltb_spec (NextAssetId (assets s) + 1) u64_modulus); [|done].
    unfold u64_max, u64_modulus in *. lia.
Qed.

Lemma refines_destroy (acts : AccountId -> Prop) who id :
  acts who -> respects (refines acts) (destroy (Signed who) id).
Proof.
  intros Hwho. apply respects_wp. intros s. unfold wp.
  destruct (destroy (Signed who) id s) as [u s'|e s'|] eqn:Hrun; [| |done];
    apply refines_one; intros Hok; rewrite destroy_run in Hrun by done;
    destruct (N.eqb_spec (get_asset_balance id who (assets s)) 0) as [Hz|]; simplify_eq.
  - split; [by apply destroy_ok|]. pose proof (balance_le_held id who (assets s)) as Hle.
    rewrite (lo_sum _ Hok) in Hle.
    apply (bank_burn acts _ _ who id); cbn; [done | | | done].
    + intros id' u. unfold get_asset_balance, getd, side. cbn.
      case_decide as Hc; [destruct Hc as [-> ->]; by rewrite lookup_delete_eq|].
      rewrite lookup_delete_ne by naive_solver. lia.
    + intros id'. unfold get_asset_total_supply in *. cbn. rewrite getd_insert.
      repeat case_decide; simplify_eq; lia.
  - split; [by apply delete_zero_ok|]. apply bank_idle. split_and!; [|done|done].
    intros id' u. cbn. unfold get_asset_balance, getd in *. cbn.
    destruct (decide ((id, who) = (id', u))) as [[= <- <-]|]; [by rewrite lookup_delete_eq, Hz|].
    by rewrite lookup_delete_ne.
Qed.

(** The calls but [issue] leave the next id alone. *)
Lemma next_id_transfer from id to n : respects (keeps next_id) (transfer from id to n).
Proof. unfold transfer. respects; by apply respects_modify. Qed.
Lemma next_id_transfer_or_fail from id to n :
  respects (keeps next_id) (transfer_or_fail from id to n).
Proof. apply respects_map_err, next_id_transfer. Qed.
Lemma next_id_event {E} ev : respects (keeps next_id) (@deposit_event _ E ev).
Proof. by apply respects_modify. Qed.
Lemma next_id_put_lending {E} f : respects (keeps next_id) (@put_lending _ E f).
Proof. by apply respects_modify. Qed.
Lemma next_id_put_swap {E} f : respects (keeps next_id) (@put_swap _ E f).
Proof. by apply respects_modify. Qed.
Lemma next_id_set_price {E} id p : respects (keeps next_id) (@_set_price _ E id p).
Proof. by apply respects_modify. Qed.
Lemma next_id_user_info {E} u : respects (keeps next_id) (get_user_info u : RT E _).
Proof. eapply respects_weaken; [|apply user_info_pure]. by intros s s' ->. Qed.
#[local] Hint Resolve next_id_transfer next_id_transfer_or_fail next_id_event next_id_put_lending
  next_id_put_swap next_id_set_price next_id_user_info : respects.

Definition issues (c : Call) : bool :=
  match c with CallAssets (call_issue _) => true | _ => false end.

Ltac call_next_id :=
  respects; unfold set_fee_rate, set_inherent_asset, set_liquidity, get_liquidity, get_total_liquidity,
    init_pool, _init_pool; respects.

Lemma call_keeps_next_id origin c : issues c = false -> respects (keeps next_id) (dispatch origin c).
Proof.
  intros Hc. destruct c as [c|c|c|[bn p|]]; cbn [dispatch].
  - destruct c; cbn [dispatch_assets]; [done|..]; call_next_id; by apply respects_modify.
  - destruct c; cbn [dispatch_swap]; call_next_id.
  - destruct c; cbn [dispatch_lending]; call_next_id.
  - call_next_id; by apply respects_modify.
  - by apply respects_ret, keeps_preorder.
Qed.

(** Every call but [issue] refines the bank whatever the ids. *)
Lemma assets_call_money origin c :
  issues (CallAssets c) = false ->
  respects (refines (entitled origin (CallAssets c))) (dispatch_assets origin c).
Proof.
  destruct c as [total|id|id|id to n|id p]; cbn [dispatch_assets]; intros Hc; [done|..].
  - destruct origin as [|who|]; [by intros s | apply refines_destroy; auto | by intros s].
  - apply respects_modify. intros s. by apply refines_same.
  - apply refines_signed. intros who ->. call_money.
  - call_money.
Qed.

Lemma price_call_money acts origin bn p :
  respects (refines acts) (submit_price_unsigned origin bn p).
Proof. call_money. apply respects_modify. intros s. by apply refines_same. Qed.

Lemma dispatch_money origin c s s' :
  call_decodes c -> ids_left 1 s -> final (dispatch origin c s) = Some s' ->
  refines (entitled origin c) s s' /\ next_id s' <= next_id s + 1.
Proof.
  intros Hdec Hids Hrun. destruct (issues c) eqn:Hc.
  - destruct c as [[total| | | |]| | |]; try done. destruct origin as [|who|];
      cbn in Hrun; [injection Hrun as <-; split; [done | lia] | | injection Hrun as <-; split; [done | lia]].
    change (final (issue (Signed who) total s) = Some s') in Hrun. rewrite issue_is_issue in Hrun.
    pose proof (refines_issue_body (entitled (Signed who) (CallAssets (call_issue total))) who total s
      (entitled_signer _ _) (proj1 (N.leb_le _ _) Hdec) Hids) as H.
    unfold wp in H. unfold map_err in Hrun. destruct (_issue who total s); [|done|done].
    by injection Hrun as <-.
  - split.
    + refine (final_respects _ _ _ _ _ Hrun). destruct c as [c|c|c|[bn p|]]; cbn [dispatch];
        [by apply assets_call_money | apply swap_call_money | apply lending_call_money |
         apply price_call_money | by apply respects_ret, refines_preorder].
    + pose proof (final_respects _ _ _ _ (call_keeps_next_id origin c Hc) Hrun) as H.
      unfold keeps in H. lia.
Qed.

(** A call takes money from nobody but those. *)
Lemma dispatch_holding origin c s s' id u :
  call_decodes c -> ids_left 1 s -> ledger_ok (assets s) -> final (dispatch origin c s) = Some s' ->
  ~ entitled origin c u -> holding (bank_of s) id u <= holding (bank_of s') id u.
Proof.
  intros Hdec Hids Hok Hrun Hu. destruct (dispatch_money origin c s s' Hdec Hids Hrun) as [Hr _].
  destruct (Hr Hok) as [_ Hs]. exact (bank_steps_holding _ _ _ id u Hs Hu).
Qed.

(** The genesis issues assets and hands some out, on behalf of anyone. *)
Lemma genesis_asset_money entry s s' :
  snd (fst entry) <= u128_max -> ids_left 1 s -> genesis_asset entry s = Ok tt s' ->
  refines (fun _ => True) s s' /\ next_id s' <= next_id s + 1.
Proof.
  destruct entry as [[who n] p]. cbn [fst snd]. intros Hn Hids. unfold genesis_asset. rewrite bind_Ok.
  intros (u & s1 & H1 & H2).
  pose proof (refines_issue_body (fun _ => True) who n s I Hn Hids) as H. unfold wp in H.
  unfold ignore in H1. destruct (_issue who n s) as [u1 s2|e s2|]; [|done|done].
  injection H1 as _ ->. destruct H as [Hr Hid]. split.
  - etrans; [exact Hr|]. refine (respects_Ok _ _ _ _ _ _ H2). call_money.
  - match type of H2 with ?m _ = _ => assert (respects (keeps next_id) m) as Hk by call_next_id end.
    pose proof (respects_Ok _ _ _ _ _ Hk H2) as H. unfold keeps in H. lia.
Qed.

Lemma genesis_build_money l s s' :
  Forall (fun entry => snd (fst entry) <= u128_max) l -> ids_left (N.of_nat (length l)) s ->
  genesis_build l s = Ok tt s' ->
  refines (fun _ => True) s s' /\ next_id s' <= next_id s + N.of_nat (length l).
Proof.
  unfold genesis_build. intros Hl. generalize tt at 1. intros u. revert u s.
  induction Hl as [|e l He _ IH]; intros u s Hids; cbn [foldM length].
  - intros [= _ <-]. split; [done | lia].
  - rewrite bind_Ok. intros ([] & s1 & H1 & H2).
    destruct (genesis_asset_money e s s1 He) as [Hr1 Hid1]; [|done|].
    { eapply ids_left_le; [|exact Hids]. cbn [length]. lia. }
    destruct (IH tt s1) as [Hr2 Hid2]; [|done|].
    { eapply ids_left_next; [exact Hid1|]. eapply ids_left_le; [|exact Hids]. cbn [length]. lia. }
    split; [by etrans | lia].
Qed.

Lemma genesis_money g s :
  genesis_decodes g -> overflow_checks = true \/ N.of_nat (length (genesis_assets g)) <= u64_max ->
  build_genesis g = Ok tt s ->
  ledger_ok (assets s) /\ rtc (bank_step (fun _ => True)) empty_bank (bank_of s) /\
  next_id s <= N.of_nat (length (genesis_assets g)).
Proof.
  intros Hdec Hids. unfold build_genesis. rewrite bind_Ok. intros ([] & s1 & H1 & H2).
  destruct (genesis_build_money _ (genesis_storage g) s1 Hdec Hids H1) as [Hr Hid].
  assert (refines (fun _ => True) s1 s /\ next_id s = next_id s1) as [Hr2 Hid2].
  { split; [refine (respects_Ok _ _ _ _ _ _ H2) | refine (respects_Ok (keeps next_id) _ _ _ _ _ H2)];
      unfold lending_genesis_build; [call_money | call_next_id]. }
  destruct (Hr (co_ledger _ (genesis_storage_ok g))) as [Hok1 Hs1]. destruct (Hr2 Hok1) as [Hok Hs2].
  split; [done|]. split; [|rewrite Hid2; exact Hid].
  eapply rtc_l; [|etrans; [exact Hs1 | exact Hs2]]. apply bank_idle. split_and!; intros; cbn;
    unfold get_asset_balance, get_asset_total_supply, getd; cbn; by rewrite ?lookup_empty.
Qed.

Lemma refines_mono (acts acts' : AccountId -> Prop) s s' :
  (forall a, acts a -> acts' a) -> refines acts s s' -> refines acts' s s'.
Proof.
  intros Hsub H Hok. destruct (H Hok) as [? Hs]. split; [done|].
  eapply rtc_congruence with (f := fun b => b); [|done]. intros. by eapply bank_step_mono.
Qed.

End Refinement.

(* ================================================================== *)
(** ** Sequences of calls                                              *)
(* ================================================================== *)

Section Actions.
Context {acc : Accounts}.

(** What a block producer runs: extrinsics of any origin, and new blocks. *)
Inductive Action : Type :=
| Extrinsic (origin : Origin) (c : Call)
| NewBlock.
End Actions.

Section Sequences.
Context {cfg : Config} {fo : FixedOps} {fl : FixedLaws fo}.

(** A trap, like a block number that does not fit, yields no state. *)
Definition act (a : Action) (s : Chain) : option Chain :=
  match a with
  | Extrinsic origin c => final (dispatch origin c s)
  | NewBlock => if block_number s + 1 <? u32_modulus then Some (next_block s) else None
  end.

Fixpoint run_actions (l : list Action) (s : Chain) : option Chain :=
  match l with
  | [] => Some s
  | a :: l' => s1 <-? act a s ;; run_actions l' s1
  end.

(** A stable invariant of the single actions is one of the runs. *)
Lemma run_actions_inv (I : Chain -> Prop) (ok : Action -> Prop) l s s' :
  (forall a s s', ok a -> act a s = Some s' -> I s -> I s') ->
  Forall ok l -> run_actions l s = Some s' -> I s -> I s'.
Proof.
  intros Hstep Hl. revert s. induction Hl as [|a l Ha _ IH]; intros s; cbn [run_actions].
  - by intros [= <-].
  - intros (s1 & H1 & Hrest)%obind_Some Hs. by eapply IH, Hstep.
Qed.

(** An action that is a step of the chain as it stands: no unsigned call. *)
Definition callable (a : Action) : Prop :=
  match a with
  | Extrinsic origin c => call_decodes c /\ origin <> NoOrigin
  | NewBlock => True
  end.

Lemma run_actions_reachable g l s s' :
  Forall callable l -> reachable g s -> run_actions l s = Some s' -> reachable g s'.
Proof.
  intros Hl Hr Hrun. apply (run_actions_inv (reachable g) callable l s s'); [|done..].
  intros a t t' Ha Hact Ht. eapply reachable_step; [exact Ht|].
  destruct a as [origin c|]; cbn [act callable] in *.
  - destruct Ha as [Hdec Ho]. exact (step_call origin c _ _ Ho Hdec Hact).
  - destruct (N.ltb_spec (block_number t + 1) u32_modulus); [|done]. injection Hact as <-. by apply step_block.
Qed.

(** The arguments decode, and the origin is not an account of [bad]. *)
Definition action_ok (bad : AccountId -> Prop) (a : Action) : Prop :=
  match a with
  | Extrinsic origin c => call_decodes c /\ forall who, origin = Signed who -> ~ bad who
  | NewBlock => True
  end.

Definition nobody (_ : AccountId) : Prop := False.

(** One action: the books stay balanced, the bank follows. *)
Lemma act_money bad a s s' :
  ledger_ok (assets s) -> ids_left 1 s -> action_ok bad a -> act a s = Some s' ->
  ledger_ok (assets s') /\ next_id s' <= next_id s + 1 /\
  rtc (bank_step (fun who => ~ bad who \/ pallet_account who)) (bank_of s) (bank_of s').
Proof.
  intros Hok Hids. destruct a as [origin c|]; cbn [action_ok act].
  - intros [Hdec Hwho] Hrun. destruct (dispatch_money origin c s s' Hdec Hids Hrun) as [Href Hid].
    eapply refines_mono in Href; [destruct (Href Hok); split_and!; eassumption|].
    intros who [->|]%entitled_who; [left; by apply Hwho | by right].
  - intros _. destruct (_ <? _); [|done]. intros [= <-]. split_and!; [done | unfold next_id; cbn; lia | done].
Qed.

Lemma run_actions_money bad l s s' :
  ledger_ok (assets s) -> ids_left (N.of_nat (length l)) s -> Forall (action_ok bad) l ->
  run_actions l s = Some s' ->
  ledger_ok (assets s') /\
  rtc (bank_step (fun who => ~ bad who \/ pallet_account who)) (bank_of s) (bank_of s').
Proof.
  intros Hok Hids Hl. revert s Hok Hids. induction Hl as [|a l Ha _ IH]; intros s Hok Hids;
    cbn [run_actions length].
  - by intros [= <-].
  - intros (s1 & H1 & H2)%obind_Some.
    destruct (act_money bad a s s1) as (Hok1 & Hid1 & Hs1); try done.
    { eapply ids_left_le; [|exact Hids]. cbn [length]. lia. }
    destruct (IH s1) as [Hok2 Hs2]; try done.
    { eapply ids_left_next; [exact Hid1|]. eapply ids_left_le; [|exact Hids]. cbn [length]. lia. }
    split; [done | by etrans].
Qed.

(** An account that does not sign and belongs to no pallet loses nothing. *)
Lemma run_actions_holding l s s' id u :
  ledger_ok (assets s) -> ids_left (N.of_nat (length l)) s -> ~ pallet_account u ->
  Forall (action_ok (eq u)) l -> run_actions l s = Some s' ->
  holding (bank_of s) id u <= holding (bank_of s') id u.
Proof.
  intros Hok Hids Hu Hl Hrun. destruct (run_actions_money _ _ _ _ Hok Hids Hl Hrun) as [_ Hs].
  apply (bank_steps_holding _ _ _ id u Hs). naive_solver.
Qed.
End Sequences.
