(* ===== verification/Typed.v ===== *)
(** * Machine widths: every stored number fits its type

    The storages of the model hold unbounded [N]s; the Rust types are [u128],
    [u64] and [u32].  [chain_typed] says that every stored key and value fits its
    type.  Every call keeps it, in builds with and without overflow checks, so
    the model never leaves the range of the program it describes. *)

From S2P Require Export Runtime Yields.

Local Open Scope N_scope.
Local Open Scope rust_scope.

(* ================================================================== *)
(** ** Well-typed storages                                             *)
(* ================================================================== *)

Definition is_u32 (n : N) : Prop := n < u32_modulus.
Definition is_u64 (n : N) : Prop := n < u64_modulus.
Definition is_u128 (n : N) : Prop := n <= u128_max.

Record pool_typed (p : Pool) : Prop := {
  pt_asset : is_u64 (pool_asset p);
  pt_supply : is_u128 (pool_supply p);
  pt_debt : is_u128 (pool_debt p);
  pt_safe : is_u128 (safe_factor p);
  pt_close : is_u128 (close_factor p);
  pt_discount : is_u128 (discount_factor p);
  pt_supply_index : is_u128 (total_supply_index p);
  pt_debt_index : is_u128 (total_debt_index p);
  pt_updated : is_u32 (last_updated p);
  pt_utilization : is_u128 (utilization_factor p);
  pt_initial : is_u128 (initial_interest_rate p)
}.

(** One field rewritten; the others are carried over. *)
Ltac retype := let H := fresh in intros H; destruct H; split; cbn; try assumption.

Section Typed.
Context {acc : Accounts}.

Record chain_typed (s : Chain) : Prop := {
  ct_block : is_u32 (block_number s);
  ct_window : is_u32 (NextUnsignedAt s);
  ct_next_asset : is_u64 (NextAssetId (assets s));
  ct_inherent : is_u64 (InherentAsset (assets s));
  ct_supply_of : map_Forall (fun id n => is_u64 id /\ is_u128 n) (TotalSupply (assets s));
  ct_balances : map_Forall (fun k n => is_u64 (fst k) /\ is_u128 n) (Balances (assets s));
  ct_price : map_Forall (fun id n => is_u64 id /\ is_u128 n) (Price (assets s));
  ct_fee : is_u64 (FeeRateGlobal (swap s));
  ct_total_liquidity : map_Forall (fun id n => is_u64 id /\ is_u128 n) (TotalLiquidities (swap s));
  ct_liquidity : map_Forall (fun k n => is_u64 (fst k) /\ is_u128 n) (AccountLiquidities (swap s));
  ct_exchanges : map_Forall (fun id _ => is_u64 id) (ExchangeAccounts (swap s));
  ct_debts : map_Forall (fun k d => is_u64 (fst k) /\ is_u128 (ud_amount d) /\ is_u128 (ud_index d))
               (UserDebts (lending s));
  ct_supplies : map_Forall (fun k d => is_u64 (fst k) /\ is_u128 (us_amount d) /\ is_u128 (us_index d))
                  (UserSupplies (lending s));
  ct_pools : map_Forall (fun id p => is_u64 id /\ pool_typed p) (Pools (lending s));
  ct_supply_sets : map_Forall (fun _ l => Forall is_u64 l) (UserSupplySet (lending s));
  ct_debt_sets : map_Forall (fun _ l => Forall is_u64 l) (UserDebtSet (lending s));
  ct_threshold : is_u128 (LiquidationThreshold (lending s))
}.

Lemma typed_event ev s : chain_typed s -> chain_typed (add_event ev s).
Proof. retype. Qed.
Lemma typed_window n s : is_u32 n -> chain_typed s -> chain_typed (set_NextUnsignedAt n s).
Proof. intros. revert select (chain_typed _). retype. Qed.
Lemma typed_next n s :
  is_u64 n -> chain_typed s -> chain_typed (set_assets (set_NextAssetId (fun _ => n)) s).
Proof. intros. revert select (chain_typed _). retype. Qed.
Lemma typed_inherent n s :
  is_u64 n -> chain_typed s -> chain_typed (set_assets (set_InherentAsset n) s).
Proof. intros. revert select (chain_typed _). retype. Qed.
Lemma typed_total id n s :
  is_u64 id -> is_u128 n -> chain_typed s -> chain_typed (set_assets (set_TotalSupply <[id := n]>) s).
Proof. intros. revert select (chain_typed _). retype. by apply map_Forall_insert_2. Qed.
Lemma typed_balance id who n s :
  is_u64 id -> is_u128 n -> chain_typed s ->
  chain_typed (set_assets (set_Balances <[(id, who) := n]>) s).
Proof. intros. revert select (chain_typed _). retype. by apply map_Forall_insert_2. Qed.
Lemma typed_no_balance k s :
  chain_typed s -> chain_typed (set_assets (set_Balances (delete k)) s).
Proof. retype. by apply map_Forall_delete. Qed.
Lemma typed_price id n s :
  is_u64 id -> is_u128 n -> chain_typed s -> chain_typed (set_assets (set_Price <[id := n]>) s).
Proof. intros. revert select (chain_typed _). retype. by apply map_Forall_insert_2. Qed.
Lemma typed_fee n s : is_u64 n -> chain_typed s -> chain_typed (set_swap (set_FeeRateGlobal n) s).
Proof. intros. revert select (chain_typed _). retype. Qed.
Lemma typed_total_liquidity id n s :
  is_u64 id -> is_u128 n -> chain_typed s ->
  chain_typed (set_swap (set_TotalLiquidities <[id := n]>) s).
Proof. intros. revert select (chain_typed _). retype. by apply map_Forall_insert_2. Qed.
Lemma typed_liquidity id who n s :
  is_u64 id -> is_u128 n -> chain_typed s ->
  chain_typed (set_swap (set_AccountLiquidities <[(id, who) := n]>) s).
Proof. intros. revert select (chain_typed _). retype. by apply map_Forall_insert_2. Qed.
Lemma typed_exchange id a s :
  is_u64 id -> chain_typed s -> chain_typed (set_swap (set_ExchangeAccounts <[id := a]>) s).
Proof. intros. revert select (chain_typed _). retype. by apply map_Forall_insert_2. Qed.
Lemma typed_debt id who n i s :
  is_u64 id -> is_u128 n -> is_u128 i -> chain_typed s ->
  chain_typed (set_lending (set_UserDebts <[(id, who) := mkUserDebt n i]>) s).
Proof. intros. revert select (chain_typed _). retype. by apply map_Forall_insert_2. Qed.
Lemma typed_no_debt k s :
  chain_typed s -> chain_typed (set_lending (set_UserDebts (delete k)) s).
Proof. retype. by apply map_Forall_delete. Qed.
Lemma typed_supply id who n i s :
  is_u64 id -> is_u128 n -> is_u128 i -> chain_typed s ->
  chain_typed (set_lending (set_UserSupplies <[(id, who) := mkUserSupply n i]>) s).
Proof. intros. revert select (chain_typed _). retype. by apply map_Forall_insert_2. Qed.
Lemma typed_no_supply k s :
  chain_typed s -> chain_typed (set_lending (set_UserSupplies (delete k)) s).
Proof. retype. by apply map_Forall_delete. Qed.
Lemma typed_pool id p s :
  is_u64 id -> pool_typed p -> chain_typed s -> chain_typed (set_lending (set_Pools <[id := p]>) s).
Proof. intros. revert select (chain_typed _). retype. by apply map_Forall_insert_2. Qed.
Lemma typed_supply_set who l s :
  Forall is_u64 l -> chain_typed s -> chain_typed (set_lending (set_UserSupplySet <[who := l]>) s).
Proof. intros. revert select (chain_typed _). retype. by apply map_Forall_insert_2. Qed.
Lemma typed_debt_set who l s :
  Forall is_u64 l -> chain_typed s -> chain_typed (set_lending (set_UserDebtSet <[who := l]>) s).
Proof. intros. revert select (chain_typed _). retype. by apply map_Forall_insert_2. Qed.
End Typed.

(* ================================================================== *)
(** ** Reads and writes                                                *)
(* ================================================================== *)

Section Accesses.
Context {cfg : Config} {fo : FixedOps} {fl : FixedLaws fo}.

Abbreviation typed P m := (yields chain_typed P m) (only parsing).

Lemma getd_typed {K} `{Countable K} (P : K -> Prop) (m : gmap K N) k :
  map_Forall (fun k n => P k /\ is_u128 n) m -> is_u128 (getd 0 m k).
Proof.
  intros Hm. unfold getd. destruct (m !! k) eqn:Hk; cbn; [by apply (Hm _ _ Hk) | by vm_compute].
Qed.

Lemma read_balance {E} id who : typed is_u128 (@get_assets _ E _ (get_asset_balance id who)).
Proof. apply yields_gets. intros s Hs. eapply getd_typed, ct_balances, Hs. Qed.
Lemma read_total_supply {E} id : typed is_u128 (@get_assets _ E _ (get_asset_total_supply id)).
Proof. apply yields_gets. intros s Hs. eapply (getd_typed is_u64), ct_supply_of, Hs. Qed.
Lemma read_next {E} : typed is_u64 (@get_assets _ E _ NextAssetId).
Proof. apply yields_gets. by intros s []. Qed.
Lemma read_inherent {E} : typed is_u64 (@get_assets _ E _ InherentAsset).
Proof. apply yields_gets. by intros s []. Qed.
Lemma read_owner {E} : typed (fun _ => True) (@get_assets _ E _ Owner).
Proof. by apply yields_gets. Qed.
Lemma read_fee {E} : typed is_u64 (@get_swap _ E _ fee_rate).
Proof. apply yields_gets. by intros s []. Qed.
Lemma read_total_liquidity {E} id : typed is_u128 (@get_swap _ E _ (total_liquidity id)).
Proof. apply yields_gets. intros s Hs. eapply (getd_typed is_u64), ct_total_liquidity, Hs. Qed.
Lemma read_liquidity {E} id who : typed is_u128 (@get_swap _ E _ (account_liquidity id who)).
Proof. apply yields_gets. intros s Hs. eapply getd_typed, ct_liquidity, Hs. Qed.
Lemma read_block {E} : typed is_u32 (@gets _ E _ block_number).
Proof. apply yields_gets. by intros s []. Qed.
Lemma read_pool {E} id :
  typed (fun o => forall p, o = Some p -> pool_typed p) (@get_lending _ E _ (pool id)).
Proof. apply yields_gets. intros s Hs p Hp. apply (ct_pools _ Hs _ _ Hp). Qed.
Lemma read_supply {E} id who :
  typed (fun o => forall us, o = Some us -> is_u128 (us_amount us)) (@get_lending _ E _ (user_supply id who)).
Proof. apply yields_gets. intros s Hs us Hus. apply (ct_supplies _ Hs _ _ Hus). Qed.
Lemma read_debt {E} id who :
  typed (fun o => forall ud, o = Some ud -> is_u128 (ud_amount ud)) (@get_lending _ E _ (user_debt id who)).
Proof. apply yields_gets. intros s Hs ud Hud. apply (ct_debts _ Hs _ _ Hud). Qed.
Lemma read_supply_set {E} who : typed (Forall is_u64) (@get_lending _ E _ (user_supply_set who)).
Proof.
  apply yields_gets. intros s Hs. unfold user_supply_set, getd.
  destruct (UserSupplySet (lending s) !! who) eqn:Hl; cbn; [by apply (ct_supply_sets _ Hs _ _ Hl) | done].
Qed.
Lemma read_debt_set {E} who : typed (Forall is_u64) (@get_lending _ E _ (user_debt_set who)).
Proof.
  apply yields_gets. intros s Hs. unfold user_debt_set, getd.
  destruct (UserDebtSet (lending s) !! who) eqn:Hl; cbn; [by apply (ct_debt_sets _ Hs _ _ Hl) | done].
Qed.
Lemma read_threshold {E} : typed is_u128 (@get_lending _ E _ get_liquidation_threshold).
Proof. apply yields_gets. by intros s []. Qed.
Lemma read_rate {E} id : typed is_u128 (@gets _ E _ (get_rate id)).
Proof. apply yields_gets. intros s Hs. eapply (getd_typed is_u64), ct_price, Hs. Qed.
Lemma signed_typed origin : typed (fun _ => True) (ensure_signed origin).
Proof. destruct origin; first [by apply yields_ret | by apply yields_throw]. Qed.
Lemma root_typed origin : typed (fun _ => True) (ensure_root origin).
Proof. destruct origin; first [by apply yields_ret | by apply yields_throw]. Qed.
Lemma none_typed origin : typed (fun _ => True) (ensure_none origin).
Proof. destruct origin; first [by apply yields_ret | by apply yields_throw]. Qed.

(** Results of the operators. *)
Lemma u128_add_typed a b c : u128_add a b = Some c -> is_u128 c.
Proof. intros H. by apply u128_max_modulus, (uadd_lt overflow_checks u128_modulus a b). Qed.
Lemma u128_mul_typed a b c : u128_mul a b = Some c -> is_u128 c.
Proof. intros H. by apply u128_max_modulus, (umul_lt overflow_checks u128_modulus a b). Qed.
Lemma u128_sub_typed a b c : u128_sub a b = Some c -> is_u128 a -> is_u128 c.
Proof.
  intros H Ha%u128_max_modulus. by apply u128_max_modulus, (usub_lt overflow_checks u128_modulus a b).
Qed.
Lemma udiv_typed a b c : udiv a b = Some c -> is_u128 a -> is_u128 c.
Proof.
  unfold udiv, is_u128. destruct (N.eqb_spec b 0); [done|]. intros [= <-] Ha.
  etrans; [by apply N.Div0.div_le_upper_bound with (q := a); nia | done].
Qed.
Lemma u64_add_typed a b c : u64_add a b = Some c -> is_u64 c.
Proof. intros H. by apply (uadd_lt overflow_checks u64_modulus a b). Qed.
Lemma u32_add_typed a b c : u32_add a b = Some c -> is_u32 c.
Proof. intros H. by apply (uadd_lt overflow_checks u32_modulus a b). Qed.
Lemma u128_move_typed b x y c : u128_move b x y = Some c -> is_u128 x -> is_u128 c.
Proof. destruct b; cbn; [intros H _; by eapply u128_add_typed | apply u128_sub_typed]. Qed.
Lemma at_index_typed t i n c : at_index t i n = Some c -> is_u128 c.
Proof. intros (r & _ & [= <-])%obind_Some. apply fx_mul_int_bound. Qed.
Lemma one_typed : is_u128 fx_one.
Proof. rewrite fx_one_inner. by vm_compute. Qed.
Lemma zero_typed : is_u128 0.
Proof. by vm_compute. Qed.
Lemma fx_mul_typed a b c : fx_mul a b = Some c -> is_u128 c.
Proof. apply fx_mul_bound. Qed.
Lemma fx_add_typed a b c : fx_add a b = Some c -> is_u128 c.
Proof. apply fx_add_bound. Qed.
Lemma fx_mul_int_typed a n : is_u128 (fx_mul_int a n).
Proof. apply fx_mul_int_bound. Qed.
Lemma fx_from_integer_typed n : is_u128 (fx_from_integer n).
Proof. apply fx_from_integer_bound. Qed.
Lemma fx_from_rational_typed n d c : fx_from_rational n d = Some c -> is_u128 c.
Proof. apply fx_from_rational_bound. Qed.
End Accesses.

Create HintDb typed discriminated.
#[export] Hint Constants Opaque : typed.
#[export] Hint Resolve I : typed.
#[export] Hint Resolve read_balance read_total_supply read_next read_inherent read_owner read_fee
  read_total_liquidity read_liquidity read_block read_pool read_supply read_debt read_supply_set
  read_debt_set read_threshold read_rate signed_typed root_typed none_typed yields_ensure
  yields_throw yields_map_err yields_ignore : typed.
#[export] Hint Resolve u128_add_typed u128_mul_typed u128_sub_typed udiv_typed u64_add_typed
  u32_add_typed u128_move_typed at_index_typed one_typed zero_typed fx_mul_typed fx_add_typed
  fx_mul_int_typed fx_from_integer_typed fx_from_rational_typed : typed.
#[export] Hint Resolve typed_event typed_window typed_next typed_inherent typed_total typed_balance
  typed_no_balance typed_price typed_fee typed_total_liquidity typed_liquidity typed_exchange typed_debt
  typed_no_debt typed_supply typed_no_supply typed_pool typed_supply_set typed_debt_set : typed.

Ltac typed := yields_with ltac:(solve [eauto 9 with typed nocore]).

(* ================================================================== *)
(** ** The pallets                                                     *)
(* ================================================================== *)

Section Assets_typed.
Context {cfg : Config} {fo : FixedOps} {fl : FixedLaws fo}.

Abbreviation typed P m := (yields chain_typed P m) (only parsing).

Lemma balance_typed {E} id who : typed is_u128 (balance id who : RT E Balance).
Proof. apply read_balance. Qed.

Lemma issue_body_typed who total : is_u128 total -> typed (fun _ => True) (_issue who total).
Proof. intros. unfold _issue, put_assets, deposit_event. typed. Qed.

Lemma issue_typed origin total : is_u128 total -> typed (fun _ => True) (issue origin total).
Proof. intros. unfold issue, put_assets, deposit_event. typed. Qed.

Lemma destroy_typed origin id : is_u64 id -> typed (fun _ => True) (destroy origin id).
Proof. intros. unfold destroy, put_assets, deposit_event. typed. Qed.

Lemma set_price_typed {E} id p : is_u64 id -> is_u128 p -> typed (fun _ => True) (@_set_price _ E id p).
Proof. intros. unfold _set_price, put_assets. typed. Qed.

Lemma transfer_typed from id to n : is_u64 id -> typed (fun _ => True) (transfer from id to n).
Proof. intros. unfold transfer, put_assets, deposit_event. typed. Qed.

Lemma transfer_or_fail_typed from id to n :
  is_u64 id -> typed (fun _ => True) (transfer_or_fail from id to n).
Proof. intros. by apply yields_map_err, transfer_typed. Qed.

Lemma attempt_typed {F} from id to n :
  is_u64 id -> typed (fun _ => True) (@ignore _ _ F _ (transfer from id to n)).
Proof. intros. by eapply yields_ignore, transfer_typed. Qed.
End Assets_typed.

#[export] Hint Resolve balance_typed issue_body_typed issue_typed destroy_typed set_price_typed
  transfer_typed transfer_or_fail_typed attempt_typed : typed.

Section Lending_typed.
Context {cfg : Config} {fo : FixedOps} {fl : FixedLaws fo}.

Abbreviation typed P m := (yields chain_typed P m) (only parsing).

Lemma accrue_typed now p p' :
  is_u32 now -> pool_typed p -> accrue_interest_at now p = Some p' -> pool_typed p'.
Proof.
  intros Hnow Hp. unfold accrue_interest_at. destruct (last_updated p =? now); [by intros [= <-]|].
  intros H. inv_run. subst. destruct Hp. split; cbn; eauto with typed nocore.
Qed.

Lemma accrue_interest_typed {E} p : pool_typed p -> typed pool_typed (@accrue_interest _ _ E p).
Proof.
  intros Hp. unfold accrue_interest. eapply yields_bind; [apply read_block|]. intros now Hnow.
  apply yields_or_panic. intros. by eapply accrue_typed.
Qed.

Lemma update_pool_supply_typed p n b p' :
  pool_typed p -> update_pool_supply p n b = Some p' -> pool_typed p'.
Proof.
  unfold update_pool_supply. intros Hp (m & Hm & [= <-])%obind_Some. destruct Hp.
  split; cbn; eauto with typed nocore.
Qed.

Lemma update_pool_debt_typed p n b p' :
  pool_typed p -> update_pool_debt p n b = Some p' -> pool_typed p'.
Proof.
  unfold update_pool_debt. intros Hp (m & Hm & [= <-])%obind_Some. destruct Hp.
  split; cbn; eauto with typed nocore.
Qed.

Lemma retain_typed id l : Forall is_u64 l -> Forall is_u64 (retain_not id l).
Proof. unfold retain_not. induction 1; cbn; [done|]. destruct (negb _); [by constructor | done]. Qed.
Lemma push_typed id l : is_u64 id -> Forall is_u64 l -> Forall is_u64 (l ++ [id]).
Proof. intros. apply Forall_app. split; [done | by constructor]. Qed.
Hint Resolve retain_typed push_typed pt_supply_index pt_debt_index : typed.

Lemma update_user_supply_typed {E} p id who n b :
  pool_typed p -> is_u64 id -> is_u128 n -> typed (fun _ => True) (@update_user_supply _ _ E p id who n b).
Proof. intros. unfold update_user_supply, put_lending. typed. Qed.

Lemma update_user_debt_typed {E} p id who n b :
  pool_typed p -> is_u64 id -> is_u128 n -> typed (fun _ => True) (@update_user_debt _ _ E p id who n b).
Proof. intros. unfold update_user_debt, put_lending. typed. Qed.

Lemma accrue_supply_typed {E} p id who :
  pool_typed p -> is_u64 id -> typed (fun _ => True) (@accrue_supply_with_interest _ _ E p id who).
Proof. intros. unfold accrue_supply_with_interest, put_lending. typed. Qed.

Lemma accrue_debt_typed {E} p id who :
  pool_typed p -> is_u64 id -> typed (fun _ => True) (@accrue_debt_with_interest _ _ E p id who).
Proof. intros. unfold accrue_debt_with_interest, put_lending. typed. Qed.

Lemma user_info_typed {E} u : typed (fun _ => True) (get_user_info u : RT E _).
Proof. apply yields_pure, user_info_pure. Qed.

Lemma add_supply_set_typed who id : is_u64 id -> typed (fun _ => True) (add_to_supply_set who id).
Proof. intros. unfold add_to_supply_set, put_lending. typed. Qed.

Lemma add_debt_set_typed who id : is_u64 id -> typed (fun _ => True) (add_to_debt_set who id).
Proof. intros. unfold add_to_debt_set, put_lending. typed. Qed.

Lemma check_cash_typed p n : typed (fun _ => True) (check_cash p n).
Proof. apply yields_pure, check_cash_pure. Qed.

Lemma init_pool_typed {E} id c : is_u64 id -> typed (fun _ => True) (@_init_pool _ _ E id c).
Proof.
  intros. unfold _init_pool, put_lending. typed. apply yields_modify. intros s Hs.
  apply typed_pool; [done | | done]. split; cbn; eauto with typed nocore; by vm_compute.
Qed.

Lemma min_typed b x y : is_u128 x -> is_u128 y -> is_u128 (if (b : bool) then x else y).
Proof. by destruct b. Qed.
Hint Resolve accrue_interest_typed update_pool_supply_typed update_pool_debt_typed
  update_user_supply_typed update_user_debt_typed accrue_supply_typed accrue_debt_typed
  user_info_typed add_supply_set_typed add_debt_set_typed check_cash_typed min_typed : typed.

Lemma supply_typed origin id n :
  is_u64 id -> is_u128 n -> typed (fun _ => True) (supply origin id n).
Proof. intros. unfold supply, put_lending, deposit_event. typed. Qed.

Lemma withdraw_typed origin id n :
  is_u64 id -> is_u128 n -> typed (fun _ => True) (withdraw origin id n).
Proof. intros. unfold withdraw, put_lending, deposit_event. typed. Qed.

Lemma borrow_typed origin id n :
  is_u64 id -> is_u128 n -> typed (fun _ => True) (borrow origin id n).
Proof. intros. unfold borrow, put_lending, deposit_event. typed. Qed.

Lemma repay_typed origin id n :
  is_u64 id -> is_u128 n -> typed (fun _ => True) (repay origin id n).
Proof. intros. unfold repay, put_lending, deposit_event. typed. Qed.

Lemma liquidate_typed origin t a b n :
  is_u64 a -> is_u64 b -> is_u128 n -> typed (fun _ => True) (liquidate origin t a b n).
Proof. intros. unfold liquidate, put_lending. typed. Qed.
End Lending_typed.

#[export] Hint Resolve supply_typed withdraw_typed borrow_typed repay_typed liquidate_typed
  init_pool_typed : typed.

Section Swap_typed.
Context {cfg : Config} {fo : FixedOps} {fl : FixedLaws fo} {ef : ExchangeFactory}.

Abbreviation typed P m := (yields chain_typed P m) (only parsing).

Lemma output_typed x a b r : typed is_u128 (calc_output_at_known_input x a b r).
Proof. unfold calc_output_at_known_input. typed. Qed.

Lemma input_typed x a b r : is_u128 x -> typed is_u128 (calc_input_at_known_output x a b r).
Proof.
  intros. unfold calc_input_at_known_output. typed. apply yields_ret. unfold is_u128. lia.
Qed.
Hint Resolve output_typed input_typed : typed.

Lemma inherent_input_typed id n r :
  is_u128 n -> typed is_u128 (calc_inherent_asset_input_amount id n r).
Proof. intros. unfold calc_inherent_asset_input_amount. typed. Qed.
Lemma inherent_output_typed id n r : typed is_u128 (calc_inherent_asset_output_amount id n r).
Proof. unfold calc_inherent_asset_output_amount. typed. Qed.
Lemma paired_input_typed id n r :
  is_u128 n -> typed is_u128 (calc_paired_asset_input_amount id n r).
Proof. intros. unfold calc_paired_asset_input_amount. typed. Qed.
Lemma paired_output_typed id n r : typed is_u128 (calc_paired_asset_output_amount id n r).
Proof. unfold calc_paired_asset_output_amount. typed. Qed.

Lemma set_liquidity_typed {E} id who n :
  is_u64 id -> is_u128 n -> typed (fun _ => True) (@set_liquidity _ E id who n).
Proof. intros. unfold set_liquidity, put_swap. typed. Qed.
Lemma get_liquidity_typed {E} id who : typed is_u128 (@get_liquidity _ E id who).
Proof. apply read_liquidity. Qed.
Lemma get_total_liquidity_typed {E} id : typed is_u128 (@get_total_liquidity _ E id).
Proof. apply read_total_liquidity. Qed.
Lemma increase_typed {E} id n :
  is_u64 id -> typed (fun _ => True) (@increase_total_liquidity _ E id n).
Proof. intros. unfold increase_total_liquidity, put_swap. typed. Qed.
Lemma decrease_typed {E} id n :
  is_u64 id -> typed (fun _ => True) (@decrease_total_liquidity _ E id n).
Proof. intros. unfold decrease_total_liquidity, put_swap. typed. Qed.
Lemma reserve_typed {E} id ea : typed (fun _ => True) (reserve_changed id ea : RT E _).
Proof. unfold reserve_changed, deposit_event. typed. Qed.
Hint Resolve inherent_input_typed inherent_output_typed paired_input_typed paired_output_typed
  set_liquidity_typed get_liquidity_typed get_total_liquidity_typed increase_typed decrease_typed
  reserve_typed : typed.

Lemma add_liquidity_body_typed {E} who id x y m :
  is_u64 id -> is_u128 x -> typed (fun _ => True) (_add_liquidity who id x y m : RT E _).
Proof. intros. unfold _add_liquidity, put_swap. typed. Qed.

Lemma remove_liquidity_body_typed {E} who id l x y :
  is_u64 id -> typed (fun _ => True) (_remove_liquidity who id l x y : RT E _).
Proof. intros. unfold _remove_liquidity. typed. Qed.

(** The six trade routines move money and deposit events. *)
Lemma trades_typed who to a b n m r :
  is_u64 a -> is_u64 b -> is_u128 n ->
  typed is_u128 (inherent_asset_to_paired_asset_with_exact_input who to b n m r) /\
  typed is_u128 (inherent_asset_to_paired_asset_with_exact_output who to b n m r) /\
  typed is_u128 (paired_asset_to_inherent_asset_with_exact_input who to a n m r) /\
  typed is_u128 (paired_asset_to_inherent_asset_with_exact_output who to a n m r) /\
  typed is_u128 (asset_a_to_asset_b_with_exact_input who to a b n m r) /\
  typed is_u128 (asset_a_to_asset_b_with_exact_output who to a b n m r).
Proof.
  intros.
  unfold inherent_asset_to_paired_asset_with_exact_input,
    inherent_asset_to_paired_asset_with_exact_output,
    paired_asset_to_inherent_asset_with_exact_input,
    paired_asset_to_inherent_asset_with_exact_output, asset_a_to_asset_b_with_exact_input,
    asset_a_to_asset_b_with_exact_output, deposit_event.
  split_and!; typed.
Qed.

Lemma try_str_typed {A} (P : A -> Prop) (m : RT string A) :
  typed P m -> typed (fun _ => True) (try_str m).
Proof. intros. eapply yields_bind; [by apply yields_map_err | intros; by apply yields_ret]. Qed.

Lemma exact_input_typed origin to a b n m :
  is_u64 a -> is_u64 b -> is_u128 n ->
  typed (fun _ => True) (swap_assets_with_exact_input origin to a b n m).
Proof.
  intros Ha Hb Hn. unfold swap_assets_with_exact_input. typed.
  all: match goal with r : N, who : AccountId |- _ =>
         destruct (trades_typed who to a b n m r Ha Hb Hn) as (?&?&?&?&?&?) end.
  all: eapply try_str_typed; eassumption.
Qed.

Lemma exact_output_typed origin to a b n m :
  is_u64 a -> is_u64 b -> is_u128 n ->
  typed (fun _ => True) (swap_assets_with_exact_output origin to a b n m).
Proof.
  intros Ha Hb Hn. unfold swap_assets_with_exact_output. typed.
  all: match goal with r : N, who : AccountId |- _ =>
         destruct (trades_typed who to a b n m r Ha Hb Hn) as (?&?&?&?&?&?) end.
  all: eapply try_str_typed; eassumption.
Qed.
End Swap_typed.

#[export] Hint Resolve exact_input_typed exact_output_typed add_liquidity_body_typed
  remove_liquidity_body_typed : typed.

(* ================================================================== *)
(** ** The chain                                                       *)
(* ================================================================== *)

Section Chain_typed.
Context {cfg : Config} {fo : FixedOps} {fl : FixedLaws fo}.

Abbreviation typed P m := (yields chain_typed P m) (only parsing).

Lemma u128_fits_typed n : u128_fits n = true <-> is_u128 n.
Proof. apply N.leb_le. Qed.
Lemma u64_fits_typed n : u64_fits n = true <-> is_u64 n.
Proof. apply N.ltb_lt. Qed.
Lemma dot_typed : is_u64 4.
Proof. by vm_compute. Qed.
Lemma u64_sub_typed a b c :
  usub overflow_checks u64_modulus a b = Some c -> is_u64 a -> is_u64 c.
Proof. intros H Ha. by eapply usub_lt. Qed.
Hint Resolve dot_typed u64_sub_typed : typed.

Lemma dispatch_typed origin c : call_decodes c -> typed (fun _ => True) (dispatch origin c).
Proof.
  unfold call_decodes.
  destruct c as [c|c|c|c]; destruct c; cbn [call_fits dispatch dispatch_assets dispatch_swap
    dispatch_lending]; rewrite ?andb_true_iff, ?u128_fits_typed, ?u64_fits_typed; intros Hdec;
    destruct_and?;
    unfold set_inherent_asset, transfer_asset, set_price, set_fee_rate, add_liquidity,
      remove_liquidity, init_pool, submit_price_unsigned, put_assets, put_swap, deposit_event;
    typed.
Qed.

Lemma yields_final {A} (P : A -> Prop) (m : RT DispatchError A) s s' :
  typed P m -> final (m s) = Some s' -> chain_typed s -> chain_typed s'.
Proof.
  intros Hm Hf Hs. specialize (Hm s Hs). unfold wp, final in *. destruct (m s); naive_solver.
Qed.

Lemma step_typed s s' : step s s' -> chain_typed s -> chain_typed s'.
Proof.
  destruct 1 as [origin c s s' _ Hdec Hf | call s s' ????? Hdec _ Hf | s Hb].
  - by eapply yields_final, Hf; apply dispatch_typed.
  - by eapply yields_final, Hf; apply dispatch_typed.
  - by retype.
Qed.

(** The numbers a genesis configuration carries fit their types. *)
Record genesis_typed (g : GenesisConfig) : Prop := {
  gt_assets : Forall (fun entry => is_u128 (snd (fst entry))) (genesis_assets g);
  gt_fee : is_u64 (genesis_fee_rate g);
  gt_pools : Forall is_u64 (genesis_pools g)
}.

Lemma genesis_asset_typed entry :
  is_u128 (snd (fst entry)) -> typed (fun _ => True) (genesis_asset entry).
Proof.
  destruct entry as [[account amount] p]. cbn. intros H. unfold genesis_asset. typed.
Qed.

Lemma empty_typed g : genesis_typed g -> chain_typed (genesis_storage g).
Proof.
  intros [_ Hfee _]. split; cbn; try apply map_Forall_empty; try done; try apply one_typed.
Qed.

Lemma genesis_builders_typed g :
  genesis_typed g ->
  typed (fun _ => True) (genesis_build (genesis_assets g) ;;; lending_genesis_build (genesis_pools g)).
Proof.
  intros [Ha _ Hp]. apply yields_bind with (P := fun _ => True); [|intros _ _].
  - apply yields_foldM with (Q := fun entry => is_u128 (snd (fst entry))); [|done..].
    intros. by apply genesis_asset_typed.
  - apply yields_foldM with (Q := is_u64); [|done..]. intros. by apply init_pool_typed.
Qed.

Lemma genesis_build_typed g s : genesis_typed g -> build_genesis g = Ok tt s -> chain_typed s.
Proof.
  intros Hg Hb. pose proof (genesis_builders_typed g Hg _ (empty_typed g Hg)) as Hwp.
  unfold wp in Hwp. unfold build_genesis in Hb. rewrite Hb in Hwp. by destruct Hwp.
Qed.

(** Every state of every chain is well-typed, whatever the build. *)
Lemma reachable_typed g s : genesis_typed g -> reachable g s -> chain_typed s.
Proof.
  intros Hg. induction 1 as [s Hs | s s' _ IH Hstep].
  - by eapply genesis_build_typed.
  - by eapply step_typed.
Qed.
End Chain_typed.
