(* ===== verification/Pools.v ===== *)
(** * The pools and positions of every reachable state

    Each pool keeps the parameters [_init_pool] gives it, is stored under its own
    asset, was never updated in a later block, and its indices - like those of every
    position - are at least one.  So the assumption [pool_ok] of the theorems on
    lending holds of all pools on a chain, no position divides by zero, and the rates
    are known up to the utilization. *)

From S2P Require Export Typed.

Local Open Scope N_scope.
Local Open Scope rust_scope.

(* ================================================================== *)
(** ** Pools as the chain builds them                                  *)
(* ================================================================== *)

Section Pools.
Context {cfg : Config} {fo : FixedOps} {fl : FixedLaws fo} {ft : FixedRound fo}.

Record pool_sane (id : AssetId) (now : BlockNumber) (p : Pool) : Prop := {
  ps_ok : pool_ok p;
  ps_asset : pool_asset p = id;
  ps_enabled : enabled p = true;
  ps_updated : last_updated p <= now;
  ps_safe : safe_factor p = 700000000000000000;              (** 7/10 *)
  ps_close : close_factor p = fx_one;
  ps_discount : discount_factor p = 950000000000000000;      (** 95/100 *)
  ps_utilization : utilization_factor p = 38500000000;       (** 385/10^10 *)
  ps_initial : initial_interest_rate p = 3850000000          (** 385/10^11 *)
}.

(** At block [now] all pools are sane and no index lies below one. *)
Record lending_sane (now : BlockNumber) (s : Chain) : Prop := {
  ls_now : block_number s = now;
  ls_pools : map_Forall (fun id p => pool_sane id now p) (Pools (lending s));
  ls_supplies : map_Forall (fun _ us => fx_one <= us_index us) (UserSupplies (lending s));
  ls_debts : map_Forall (fun _ ud => fx_one <= ud_index ud) (UserDebts (lending s))
}.

(** Sums do not exceed their type, so one plus the interest is at least one. *)
Lemma accrual_fits_anyway now p p' :
  last_updated p <> now -> accrue_interest_at now p = Some p' -> accrual_fits now p.
Proof.
  intros Hne H. apply (accrue_later now p p' Hne) in H
    as (t & sr & sm & dr & dm & Ht & Hsr & Hsm & Hdr & Hdm & _).
  assert (forall r m, multiplier r t = Some m -> interest_fits (Some r) (Some t)) as Hfits.
  { unfold multiplier. intros r m (i & Hi & Hm)%obind_Some r' t' i' [= <-] [= <-] Hi'. simplify_eq.
    rewrite <- (fx_add_sum _ _ _ Hm). by eapply fx_add_bound. }
  unfold accrual_fits. rewrite Hsr, Hdr, Ht. by split; eapply Hfits.
Qed.

Lemma accrue_sane id now p p' :
  accrue_interest_at now p = Some p' -> pool_sane id now p -> pool_sane id now p'.
Proof.
  intros H Hp. destruct (decide (last_updated p = now)) as [Heq|Hne].
  { rewrite (accrue_same _ _ Heq) in H. by injection H as <-. }
  pose proof (accrue_ok now p p' (ps_ok _ _ _ Hp) (accrual_fits_anyway _ _ _ Hne H) H) as [Hok _].
  pose proof (accrue_frame now p p' H) as Hframe.
  destruct Hp. split; [done|..]; rewrite Hframe; cbn; first [assumption | apply N.le_refl].
Qed.

Lemma update_pool_supply_sane id now p n b p' :
  update_pool_supply p n b = Some p' -> pool_sane id now p -> pool_sane id now p'.
Proof.
  unfold update_pool_supply. intros (m & Hm & [= <-])%obind_Some [[] ?]. split; [split|..]; try done.
  by eapply u128_move_typed.
Qed.

Lemma update_pool_debt_sane id now p n b p' :
  update_pool_debt p n b = Some p' -> pool_sane id now p -> pool_sane id now p'.
Proof.
  unfold update_pool_debt. intros (m & Hm & [= <-])%obind_Some [[] ?]. split; [split|..]; try done.
  by eapply u128_move_typed.
Qed.

Lemma supply_index_sane id now p : pool_sane id now p -> fx_one <= total_supply_index p.
Proof. intros H. apply (ps_ok _ _ _ H). Qed.
Lemma debt_index_sane id now p : pool_sane id now p -> fx_one <= total_debt_index p.
Proof. intros H. apply (ps_ok _ _ _ H). Qed.

(** No accrual of a sane pool lowers a total or an index. *)
Lemma accrue_grows id now n p p' :
  pool_sane id n p -> accrue_interest_at now p = Some p' ->
  pool_supply p <= pool_supply p' /\ pool_debt p <= pool_debt p' /\
  total_supply_index p <= total_supply_index p' /\ total_debt_index p <= total_debt_index p'.
Proof.
  intros Hp H. destruct (decide (last_updated p = now)) as [Heq|Hne].
  { rewrite (accrue_same _ _ Heq) in H. injection H as <-. lia. }
  by apply (accrue_ok now p p' (ps_ok _ _ _ Hp) (accrual_fits_anyway _ _ _ Hne H) H).
Qed.

(** The pool a genesis or [init_pool] writes. *)
Lemma fresh_sane id c now :
  pool_sane id now (mkPool true c id 0 0 700000000000000000 fx_one 950000000000000000 fx_one fx_one now
                      38500000000 3850000000).
Proof.
  pose proof fx_one_bound. by split; [split|..].
Qed.

(* ------------------------------------------------------------------ *)
(** *** Reads and writes                                                *)
(* ------------------------------------------------------------------ *)

Abbreviation sane now P m := (yields (lending_sane now) P m) (only parsing).

Lemma sane_any {E A} now (f : Chain -> A) : sane now (fun _ => True) (@gets _ E A f).
Proof. by apply yields_gets. Qed.
Lemma sane_any_assets {E A} now f : sane now (fun _ => True) (@get_assets _ E A f).
Proof. by apply yields_gets. Qed.
Lemma sane_any_lending {E A} now f : sane now (fun _ => True) (@get_lending _ E A f).
Proof. by apply yields_gets. Qed.
Lemma sane_block {E} now : sane now (fun n => n = now) (@gets _ E _ block_number).
Proof. apply yields_gets. by intros s []. Qed.
Lemma sane_read_pool {E} now id :
  sane now (fun o => forall p, o = Some p -> pool_sane id now p) (@get_lending _ E _ (pool id)).
Proof. apply yields_gets. intros s Hs p Hp. apply (ls_pools _ _ Hs _ _ Hp). Qed.
Lemma sane_signed now origin : sane now (fun _ => True) (ensure_signed origin).
Proof. destruct origin; first [by apply yields_ret | by apply yields_throw]. Qed.

(** A write outside pools and positions. *)
Lemma sane_write {E} now (f : Chain -> Chain) :
  (forall s, block_number (f s) = block_number s /\ Pools (lending (f s)) = Pools (lending s) /\
     UserSupplies (lending (f s)) = UserSupplies (lending s) /\
     UserDebts (lending (f s)) = UserDebts (lending s)) ->
  sane now (fun _ => True) (@modify _ E f).
Proof.
  intros Hf. apply yields_modify. intros s []. destruct (Hf s) as (E1 & E2 & E3 & E4).
  split; by rewrite ?E1, ?E2, ?E3, ?E4.
Qed.
Lemma sane_event {E} now ev : sane now (fun _ => True) (@deposit_event _ E ev).
Proof. by apply sane_write. Qed.
Lemma sane_supply_set {E} now f : sane now (fun _ => True) (@put_lending _ E (set_UserSupplySet f)).
Proof. by apply sane_write. Qed.
Lemma sane_debt_set {E} now f : sane now (fun _ => True) (@put_lending _ E (set_UserDebtSet f)).
Proof. by apply sane_write. Qed.
Lemma sane_put_pool {E} now id p :
  pool_sane id now p -> sane now (fun _ => True) (@put_lending _ E (set_Pools <[id := p]>)).
Proof. intros Hp. apply yields_modify. intros s. retype. by apply map_Forall_insert_2. Qed.
Lemma sane_put_supply {E} now k n i :
  fx_one <= i -> sane now (fun _ => True) (@put_lending _ E (set_UserSupplies <[k := mkUserSupply n i]>)).
Proof. intros Hi. apply yields_modify. intros s. retype. by apply map_Forall_insert_2. Qed.
Lemma sane_put_debt {E} now k n i :
  fx_one <= i -> sane now (fun _ => True) (@put_lending _ E (set_UserDebts <[k := mkUserDebt n i]>)).
Proof. intros Hi. apply yields_modify. intros s. retype. by apply map_Forall_insert_2. Qed.
Lemma sane_drop_supply {E} now k : sane now (fun _ => True) (@put_lending _ E (set_UserSupplies (delete k))).
Proof. apply yields_modify. intros s. retype. by apply map_Forall_delete. Qed.
Lemma sane_drop_debt {E} now k : sane now (fun _ => True) (@put_lending _ E (set_UserDebts (delete k))).
Proof. apply yields_modify. intros s. retype. by apply map_Forall_delete. Qed.

(** A run that keeps the lending storage and the clock. *)
Lemma sane_frame {E A} now (m : RT E A) :
  respects (keeps lending) m -> respects (keeps block_number) m -> sane now (fun _ => True) m.
Proof.
  intros Hl Hb s Hs. specialize (Hl s). specialize (Hb s). unfold wp.
  assert (forall s', keeps lending s s' -> keeps block_number s s' -> lending_sane now s') as H.
  { unfold keeps. intros s' E1 E2. destruct Hs. split; by rewrite ?E1, ?E2. }
  by destruct (m s) as [a s'|e s'|]; [split; [done|] | |]; try apply H.
Qed.

Lemma number_transfer from id to n : respects (keeps block_number) (transfer from id to n).
Proof. eapply respects_weaken; [|apply transfer_framed]. by intros s s' [H _ _ _ _]. Qed.
Lemma sane_transfer now from id to n : sane now (fun _ => True) (transfer_or_fail from id to n).
Proof.
  apply sane_frame; apply respects_map_err; [apply lending_transfer | apply number_transfer].
Qed.
End Pools.

Create HintDb sane discriminated.
#[export] Hint Constants Opaque : sane.
#[export] Hint Resolve sane_any sane_any_assets sane_any_lending | 9 : sane.
#[export] Hint Resolve I sane_block sane_read_pool sane_signed sane_event sane_supply_set sane_debt_set
  sane_put_pool sane_put_supply sane_put_debt sane_drop_supply sane_drop_debt sane_transfer yields_ensure
  yields_throw accrue_sane update_pool_supply_sane update_pool_debt_sane supply_index_sane debt_index_sane : sane.

Ltac sane := yields_with ltac:(solve [eauto 6 with sane nocore]).

(* ================================================================== *)
(** ** The calls                                                       *)
(* ================================================================== *)

Section Pools_calls.
Context {cfg : Config} {fo : FixedOps} {fl : FixedLaws fo} {ft : FixedRound fo}.

Abbreviation sane now P m := (yields (lending_sane now) P m) (only parsing).

Lemma accrue_interest_sane {E} now id p :
  pool_sane id now p -> sane now (pool_sane id now) (@accrue_interest _ _ E p).
Proof.
  intros Hp. eapply yields_bind; [apply sane_block|]. intros n ->. apply yields_or_panic.
  intros p' H. by eapply accrue_sane.
Qed.

Lemma update_user_supply_sane {E} now id p who n b :
  pool_sane id now p -> sane now (fun _ => True) (@update_user_supply _ _ E p id who n b).
Proof. intros. unfold update_user_supply. sane. Qed.
Lemma update_user_debt_sane {E} now id p who n b :
  pool_sane id now p -> sane now (fun _ => True) (@update_user_debt _ _ E p id who n b).
Proof. intros. unfold update_user_debt. sane. Qed.
Lemma accrue_supply_sane {E} now id p who :
  pool_sane id now p -> sane now (fun _ => True) (@accrue_supply_with_interest _ _ E p id who).
Proof. intros. unfold accrue_supply_with_interest. sane. Qed.
Lemma accrue_debt_sane {E} now id p who :
  pool_sane id now p -> sane now (fun _ => True) (@accrue_debt_with_interest _ _ E p id who).
Proof. intros. unfold accrue_debt_with_interest. sane. Qed.
Lemma user_info_sane {E} now u : sane now (fun _ => True) (get_user_info u : RT E _).
Proof. apply yields_pure, user_info_pure. Qed.
Lemma check_cash_sane now p n : sane now (fun _ => True) (check_cash p n).
Proof. apply yields_pure, check_cash_pure. Qed.
Lemma add_supply_set_sane now who id : sane now (fun _ => True) (add_to_supply_set who id).
Proof. unfold add_to_supply_set. sane. Qed.
Lemma add_debt_set_sane now who id : sane now (fun _ => True) (add_to_debt_set who id).
Proof. unfold add_to_debt_set. sane. Qed.

Lemma init_pool_sane {E} now id c : sane now (fun _ => True) (@_init_pool _ _ E id c).
Proof.
  unfold _init_pool.
  rewrite (fx_from_rational_exact 7 10 700000000000000000) by done.
  rewrite (fx_from_rational_exact 95 100 950000000000000000) by done.
  rewrite (fx_from_rational_exact 385 10000000000 38500000000) by done.
  rewrite (fx_from_rational_exact 385 100000000000 3850000000) by done.
  eapply yields_bind; [by apply yields_or_panic, (fun a H => H)|]. intros a1 [= <-].
  eapply yields_bind; [by apply yields_or_panic, (fun a H => H)|]. intros a2 [= <-].
  eapply yields_bind; [apply sane_block|]. intros n ->.
  eapply yields_bind; [by apply yields_or_panic, (fun a H => H)|]. intros a3 [= <-].
  eapply yields_bind; [by apply yields_or_panic, (fun a H => H)|]. intros a4 [= <-].
  apply sane_put_pool, fresh_sane.
Qed.
Hint Resolve accrue_interest_sane update_user_supply_sane update_user_debt_sane accrue_supply_sane
  accrue_debt_sane user_info_sane check_cash_sane add_supply_set_sane add_debt_set_sane init_pool_sane : sane.

Lemma lending_call_sane now origin c : sane now (fun _ => True) (dispatch_lending origin c).
Proof.
  destruct c; cbn [dispatch_lending]; unfold supply, withdraw, borrow, repay, liquidate, init_pool; sane.
Qed.

Lemma dispatch_sane now origin c : sane now (fun _ => True) (dispatch origin c).
Proof.
  pose proof (call_keeps_number origin c) as Hb. destruct c as [c|c|c|[bn p|]]; cbn [dispatch] in *.
  - apply sane_frame; [apply assets_call_lending | exact Hb].
  - apply sane_frame; [apply swap_call_lending | exact Hb].
  - apply lending_call_sane.
  - apply sane_frame; [apply submit_frame | exact Hb].
  - by apply yields_ret.
Qed.

Lemma pool_sane_later id n m p : n <= m -> pool_sane id n p -> pool_sane id m p.
Proof. intros Hle []. split; try done. lia. Qed.

Lemma call_sane origin c s s' :
  final (dispatch origin c s) = Some s' -> lending_sane (block_number s) s -> lending_sane (block_number s') s'.
Proof.
  intros Hf Hs. pose proof (dispatch_sane (block_number s) origin c s Hs) as H. unfold wp in H.
  destruct (dispatch origin c s) as [a t|e t|]; cbn in Hf; try done; injection Hf as <-;
    [destruct H as [_ H]|]; by rewrite (ls_now _ _ H).
Qed.

Lemma block_sane s : lending_sane (block_number s) s -> lending_sane (block_number s + 1) (next_block s).
Proof.
  intros []. split; cbn; try done. eapply map_Forall_impl; [done|]. cbn. intros id p.
  apply pool_sane_later. lia.
Qed.

Lemma step_sane s s' :
  step s s' -> lending_sane (block_number s) s -> lending_sane (block_number s') s'.
Proof.
  destruct 1 as [origin c s s' _ _ Hf | call s s' ????? _ _ Hf | s _];
    [by eapply call_sane | by eapply call_sane | apply block_sane].
Qed.

Lemma genesis_sane g s : build_genesis g = Ok tt s -> lending_sane 0 s.
Proof.
  unfold build_genesis. rewrite bind_Ok. intros ([] & s1 & H1 & H2).
  destruct (genesis_frames (genesis_assets g) []) as (F1 & _).
  pose proof (respects_Ok _ _ _ _ _ F1 H1) as E1.
  assert (lending_sane 0 s1) as Hs1.
  { assert ((genesis_build (genesis_assets g) ;;; lending_genesis_build []) (genesis_storage g) = Ok tt s1)
      as Hrun by (unfold bind; by rewrite H1).
    pose proof (respects_Ok _ _ _ _ _ (genesis_keeps_clock _ _) Hrun) as [= Hb _].
    split; [done|..]; rewrite E1; apply map_Forall_empty. }
  assert (sane 0 (fun _ => True) (lending_genesis_build (genesis_pools g))) as Hwp.
  { apply yields_foldM with (Q := fun _ => True); [|by apply Forall_true|done].
    intros. apply init_pool_sane. }
  specialize (Hwp s1 Hs1). unfold wp in Hwp. rewrite H2 in Hwp. by destruct Hwp.
Qed.

Lemma reachable_sane g s : reachable g s -> lending_sane (block_number s) s.
Proof.
  induction 1 as [s Hs | s s' _ IH Hstep]; [|by eapply step_sane].
  pose proof (genesis_sane g s Hs) as H. by rewrite (ls_now _ _ H).
Qed.

(** *** The rates of a sane pool *)

Lemma debt_rate_range p r :
  debt_rate_internal p = Some r ->
  initial_interest_rate p <= r /\
  (pool_debt p <= pool_supply p -> r <= initial_interest_rate p + utilization_factor p).
Proof.
  unfold debt_rate_internal. destruct (N.eqb_spec (pool_supply p) 0) as [|Hs]; [intros [= <-]; lia|].
  intros (u & Hu & (x & Hx & Hr)%obind_Some)%obind_Some. rewrite (fx_add_sum _ _ _ Hr).
  split; [lia|]. intros Hle. pose proof (fx_from_rational_part _ _ _ Hle Hs Hu) as H1.
  pose proof (fx_mul_part _ _ _ H1 Hx) as H2. lia.
Qed.

Lemma supply_rate_below p sr dr :
  supply_rate_internal p = Some sr -> debt_rate_internal p = Some dr ->
  pool_debt p <= pool_supply p -> sr <= dr.
Proof.
  unfold supply_rate_internal. destruct (N.eqb_spec (pool_supply p) 0) as [|Hs].
  { rewrite fx_zero_inner. intros [= <-]. lia. }
  intros (u & Hu & (r & Hr & Hsr)%obind_Some)%obind_Some Hdr Hle. rewrite Hr in Hdr. simplify_eq.
  by eapply fx_mul_part, Hsr; eapply fx_from_rational_part.
Qed.
End Pools_calls.
