(* ===== verification/Solvency.v ===== *)
(** * The lending pallet can pay what it promises

    A pool promises its suppliers [supply - debt] in cash, held by the pallet's
    account.  Interest is credited to the suppliers only as far as it is charged to
    the borrowers, so the cash promised is never more than the cash held - as long
    as nobody liquidates ([liquidate] pays collateral out of the account and leaves
    the totals of the pool alone).  Then a withdrawal or a loan that passes the cash
    guard is paid. *)

From S2P Require Export Pools Bank.

Local Open Scope N_scope.
Local Open Scope rust_scope.

(* ================================================================== *)
(** ** Interest                                                        *)
(* ================================================================== *)

Section Interest.
Context {cfg : Config} {fo : FixedOps} {fl : FixedLaws fo} {ft : FixedRound fo}.

Lemma elapsed_u32 now p t : elapsed_blocks now p = Some t -> t * DIV <= u128_max.
Proof.
  unfold elapsed_blocks. intros (n & _ & Hn)%obind_Some. revert Hn. unfold try_into_u32.
  destruct (N.ltb_spec n u32_modulus); [|done]. intros [= <-].
  unfold u32_modulus, u128_max, DIV in *. lia.
Qed.

(** [1 + rate * t] is exact. *)
Lemma multiplier_exact r t m :
  t * DIV <= u128_max -> multiplier r t = Some m -> m = DIV + r * t.
Proof.
  unfold multiplier. intros Ht (i & Hi & Hm)%obind_Some.
  by rewrite (fx_add_sum _ _ _ Hm), fx_one_inner, (fx_mul_integer _ _ _ _ Ht eq_refl Hi).
Qed.

(** Totals whose products with the interest stay within [u128]: up to
    [340282366920938463462] units. *)
Definition moderate (p : Pool) : bool :=
  ((pool_supply p + 1) * DIV <=? u128_max) && ((pool_debt p + 1) * DIV <=? u128_max).

Lemma fx_mul_int_moderate a n :
  (fx_mul_int a n + 1) * DIV <= u128_max ->
  fx_mul_int a n * DIV <= a * n /\ a * n < (fx_mul_int a n + 1) * DIV.
Proof.
  intros Hfit. destruct (fx_mul_int_gt a n) as [Hsat|Hgt].
  - rewrite Hsat in Hfit. unfold DIV, u128_max in Hfit. lia.
  - split; [|done]. apply fx_mul_int_floor. lia.
Qed.

(** While no product leaves [u128], the suppliers' rate on the supply is at most the
    borrowers' on the debt. *)
Lemma rates_balance S D dr u sr :
  dr * u <= u128_max -> fx_mul dr u = Some sr -> u * S <= D * DIV -> sr * S <= dr * D.
Proof.
  intros Hfit Hsr Hu. pose proof (fx_mul_floor _ _ _ Hsr Hfit) as H1.
  enough (sr * DIV * S <= dr * (D * DIV)) by (unfold DIV in *; nia).
  etrans; [by apply N.mul_le_mono_r|]. rewrite <- N.mul_assoc. by apply N.mul_le_mono_l.
Qed.

(** Interest at balanced rates: the suppliers are credited at most what the borrowers
    are charged. *)
Lemma balanced_interest S D sr dr t S' D' :
  sr * S <= dr * D -> S' * DIV <= (DIV + sr * t) * S -> (DIV + dr * t) * D < (D' + 1) * DIV ->
  S' + D <= S + D'.
Proof.
  intros Hrate HS HD.
  assert (t * (sr * S) <= t * (dr * D)) by by apply N.mul_le_mono_l.
  assert (S' * DIV + D * DIV < (S + D' + 1) * DIV) by lia.
  assert (0 < DIV) by done. nia.
Qed.

(** Where the rate was rounded to the nearest, it is so large that the totals can only
    stay moderate if they are tiny; the debt stays ahead. *)
Lemma rounded_interest S D sr dr u t S' D' :
  u128_max < dr * u -> fx_mul dr u = Some sr -> u * S <= D * DIV -> S < D ->
  (DIV + sr * t) * S <= u128_max ->
  S' * DIV <= (DIV + sr * t) * S -> (DIV + dr * t) * D < (D' + 1) * DIV -> S' <= D'.
Proof.
  intros Hbig Hsr Hu Hlt Hfit HS HD.
  pose proof (fx_mul_near _ _ _ Hsr) as Hnear. pose proof (fx_mul_gt _ _ _ Hsr) as Hgt.
  rewrite half_DIV in Hnear.
  assert (sr * S * DIV + sr * S * DIV <= (dr * D + dr * D + S) * DIV) as H1.
  { assert (sr * DIV * S <= (dr * u + 500000000000000000) * S) by by apply N.mul_le_mono_r.
    assert (dr * (u * S) <= dr * (D * DIV)) by by apply N.mul_le_mono_l. unfold DIV in *. lia. }
  assert (sr * S + sr * S <= dr * D + dr * D + S) as H2 by (unfold DIV in *; lia).
  assert (t * S <= 2 * DIV) as H3.
  { apply N.le_ngt. intros Hts. assert (340282366920938463463 <= sr) by (unfold u128_max, DIV in *; lia).
    assert (340282366920938463463 * (2 * DIV) <= sr * (t * S)) by (apply N.mul_le_mono; lia).
    unfold u128_max, DIV in *. lia. }
  assert (t * (sr * S + sr * S) <= t * (dr * D + dr * D + S)) as H4 by by apply N.mul_le_mono_l.
  assert (S' * DIV + S' * DIV < D' * DIV + D' * DIV + 2 * DIV) by (unfold DIV in *; lia).
  unfold DIV in *. lia.
Qed.

(** The utilization of a pool whose rates are those of [_init_pool] only leaves [u128]
    in products if the debt exceeds the supply. *)
Lemma rate_product id now p dr u :
  pool_sane id now p -> debt_rate_internal p = Some dr -> pool_supply p <> 0 ->
  fx_from_rational (pool_debt p) (pool_supply p) = Some u -> u128_max < dr * u ->
  pool_supply p < pool_debt p.
Proof.
  intros Hp Hdr Hs Hu Hbig. apply N.lt_nge. intros Hle.
  apply (debt_rate_range p dr) in Hdr as [_ Hdr]. specialize (Hdr Hle).
  rewrite (ps_utilization _ _ _ Hp), (ps_initial _ _ _ Hp) in Hdr.
  pose proof (fx_from_rational_part _ _ _ Hle Hs Hu).
  assert (dr * u <= 42350000000 * DIV) by (apply N.mul_le_mono; lia).
  unfold u128_max, DIV in *. lia.
Qed.

(** Suppliers are credited at most what borrowers are charged, or no cash is promised
    at all. *)
Lemma accrual_cash id n now p p' :
  pool_sane id n p -> accrue_interest_at now p = Some p' -> moderate p' = true ->
  pool_supply p' + pool_debt p <= pool_supply p + pool_debt p' \/ pool_supply p' <= pool_debt p'.
Proof.
  intros Hp Hacc [HmS HmD]%andb_true_iff. apply N.leb_le in HmS, HmD.
  destruct (decide (last_updated p = now)) as [Heq|Hne].
  { rewrite (accrue_same _ _ Heq) in Hacc. injection Hacc as <-. left. lia. }
  pose proof (accrue_grows id now n p p' Hp Hacc) as (_ & HgD & _).
  apply (accrue_later now p p' Hne) in Hacc
    as (t & sr & sm & dr & dm & Ht & Hsr & Hsm & Hdr & Hdm & _ & _ & HS & HD & _).
  apply elapsed_u32 in Ht.
  apply (multiplier_exact _ _ _ Ht) in Hsm as ->. apply (multiplier_exact _ _ _ Ht) in Hdm as ->.
  rewrite HS in HmS. rewrite HD in HmD. pose proof (fx_mul_int_moderate _ _ HmD) as [_ HD'].
  pose proof (fx_mul_int_moderate _ _ HmS) as [HS' HS'']. rewrite <- HS in HS', HS'', HmS. rewrite <- HD in HD', HmD.
  destruct (N.eqb_spec (pool_supply p) 0) as [Hz|Hz].
  { right. rewrite Hz, N.mul_0_r in HS'. unfold DIV in HS'. lia. }
  unfold supply_rate_internal in Hsr. rewrite (proj2 (N.eqb_neq _ _) Hz) in Hsr.
  apply obind_Some in Hsr as (u & Hu & (r & Hr & Hsr)%obind_Some). rewrite Hr in Hdr. injection Hdr as ->.
  assert (u * pool_supply p <= pool_debt p * DIV) as Hpart.
  { apply (fx_from_rational_floor _ _ _ Hu). etrans; [by apply N.mul_le_mono_r|]. lia. }
  destruct (N.leb_spec (dr * u) u128_max) as [Hfit|Hbig].
  - left. apply (balanced_interest _ _ sr dr t); [by eapply rates_balance | done | done].
  - right. eapply (rounded_interest _ _ sr dr u t); try done; [by eapply rate_product | lia].
Qed.
End Interest.

(* ================================================================== *)
(** ** The invariant                                                   *)
(* ================================================================== *)

Section Solvent.
Context {cfg : Config} {fo : FixedOps} {fl : FixedLaws fo} {ft : FixedRound fo}.

(** The cash that may be missing, per asset. *)
Context (missing : AssetId -> N).

(** The account holds the cash a pool promises, up to what is missing. *)
Definition covered (id : AssetId) (p : Pool) (s : Chain) : Prop :=
  pool_supply p <= bal id account_id s + missing id + pool_debt p.

Definition solvent (s : Chain) : Prop :=
  forall id p, pool id (lending s) = Some p -> covered id p s.

(** With interest charged up to now, the totals of all pools are moderate. *)
Definition modest (s : Chain) : Prop :=
  map_Forall (fun _ p => forall p', accrue_interest_at (block_number s) p = Some p' -> moderate p' = true)
    (Pools (lending s)).

Lemma covered_accrual id p p' s :
  lending_sane (block_number s) s -> modest s -> solvent s -> pool id (lending s) = Some p ->
  accrue_interest_at (block_number s) p = Some p' -> covered id p' s.
Proof.
  intros Hsane Hm Hs Hp Hacc. pose proof (Hs id p Hp) as Hcov. unfold covered in *.
  pose proof (accrual_cash id _ _ p p' (ls_pools _ _ Hsane _ _ Hp) Hacc (Hm _ _ Hp _ Hacc)) as [?|?]; lia.
Qed.

(** Cash and pools as they were: what a call does between its money steps. *)
Definition quiet (s s' : Chain) : Prop :=
  assets s' = assets s /\ Pools (lending s') = Pools (lending s).

#[local] Instance quiet_preorder : PreOrder quiet.
Proof. split; [by intros s | intros s1 s2 s3 [] []; split; congruence]. Qed.

Lemma quiet_event {E} ev : respects quiet (@deposit_event _ E ev).
Proof. by apply respects_modify. Qed.
Lemma quiet_supplies {E} f : respects quiet (@put_lending _ E (set_UserSupplies f)).
Proof. by apply respects_modify. Qed.
Lemma quiet_debts {E} f : respects quiet (@put_lending _ E (set_UserDebts f)).
Proof. by apply respects_modify. Qed.
Lemma quiet_supply_set {E} f : respects quiet (@put_lending _ E (set_UserSupplySet f)).
Proof. by apply respects_modify. Qed.
Lemma quiet_debt_set {E} f : respects quiet (@put_lending _ E (set_UserDebtSet f)).
Proof. by apply respects_modify. Qed.
Lemma quiet_user_info {E} u : respects quiet (get_user_info u : RT E _).
Proof. eapply respects_weaken; [|apply user_info_pure]. by intros s s' ->. Qed.
Hint Resolve quiet_preorder quiet_event quiet_supplies quiet_debts quiet_supply_set quiet_debt_set
  quiet_user_info : respects.

Lemma quiet_accrue_supply {E} p id who : respects quiet (@accrue_supply_with_interest _ _ E p id who).
Proof. respects. Qed.
Lemma quiet_accrue_debt {E} p id who : respects quiet (@accrue_debt_with_interest _ _ E p id who).
Proof. respects. Qed.
Lemma quiet_update_supply {E} p id who n b : respects quiet (@update_user_supply _ _ E p id who n b).
Proof. respects. Qed.
Lemma quiet_update_debt {E} p id who n b : respects quiet (@update_user_debt _ _ E p id who n b).
Proof. respects. Qed.
Lemma quiet_add_supply_set who id : respects quiet (add_to_supply_set who id).
Proof. respects. Qed.
Lemma quiet_add_debt_set who id : respects quiet (add_to_debt_set who id).
Proof. respects. Qed.
Lemma quiet_cash p n : respects quiet (check_cash p n).
Proof. eapply respects_weaken; [|apply check_cash_pure]. by intros s s' ->. Qed.
Hint Resolve quiet_accrue_supply quiet_accrue_debt quiet_update_supply quiet_update_debt
  quiet_add_supply_set quiet_add_debt_set quiet_cash : respects.

(** Bookkeeping: quiet, and without an error. *)
Definition errorless {A} (m : RT DispatchError A) : Prop := forall s e s', m s <> Err e s'.

Lemma wp_book_run {A} (m : RT DispatchError A) (Q : A -> Chain -> Prop) (R : DispatchError -> Chain -> Prop) s :
  respects quiet m -> errorless m -> (forall a s', m s = Ok a s' -> quiet s s' -> Q a s') -> wp m Q R s.
Proof. intros Hm Hn HQ. specialize (Hm s). specialize (Hn s). unfold wp. destruct (m s); naive_solver. Qed.

Lemma wp_book {A} (m : RT DispatchError A) (Q : A -> Chain -> Prop) (R : DispatchError -> Chain -> Prop) s :
  respects quiet m -> errorless m -> (forall a s', quiet s s' -> Q a s') -> wp m Q R s.
Proof. intros ?? HQ. apply wp_book_run; auto. Qed.

Lemma errorless_bind {A B} (m : RT DispatchError A) (k : A -> RT DispatchError B) :
  errorless m -> (forall a, errorless (k a)) -> errorless (bind m k).
Proof.
  intros Hm Hk s e s'. unfold bind. specialize (Hm s). destruct (m s); [apply Hk | naive_solver | done].
Qed.
Lemma errorless_foldM {A B} (f : A -> B -> RT DispatchError A) l a :
  (forall a b, errorless (f a b)) -> errorless (foldM f l a).
Proof.
  intros Hf. revert a. induction l as [|b l IH]; intros a; cbn [foldM]; [by intros s|].
  by apply errorless_bind.
Qed.
Lemma errorless_ret {A} (a : A) : errorless (ret a).
Proof. by intros s. Qed.
Lemma errorless_gets {A} (f : Chain -> A) : errorless (gets f).
Proof. by intros s. Qed.
Lemma errorless_modify f : errorless (modify f).
Proof. by intros s. Qed.
Lemma errorless_or_panic {A} (o : option A) : errorless (or_panic o).
Proof. by destruct o. Qed.

(** Walks a definition without a [throw]. *)
Ltac errorless :=
  repeat first
    [ apply errorless_ret | apply errorless_gets | apply errorless_modify | apply errorless_or_panic
    | apply errorless_bind; [|intros ?] | apply errorless_foldM; intros ? ?
    | match goal with
      | |- errorless (match ?x with _ => _ end) => destruct x
      end ].

Lemma errorless_update_supply p id who n b : errorless (update_user_supply p id who n b).
Proof. unfold update_user_supply. errorless. Qed.
Lemma errorless_update_debt p id who n b : errorless (update_user_debt p id who n b).
Proof. unfold update_user_debt. errorless. Qed.
Lemma errorless_add_supply_set who id : errorless (add_to_supply_set who id).
Proof. unfold add_to_supply_set. errorless. Qed.
Lemma errorless_add_debt_set who id : errorless (add_to_debt_set who id).
Proof. unfold add_to_debt_set. errorless. Qed.
Lemma errorless_accrue_supply p id who : errorless (accrue_supply_with_interest p id who).
Proof. unfold accrue_supply_with_interest. errorless. Qed.
Lemma errorless_accrue_debt p id who : errorless (accrue_debt_with_interest p id who).
Proof. unfold accrue_debt_with_interest. errorless. Qed.
Lemma errorless_user_info u : errorless (get_user_info u).
Proof.
  unfold get_user_info, user_info_supply, user_info_debt, get_user_supply_with_interest,
    get_user_debt_with_interest. errorless.
Qed.
Hint Resolve errorless_update_supply errorless_update_debt errorless_add_supply_set
  errorless_add_debt_set errorless_accrue_supply errorless_accrue_debt errorless_user_info : respects.

(** A payment out of balanced books. *)
Lemma wp_pay from id to n s :
  ledger_ok (assets s) ->
  wp (transfer_or_fail from id to n)
    (fun _ s' => Pools (lending s') = Pools (lending s) /\ n <= bal id from s /\
       forall id' u, bal id' u s' + side id from n id' u = bal id' u s + side id to n id' u)
    (fun e s' => s' = s /\ (n = 0 \/ bal id from s < n)) s.
Proof.
  intros Hok. unfold transfer_or_fail. apply wp_map_err. unfold wp, ma_transfer, assets_multi_asset.
  rewrite transfer_run by done. destruct (N.eqb_spec n 0); [by auto|].
  destruct (N.ltb_spec (get_asset_balance id from (assets s)) n); [by auto|].
  split_and!; [done | done |]. intros id' u. by apply moved_balance.
Qed.

(** A pool rewritten, its cash settled; the other pools as they were. *)
Lemma solvent_write id q s s' :
  solvent s -> Pools (lending s') = Pools (lending s) ->
  (forall id', id' <> id -> bal id' account_id s' = bal id' account_id s) ->
  covered id q s' -> solvent (set_lending (set_Pools <[id := q]>) s').
Proof.
  intros Hs Hpools Hbal Hq id' p. unfold pool. cbn. rewrite Hpools.
  destruct (decide (id' = id)) as [->|Hne].
  - rewrite lookup_insert_eq. by intros [= <-].
  - rewrite lookup_insert_ne by done. intros Hp. specialize (Hs id' p Hp). revert Hs.
    unfold covered, bal. cbn. intros Hs. pose proof (Hbal id' Hne) as Hb. unfold bal in Hb. by rewrite Hb.
Qed.

Lemma solvent_quiet s s' : quiet s s' -> solvent s -> solvent s'.
Proof.
  intros [Ha Hp] Hs id p. unfold pool. rewrite Hp. intros H. specialize (Hs id p H).
  unfold covered, bal in *. by rewrite Ha.
Qed.

(** A payment into or out of the account, seen from the account. *)
Lemma paid_in who id n s s' :
  who <> account_id ->
  (forall id' u, bal id' u s' + side id who n id' u = bal id' u s + side id account_id n id' u) ->
  bal id account_id s' = bal id account_id s + n /\
  forall id', id' <> id -> bal id' account_id s' = bal id' account_id s.
Proof.
  intros Hne Hb. split.
  - specialize (Hb id account_id). rewrite side_other_account, side_same in Hb by congruence. lia.
  - intros id' Hid. specialize (Hb id' account_id). rewrite !side_other_asset in Hb by done. lia.
Qed.

Lemma paid_out who id n s s' :
  who <> account_id ->
  (forall id' u, bal id' u s' + side id account_id n id' u = bal id' u s + side id who n id' u) ->
  bal id account_id s' + n = bal id account_id s /\
  forall id', id' <> id -> bal id' account_id s' = bal id' account_id s.
Proof.
  intros Hne Hb. split.
  - specialize (Hb id account_id). rewrite (side_other_account id who), side_same in Hb by congruence. lia.
  - intros id' Hid. specialize (Hb id' account_id). rewrite !side_other_asset in Hb by done. lia.
Qed.

(** From the payment on: bookkeeping, and the pool with its new totals. *)
Lemma solvent_settled id q s s0 s1 s2 :
  solvent s -> quiet s s0 -> quiet s1 s2 -> Pools (lending s1) = Pools (lending s0) ->
  (forall id', id' <> id -> bal id' account_id s1 = bal id' account_id s0) ->
  pool_supply q <= bal id account_id s1 + missing id + pool_debt q ->
  solvent (set_lending (set_Pools <[id := q]>) s2).
Proof.
  intros Hs [Ha0 Hp0] [Ha2 Hp2] Hp1 Hb Hq. apply solvent_write with s; [done|congruence| |].
  - intros id' Hne. specialize (Hb id' Hne). unfold bal in *. congruence.
  - unfold covered, bal in *. by rewrite Ha2.
Qed.

(** What a call on a pool may assume and must restore. *)
Hypothesis checked : overflow_checks = true.

Lemma pool_supply_moved p n b q :
  update_pool_supply p n b = Some q ->
  pool_debt q = pool_debt p /\
  if b then pool_supply q = pool_supply p + n else pool_supply q + n = pool_supply p.
Proof.
  intros (m & Hm & ->)%update_pool_supply_Ok. split; [done|]. revert Hm. cbn.
  destruct b; cbn; unfold u128_add, u128_sub; rewrite checked;
    [intros [-> _]%uadd_checked | intros [-> ?]%usub_checked]; lia.
Qed.

Lemma pool_debt_moved p n b q :
  update_pool_debt p n b = Some q ->
  pool_supply q = pool_supply p /\
  if b then pool_debt q = pool_debt p + n else pool_debt q + n = pool_debt p.
Proof.
  intros (m & Hm & ->)%update_pool_debt_Ok. split; [done|]. revert Hm. cbn.
  destruct b; cbn; unfold u128_add, u128_sub; rewrite checked;
    [intros [-> _]%uadd_checked | intros [-> ?]%usub_checked]; lia.
Qed.

Lemma cash_left p cash :
  u128_sub (pool_supply p) (pool_debt p) = Some cash -> pool_debt p + cash = pool_supply p.
Proof. unfold u128_sub. rewrite checked. intros [-> ?]%usub_checked. lia. Qed.

Context (origin : Origin) (id : AssetId) (n : Balance) (s : Chain).
Hypothesis books : ledger_ok (assets s).
Hypothesis Hsane : lending_sane (block_number s) s.
Hypothesis Hmodest : modest s.
Hypothesis Hs : solvent s.
Hypothesis outsider : origin <> Signed account_id.

Lemma supply_solvent : wp (supply origin id n) (fun _ => solvent) (fun _ => solvent) s.
Proof.
  unfold supply. apply wp_prologue; [done|]. intros who p p' -> Hp Hacc. apply wp_bind.
  wp_apply wp_pay; [|by intros e s' [-> _]|done]. intros _ s1 (Hpools & _ & Hb). cbn beta.
  apply paid_in in Hb as [Hb Hb']; [|congruence].
  apply wp_bind, wp_book; [auto with respects..|]. intros _ s2 H12. wp_go.
  apply wp_book; [auto with respects..|]. intros _ s3 H23. wp_go.
  apply (solvent_settled id _ s s s1 s3); try done; [by transitivity s2|].
  pose proof (covered_accrual _ _ _ _ Hsane Hmodest Hs Hp Hacc) as Hcov. unfold covered in Hcov.
  revert select (update_pool_supply _ _ _ = Some _). intros [-> ->]%pool_supply_moved. lia.
Qed.

Lemma borrow_solvent :
  wp (borrow origin id n) (fun _ => solvent)
    (fun e s' => solvent s' /\ (e = Module_ TransferFailed -> missing id = 0 -> n = 0)) s.
Proof.
  unfold borrow. apply wp_prologue; [done|]. intros who p p' -> Hp Hacc. apply wp_bind.
  pose proof (covered_accrual _ _ _ _ Hsane Hmodest Hs Hp Hacc) as Hcov. unfold covered in Hcov.
  apply wp_check_cash; [done|]. intros cash Hcash%cash_left Hn. apply wp_bind.
  apply wp_book; [auto with respects..|]. intros _ s1 H1. apply wp_bind.
  apply wp_book; [auto with respects..|]. intros [[b cs] cd] s2 H2. wp_go.
  2: { split; [|done]. eapply solvent_quiet; [|exact Hs]. by transitivity s1. }
  assert (quiet s s2) as H02 by by transitivity s1.
  assert (bal id account_id s2 = bal id account_id s) as Hsame by (unfold bal; by rewrite (proj1 H02)).
  wp_apply wp_pay; [| |by rewrite (proj1 H02)].
  2: { intros e s' [-> Hbad]. split; [by eapply solvent_quiet|]. intros _ Hd. lia. }
  intros _ s3 (Hpools & _ & Hb). cbn beta. apply paid_out in Hb as [Hb Hb']; [|congruence].
  wp_go. apply wp_book; [auto with respects..|]. intros _ s4 H34. wp_go.
  apply wp_book; [auto with respects..|]. intros _ s5 H45. wp_go.
  apply (solvent_settled id _ s s2 s3 s5); try done; [by transitivity s4|].
  revert select (update_pool_debt _ _ _ = Some _). intros [-> ->]%pool_debt_moved. lia.
Qed.

Lemma withdraw_solvent :
  wp (withdraw origin id n) (fun _ => solvent)
    (fun e s' => solvent s' /\
       (e = Module_ TransferFailed -> missing id = 0 ->
        n = 0 \/ exists who p p', origin = Signed who /\ pool id (lending s) = Some p /\
          accrue_interest_at (block_number s) p = Some p' /\
          supply_worth (total_supply_index p') id who (lending s) = Some 0)) s.
Proof.
  unfold withdraw. apply wp_prologue; [done|]. intros who p p' -> Hp Hacc. apply wp_bind.
  pose proof (covered_accrual _ _ _ _ Hsane Hmodest Hs Hp Hacc) as Hcov. unfold covered in Hcov.
  apply wp_book_run; [auto with respects..|]. intros [] s1 Hrun H1. wp_go.
  2: { split; [by eapply solvent_quiet | done]. }
  apply wp_book; [auto with respects..|]. intros [[b cs] cd] s2 H2.
  assert (quiet s s2) as H02 by by transitivity s1.
  assert (bal id account_id s2 = bal id account_id s) as Hsame by (unfold bal; by rewrite (proj1 H02)).
  pose proof (solvent_quiet _ _ H02 Hs) as Hs2. wp_go; [|done].
  apply wp_check_cash; [done|]. intros cash Hcash%cash_left Hn. apply wp_bind.
  set (m := if _ <? _ then _ else _) in *.
  wp_apply wp_pay; [| |by rewrite (proj1 H02)].
  2: { intros e s' [-> Hbad]. split; [done|]. intros _ Hd.
       assert (m = 0) as Hm by lia. subst m. destruct (N.ltb_spec (us_amount a) n); [|by left].
       right. exists who, p, p'. split_and!; [done..|]. rewrite <- Hm. by eapply accrued_supply. }
  intros _ s3 (Hpools & _ & Hb). cbn beta. apply paid_out in Hb as [Hb Hb']; [|congruence].
  wp_go. apply wp_book; [auto with respects..|]. intros _ s4 H34. wp_go.
  apply (solvent_settled id _ s s2 s3 (add_event (EvLending (Withdrawn id who m)) s4)); try done.
  revert select (update_pool_supply _ _ _ = Some _). intros [-> Hq]%pool_supply_moved. lia.
Qed.

Lemma repay_solvent : wp (repay origin id n) (fun _ => solvent) (fun _ => solvent) s.
Proof.
  unfold repay. apply wp_prologue; [done|]. intros who p p' -> Hp Hacc. apply wp_bind.
  pose proof (covered_accrual _ _ _ _ Hsane Hmodest Hs Hp Hacc) as Hcov. unfold covered in Hcov.
  apply wp_book; [auto with respects..|]. intros _ s1 H1.
  pose proof (solvent_quiet _ _ H1 Hs) as Hs1. wp_go; [|done].
  set (m := if _ <? _ then _ else _) in *.
  assert (bal id account_id s1 = bal id account_id s) as Hsame by (unfold bal; by rewrite (proj1 H1)).
  wp_apply wp_pay; [|by intros e s' [-> _]|by rewrite (proj1 H1)].
  intros _ s3 (Hpools & _ & Hb). cbn beta. apply paid_in in Hb as [Hb Hb']; [|congruence].
  wp_go. apply wp_book; [auto with respects..|]. intros _ s4 H34. wp_go.
  apply (solvent_settled id _ s s1 s3 (add_event (EvLending (Repaid id who m)) s4)); try done.
  revert select (update_pool_debt _ _ _ = Some _). intros [-> Hq]%pool_debt_moved. lia.
Qed.

Lemma init_pool_solvent c : wp (init_pool origin id c) (fun _ => solvent) (fun _ => solvent) s.
Proof.
  unfold init_pool, _init_pool. wp_go. apply solvent_write with s; try done.
  unfold covered. cbn. lia.
Qed.
End Solvent.

(** More may be missing. *)
Lemma solvent_mono `{Config} (d d' : AssetId -> N) s :
  (forall id, d id <= d' id) -> solvent d s -> solvent d' s.
Proof. intros Hle Hs id p Hp. specialize (Hs id p Hp). specialize (Hle id). unfold covered in *. lia. Qed.

(* ================================================================== *)
(** ** Liquidations                                                    *)
(* ================================================================== *)

Section Liquidations.
Context {cfg : Config} {fo : FixedOps} {fl : FixedLaws fo} {ft : FixedRound fo}.

(** The pools and the clock that dates their interest. *)
Definition pool_books (s : Chain) : gmap AssetId Pool * BlockNumber :=
  (Pools (lending s), block_number s).

Lemma books_put {E} f : (forall l, Pools (f l) = Pools l) -> respects (keeps pool_books) (@put_lending _ E f).
Proof. intros Hf. apply respects_modify. intros s. unfold keeps, pool_books. cbn. by rewrite Hf. Qed.
Lemma books_pay from id to n : respects (keeps pool_books) (transfer_or_fail from id to n).
Proof.
  apply respects_map_err. eapply respects_weaken; [|apply transfer_framed]. intros s s' [H _ H' _ _].
  unfold keeps, pool_books. by rewrite H, H'.
Qed.
Lemma books_user_info {E} u : respects (keeps pool_books) (get_user_info u : RT E _).
Proof. eapply respects_weaken; [|apply user_info_pure]. by intros s s' ->. Qed.
#[local] Hint Extern 1 (respects (keeps pool_books) (put_lending _)) =>
  apply books_put; reflexivity : respects.
#[local] Hint Resolve books_pay books_user_info : respects.

Definition accrued_pools (s s' : Chain) : Prop := forall id p',
  pool id (lending s') = Some p' ->
  exists p, pool id (lending s) = Some p /\
    (p' = p \/ accrue_interest_at (block_number s) p = Some p').

(** A step that leaves the books alone. *)
Lemma wp_booked {A B} (m : RT DispatchError A) (k : A -> RT DispatchError B) Q
    (R : DispatchError -> Chain -> Prop) s t :
  pool_books t = pool_books s -> respects (keeps pool_books) m ->
  (forall e u, pool_books u = pool_books s -> R e u) ->
  (forall a u, pool_books u = pool_books s -> wp (k a) Q R u) -> wp (bind m k) Q R t.
Proof.
  intros Ht Hm HR Hk. apply wp_bind, (wp_respects (keeps pool_books)); [done | |];
    unfold keeps; intros ? u Hu; [apply Hk | apply HR]; congruence.
Qed.

Lemma pool_booked id p p' s :
  pool id (lending s) = Some p -> accrue_interest_at (block_number s) p = Some p' ->
  exists p0, pool id (lending s) = Some p0 /\
    (p' = p0 \/ accrue_interest_at (block_number s) p0 = Some p').
Proof. eauto. Qed.

(** A liquidation leaves each pool as it was or as its accrual. *)
Lemma liquidate_pools origin target pay_id get_id n s :
  wp (liquidate origin target pay_id get_id n) (fun _ => accrued_pools s) (fun _ => accrued_pools s) s.
Proof.
  assert (forall t, pool_books t = pool_books s -> accrued_pools s t) as Hsame.
  { intros t [= Hp _] id p'. unfold pool. rewrite Hp. eauto. }
  unfold liquidate. apply wp_bind. destruct origin as [|who|]; [by apply Hsame| |by apply Hsame].
  apply wp_ret. apply wp_bind, wp_get_lending, wp_bind, wp_ok_or; [intros gp Hget | intros _; by apply Hsame].
  apply wp_bind, wp_ensure; [intros _ | intros _; by apply Hsame].
  apply wp_bind, wp_get_lending, wp_bind, wp_ok_or; [intros pp Hpay | intros _; by apply Hsame].
  apply wp_bind. apply wp_bind, wp_gets, wp_or_panic. intros pp' Hpp.
  apply wp_bind. apply wp_bind, wp_gets, wp_or_panic. intros gp' Hgp.
  assert (forall t, pool_books t = pool_books s ->
    accrued_pools s (set_lending (set_Pools <[pay_id := pp']>) (set_lending (set_Pools <[get_id := gp']>) t)))
    as Hdone.
  { intros t [= Hp _] id p'. unfold pool. cbn. rewrite Hp, !lookup_insert.
    repeat case_decide; simplify_eq; [intros [= <-]; by eapply pool_booked.. | eauto]. }
  assert (pool_books s = pool_books s) as Hs by done. revert Hs. generalize s at 1 5.
  intros t Ht.
  repeat (first [ eapply wp_booked; [exact Ht | solve [respects] | intros; by apply Hsame | clear t Ht; intros ? t Ht]
                | match goal with |- wp (let '_ := ?x in _) _ _ _ => destruct x end ]; cbv beta zeta).
  wp_go. by apply Hdone.
Qed.
End Liquidations.

(* ================================================================== *)
(** ** Runs                                                            *)
(* ================================================================== *)

Section Runs.
Context {cfg : Config} {fo : FixedOps} {fl : FixedLaws fo} {ft : FixedRound fo}.
Hypothesis checked : overflow_checks = true.

(** Money steps taken by others only add to the account. *)
Lemma solvent_others missing acts s s' :
  refines acts s s' -> ~ acts account_id -> keeps lending s s' -> ledger_ok (assets s) ->
  solvent missing s -> solvent missing s'.
Proof.
  intros Href Hacts Hkeep Hok Hs id p. rewrite Hkeep. intros Hp.
  destruct (Href Hok) as [_ Hsteps]. specialize (Hs id p Hp).
  pose proof (bank_steps_holding _ _ _ id account_id Hsteps Hacts) as Hle.
  unfold covered, bal in *. cbn in Hle. lia.
Qed.

Definition liquidates (a : Action) : bool :=
  match a with Extrinsic _ (CallLending (call_liquidate _ _ _ _)) => true | _ => false end.

(** What the account lost of an asset between two states. *)
Definition lost (id : AssetId) (s s' : Chain) : N := bal id account_id s - bal id account_id s'.

(** What the liquidations of a run took out of the account. *)
Fixpoint seized (l : list Action) (s : Chain) (id : AssetId) : N :=
  match l with
  | [] => 0
  | a :: l' =>
      match act a s with
      | None => 0
      | Some s1 => (if liquidates a then lost id s s1 else 0) + seized l' s1 id
      end
  end.

Lemma seized_nothing l s id :
  Forall (fun a => liquidates a = false) l -> seized l s id = 0.
Proof.
  intros Hl. revert s. induction Hl as [|a l Ha _ IH]; intros s; cbn [seized]; [done|].
  rewrite Ha. destruct (act a s); [by rewrite IH | done].
Qed.

Lemma wp_final {A} (m : RT DispatchError A) (P : Chain -> Prop) (R : DispatchError -> Chain -> Prop) s s' :
  wp m (fun _ => P) R s -> (forall e t, R e t -> P t) -> final (m s) = Some s' -> P s'.
Proof. unfold wp, final. intros Hm HR. destruct (m s); intros [= <-]; eauto. Qed.

Lemma lending_call_solvent missing origin c s s' :
  (forall who i j n, c <> call_liquidate who i j n) -> origin <> Signed account_id ->
  final (dispatch_lending origin c s) = Some s' -> ledger_ok (assets s) ->
  lending_sane (block_number s) s -> modest s -> solvent missing s -> solvent missing s'.
Proof.
  intros Hliq Ho Hrun Hok Hsane Hm Hs.
  destruct c; cbn [dispatch_lending] in Hrun; [.. | by destruct (Hliq _ _ _ _ eq_refl) |].
  - eapply wp_final; [by apply supply_solvent | cbn; tauto | exact Hrun].
  - eapply wp_final; [by apply withdraw_solvent | cbn; tauto | exact Hrun].
  - eapply wp_final; [by apply borrow_solvent | cbn; tauto | exact Hrun].
  - eapply wp_final; [by apply repay_solvent | cbn; tauto | exact Hrun].
  - eapply wp_final; [by apply init_pool_solvent | cbn; tauto | exact Hrun].
Qed.

(** A liquidation uncovers the pools by what it takes. *)
Lemma liquidate_solvent missing origin who i j n s s' :
  final (liquidate origin who i j n s) = Some s' ->
  lending_sane (block_number s) s -> modest s -> solvent missing s ->
  solvent (fun id => missing id + lost id s s') s'.
Proof.
  intros Hrun Hsane Hm Hs id p' Hp'.
  pose proof (wp_final _ _ _ _ _ (liquidate_pools origin who i j n s) (fun _ _ H => H) Hrun id p' Hp')
    as (p & Hp & Hor).
  assert (covered missing id p' s) as Hcov.
  { destruct Hor as [-> | Hacc]; [by apply Hs | by eapply covered_accrual]. }
  unfold covered, lost in *. lia.
Qed.

Hypothesis apart : forall i id, get_exchange_address i id <> account_id.

Lemma act_solvent missing a s s' :
  action_ok (eq account_id) a -> act a s = Some s' -> ledger_ok (assets s) ->
  lending_sane (block_number s) s -> modest s -> solvent missing s ->
  (ledger_ok (assets s') /\ lending_sane (block_number s') s') /\
  solvent (fun id => missing id + (if liquidates a then lost id s s' else 0)) s'.
Proof.
  intros Hok Hrun Hl Hsane Hm Hs. destruct a as [origin c|]; cbn [act action_ok liquidates] in *.
  2: { revert Hrun. destruct (_ <? _); [|done]. intros [= <-].
       split; [by split; [|apply block_sane]|].
       eapply solvent_mono; [|exact Hs]. intros id. cbn. lia. }
  destruct Hok as [Hdec Hwho].
  destruct (dispatch_money origin c s s' Hdec (or_introl checked) Hrun) as [Href _].
  split; [by split; [apply Href | eapply call_sane]|].
  assert (origin <> Signed account_id) as Ho by (intros ->; by eapply Hwho).
  assert (forall b, b = false -> solvent missing s' ->
    solvent (fun id => missing id + (if b then lost id s s' else 0)) s') as Hno.
  { intros b ->. apply solvent_mono. intros id. lia. }
  destruct c as [c|c|c|[bn x|]]; cbn [dispatch] in *.
  - apply (Hno false eq_refl).
    eapply solvent_others; [exact Href | | exact (final_respects _ _ _ _ (assets_call_lending _ _) Hrun)
      | done | done]. destruct origin; cbn; naive_solver.
  - apply (Hno false eq_refl).
    eapply solvent_others; [exact Href | | exact (final_respects _ _ _ _ (swap_call_lending _ _) Hrun)
      | done | done]. destruct origin; cbn; [tauto | | tauto]. intros [He|(i & id & _ & He)]; [by eapply Hwho | by apply (apart i id)].
  - destruct c as [| | | |target i j n|]; [.. | exact (liquidate_solvent missing _ _ _ _ _ _ _ Hrun Hsane Hm Hs) | ];
      (apply (Hno false eq_refl); eapply lending_call_solvent; [| exact Ho | exact Hrun | done..]; done).
  - apply (Hno false eq_refl). eapply solvent_others; [exact Href | | | done | done].
    + destruct origin; cbn; naive_solver.
    + exact (final_respects _ _ _ _ (proj2 (proj2 (submit_frame origin bn x))) Hrun).
  - injection Hrun as <-. by apply (Hno false eq_refl).
Qed.

(** Every state of a run has moderate totals. *)
Fixpoint modest_run (l : list Action) (s : Chain) : Prop :=
  modest s /\
  match l with
  | [] => True
  | a :: l' => match act a s with Some s1 => modest_run l' s1 | None => True end
  end.

#[export] Instance modest_dec s : Decision (modest s).
Proof.
  apply map_Forall_dec. intros id p.
  destruct (accrue_interest_at (block_number s) p) as [p'|]; [|by left].
  destruct (moderate p') eqn:E; [left; by intros q [= <-] | right; intros H; specialize (H p' eq_refl)].
  by rewrite E in H.
Defined.
#[export] Instance modest_run_dec l : forall s, Decision (modest_run l s).
Proof.
  induction l as [|a l IH]; intros s; cbn [modest_run]; apply and_dec; try apply _.
  destruct (act a s); apply _.
Defined.

Lemma run_solvent missing l s s' :
  ledger_ok (assets s) -> lending_sane (block_number s) s -> solvent missing s -> modest_run l s ->
  Forall (action_ok (eq account_id)) l -> run_actions l s = Some s' ->
  solvent (fun id => missing id + seized l s id) s'.
Proof.
  intros Hok Hsane Hs Hm Hl. revert missing s Hok Hsane Hs Hm.
  induction Hl as [|a l Ha _ IH]; intros missing s Hok Hsane Hs [Hm Hrest]; cbn [run_actions seized].
  - intros [= <-]. eapply solvent_mono; [|exact Hs]. intros id. lia.
  - intros (s1 & H1 & H2)%obind_Some. rewrite H1 in Hrest |- *.
    destruct (act_solvent missing a s s1 Ha H1 Hok Hsane Hm Hs) as [[Hok1 Hsane1] Hs1].
    eapply solvent_mono; [|exact (IH _ s1 Hok1 Hsane1 Hs1 Hrest H2)]. intros id. cbn. lia.
Qed.

(** Every genesis is solvent: its pools are empty. *)
Lemma genesis_solvent missing g s : build_genesis g = Ok tt s -> solvent missing s.
Proof.
  unfold build_genesis. rewrite bind_Ok. intros (u & s1 & H1 & H2).
  destruct (genesis_frames (genesis_assets g) []) as [F1 _].
  pose proof (respects_Ok _ _ _ _ _ F1 H1) as E1. unfold keeps in E1.
  assert (solvent missing s1) as Hs1 by (intros id p; rewrite E1; unfold pool; cbn; by rewrite lookup_empty).
  clear H1 F1 E1. revert s1 H2 Hs1. unfold lending_genesis_build. generalize tt at 1.
  induction (genesis_pools g) as [|id l IH]; intros v s1; cbn [foldM]; [by intros [= _ <-]|].
  rewrite bind_Ok. intros (w & s2 & H2 & H3) Hs1. apply (IH w s2 H3).
  assert (wp (_init_pool (E := string) id true) (fun _ => solvent missing) (fun _ => solvent missing) s1) as Hwp.
  { unfold _init_pool. wp_go. apply solvent_write with s1; try done. unfold covered. cbn. lia. }
  unfold wp in Hwp. by rewrite H2 in Hwp.
Qed.
End Runs.
