(* ===== verification/Profiles.v ===== *)
(** * Two build profiles on one storage

    The runtime is tested with overflow checks and shipped without them.  A run of
    the checked build that does not trap is, write by write, the run of the
    unchecked build: the checks only decide whether a run ends.  The fixed-point
    numbers may differ in the same way: where the checked ones trap, those of the
    shipped build may wrap.  So every theorem
    about the checked build speaks about the shipped one, for all runs in which no
    operator overflows. *)

From S2P Require Export Bank.

Local Open Scope N_scope.
Local Open Scope rust_scope.

(* ================================================================== *)
(** ** Agreement of programs                                           *)
(* ================================================================== *)

(** Partial arithmetic: the second returns what the first returns. *)
Definition narrower {A} (o o' : option A) : Prop := forall a, o = Some a -> o' = Some a.

(** Programs: the second does what the first does, unless the first traps. *)
Definition agrees {S E A} (m m' : M S E A) : Prop := forall s, m s <> Panic -> m' s = m s.

Section Agreement.
Context {S E F A B : Type}.

Lemma narrower_refl (o : option A) : narrower o o.
Proof. by intros a. Qed.
Lemma narrower_bind (o o' : option A) (k k' : A -> option B) :
  narrower o o' -> (forall a, narrower (k a) (k' a)) -> narrower (obind o k) (obind o' k').
Proof. intros Ho Hk b (a & ->%Ho & Hb)%obind_Some. by apply Hk. Qed.

Lemma agrees_refl (m : M S E A) : agrees m m.
Proof. by intros s. Qed.
Lemma agrees_or_panic (o o' : option A) :
  narrower o o' -> agrees (@or_panic S E A o) (or_panic o').
Proof. intros Ho s. destruct o as [a|]; [by rewrite (Ho a eq_refl) | done]. Qed.
Lemma agrees_bind (m m' : M S E A) (k k' : A -> M S E B) :
  agrees m m' -> (forall a, agrees (k a) (k' a)) -> agrees (bind m k) (bind m' k').
Proof.
  intros Hm Hk s. unfold bind. destruct (m s) as [a s1|e s1|] eqn:Hs; [| |done].
  - rewrite (Hm s), Hs by by rewrite Hs. apply Hk.
  - by rewrite (Hm s), Hs by by rewrite Hs.
Qed.
Lemma agrees_ignore (m m' : M S E A) : agrees m m' -> agrees (@ignore S E F A m) (ignore m').
Proof.
  intros Hm s. unfold ignore. specialize (Hm s).
  destruct (m s); [by rewrite Hm | by rewrite Hm | done].
Qed.
Lemma agrees_map_err (f : E -> F) (m m' : M S E A) : agrees m m' -> agrees (map_err f m) (map_err f m').
Proof.
  intros Hm s. unfold map_err. specialize (Hm s).
  destruct (m s); [by rewrite Hm | by rewrite Hm | done].
Qed.
End Agreement.

Lemma agrees_foldM {S E A B} (f f' : A -> B -> M S E A) l a :
  (forall a b, agrees (f a b) (f' a b)) -> agrees (foldM f l a) (foldM f' l a).
Proof.
  intros Hf. revert a. induction l as [|b l IH]; intros a; [apply agrees_refl|].
  by apply agrees_bind.
Qed.

(** The operators themselves. *)
Lemma narrower_uadd m a b : narrower (uadd true m a b) (uadd false m a b).
Proof. intros c. unfold uadd. by destruct (_ <? _). Qed.
Lemma narrower_usub m a b : narrower (usub true m a b) (usub false m a b).
Proof. intros c. unfold usub. by destruct (_ <=? _). Qed.
Lemma narrower_umul m a b : narrower (umul true m a b) (umul false m a b).
Proof. intros c. unfold umul. by destruct (_ <? _). Qed.

Create HintDb agree.
#[export] Hint Resolve narrower_uadd narrower_usub narrower_umul : agree.

(** Walks two instances of one definition side by side. *)
Ltac agree_step :=
  lazymatch goal with
  | |- agrees (bind _ _) (bind _ _) => apply agrees_bind; [|intros ?]
  | |- agrees (ignore _) (ignore _) => apply agrees_ignore
  | |- agrees (map_err _ _) (map_err _ _) => apply agrees_map_err
  | |- agrees (or_panic _) (or_panic _) => apply agrees_or_panic
  | |- agrees (foldM _ _ _) (foldM _ _ _) => apply agrees_foldM; intros ? ?
  | |- agrees (match ?x with _ => _ end) (match ?y with _ => _ end) => unify x y; destruct x
  | |- narrower (obind _ _) (obind _ _) => apply narrower_bind; [|intros ?]
  | |- narrower (match ?x with _ => _ end) (match ?y with _ => _ end) => unify x y; destruct x
  | |- _ => first [solve [auto with agree nocore] | apply agrees_refl | apply narrower_refl]
  end.
Ltac agree := cbv beta iota zeta; repeat (agree_step; cbv beta iota zeta).

(* ================================================================== *)
(** ** The pallets                                                     *)
(* ================================================================== *)

Section Pallets.
Context {acc : Accounts} {fo : FixedOps}.
Context (add mul div : FixedU128 -> FixedU128 -> option FixedU128).
Hypothesis narrow_add : forall a b, narrower (fx_add a b) (add a b).
Hypothesis narrow_mul : forall a b, narrower (fx_mul a b) (mul a b).
Hypothesis narrow_div : forall a b, narrower (fx_div a b) (div a b).

Abbreviation wrapped := (with_partial fo add mul div) (only parsing).
Abbreviation checked := (mkConfig acc true) (only parsing).
Abbreviation shipped := (mkConfig acc false) (only parsing).

Lemma narrow_u128_add a b : narrower (@u128_add checked a b) (@u128_add shipped a b).
Proof. apply narrower_uadd. Qed.
Lemma narrow_u128_sub a b : narrower (@u128_sub checked a b) (@u128_sub shipped a b).
Proof. apply narrower_usub. Qed.
Lemma narrow_u128_mul a b : narrower (@u128_mul checked a b) (@u128_mul shipped a b).
Proof. apply narrower_umul. Qed.
Lemma narrow_u64_add a b : narrower (@u64_add checked a b) (@u64_add shipped a b).
Proof. apply narrower_uadd. Qed.
Lemma narrow_u32_add a b : narrower (@u32_add checked a b) (@u32_add shipped a b).
Proof. apply narrower_uadd. Qed.
Lemma narrow_u32_sub a b : narrower (@u32_sub checked a b) (@u32_sub shipped a b).
Proof. apply narrower_usub. Qed.
Lemma narrow_next a b : narrower (usub (@overflow_checks checked) u64_modulus a b)
  (usub (@overflow_checks shipped) u64_modulus a b).
Proof. apply narrower_usub. Qed.
Lemma narrow_fx_add a b : narrower (@fx_add fo a b) (@fx_add wrapped a b).
Proof. apply narrow_add. Qed.
Lemma narrow_fx_mul a b : narrower (@fx_mul fo a b) (@fx_mul wrapped a b).
Proof. apply narrow_mul. Qed.
Lemma narrow_fx_div a b : narrower (@fx_div fo a b) (@fx_div wrapped a b).
Proof. apply narrow_div. Qed.
#[local] Hint Resolve narrow_fx_add narrow_fx_mul narrow_fx_div narrow_u128_add narrow_u128_sub narrow_u128_mul narrow_u64_add narrow_u32_add
  narrow_u32_sub narrow_next : agree.

Lemma agree_transfer from id to n :
  agrees (@transfer checked from id to n) (@transfer shipped from id to n).
Proof. unfold transfer. agree. Qed.
#[local] Hint Resolve agree_transfer : agree.
Lemma agree_issue_body who n : agrees (@_issue checked who n) (@_issue shipped who n).
Proof. unfold _issue. agree. Qed.
#[local] Hint Resolve agree_issue_body : agree.

Lemma agree_assets origin c :
  agrees (@dispatch_assets checked origin c) (@dispatch_assets shipped origin c).
Proof.
  destruct c; cbn [dispatch_assets]; unfold issue, destroy, set_inherent_asset, transfer_asset, set_price;
    agree.
Qed.

(** *** Lending *)

Lemma agree_move b x y : narrower (@u128_move checked b x y) (@u128_move shipped b x y).
Proof. destruct b; cbn; auto with agree. Qed.
Lemma agree_elapsed now p :
  narrower (@elapsed_blocks checked now p) (@elapsed_blocks shipped now p).
Proof. unfold elapsed_blocks. agree. Qed.
#[local] Hint Resolve agree_move agree_elapsed : agree.
Lemma agree_at_index t i n : narrower (@at_index fo t i n) (@at_index wrapped t i n).
Proof. unfold at_index. agree. Qed.
Lemma agree_multiplier r t : narrower (@multiplier fo r t) (@multiplier wrapped r t).
Proof. unfold multiplier. agree. Qed.
Lemma agree_debt_rate p : narrower (@debt_rate_internal fo p) (@debt_rate_internal wrapped p).
Proof. unfold debt_rate_internal. agree. Qed.
#[local] Hint Resolve agree_at_index agree_multiplier agree_debt_rate : agree.
Lemma agree_supply_rate p : narrower (@supply_rate_internal fo p) (@supply_rate_internal wrapped p).
Proof. unfold supply_rate_internal. agree. Qed.
#[local] Hint Resolve agree_supply_rate : agree.
Lemma agree_accrue_at now p :
  narrower (@accrue_interest_at checked fo now p) (@accrue_interest_at shipped wrapped now p).
Proof. unfold accrue_interest_at. agree. Qed.
#[local] Hint Resolve agree_accrue_at : agree.
Lemma agree_accrue {E} p : agrees (@accrue_interest checked fo E p) (@accrue_interest shipped wrapped E p).
Proof. unfold accrue_interest. agree. Qed.
#[local] Hint Resolve agree_accrue : agree.

Lemma agree_update_supply {E} p id who n b :
  agrees (@update_user_supply checked fo E p id who n b) (@update_user_supply shipped wrapped E p id who n b).
Proof. unfold update_user_supply. agree. Qed.
Lemma agree_update_debt {E} p id who n b :
  agrees (@update_user_debt checked fo E p id who n b) (@update_user_debt shipped wrapped E p id who n b).
Proof. unfold update_user_debt. agree. Qed.
Lemma agree_accrue_supply {E} p id who :
  agrees (@accrue_supply_with_interest checked fo E p id who)
    (@accrue_supply_with_interest shipped wrapped E p id who).
Proof. unfold accrue_supply_with_interest. agree. Qed.
Lemma agree_accrue_debt {E} p id who :
  agrees (@accrue_debt_with_interest checked fo E p id who)
    (@accrue_debt_with_interest shipped wrapped E p id who).
Proof. unfold accrue_debt_with_interest. agree. Qed.
#[local] Hint Resolve agree_accrue_supply agree_accrue_debt : agree.
Lemma agree_pool_supply p n b :
  narrower (@update_pool_supply checked p n b) (@update_pool_supply shipped p n b).
Proof. unfold update_pool_supply. agree. Qed.
Lemma agree_pool_debt p n b :
  narrower (@update_pool_debt checked p n b) (@update_pool_debt shipped p n b).
Proof. unfold update_pool_debt. agree. Qed.
#[local] Hint Resolve agree_update_supply agree_update_debt agree_pool_supply agree_pool_debt : agree.

Lemma agree_debt_view {E} id u :
  agrees (@get_user_debt_with_interest checked fo E id u) (@get_user_debt_with_interest shipped wrapped E id u).
Proof. unfold get_user_debt_with_interest. agree. Qed.
Lemma agree_supply_view {E} id u :
  agrees (@get_user_supply_with_interest checked fo E id u) (@get_user_supply_with_interest shipped wrapped E id u).
Proof. unfold get_user_supply_with_interest. agree. Qed.
#[local] Hint Resolve agree_debt_view agree_supply_view : agree.
Lemma agree_user_info {E} u :
  agrees (@get_user_info checked fo assets_oracle E u) (@get_user_info shipped wrapped assets_oracle E u).
Proof. unfold get_user_info, user_info_supply, user_info_debt. agree. Qed.
Lemma agree_transfer_or_fail from id to n :
  agrees (@transfer_or_fail checked assets_multi_asset from id to n)
    (@transfer_or_fail shipped assets_multi_asset from id to n).
Proof. unfold transfer_or_fail. apply agrees_map_err, agree_transfer. Qed.
Lemma agree_check_cash p n : agrees (@check_cash checked p n) (@check_cash shipped p n).
Proof. unfold check_cash. agree. Qed.
#[local] Hint Resolve agree_user_info agree_transfer_or_fail agree_check_cash : agree.

Lemma agree_lending origin c :
  agrees (@dispatch_lending checked fo origin c) (@dispatch_lending shipped wrapped origin c).
Proof.
  destruct c; cbn [dispatch_lending]; unfold supply, withdraw, borrow, repay, liquidate, init_pool;
    agree.
Qed.

(** *** Swap *)

Context {ef : ExchangeFactory}.

Lemma agree_output x a b r :
  agrees (@calc_output_at_known_input checked x a b r) (@calc_output_at_known_input shipped x a b r).
Proof. unfold calc_output_at_known_input. agree. Qed.
Lemma agree_input x a b r :
  agrees (@calc_input_at_known_output checked x a b r) (@calc_input_at_known_output shipped x a b r).
Proof. unfold calc_input_at_known_output. agree. Qed.
#[local] Hint Resolve agree_output agree_input : agree.

Lemma agree_exact_input origin to a b x m :
  agrees (@swap_assets_with_exact_input checked ef origin to a b x m)
    (@swap_assets_with_exact_input shipped ef origin to a b x m).
Proof.
  unfold swap_assets_with_exact_input, try_str, inherent_asset_to_paired_asset_with_exact_input,
    paired_asset_to_inherent_asset_with_exact_input, asset_a_to_asset_b_with_exact_input,
    calc_paired_asset_output_amount, calc_inherent_asset_output_amount. agree.
Qed.
Lemma agree_exact_output origin to a b x m :
  agrees (@swap_assets_with_exact_output checked ef origin to a b x m)
    (@swap_assets_with_exact_output shipped ef origin to a b x m).
Proof.
  unfold swap_assets_with_exact_output, try_str, inherent_asset_to_paired_asset_with_exact_output,
    paired_asset_to_inherent_asset_with_exact_output, asset_a_to_asset_b_with_exact_output,
    calc_paired_asset_input_amount, calc_inherent_asset_input_amount. agree.
Qed.
Lemma agree_increase {E} id n :
  agrees (@increase_total_liquidity checked E id n) (@increase_total_liquidity shipped E id n).
Proof. unfold increase_total_liquidity. agree. Qed.
Lemma agree_decrease {E} id n :
  agrees (@decrease_total_liquidity checked E id n) (@decrease_total_liquidity shipped E id n).
Proof. unfold decrease_total_liquidity. agree. Qed.
#[local] Hint Resolve agree_exact_input agree_exact_output agree_increase agree_decrease : agree.
Lemma agree_add origin id x y m :
  agrees (@add_liquidity checked ef origin id x y m) (@add_liquidity shipped ef origin id x y m).
Proof. unfold add_liquidity, _add_liquidity. agree. Qed.
Lemma agree_remove origin id l x y :
  agrees (@remove_liquidity checked ef origin id l x y) (@remove_liquidity shipped ef origin id l x y).
Proof. unfold remove_liquidity, _remove_liquidity. agree. Qed.
#[local] Hint Resolve agree_add agree_remove : agree.
End Pallets.

(* ================================================================== *)
(** ** The runtime                                                     *)
(* ================================================================== *)

Section Runs.
Context {acc : Accounts} {fo : FixedOps}.
Context (add mul div : FixedU128 -> FixedU128 -> option FixedU128).
Hypothesis narrow_add : forall a b, narrower (fx_add a b) (add a b).
Hypothesis narrow_mul : forall a b, narrower (fx_mul a b) (mul a b).
Hypothesis narrow_div : forall a b, narrower (fx_div a b) (div a b).

Abbreviation wrapped := (with_partial fo add mul div) (only parsing).
Abbreviation checked := (mkConfig acc true) (only parsing).
Abbreviation shipped := (mkConfig acc false) (only parsing).

#[local] Hint Resolve agree_issue_body narrow_next agree_transfer narrow_u32_add : agree.

Lemma agree_swap origin c :
  agrees (@dispatch_swap checked origin c) (@dispatch_swap shipped origin c).
Proof.
  destruct c; cbn [dispatch_swap]; [apply agrees_refl | apply agree_exact_input
    | apply agree_exact_output | apply agree_add | apply agree_remove].
Qed.

Lemma agree_dispatch origin c :
  agrees (@dispatch checked fo origin c) (@dispatch shipped wrapped origin c).
Proof.
  destruct c as [c|c|c|[bn p|]]; cbn [dispatch];
    [apply agree_assets | apply agree_swap | by apply agree_lending | | apply agrees_refl].
  unfold submit_price_unsigned. agree.
Qed.

(** Every run of the checked build, extrinsic by extrinsic, is one of the shipped
    build. *)
Lemma agree_act a s s' :
  @act checked fo a s = Some s' -> @act shipped wrapped a s = Some s'.
Proof.
  destruct a as [origin c|]; cbn [act]; [|done]. pose proof (agree_dispatch origin c s) as H.
  destruct (@dispatch checked fo origin c s) eqn:E; cbn [final]; intros [= <-]; by rewrite H.
Qed.

Lemma agree_actions l s s' :
  @run_actions checked fo l s = Some s' -> @run_actions shipped wrapped l s = Some s'.
Proof.
  revert s. induction l as [|a l IH]; intros s; cbn [run_actions]; [done|].
  intros (s1 & H1 & H2)%obind_Some. rewrite (agree_act _ _ _ H1). by apply IH.
Qed.

Lemma agree_genesis g :
  @build_genesis checked fo g <> Panic -> @build_genesis shipped wrapped g = @build_genesis checked fo g.
Proof.
  apply (agrees_bind _ _ _ _).
  - unfold genesis_build. apply agrees_foldM. intros u [[a n] p]. unfold genesis_asset. agree.
  - intros u. unfold lending_genesis_build, _init_pool. agree.
Qed.
End Runs.
