(* ===== verification/Feed.v ===== *)
(** * The price feed keeps going

    The window of accepted prices never lies more than [UnsignedInterval] blocks
    ahead, so from every reachable state it opens again within four blocks, and then
    a worker whose download succeeds gets its price onto the chain. *)

From S2P Require Export Runtime.

Local Open Scope N_scope.
Local Open Scope rust_scope.

Section Window.
Context {cfg : Config} {fo : FixedOps} {fl : FixedLaws fo}.

(** The window opens at most four blocks from now. *)
Definition window_near (s : Chain) : Prop := NextUnsignedAt s <= block_number s + 4.

Lemma uadd_le checks m a b c : uadd checks m a b = Some c -> c <= a + b.
Proof.
  unfold uadd. destruct (_ <? m); [intros [= <-]; lia|]. destruct checks; [done|].
  intros [= <-]. apply N.Div0.mod_le.
Qed.

Lemma submit_window bn price s s' :
  submit_price_unsigned NoOrigin bn price s = Ok tt s' ->
  block_number s' = block_number s /\ window_near s'.
Proof.
  intros (q & next & _ & Hn & ->)%submit_price_Ok. split; [done|].
  unfold window_near. cbn. exact (uadd_le _ _ _ _ _ Hn).
Qed.

(** A price transaction of another origin is refused. *)
Lemma submit_refused origin bn price s :
  origin <> NoOrigin -> submit_price_unsigned origin bn price s = Err BadOrigin s.
Proof. by destruct origin. Qed.

Lemma step_window s s' : step s s' -> window_near s -> window_near s'.
Proof.
  unfold window_near. destruct 1 as [origin c s s' Ho _ Hf | call s s' ????? _ Hv Hf | s _].
  - pose proof (final_respects _ _ _ _ (call_keeps_clock origin c Ho) Hf) as [= Hb Hw].
    by rewrite Hb, Hw.
  - destruct call as [bn price|]; [|discriminate Hv]. cbn [dispatch] in Hf. unfold final in Hf.
    destruct (submit_price_unsigned NoOrigin bn price s) as [[] t|e t|] eqn:Hrun; [| |done].
    + injection Hf as <-. intros _. by eapply submit_window.
    + by apply submit_price_no_error in Hrun.
  - cbn. lia.
Qed.

Lemma genesis_at_zero g s : build_genesis g = Ok tt s -> clock s = (0, 0).
Proof.
  intros Hb. pose proof (respects_Ok _ _ _ _ _ (genesis_keeps_clock _ _) Hb) as E.
  unfold keeps in E. by rewrite E.
Qed.

Lemma reachable_window g s : reachable g s -> window_near s.
Proof.
  induction 1 as [s Hs | s s' _ IH Hstep]; [|by eapply step_window].
  apply genesis_at_zero in Hs as [= Hb Hw]. unfold window_near. rewrite Hb, Hw. lia.
Qed.

(** The state [k] empty blocks later. *)
Definition blocks_later (k : nat) (s : Chain) : Chain := Nat.iter k next_block s.

Lemma blocks_later_clock k s :
  clock (blocks_later k s) = (block_number s + N.of_nat k, NextUnsignedAt s).
Proof.
  induction k as [|k IH]; [unfold clock; by rewrite N.add_0_r|].
  change (blocks_later (S k) s) with (next_block (blocks_later k s)).
  injection IH as Hb Hw. unfold clock. cbn [next_block block_number NextUnsignedAt].
  rewrite Hb, Hw. f_equal. lia.
Qed.

Lemma blocks_later_reachable g k s :
  reachable g s -> block_number s + N.of_nat k < u32_modulus -> reachable g (blocks_later k s).
Proof.
  intros Hr. induction k as [|k IH]; intros Hk; [done|].
  change (blocks_later (S k) s) with (next_block (blocks_later k s)).
  eapply reachable_step; [apply IH; lia|]. apply step_block. pose proof (blocks_later_clock k s) as [= Hb _]. rewrite Hb. lia.
Qed.

(** The window is open after at most four blocks. *)
Lemma window_opens s :
  window_near s -> exists k, (k <= 4)%nat /\
    NextUnsignedAt (blocks_later k s) <= block_number (blocks_later k s).
Proof.
  intros Hw. exists (N.to_nat (NextUnsignedAt s - block_number s)). unfold window_near in Hw.
  split; [lia|].
  pose proof (blocks_later_clock (N.to_nat (NextUnsignedAt s - block_number s)) s) as [= -> ->]. lia.
Qed.

(** In an open window a price for a block up to the current one is valid, and it is
    stored. *)
Lemma price_accepted bn price s :
  NextUnsignedAt s <= bn -> bn <= block_number s -> block_number s + 4 < u32_modulus ->
  price < u32_modulus ->
  let call := call_submit_price_unsigned bn price in
  let s' := priced (price * 10000000000000000) (block_number s + 4) s in
  validate_unsigned call s = Valid "OffchainWorker" 5 (NextUnsignedAt s) 5 true /\
  dispatch NoOrigin (CallOffchainWorker call) s = Ok tt s' /\ step s s'.
Proof.
  intros Hw Hpast Hfit Hp call s'.
  assert (validate_unsigned call s = Valid "OffchainWorker" 5 (NextUnsignedAt s) 5 true) as Hv.
  { cbn. unfold validate_transaction_parameters. cbv zeta.
    by rewrite (proj2 (N.ltb_ge _ _) Hw), (proj2 (N.ltb_ge _ _) Hpast). }
  assert (dispatch NoOrigin (CallOffchainWorker call) s = Ok tt s') as Hd.
  { apply submit_price_run; [by apply cents_rational | by apply uadd_in_range]. }
  split_and!; [done | done |]. eapply step_unsigned; [| exact Hv | by rewrite Hd].
  unfold call_decodes. cbn. apply andb_true_iff. split; apply N.ltb_lt; [lia | done].
Qed.
End Window.
