(* ===== verification/Genesis.v ===== *)
(** * The genesis storage, in full

    The [build] closures of the assets and the lending pallet never trap and never
    fail, whatever the configuration: every entry of the list issues its asset, the
    listed pools are there, and nothing else is. *)

From S2P Require Export Typed.

Local Open Scope N_scope.
Local Open Scope rust_scope.

Section Genesis.
Context {cfg : Config} {fo : FixedOps} {fl : FixedLaws fo}.

Abbreviation amount_of entry := (snd (fst entry)) (only parsing).

(** What one entry leaves behind: a fresh asset and its price. *)
Record round (entry : AccountId * Balance * N) (s s' : Chain) : Prop := {
  rd_books : ledger_ok (assets s');
  rd_next : NextAssetId (assets s') = NextAssetId (assets s) + 1;
  rd_supply : TotalSupply (assets s') =
    <[NextAssetId (assets s) := amount_of entry]> (TotalSupply (assets s));
  rd_price : Price (assets s') =
    <[NextAssetId (assets s) := fx_from_integer (snd entry)]> (Price (assets s));
  rd_lending : lending s' = lending s;
  rd_block : block_number s' = block_number s
}.

Lemma genesis_round entry s :
  ledger_ok (assets s) -> NextAssetId (assets s) < u64_max -> amount_of entry <= u128_max ->
  exists s', genesis_asset entry s = Ok tt s' /\ round entry s s'.
Proof.
  destruct entry as [[account amount] p]. cbn [fst snd]. intros Hok Hid Hmax.
  set (id := NextAssetId (assets s)) in *. set (s1 := issued account amount s).
  assert (ledger_ok (assets s1)) as Hok1 by by apply issued_ok.
  set (s2 := attempted account id (Owner (assets s)) 500000 s1).
  assert (ledger_ok (assets s2)) as Hok2 by by apply attempted_ok.
  exists (set_assets (set_Price <[id := fx_from_integer p]>) s2). split.
  - unfold genesis_asset. rewrite (bind_run _ _ s tt s1) by (by unfold ignore; rewrite issue_body).
    unfold get_assets at 1, bind at 1, gets. unfold get_assets at 1, bind at 1, gets.
    change (NextAssetId (assets s1)) with (id + 1).
    rewrite usub_in_range by lia. replace (id + 1 - 1) with id by lia.
    unfold or_panic, bind at 1, ret. by rewrite attempt_then.
  - assert (forall T (f : Chain -> T), f s2 = f s1 \/ f s2 = f (transferred account id (Owner (assets s)) 500000 s1))
      as Hs2 by (intros T f; unfold s2, attempted; case_match; auto).
    split; cbn; try (by (destruct (Hs2 _ (fun s => NextAssetId (assets s))) as [->| ->]));
      try (by (destruct (Hs2 _ (fun s => TotalSupply (assets s))) as [->| ->]));
      try (by (destruct (Hs2 _ lending) as [->| ->]));
      try (by (destruct (Hs2 _ block_number) as [->| ->])).
    + destruct Hok2. by split.
    + by destruct (Hs2 _ (fun s => Price (assets s))) as [-> | ->].
Qed.

(** The entries before a state and after it. *)
Record rounds (l : list (AccountId * Balance * N)) (s s' : Chain) : Prop := {
  rs_books : ledger_ok (assets s');
  rs_next : NextAssetId (assets s') = NextAssetId (assets s) + N.of_nat (length l);
  rs_entry : forall i entry, l !! i = Some entry ->
    get_asset_total_supply (NextAssetId (assets s) + N.of_nat i) (assets s') = amount_of entry /\
    price (NextAssetId (assets s) + N.of_nat i) (assets s') = fx_from_integer (snd entry);
  rs_before : forall id, id < NextAssetId (assets s) ->
    get_asset_total_supply id (assets s') = get_asset_total_supply id (assets s) /\
    price id (assets s') = price id (assets s);
  rs_lending : lending s' = lending s
}.

Lemma genesis_rounds l s :
  ledger_ok (assets s) -> NextAssetId (assets s) + N.of_nat (length l) <= u64_max ->
  Forall (fun entry => amount_of entry <= u128_max) l ->
  exists s', genesis_build l s = Ok tt s' /\ rounds l s s'.
Proof.
  unfold genesis_build. generalize tt at 1. intros u Hok Hlen Hl. revert u s Hok Hlen.
  induction Hl as [|entry l Hent _ IH]; intros u s Hok Hlen; cbn [foldM length] in *.
  - exists s. destruct u. split; [done|]. split; cbn; try done. lia.
  - destruct (genesis_round entry s Hok) as (s1 & Hrun & [Hok1 Hn1 Ht1 Hp1 Hl1 _]); [lia|done|].
    destruct (IH tt s1 Hok1) as (s2 & Hrun2 & [Hok2 Hn2 He2 Hb2 Hl2]); [lia|].
    exists s2. split; [by rewrite (bind_run _ _ _ _ _ Hrun)|]. split; [done | cbn [length]; lia | | | congruence].
    + intros [|i] entry' Hi; cbn in Hi.
      * injection Hi as <-. rewrite N.add_0_r. destruct (Hb2 (NextAssetId (assets s))) as [-> ->]; [lia|].
        unfold get_asset_total_supply, price. rewrite Ht1, Hp1. by rewrite !getd_insert_eq.
      * replace (NextAssetId (assets s) + N.of_nat (S i)) with (NextAssetId (assets s1) + N.of_nat i) by lia.
        by apply He2.
    + intros id Hid. destruct (Hb2 id) as [-> ->]; [lia|].
      unfold get_asset_total_supply, price. rewrite Ht1, Hp1. rewrite !getd_insert_ne by lia. done.
Qed.

(** The pools of the list, and those there were. *)
Lemma lending_genesis_total ids s :
  exists s', lending_genesis_build ids s = Ok tt s' /\ assets s' = assets s /\
    forall id, is_Some (pool id (lending s')) <-> id ∈ ids \/ is_Some (pool id (lending s)).
Proof.
  unfold lending_genesis_build. generalize tt at 1. intros u. revert u s.
  induction ids as [|id0 ids IH]; intros u s; cbn [foldM].
  - exists s. destruct u. split_and!; [done..|]. intros id. set_solver.
  - assert (exists p, @_init_pool _ _ string id0 true s = Ok tt (set_lending (set_Pools <[id0 := p]>) s))
      as (p & Hrun).
    { unfold _init_pool.
      destruct (fx_from_rational_total 7 10) as [? ->]; [done|].
      destruct (fx_from_rational_total 95 100) as [? ->]; [done|].
      destruct (fx_from_rational_total 385 10000000000) as [? ->]; [done|].
      destruct (fx_from_rational_total 385 100000000000) as [? ->]; [done|]. by eexists. }
    destruct (IH tt (set_lending (set_Pools <[id0 := p]>) s)) as (s' & Hrest & Ha & Hpools).
    exists s'. split_and!; [by rewrite (bind_run _ _ _ _ _ Hrun) | done |].
    intros id. rewrite Hpools, elem_of_cons. unfold pool. cbn.
    destruct (decide (id = id0)) as [->|Hne]; [rewrite lookup_insert_eq; naive_solver|].
    rewrite lookup_insert_ne by done. naive_solver.
Qed.

Lemma genesis_complete g :
  genesis_decodes g -> N.of_nat (length (genesis_assets g)) <= u64_max ->
  exists s, build_genesis g = Ok tt s /\ ledger_ok (assets s) /\
    NextAssetId (assets s) = N.of_nat (length (genesis_assets g)) /\
    (forall i entry, genesis_assets g !! i = Some entry ->
       get_asset_total_supply (N.of_nat i) (assets s) = amount_of entry /\
       price (N.of_nat i) (assets s) = fx_from_integer (snd entry)) /\
    (forall id, is_Some (pool id (lending s)) <-> id ∈ genesis_pools g).
Proof.
  intros Hdec Hlen. destruct (genesis_rounds (genesis_assets g) (genesis_storage g))
    as (s1 & H1 & [Hok Hn He _ Hl]); [apply genesis_storage_ok | done | done |].
  destruct (lending_genesis_total (genesis_pools g) s1) as (s2 & H2 & Ha & Hp).
  exists s2. split; [unfold build_genesis; by rewrite (bind_run _ _ _ _ _ H1)|].
  rewrite Ha. split_and!; [done | by rewrite Hn | |].
  - intros i entry Hi. exact (He i entry Hi).
  - intros id. rewrite Hp, Hl. unfold pool. cbn. rewrite lookup_empty.
    split; [intros [?|[? [=]]]; done | by left].
Qed.
End Genesis.
