(* ===== verification/Prices.v ===== *)
(** * Who sets prices

    The price table of the assets pallet: which calls write it, and what is in it after
    any run. *)

From S2P Require Export Bank.

Local Open Scope N_scope.
Local Open Scope rust_scope.

Section Prices.
Context {cfg : Config} {fo : FixedOps} {fl : FixedLaws fo}.

Definition prices (s : Chain) : gmap AssetId FixedU128 := Price (assets s).

Lemma prices_write {E} (f : Chain -> Chain) :
  (forall s, prices (f s) = prices s) -> respects (keeps prices) (@modify _ E f).
Proof. intros H. by apply respects_modify. Qed.
#[local] Hint Extern 2 (respects (keeps prices) (modify _)) => by apply prices_write : respects.
#[local] Hint Extern 2 (respects (keeps prices) (put_lending _)) => by apply prices_write : respects.
#[local] Hint Extern 2 (respects (keeps prices) (put_swap _)) => by apply prices_write : respects.
#[local] Hint Extern 2 (respects (keeps prices) (put_assets _)) => by apply prices_write : respects.
#[local] Hint Extern 2 (respects (keeps prices) (deposit_event _)) => by apply prices_write : respects.

Lemma prices_transfer from id to n : respects (keeps prices) (transfer from id to n).
Proof. unfold transfer. respects. Qed.
Lemma prices_transfer_or_fail from id to n : respects (keeps prices) (transfer_or_fail from id to n).
Proof. apply respects_map_err, prices_transfer. Qed.
Lemma prices_user_info {E} u : respects (keeps prices) (get_user_info u : RT E _).
Proof. eapply respects_weaken; [|apply user_info_pure]. by intros s s' ->. Qed.
#[local] Hint Resolve prices_transfer prices_transfer_or_fail prices_user_info : respects.

Ltac call_prices :=
  respects; unfold set_fee_rate, set_inherent_asset, set_liquidity, get_liquidity, get_total_liquidity,
    init_pool, _init_pool; respects.

Lemma swap_lending_prices origin :
  (forall c, respects (keeps prices) (dispatch_swap origin c)) /\
  (forall c, respects (keeps prices) (dispatch_lending origin c)).
Proof.
  split; intros c; [destruct c; cbn [dispatch_swap] | destruct c; cbn [dispatch_lending]]; call_prices.
Qed.

(** The price an action quotes: the root's [set_price], or an unsigned submission, whose
    cents are those of asset 4. *)
Definition quoted (a : Action) : option (AssetId * FixedU128) :=
  match a with
  | Extrinsic Root (CallAssets (call_set_price id p)) => Some (id, p)
  | Extrinsic NoOrigin (CallOffchainWorker (call_submit_price_unsigned _ cents)) =>
      q <-? fx_from_rational cents 100 ;; Some (4, q)
  | _ => None
  end.

Definition quote (m : gmap AssetId FixedU128) (a : Action) : gmap AssetId FixedU128 :=
  match quoted a with Some (id, p) => <[id := p]> m | None => m end.

(** A call that quotes nothing writes no price. *)
Lemma unquoted_keeps_prices origin c :
  quoted (Extrinsic origin c) = None -> respects (keeps prices) (dispatch origin c).
Proof.
  destruct c as [c|c|c|[bn p|]]; cbn [dispatch]; intros Hq;
    [| apply swap_lending_prices.. | | by intros s].
  - destruct c as [total|id|id|id to n|id p]; cbn [dispatch_assets]; [call_prices.. | |].
    + unfold transfer_asset. call_prices.
    + destruct origin; [done | by intros s..].
  - destruct origin; [by intros s..|]. cbn in Hq. intros s. unfold submit_price_unsigned, bind, ensure_none, ret.
    by destruct (fx_from_rational p 100).
Qed.

Lemma act_prices a s s' : act a s = Some s' -> prices s' = quote (prices s) a.
Proof.
  destruct a as [origin c|]; cbn [act].
  2: { destruct (_ <? _); [|done]. by intros [= <-]. }
  intros Hf. unfold quote. destruct (quoted (Extrinsic origin c)) as [[id p]|] eqn:Hq.
  2: { exact (final_respects _ _ _ _ (unquoted_keeps_prices origin c Hq) Hf). }
  destruct origin as [|who|], c as [c|c|c|[bn cents|]]; try done; [destruct c; try done|].
  - injection Hq as <- <-. by injection Hf as <-.
  - apply obind_Some in Hq as (q & Hq & [= <- <-]). cbn [dispatch] in Hf.
    destruct (submit_price_unsigned NoOrigin bn cents s) as [[] t|e t|] eqn:Hrun; [| |done]; injection Hf as <-.
    + apply submit_price_Ok in Hrun as (q' & next & Hq' & _ & ->). by simplify_eq.
    + by apply submit_price_no_error in Hrun.
Qed.

Lemma run_prices l s s' : run_actions l s = Some s' -> prices s' = foldl quote (prices s) l.
Proof.
  revert s. induction l as [|a l IH]; intros s; cbn [run_actions foldl]; [by intros [= <-]|].
  intros (s1 & H1 & H2)%obind_Some. rewrite (IH _ H2). by rewrite (act_prices _ _ _ H1).
Qed.
End Prices.
