(* ===== verification/Rpc.v ===== *)
(** * The RPC extensions ([pallets/lending/rpc], [pallets/swap/rpc], [node/src/rpc.rs])

    The JSON-RPC methods of the two pallets: each asks the client for the runtime
    api at a block - the best one when none is named - and turns an api error into
    one fixed RPC error.  [create_full] puts them into the node's table of methods
    next to those of the system and the payment pallet.  The client is a dependency:
    it initializes the block after the named one on that block's storage and executes
    the api function there; a block it does not know, like a trap of the runtime, is an
    error. *)

From S2P Require Export Runtime.

Local Open Scope N_scope.
Local Open Scope rust_scope.

(* ================================================================== *)
(** ** The client                                                      *)
(* ================================================================== *)

(** [ProvideRuntimeApi] and [HeaderBackend], as far as the methods use them. *)
Class Client `{Config} : Type := {
  BlockHash : Type;
  best_hash : BlockHash;                              (** [client.info().best_hash] *)
  ApiError : Type;
  debug_api_error : ApiError -> string;               (** [format!("{:?}", e)] *)
  state_at : BlockHash -> option Chain;               (** the storage of a known block *)
  runtime_call : forall A, (Chain -> option A) -> BlockHash -> ApiError + A
}.
Arguments runtime_call {_ _ A}.

(** None of the pallets' api functions skips the initialization of a block: the
    function runs on the storage of the named block with the next block begun, that is
    [next_block]; [None] is a trap. *)
Class ClientLaws `(Client) : Prop := {
  call_returns : forall A (f : Chain -> option A) h s a,
    state_at h = Some s -> block_number s + 1 < u32_modulus ->
    f (next_block s) = Some a -> runtime_call f h = inr a;
  call_traps : forall A (f : Chain -> option A) h s,
    state_at h = Some s -> block_number s + 1 < u32_modulus ->
    f (next_block s) = None -> exists e, runtime_call f h = inl e;
  call_unknown : forall A (f : Chain -> option A) h,
    state_at h = None -> exists e, runtime_call f h = inl e
}.

(** [jsonrpc_core::Error] with [ErrorCode::ServerError(code)] *)
Record RpcError : Type := mkRpcError {
  error_code : N;
  error_message : string;
  error_data : option string
}.

Section Methods.
Context {cfg : Config} {fo : FixedOps} {cl : Client}.

Abbreviation RpcResult A := (RpcError + A)%type (only parsing).

(** [BlockId::hash(at.unwrap_or_else(|| self.client.info().best_hash))] *)
Definition unwrap_or_best (at_ : option BlockHash) : BlockHash :=
  match at_ with Some h => h | None => best_hash end.

(** [runtime_api_result.map_err(|e| RpcError { .. })] *)
Definition map_api_err {A} (r : ApiError + A) : RpcResult A :=
  match r with
  | inl e => inl (mkRpcError 9876 "Something wrong" (Some (debug_api_error e)))
  | inr a => inr a
  end.

(** A call of an infallible api function. *)
Definition run_api {A} (m : RT Empty_set A) : Chain -> option A := result m.

(* ================================================================== *)
(** ** The methods of the swap pallet                                  *)
(* ================================================================== *)

Definition rpc_calculate_output (in_id out_id : AssetId) (amount_in : Balance)
    (at_ : option BlockHash) : RpcResult Balance :=
  let at_ := unwrap_or_best at_ in
  let runtime_api_result := runtime_call (run_api (api_calculate_output in_id out_id amount_in)) at_ in
  map_api_err runtime_api_result.

(* ================================================================== *)
(** ** The methods of the lending pallet                               *)
(* ================================================================== *)

Definition rpc_supply_rate (id : AssetId) (at_ : option BlockHash) : RpcResult FixedU128 :=
  let at_ := unwrap_or_best at_ in
  let runtime_api_result := runtime_call (run_api (api_supply_rate id)) at_ in
  map_api_err runtime_api_result.

Definition rpc_debt_rate (id : AssetId) (at_ : option BlockHash) : RpcResult FixedU128 :=
  let at_ := unwrap_or_best at_ in
  let runtime_api_result := runtime_call (run_api (api_debt_rate id)) at_ in
  map_api_err runtime_api_result.

Definition rpc_get_user_info (user : AccountId) (at_ : option BlockHash) : RpcResult (N * N * N) :=
  let at_ := unwrap_or_best at_ in
  let runtime_api_result := runtime_call (run_api (api_get_user_info user)) at_ in
  map_api_err runtime_api_result.

Definition rpc_get_user_debt_with_interest (asset_id : AssetId) (user : AccountId)
    (at_ : option BlockHash) : RpcResult Balance :=
  let at_ := unwrap_or_best at_ in
  let runtime_api_result :=
    runtime_call (run_api (api_get_user_debt_with_interest asset_id user)) at_ in
  map_api_err runtime_api_result.

Definition rpc_get_user_supply_with_interest (asset_id : AssetId) (user : AccountId)
    (at_ : option BlockHash) : RpcResult Balance :=
  let at_ := unwrap_or_best at_ in
  let runtime_api_result :=
    runtime_call (run_api (api_get_user_supply_with_interest asset_id user)) at_ in
  map_api_err runtime_api_result.

(* ================================================================== *)
(** ** The table of methods                                            *)
(* ================================================================== *)

(** What a name stands for: a method of the two traits, or one of a dependency's
    delegate. *)
Inductive Method : Type :=
| swap_calculate_output
| lending_supplyRate
| lending_debtRate
| lending_getUserInfo
| lending_getUserDebtWithInterest
| lending_getUserSupplyWithInterest
| foreign_method (name : string).

(** The names the [rpc(name = ..)] attributes declare. *)
Definition SwapApi_to_delegate : list (string * Method) :=
  [("swap_calculate_output"%string, swap_calculate_output)].

Definition LendingApi_to_delegate : list (string * Method) :=
  [("lending_supplyRate"%string, lending_supplyRate);
   ("lending_debtRate"%string, lending_debtRate);
   ("lending_getUserInfo"%string, lending_getUserInfo);
   ("lending_getUserDebtWithInterest"%string, lending_getUserDebtWithInterest);
   ("lending_getUserSupplyWithInterest"%string, lending_getUserSupplyWithInterest)].

(** [IoHandler]: a map from names; [extend_with] overwrites. *)
Definition IoHandler : Type := gmap string Method.

Definition extend_with (delegate : list (string * Method)) (io : IoHandler) : IoHandler :=
  foldl (fun io entry => <[fst entry := snd entry]> io) io delegate.

(** [create_full], given the delegates of the two dependencies. *)
Definition create_full (system payment : list (string * Method)) : IoHandler :=
  let io := ∅ in
  let io := extend_with system io in
  let io := extend_with payment io in
  let io := extend_with SwapApi_to_delegate io in
  extend_with LendingApi_to_delegate io.

(** Decoded parameters and the values of the answers. *)
Inductive Params : Type :=
| QuoteParams (in_id out_id : AssetId) (amount_in : Balance) (at_ : option BlockHash)
| AssetParams (id : AssetId) (at_ : option BlockHash)
| UserParams (user : AccountId) (at_ : option BlockHash)
| PositionParams (asset_id : AssetId) (user : AccountId) (at_ : option BlockHash).

Inductive Value : Type :=
| Number (n : N)
| Triple (n : N * N * N).

Inductive Reply : Type :=
| MethodNotFound
| InvalidParams
| Failure (e : RpcError)
| Success (v : Value)
| Elsewhere.                          (** answered by the dependency *)

Definition reply {A} (f : A -> Value) (r : RpcResult A) : Reply :=
  match r with inl e => Failure e | inr a => Success (f a) end.

Definition call_method (m : Method) (p : Params) : Reply :=
  match m, p with
  | swap_calculate_output, QuoteParams i o x h => reply Number (rpc_calculate_output i o x h)
  | lending_supplyRate, AssetParams id h => reply Number (rpc_supply_rate id h)
  | lending_debtRate, AssetParams id h => reply Number (rpc_debt_rate id h)
  | lending_getUserInfo, UserParams u h => reply Triple (rpc_get_user_info u h)
  | lending_getUserDebtWithInterest, PositionParams id u h =>
      reply Number (rpc_get_user_debt_with_interest id u h)
  | lending_getUserSupplyWithInterest, PositionParams id u h =>
      reply Number (rpc_get_user_supply_with_interest id u h)
  | foreign_method _, _ => Elsewhere
  | _, _ => InvalidParams
  end.

Definition serve (io : IoHandler) (name : string) (p : Params) : Reply :=
  match io !! name with None => MethodNotFound | Some m => call_method m p end.

(* ================================================================== *)
(** ** Facts                                                           *)
(* ================================================================== *)

Lemma extend_with_other delegate io name :
  name ∉ delegate.*1 -> extend_with delegate io !! name = io !! name.
Proof.
  revert io. induction delegate as [|[n m] l IH]; intros io; cbn; [done|].
  intros [Hn Hl]%not_elem_of_cons. cbn. unfold extend_with in IH. rewrite IH by done.
  by apply lookup_insert_ne.
Qed.

Lemma extend_with_entry delegate io name m :
  NoDup delegate.*1 -> (name, m) ∈ delegate -> extend_with delegate io !! name = Some m.
Proof.
  revert io. induction delegate as [|[n m'] l IH]; intros io; cbn; [by intros _ []%elem_of_nil|].
  intros Hnd. inversion_clear Hnd as [|?? Hn Hl].
  intros [[= -> ->]|Hin]%elem_of_cons; [|by apply IH].
  change (extend_with l (<[n := m']> io) !! n = Some m').
  rewrite extend_with_other by done. by apply lookup_insert_eq.
Qed.

(** The pallets' own methods are there, whatever the dependencies declare. *)
Lemma create_full_swap system payment name m :
  (name, m) ∈ SwapApi_to_delegate -> create_full system payment !! name = Some m.
Proof.
  intros Hin. unfold create_full. rewrite extend_with_other.
  - apply extend_with_entry; [|done]. cbn. apply NoDup_singleton.
  - apply list_elem_of_singleton in Hin as [= -> _]. cbn. set_solver.
Qed.

Lemma create_full_lending system payment name m :
  (name, m) ∈ LendingApi_to_delegate -> create_full system payment !! name = Some m.
Proof.
  intros Hin. unfold create_full. apply extend_with_entry; [|done].
  by apply (bool_decide_unpack _).
Qed.

Context {laws : ClientLaws cl}.

(** The storage an api call at a block sees, and a block with a successor. *)
Definition api_state (at_ : option BlockHash) : option Chain :=
  option_map next_block (state_at (unwrap_or_best at_)).
Definition has_next (at_ : option BlockHash) : Prop :=
  forall s, state_at (unwrap_or_best at_) = Some s -> block_number s + 1 < u32_modulus.

(** One api call behind a method: the answer is what the api returns on that storage; a
    trap and an unknown block are the one RPC error. *)
Lemma api_answer {A} (m : RT Empty_set A) at_ :
  has_next at_ ->
  match obind (api_state at_) (result m) with
  | Some a => map_api_err (runtime_call (run_api m) (unwrap_or_best at_)) = inr a
  | None => exists data,
      map_api_err (runtime_call (run_api m) (unwrap_or_best at_)) =
        inl (mkRpcError 9876 "Something wrong" (Some data))
  end.
Proof.
  unfold has_next, api_state. set (h := unwrap_or_best at_). intros Hnext.
  destruct (state_at h) as [s|] eqn:Hs; cbn [obind option_map].
  - specialize (Hnext s eq_refl). destruct (result m (next_block s)) as [a|] eqn:Hm.
    + by rewrite (call_returns _ (run_api m) h s a Hs Hnext Hm).
    + destruct (call_traps _ (run_api m) h s Hs Hnext Hm) as [e ->]. cbn. eauto.
  - destruct (call_unknown _ (run_api m) h Hs) as [e ->]. cbn. eauto.
Qed.
End Methods.

(* ================================================================== *)
(** ** A client over a list of blocks                                  *)
(* ================================================================== *)

(** Blocks numbered from one, the last one best; it begins the next block before every
    api call, and satisfies the laws. *)
Definition list_client `{Config} (blocks : list Chain) : Client := {|
  BlockHash := nat;
  best_hash := length blocks;
  ApiError := bool;
  debug_api_error e := if e then "UnknownBlock"%string else "Execution"%string;
  state_at h := match h with O => None | S n => blocks !! n end;
  runtime_call A f h :=
    match match h with O => None | S n => blocks !! n end with
    | None => inl true
    | Some s => match f (next_block s) with None => inl false | Some a => inr a end
    end
|}.

#[export] Instance list_client_laws `{Config} blocks : ClientLaws (list_client blocks).
Proof.
  split; cbn; [intros A f h s a -> _ ->; done | intros A f h s -> _ ->; eauto | intros A f h ->; eauto].
Qed.
