(* ===== verification/ChainSpec.v ===== *)
(** * Chain specifications ([node/src/chain_spec.rs])

    The two built-in specifications: keys derived from development seeds, the
    genesis configuration of all pallets, and the choice of a specification by its
    id ([load_spec] of [node/src/command.rs]).  Key derivation and the JSON format
    are dependencies.  [None] is a panic of [expect]. *)

From S2P Require Export Typed.

Local Open Scope N_scope.
Local Open Scope rust_scope.

(* ================================================================== *)
(** ** Keys                                                            *)
(* ================================================================== *)

(** [sp_core::{Public, Pair}]: a type of public keys with its pairs, which are
    derived from a secret uri (and a password, always [None] here). *)
Class PublicKey (TPublic : Type) : Type := {
  Pair : Type;
  pair_from_string : string -> option Pair;
  pair_public : Pair -> TPublic
}.

(** The three kinds of keys the specification derives. *)
Class Keys `{Accounts} : Type := {
  Sr25519Public : Type;
  AuraId : Type;
  GrandpaId : Type;
  sr25519_key :: PublicKey Sr25519Public;
  aura_key :: PublicKey AuraId;
  grandpa_key :: PublicKey GrandpaId;
  into_account : Sr25519Public -> AccountId       (** [AccountPublic::from(..).into_account()] *)
}.

(** [format!("//{}", seed)] *)
Definition seed_uri (seed : string) : string := ("//" ++ seed)%string.

Definition get_from_seed (TPublic : Type) `{PublicKey TPublic} (seed : string) : option TPublic :=
  pair <-? pair_from_string (seed_uri seed) ;;
  Some (pair_public pair).

Section Spec.
Context {cfg : Config} {keys : Keys}.

Definition get_account_id_from_seed (seed : string) : option AccountId :=
  public <-? get_from_seed Sr25519Public seed ;;
  Some (into_account public).

Definition authority_keys_from_seed (s : string) : option (AuraId * GrandpaId) :=
  aura <-? get_from_seed AuraId s ;;
  grandpa <-? get_from_seed GrandpaId s ;;
  Some (aura, grandpa).

(** The elements of a [vec![..]], evaluated in order. *)
Fixpoint vec_of {A} (l : list (option A)) : option (list A) :=
  match l with
  | [] => Some []
  | a :: l' => a <-? a ;; rest <-? vec_of l' ;; Some (a :: rest)
  end.

(* ================================================================== *)
(** ** The genesis configuration                                       *)
(* ================================================================== *)

(** [GenesisConfig] of the runtime; [pallets] are the sections of the assets, the
    swap and the lending pallet. *)
Record RuntimeGenesis : Type := mkRuntimeGenesis {
  system_code : list N;
  balances_endowed : list (AccountId * Balance);
  aura_authorities : list AuraId;
  grandpa_authorities : list (GrandpaId * N);
  sudo_key : AccountId;
  pallets : GenesisConfig
}.

Definition testnet_genesis (wasm_binary : list N) (initial_authorities : list (AuraId * GrandpaId))
    (root_key : AccountId) (endowed_accounts : list AccountId) (_enable_println : bool)
    : option RuntimeGenesis :=
  let balances := map (fun k => (k, N.shiftl 1 60)) endowed_accounts in
  let aura := map (fun x => fst x) initial_authorities in
  let grandpa := map (fun x => (snd x, 1)) initial_authorities in
  bob <-? get_account_id_from_seed "Bob" ;;
  alice <-? get_account_id_from_seed "Alice" ;;
  Some (mkRuntimeGenesis wasm_binary balances aura grandpa root_key (testnet_pallets alice bob)).

(* ================================================================== *)
(** ** The specifications                                              *)
(* ================================================================== *)

(** [sc_service::ChainType] *)
Inductive ChainType : Type := Development | Local | Live.

(** [ChainSpec::from_genesis]: the genesis is a closure, run when the storage is
    built.  Boot nodes, telemetry, protocol id, properties and extensions are
    empty in both specifications. *)
Record ChainSpec : Type := mkChainSpec {
  spec_name : string;
  spec_id : string;
  chain_type : ChainType;
  constructor : unit -> option RuntimeGenesis;
  boot_nodes : list string
}.

Definition no_wasm : string := "Development wasm binary not available".

Definition development_config (WASM_BINARY : option (list N)) : string + ChainSpec :=
  match WASM_BINARY with
  | None => inl no_wasm
  | Some wasm_binary =>
      inr (mkChainSpec "Development" "dev" Development
        (fun _ =>
           authorities <-? vec_of [authority_keys_from_seed "Alice"] ;;
           root <-? get_account_id_from_seed "Alice" ;;
           endowed <-? vec_of
             [get_account_id_from_seed "Alice"; get_account_id_from_seed "Bob";
              get_account_id_from_seed "Alice//stash"; get_account_id_from_seed "Bob//stash"] ;;
           testnet_genesis wasm_binary authorities root endowed true)
        [])
  end.

Definition local_testnet_config (WASM_BINARY : option (list N)) : string + ChainSpec :=
  match WASM_BINARY with
  | None => inl no_wasm
  | Some wasm_binary =>
      inr (mkChainSpec "Local Testnet" "local_testnet" Local
        (fun _ =>
           authorities <-? vec_of [authority_keys_from_seed "Alice"; authority_keys_from_seed "Bob"] ;;
           root <-? get_account_id_from_seed "Alice" ;;
           endowed <-? vec_of
             [get_account_id_from_seed "Alice"; get_account_id_from_seed "Bob";
              get_account_id_from_seed "Charlie"; get_account_id_from_seed "Dave";
              get_account_id_from_seed "Eve"; get_account_id_from_seed "Ferdie";
              get_account_id_from_seed "Alice//stash"; get_account_id_from_seed "Bob//stash";
              get_account_id_from_seed "Charlie//stash"; get_account_id_from_seed "Dave//stash";
              get_account_id_from_seed "Eve//stash"; get_account_id_from_seed "Ferdie//stash"] ;;
           testnet_genesis wasm_binary authorities root endowed true)
        [])
  end.

(** [ChainSpec::from_json_file] reads a file. *)
Context (from_json_file : string -> string + ChainSpec) (WASM_BINARY : option (list N)).

Definition load_spec (id : string) : string + ChainSpec :=
  if (id =? "dev")%string then development_config WASM_BINARY
  else if (id =? "")%string || (id =? "local")%string then local_testnet_config WASM_BINARY
  else from_json_file id.
End Spec.

(* ================================================================== *)
(** ** Facts                                                           *)
(* ================================================================== *)

Section Facts.
Context {cfg : Config} {keys : Keys}.

(** All elements of a [vec!] evaluate. *)
Lemma vec_of_map {A B} (f : A -> option B) (g : A -> B) l :
  Forall (fun a => f a = Some (g a)) l -> vec_of (map f l) = Some (map g l).
Proof. induction 1 as [|a l Ha _ IH]; cbn; [done|]. by rewrite Ha, IH. Qed.

(** The pallet sections fit their types and their amounts decode. *)
Lemma testnet_pallets_typed alice bob : genesis_typed (testnet_pallets alice bob).
Proof.
  split; cbn; [| by vm_compute |]; repeat (constructor; [by vm_compute|]); constructor.
Qed.

Lemma testnet_pallets_decode alice bob : genesis_decodes (testnet_pallets alice bob).
Proof. unfold genesis_decodes. cbn. repeat (constructor; [by vm_compute|]). constructor. Qed.
End Facts.
