(* ===== verification/Service.v ===== *)
(** * The node service ([node/src/service.rs])

    How a full and a light node are put together: which parts of the Substrate
    libraries are created, in which order, from which other parts and under which
    flags of the configuration.  The libraries are dependencies: a call of theirs is
    a step that is recorded, and a call with a [?] may end the construction with the
    error the library answers.  The values they return are named after what they
    are; each exists once in a service.  Clones of a handle are the handle, and the
    spawn handles and the prometheus registry, which every constructor takes, are
    left out. *)

From S2P Require Export Rpc.

Local Open Scope N_scope.
Local Open Scope rust_scope.

(* ================================================================== *)
(** ** Configuration, values and calls of the libraries                *)
(* ================================================================== *)

(** [sc_service::Role] and the three questions the node asks it. *)
Class Roles : Type := {
  Role : Type;
  is_light : Role -> bool;                    (** the pattern [Role::Light] *)
  is_authority : Role -> bool;
  is_network_authority : Role -> bool
}.

Class RolesLaws `(Roles) : Prop := {
  authority_not_light : forall r, is_authority r = true -> is_light r = false;
  authority_in_network : forall r, is_authority r = true -> is_network_authority r = true
}.

(** The fields of [sc_service::Configuration] the node reads itself. *)
Record Configuration `{Roles} : Type := mkConfiguration {
  role : Role;
  force_authoring : bool;
  node_name : string;
  disable_grandpa : bool;
  offchain_worker_enabled : bool
}.

Inductive Part : Type :=
| Client_ | Backend | Keystore | TaskManager | OnDemand
| SelectChain | TransactionPool | GrandpaImport | GrandpaLink | AuraImport | ImportQueue
| Inherents | ProofProvider | ProofRequestBuilder | RemoteBlockchain
| Network | NetworkStatusSinks | SystemRpcTx | NetworkStarter | Telemetry.

(** [CanAuthorWithNativeVersion] and [NeverCanAuthor] *)
Inductive CanAuthor : Type := WithNativeVersion | Never.

(** [sc_finality_grandpa::Config], the duration in milliseconds. *)
Record GrandpaVoterConfig : Type := mkGrandpaVoterConfig {
  gossip_duration : N;
  justification_period : N;
  voter_name : option string;
  observer_enabled : bool;
  voter_keystore : option Part;
  voter_is_authority : bool
}.

Inductive Step : Type :=
| new_full_parts
| new_light_parts
| pool_new_full (client : Part)
| pool_new_light (client on_demand : Part)
| grandpa_block_import (client select_chain : Part)
| light_block_import (client backend on_demand : Part)
| slot_duration (client : Part)
| aura_import_queue (block_import : Part) (justification_import finality_proof_import : option Part)
    (client inherents : Part) (can_author_with : CanAuthor)
| build_network (client pool import_queue : Part)
    (on_demand request_builder proof_provider : option Part)
| build_offchain_workers (backend client network : Part)
| spawn_tasks (network client keystore pool : Part) (rpc_deps : option (Part * Part))
    (on_demand remote_blockchain : option Part) (backend : Part)
| start_aura (client select_chain block_import network inherents : Part) (force_authoring : bool)
    (keystore : Part) (can_author_with : CanAuthor)
| run_grandpa_voter (config : GrandpaVoterConfig) (link network inherents telemetry : Part)
| setup_disabled_grandpa (client inherents network : Part)
| spawn_essential (name : string)
| start_network (starter : Part).

(** What the libraries answer to a call, after the calls made before it. *)
Class ServiceLib : Type := {
  ServiceError : Type;
  answer : list Step -> Step -> option ServiceError
}.

Section Service.
Context {roles : Roles} {lib : ServiceLib}.

(** A construction: the calls made, and the value or the error. *)
Abbreviation Build A := (M (list Step) ServiceError A) (only parsing).

(** A call that cannot fail, and one with a [?]. *)
Definition call (c : Step) : Build unit := modify (fun t => t ++ [c]).
Definition try_call (c : Step) : Build unit := fun t =>
  match answer t c with
  | None => Ok tt (t ++ [c])
  | Some e => Err e (t ++ [c])
  end.

(* ================================================================== *)
(** ** Full nodes                                                      *)
(* ================================================================== *)

(** [sc_service::PartialComponents] *)
Record PartialComponents : Type := mkPartial {
  client : Part;
  backend : Part;
  task_manager : Part;
  import_queue : Part;
  keystore : Part;
  select_chain : Part;
  transaction_pool : Part;
  inherent_data_providers : Part;
  other : Part * Part                      (** the block import and the grandpa link *)
}.

Definition new_partial (config : Configuration) : Build PartialComponents :=
  let inherent_data_providers := Inherents in
  try_call new_full_parts ;;;
  let '(client, backend, keystore, task_manager) := (Client_, Backend, Keystore, TaskManager) in
  let select_chain := SelectChain in
  call (pool_new_full client) ;;;
  let transaction_pool := TransactionPool in
  try_call (grandpa_block_import client select_chain) ;;;
  let '(grandpa_import, grandpa_link) := (GrandpaImport, GrandpaLink) in
  let aura_block_import := AuraImport in
  try_call (slot_duration client) ;;;
  try_call (aura_import_queue aura_block_import (Some grandpa_import) None client
              inherent_data_providers WithNativeVersion) ;;;
  let import_queue := ImportQueue in
  ret (mkPartial client backend task_manager import_queue keystore select_chain transaction_pool
         inherent_data_providers (aura_block_import, grandpa_link)).

(** The configuration of the voter. *)
Definition grandpa_config (config : Configuration) (keystore : option Part) : GrandpaVoterConfig :=
  mkGrandpaVoterConfig 333 512 (Some (node_name config)) false keystore
    (is_network_authority (role config)).

Definition new_full (config : Configuration) : Build Part :=
  partial <- new_partial config ;;
  let '(mkPartial client backend task_manager import_queue keystore select_chain
          transaction_pool inherent_data_providers (block_import, grandpa_link)) := partial in
  let finality_proof_provider := ProofProvider in
  try_call (build_network client transaction_pool import_queue None None
              (Some finality_proof_provider)) ;;;
  let '(network, network_starter) := (Network, NetworkStarter) in
  (if offchain_worker_enabled config
   then call (build_offchain_workers backend client network) else ret tt) ;;;
  let enable_grandpa := negb (disable_grandpa config) in
  let telemetry_connection_sinks := Telemetry in
  try_call (spawn_tasks network client keystore transaction_pool (Some (client, transaction_pool))
              None None backend) ;;;
  (if is_authority (role config) then
     try_call (slot_duration client) ;;;
     try_call (start_aura client select_chain block_import network inherent_data_providers
                 (force_authoring config) keystore WithNativeVersion) ;;;
     call (spawn_essential "aura")
   else ret tt) ;;;
  let keystore := if is_authority (role config) then Some keystore else None in
  let grandpa_config := grandpa_config config keystore in
  (if enable_grandpa then
     try_call (run_grandpa_voter grandpa_config grandpa_link network inherent_data_providers
                 telemetry_connection_sinks) ;;;
     call (spawn_essential "grandpa-voter")
   else
     try_call (setup_disabled_grandpa client inherent_data_providers network)) ;;;
  call (start_network network_starter) ;;;
  ret task_manager.

(* ================================================================== *)
(** ** Light nodes                                                     *)
(* ================================================================== *)

Definition new_light (config : Configuration) : Build Part :=
  try_call new_light_parts ;;;
  let '(client, backend, keystore, task_manager, on_demand) :=
    (Client_, Backend, Keystore, TaskManager, OnDemand) in
  call (pool_new_light client on_demand) ;;;
  let transaction_pool := TransactionPool in
  try_call (light_block_import client backend on_demand) ;;;
  let grandpa_import := GrandpaImport in
  let finality_proof_import := grandpa_import in
  let finality_proof_request_builder := ProofRequestBuilder in
  try_call (slot_duration client) ;;;
  try_call (aura_import_queue grandpa_import None (Some finality_proof_import) client
              Inherents Never) ;;;
  let import_queue := ImportQueue in
  let finality_proof_provider := ProofProvider in
  try_call (build_network client transaction_pool import_queue (Some on_demand)
              (Some finality_proof_request_builder) (Some finality_proof_provider)) ;;;
  let '(network, network_starter) := (Network, NetworkStarter) in
  (if offchain_worker_enabled config
   then call (build_offchain_workers backend client network) else ret tt) ;;;
  try_call (spawn_tasks network client keystore transaction_pool None (Some on_demand)
              (Some RemoteBlockchain) backend) ;;;
  call (start_network network_starter) ;;;
  ret task_manager.

(* ================================================================== *)
(** ** Plans: the constructions as lists of calls                      *)
(* ================================================================== *)

(** A call and whether it carries a [?]. *)
Definition Plan : Type := list (bool * Step).

(** Runs a plan up to its first refused call. *)
Fixpoint run_plan (p : Plan) : Build unit :=
  match p with
  | [] => ret tt
  | (fallible, c) :: p' => (if fallible then try_call c else call c) ;;; run_plan p'
  end.

Definition partial_plan : Plan :=
  [(true, new_full_parts); (false, pool_new_full Client_);
   (true, grandpa_block_import Client_ SelectChain); (true, slot_duration Client_);
   (true, aura_import_queue AuraImport (Some GrandpaImport) None Client_ Inherents WithNativeVersion)].

Definition workers_plan (c : Configuration) : Plan :=
  if offchain_worker_enabled c then [(false, build_offchain_workers Backend Client_ Network)] else [].

Definition authoring_plan (c : Configuration) : Plan :=
  if is_authority (role c) then
    [(true, slot_duration Client_);
     (true, start_aura Client_ SelectChain AuraImport Network Inherents (force_authoring c) Keystore
              WithNativeVersion);
     (false, spawn_essential "aura")]
  else [].

Definition finality_plan (c : Configuration) : Plan :=
  if disable_grandpa c then [(true, setup_disabled_grandpa Client_ Inherents Network)]
  else
    [(true, run_grandpa_voter
        (grandpa_config c (if is_authority (role c) then Some Keystore else None))
        GrandpaLink Network Inherents Telemetry);
     (false, spawn_essential "grandpa-voter")].

(** Everything before the network starts. *)
Definition full_setup (c : Configuration) : Plan :=
  partial_plan ++
  [(true, build_network Client_ TransactionPool ImportQueue None None (Some ProofProvider))] ++
  workers_plan c ++
  [(true, spawn_tasks Network Client_ Keystore TransactionPool (Some (Client_, TransactionPool))
            None None Backend)] ++
  authoring_plan c ++ finality_plan c.

Definition light_setup (c : Configuration) : Plan :=
  [(true, new_light_parts); (false, pool_new_light Client_ OnDemand);
   (true, light_block_import Client_ Backend OnDemand); (true, slot_duration Client_);
   (true, aura_import_queue GrandpaImport None (Some GrandpaImport) Client_ Inherents Never);
   (true, build_network Client_ TransactionPool ImportQueue (Some OnDemand)
            (Some ProofRequestBuilder) (Some ProofProvider))] ++
  workers_plan c ++
  [(true, spawn_tasks Network Client_ Keystore TransactionPool None (Some OnDemand)
            (Some RemoteBlockchain) Backend)].

Lemma run_plan_app p q t : run_plan (p ++ q) t = (run_plan p ;;; run_plan q) t.
Proof.
  revert t. induction p as [|[f c] p IH]; intros t; cbn [run_plan app]; [done|].
  unfold bind in *. destruct ((if f then try_call c else call c) t); [apply IH | done | done].
Qed.

(** A plan that goes through made all its calls; one that does not stopped at a
    refused call. *)
Lemma run_plan_Ok p t u t' : run_plan p t = Ok u t' -> t' = t ++ p.*2.
Proof.
  revert t. induction p as [|[f c] p IH]; intros t; cbn [run_plan].
  - intros [= _ <-]. by rewrite app_nil_r.
  - rewrite bind_Ok. intros (v & t1 & H1 & H2%IH). subst t'. cbn.
    assert (t1 = t ++ [c]) as ->.
    { destruct f; [unfold try_call in H1; by destruct (answer t c); simplify_eq | by injection H1]. }
    by rewrite <- app_assoc.
Qed.

Lemma run_plan_Err p t e t' :
  run_plan p t = Err e t' ->
  exists done_ c rest, p = done_ ++ (true, c) :: rest /\ t' = t ++ done_.*2 ++ [c] /\
    answer (t ++ done_.*2) c = Some e.
Proof.
  revert t. induction p as [|[f c] p IH]; intros t; cbn [run_plan]; [done|].
  unfold bind. destruct f; cbn.
  - unfold try_call. destruct (answer t c) as [e'|] eqn:Ha.
    + intros [= -> <-]. exists [], c, p. cbn. by rewrite app_nil_r.
    + intros (d & c' & rest & -> & -> & Hc)%IH. exists ((true, c) :: d), c', rest. cbn.
      split; [done|]. rewrite <- !app_assoc in *. done.
  - intros (d & c' & rest & -> & -> & Hc)%IH. exists ((false, c) :: d), c', rest. cbn.
    split; [done|]. rewrite <- !app_assoc in *. done.
Qed.

Lemma run_plan_no_panic p t : run_plan p t <> Panic.
Proof.
  revert t. induction p as [|[f c] p IH]; intros t; cbn [run_plan]; [done|].
  unfold bind. destruct f; cbn; [unfold try_call; destruct (answer t c); [done|] |]; apply IH.
Qed.

(** The constructions are their plans. *)
Lemma new_partial_plan c t :
  new_partial c t =
  (run_plan partial_plan ;;;
   ret (mkPartial Client_ Backend TaskManager ImportQueue Keystore SelectChain TransactionPool
          Inherents (AuraImport, GrandpaLink))) t.
Proof.
  unfold new_partial, partial_plan. cbn [run_plan]. unfold bind, try_call, call, modify, ret.
  repeat (case_match; simplify_eq; try done).
Qed.

Lemma new_full_plan c t :
  new_full c t =
  (run_plan (full_setup c) ;;; call (start_network NetworkStarter) ;;; ret TaskManager) t.
Proof.
  unfold new_full, full_setup, workers_plan, authoring_plan, finality_plan, partial_plan.
  destruct (offchain_worker_enabled c), (is_authority (role c)), (disable_grandpa c);
    cbn [app run_plan negb]; unfold new_partial, bind, try_call, call, modify, ret;
    repeat (case_match; simplify_eq; try done).
Qed.

Lemma new_light_plan c t :
  new_light c t =
  (run_plan (light_setup c) ;;; call (start_network NetworkStarter) ;;; ret TaskManager) t.
Proof.
  unfold new_light, light_setup, workers_plan.
  destruct (offchain_worker_enabled c);
    cbn [app run_plan negb]; unfold bind, try_call, call, modify, ret;
    repeat (case_match; simplify_eq; try done).
Qed.

(** A setup and the start of the network: all of it, or a part of the setup that
    ends in the refused call. *)
Lemma started_run p t (m : Build Part) :
  (forall t, m t = (run_plan p ;;; call (start_network NetworkStarter) ;;; ret TaskManager) t) ->
  (exists v, m t = Ok v (t ++ p.*2 ++ [start_network NetworkStarter]) /\ v = TaskManager) \/
  (exists e done_ c rest, p = done_ ++ (true, c) :: rest /\
     m t = Err e (t ++ done_.*2 ++ [c]) /\ answer (t ++ done_.*2) c = Some e).
Proof.
  intros Hm. specialize (Hm t). unfold bind at 1 in Hm. rewrite Hm. clear Hm.
  destruct (run_plan p t) as [u t'|e t'|] eqn:Hrun.
  - apply run_plan_Ok in Hrun as ->. left. exists TaskManager. split; [|done].
    unfold bind, call, modify, ret. by rewrite <- app_assoc.
  - apply run_plan_Err in Hrun as (d & c & rest & Hp & -> & He). right. exists e, d, c, rest. split_and!; [exact Hp | reflexivity | exact He].
  - by destruct (run_plan_no_panic p t).
Qed.

(** The questions a plan answers by evaluation. *)
Definition starts_network (c : Step) : bool := match c with start_network _ => true | _ => false end.
Definition authors (c : Step) : bool := match c with start_aura _ _ _ _ _ _ _ _ => true | _ => false end.
Definition votes (c : Step) : bool := match c with run_grandpa_voter _ _ _ _ _ => true | _ => false end.
Definition skips_voting (c : Step) : bool :=
  match c with setup_disabled_grandpa _ _ _ => true | _ => false end.
Definition works_offchain (c : Step) : bool :=
  match c with build_offchain_workers _ _ _ => true | _ => false end.
(** Calls that hand out the keystore beyond the rpc and task setup. *)
Definition uses_keys (c : Step) : bool :=
  match c with
  | start_aura _ _ _ _ _ _ _ _ => true
  | run_grandpa_voter config _ _ _ _ => match voter_keystore config with Some _ => true | None => false end
  | _ => false
  end.
Definition occurs (f : Step -> bool) (l : list Step) : bool := existsb f l.

Lemma occurs_app f l l' : occurs f (l ++ l') = occurs f l || occurs f l'.
Proof. apply existsb_app. Qed.

Lemma full_setup_facts c :
  occurs starts_network (full_setup c).*2 = false /\
  occurs authors (full_setup c).*2 = is_authority (role c) /\
  occurs votes (full_setup c).*2 = negb (disable_grandpa c) /\
  occurs skips_voting (full_setup c).*2 = disable_grandpa c /\
  occurs works_offchain (full_setup c).*2 = offchain_worker_enabled c /\
  (is_authority (role c) = false -> occurs uses_keys (full_setup c).*2 = false).
Proof.
  unfold full_setup, workers_plan, authoring_plan, finality_plan, partial_plan.
  destruct (offchain_worker_enabled c), (is_authority (role c)), (disable_grandpa c);
    split_and!; first [reflexivity | intros; reflexivity | intros; discriminate].
Qed.

Lemma light_setup_facts c :
  occurs starts_network (light_setup c).*2 = false /\
  occurs authors (light_setup c).*2 = false /\ occurs votes (light_setup c).*2 = false /\
  occurs skips_voting (light_setup c).*2 = false /\
  occurs works_offchain (light_setup c).*2 = offchain_worker_enabled c /\
  occurs uses_keys (light_setup c).*2 = false.
Proof.
  unfold light_setup, workers_plan.
  destruct (offchain_worker_enabled c); split_and!; reflexivity.
Qed.

(** What does not occur in a plan does not occur in a part of it. *)
Lemma part_free f (p done_ rest : Plan) c :
  p = done_ ++ (true, c) :: rest -> occurs f p.*2 = false -> occurs f (done_.*2 ++ [c]) = false.
Proof.
  intros ->. rewrite fmap_app, !occurs_app. cbn. rewrite !orb_false_iff. tauto.
Qed.
End Service.
