(* ===== verification/Command.v ===== *)
(** * The command line ([node/src/cli.rs], [node/src/command.rs])

    The subcommands, what [SubstrateCli] reports about the node, and [run]: which
    service a command builds and with which of its parts the command works.  The
    runner, the arguments and the commands themselves are [sc_cli]'s. *)

From S2P Require Export Service.

Local Open Scope N_scope.
Local Open Scope rust_scope.

(** [enum Subcommand]; the arguments of a command are its own affair. *)
Inductive Subcommand : Type :=
| BuildSpec | CheckBlock | ExportBlocks | ExportState | ImportBlocks | PurgeChain | Revert
| Benchmark.

(** [struct Cli]; the flattened [RunCmd] is what [None] runs. *)
Record Cli : Type := mkCli { subcommand : option Subcommand }.

(** [impl SubstrateCli for Cli]; three items come from the build environment. *)
Record CliInfo : Type := mkCliInfo {
  impl_name : string;
  impl_version : string;
  description : string;
  author : string;
  support_url : string;
  copyright_start_year : Z
}.

Definition cli_info (SUBSTRATE_CLI_IMPL_VERSION CARGO_PKG_DESCRIPTION CARGO_PKG_AUTHORS : string)
    : CliInfo :=
  mkCliInfo "Konomi Node" SUBSTRATE_CLI_IMPL_VERSION CARGO_PKG_DESCRIPTION CARGO_PKG_AUTHORS
    "support.anonymous.an" 2017.

(** What a command is given: parts of the service, or fields of the configuration. *)
Inductive Arg : Type :=
| APart (p : Part)
| AChainSpec
| ANetworkConfig
| ADatabase
| AConfig.

Inductive NodeStep : Type :=
| CreateRunner (cmd : option Subcommand)
| ServiceStep (c : Step)
| CmdRun (cmd : Subcommand) (args : list Arg)
| RunUntilExit (tasks : Part).

Section Command.
Context {roles : Roles} {lib : ServiceLib}.

(** [sc_cli]: the runner of a command has read the configuration or failed, and
    the command itself, or the wait for the exit signal, succeeds or fails. *)
Class CliLib : Type := {
  CliError : Type;
  runner : option Subcommand -> CliError + Configuration;
  outcome : NodeStep -> option CliError
}.

Context {cli_lib : CliLib}.

(** [sc_cli::Error], with its conversions from a service error and a string. *)
Inductive NodeError : Type :=
| Service_ (e : ServiceError)
| CliFailed (e : CliError)
| Input (msg : string).

Abbreviation Node A := (M (list NodeStep) NodeError A) (only parsing).

Definition create_runner (cmd : option Subcommand) : Node Configuration := fun t =>
  match runner cmd with
  | inl e => Err (CliFailed e) (t ++ [CreateRunner cmd])
  | inr config => Ok config (t ++ [CreateRunner cmd])
  end.

Definition finish (c : NodeStep) : Node unit := fun t =>
  match outcome c with
  | None => Ok tt (t ++ [c])
  | Some e => Err (CliFailed e) (t ++ [c])
  end.

(** [service::..(&config)?]: the calls of the construction, then its result. *)
Definition service {A} (m : M (list Step) ServiceError A) : Node A := fun t =>
  match m [] with
  | Ok a calls => Ok a (t ++ map ServiceStep calls)
  | Err e calls => Err (Service_ e) (t ++ map ServiceStep calls)
  | Panic => Panic
  end.

Definition no_benchmarks : string :=
  "Benchmarking wasn't enabled when building the node. You can enable it with `--features runtime-benchmarks`.".

Context (runtime_benchmarks : bool).      (** [cfg!(feature = "runtime-benchmarks")] *)

Definition run (cli : Cli) : Node unit :=
  match subcommand cli with
  | Some BuildSpec =>
      config <- create_runner (Some BuildSpec) ;;
      finish (CmdRun BuildSpec [AChainSpec; ANetworkConfig])
  | Some CheckBlock =>
      config <- create_runner (Some CheckBlock) ;;
      partial <- service (new_partial config) ;;
      finish (CmdRun CheckBlock [APart (client partial); APart (import_queue partial)])
  | Some ExportBlocks =>
      config <- create_runner (Some ExportBlocks) ;;
      partial <- service (new_partial config) ;;
      finish (CmdRun ExportBlocks [APart (client partial); ADatabase])
  | Some ExportState =>
      config <- create_runner (Some ExportState) ;;
      partial <- service (new_partial config) ;;
      finish (CmdRun ExportState [APart (client partial); AChainSpec])
  | Some ImportBlocks =>
      config <- create_runner (Some ImportBlocks) ;;
      partial <- service (new_partial config) ;;
      finish (CmdRun ImportBlocks [APart (client partial); APart (import_queue partial)])
  | Some PurgeChain =>
      config <- create_runner (Some PurgeChain) ;;
      finish (CmdRun PurgeChain [ADatabase])
  | Some Revert =>
      config <- create_runner (Some Revert) ;;
      partial <- service (new_partial config) ;;
      finish (CmdRun Revert [APart (client partial); APart (backend partial)])
  | Some Benchmark =>
      if runtime_benchmarks then
        config <- create_runner (Some Benchmark) ;;
        finish (CmdRun Benchmark [AConfig])
      else throw (Input no_benchmarks)
  | None =>
      config <- create_runner None ;;
      task_manager <- service (if is_light (role config) then new_light config else new_full config) ;;
      finish (RunUntilExit task_manager)
  end.

(* ================================================================== *)
(** ** Facts                                                           *)
(* ================================================================== *)

(** A question about the calls of the service, asked of a whole trace. *)
Definition in_service (f : Step -> bool) (c : NodeStep) : bool :=
  match c with ServiceStep c => f c | _ => false end.
Definition happens (f : Step -> bool) (t : list NodeStep) : bool := existsb (in_service f) t.

Lemma happens_app f t t' : happens f (t ++ t') = happens f t || happens f t'.
Proof. apply existsb_app. Qed.
Lemma happens_calls f l : happens f (map ServiceStep l) = occurs f l.
Proof. unfold happens, occurs. induction l as [|c l IH]; [done|]. cbn. by rewrite IH. Qed.

(** Whether a run makes no call of a kind. *)
Definition quiet_on {A} (f : Step -> bool) (m : Node A) : Prop := forall t,
  match m t with Ok _ t' | Err _ t' => happens f t' = happens f t | Panic => False end.

Lemma quiet_bind {A B} f (m : Node A) (k : A -> Node B) :
  quiet_on f m -> (forall a, quiet_on f (k a)) -> quiet_on f (bind m k).
Proof.
  intros Hm Hk t. unfold bind. specialize (Hm t). destruct (m t) as [a t'|e t'|]; [|done|done].
  specialize (Hk a t'). destruct (k a t'); congruence.
Qed.
Lemma quiet_runner f cmd : quiet_on f (create_runner cmd).
Proof.
  intros t. unfold create_runner. destruct (runner cmd); rewrite happens_app; cbn; by rewrite orb_false_r.
Qed.
Lemma quiet_finish f c : in_service f c = false -> quiet_on f (finish c).
Proof.
  intros Hc t. unfold finish. destruct (outcome c); rewrite happens_app; cbn;
    by rewrite Hc, orb_false_r.
Qed.
Lemma quiet_throw {A} f e : quiet_on f (throw e : Node A).
Proof. by intros t. Qed.

Lemma quiet_partial f c : occurs f partial_plan.*2 = false -> quiet_on f (service (new_partial c)).
Proof.
  intros Hf t. unfold service. rewrite new_partial_plan. unfold bind.
  destruct (run_plan partial_plan []) as [u l|e l|] eqn:Hrun; cbn [ret].
  - apply run_plan_Ok in Hrun as ->. rewrite happens_app, happens_calls. cbn [app].
    by rewrite Hf, orb_false_r.
  - apply run_plan_Err in Hrun as (d & s & rest & Hp & -> & _).
    rewrite happens_app, happens_calls. cbn [app]. by rewrite (part_free f _ _ _ _ Hp Hf), orb_false_r.
  - by destruct (run_plan_no_panic partial_plan []).
Qed.

Lemma quiet_setup f p m :
  (forall t, m t = (run_plan p ;;; call (start_network NetworkStarter) ;;; ret TaskManager) t) ->
  occurs f p.*2 = false -> f (start_network NetworkStarter) = false ->
  quiet_on f (service m).
Proof.
  intros Hm Hf Hn t. unfold service.
  destruct (started_run p [] m Hm) as [(v & -> & _) | (e & d & s & rest & Hp & -> & _)];
    rewrite happens_app, happens_calls; cbn [app].
  - rewrite occurs_app, Hf. cbn. by rewrite Hn, orb_false_r.
  - by rewrite (part_free f _ _ _ _ Hp Hf), orb_false_r.
Qed.

(** A subcommand makes no call of the service beyond the partial construction. *)
Lemma quiet_subcommand f cmd :
  occurs f partial_plan.*2 = false -> quiet_on f (run (mkCli (Some cmd))).
Proof.
  intros Hf. destruct cmd; cbn [run subcommand]; try (destruct runtime_benchmarks);
    repeat first [ apply quiet_throw | apply quiet_runner | by apply quiet_partial
                 | by apply quiet_finish | apply quiet_bind; [|intros ?] ].
Qed.

(** The node command, for the kinds of calls its construction does not make. *)
Lemma quiet_node f config :
  is_light (role config) = true -> occurs f (light_setup config).*2 = false ->
  f (start_network NetworkStarter) = false ->
  quiet_on f (task_manager <- service (if is_light (role config) then new_light config
                                       else new_full config) ;;
              finish (RunUntilExit task_manager)).
Proof.
  intros -> Hf Hn. apply quiet_bind; [|intros tasks; by apply quiet_finish].
  apply (quiet_setup f (light_setup config)); [apply new_light_plan | done | done].
Qed.

Lemma occurs_nothing l : occurs (fun _ => false) l = false.
Proof. unfold occurs. by induction l. Qed.

Lemma node_ends t : run (mkCli None) t <> Panic.
Proof.
  assert (quiet_on (fun _ => false) (run (mkCli None))) as Hq.
  { cbn [run subcommand]. apply quiet_bind; [apply quiet_runner|]. intros config.
    apply quiet_bind; [|intros tasks; by apply quiet_finish].
    destruct (is_light (role config)).
    - apply (quiet_setup _ (light_setup config)); [apply new_light_plan | apply occurs_nothing | done].
    - apply (quiet_setup _ (full_setup config)); [apply new_full_plan | apply occurs_nothing | done]. }
  specialize (Hq t). by destruct (run (mkCli None) t).
Qed.

Lemma node_run config t :
  runner None = inr config ->
  run (mkCli None) t =
    (task_manager <- service (if is_light (role config) then new_light config
                              else new_full config) ;;
     finish (RunUntilExit task_manager)) (t ++ [CreateRunner None]).
Proof. intros Hr. cbn [run subcommand]. unfold bind at 1, create_runner. by rewrite Hr. Qed.

(** A full node that came up has made every call of its plan. *)
Lemma full_node_up f config u t t' :
  runner None = inr config -> is_light (role config) = false ->
  run (mkCli None) t = Ok u t' -> occurs f (full_setup config).*2 = true \/ f (start_network NetworkStarter) = true ->
  happens f t' = true.
Proof.
  intros Hr Hlight Hrun Hf. rewrite (node_run config t Hr), Hlight in Hrun.
  apply bind_Ok in Hrun as (v & t1 & H1 & H2). unfold service in H1.
  destruct (started_run (full_setup config) [] (new_full config) (new_full_plan config))
    as [(w & Hm & _) | (e & d & c & rest & _ & Hm & _)]; rewrite Hm in H1; [|done].
  remember ([] ++ (full_setup config).*2 ++ [start_network NetworkStarter]) as calls eqn:Hcalls.
  injection H1 as _ <-. unfold finish in H2. destruct (outcome _); [done|]. injection H2 as _ <-.
  rewrite !happens_app, happens_calls, Hcalls. cbn [app]. rewrite occurs_app. cbn [occurs existsb].
  destruct Hf as [-> | ->]; by rewrite ?orb_true_r.
Qed.
End Command.
