(* ===== verification/Extrinsic.v ===== *)
(** * Constants and signed transactions of the runtime ([runtime/src/lib.rs])

    The time and weight constants, the version, [create_transaction] - how an
    offchain call becomes a signed extrinsic - and the two answers of the GRANDPA
    api that are fixed.  The signed payload, the era and the signing key are
    dependencies. *)

From S2P Require Export Runtime.

Local Open Scope N_scope.
Local Open Scope rust_scope.

(* ================================================================== *)
(** ** Constants                                                       *)
(* ================================================================== *)

Record RuntimeVersion : Type := mkVersion {
  version_spec_name : string;
  version_impl_name : string;
  authoring_version : N;
  spec_version : N;
  impl_version : N;
  transaction_version : N
}.

Definition VERSION : RuntimeVersion := mkVersion "konomi-node" "konomi-node" 1 1 1 1.

(** The version next to the ones this node can also author with: none. *)
Record NativeVersion : Type := mkNative {
  runtime_version : RuntimeVersion;
  can_author_with : list N
}.
Definition native_version : NativeVersion := mkNative VERSION [].

Definition MILLISECS_PER_BLOCK : N := 6000.
Definition SLOT_DURATION : N := MILLISECS_PER_BLOCK.
Definition MINUTES : BlockNumber := 60000 / as_u32 MILLISECS_PER_BLOCK.
Definition HOURS : BlockNumber := MINUTES * 60.
Definition DAYS : BlockNumber := HOURS * 24.

Definition BlockHashCount : BlockNumber := 2400.

(** [Perbill] counts billionths; [WEIGHT_PER_SECOND] and the product of a [Perbill]
    and a weight are the dependency's. *)
Definition from_percent (x : N) : N := x * 10000000.
Definition AvailableBlockRatio : N := from_percent 75.
Definition MaximumBlockWeight (WEIGHT_PER_SECOND : N) : N := 2 * WEIGHT_PER_SECOND.
Definition MaximumExtrinsicWeight (perbill_mul : N -> N -> N) (WEIGHT_PER_SECOND : N) : N :=
  perbill_mul (AvailableBlockRatio - from_percent 10) (MaximumBlockWeight WEIGHT_PER_SECOND).
Definition MaximumBlockLength : N := 5 * 1024 * 1024.

Definition MinimumPeriod : N := SLOT_DURATION / 2.
Definition ExistentialDeposit : N := 500.
Definition MaxLocks : N := 50.
Definition TransactionByteFee : Balance := 1.

(** The GRANDPA api: equivocation reports and key ownership proofs are declined. *)
Definition submit_report_equivocation_unsigned_extrinsic {P K : Type}
    (_equivocation_proof : P) (_key_owner_proof : K) : option unit := None.
Definition generate_key_ownership_proof {S A K : Type} (_set_id : S) (_authority_id : A)
    : option K := None.

(* ================================================================== *)
(** ** Signed transactions                                             *)
(* ================================================================== *)

(** The dependency: eras, the payload that is signed - a call, the extension and the
    data the extension adds from the chain, refused when there are none - and a
    signing key. *)
Class Signing `{Accounts} : Type := {
  Era : Type;
  era_mortal : N -> N -> Era;
  Public : Type;
  Signature : Type
}.

Section Transactions.
Context {cfg : Config} {sg : Signing}.

(** [SignedExtra]: the components that carry data; the other four are unit types. *)
Record SignedExtra : Type := mkSignedExtra {
  check_era : Era;
  check_nonce : N;
  charge_tip : Balance
}.

Context (new_payload : Call -> SignedExtra -> Chain -> option (list N)).
Context (sign : list N -> Public -> option Signature).

Definition create_transaction (call : Call) (public : Public) (account : AccountId) (index : N)
    (s : Chain) : option (Call * (AccountId * Signature * SignedExtra)) :=
  let period := BlockHashCount in
  let current_block := block_number s - 1 in
  let tip := 0 in
  let extra := mkSignedExtra (era_mortal period current_block) index tip in
  raw_payload <-? new_payload call extra s ;;
  signature <-? sign raw_payload public ;;
  Some (call, (account, signature, extra)).

Lemma create_transaction_Some call public account index s t :
  create_transaction call public account index s = Some t <->
  exists payload signature,
    let extra := mkSignedExtra (era_mortal BlockHashCount (block_number s - 1)) index 0 in
    new_payload call extra s = Some payload /\ sign payload public = Some signature /\
    t = (call, (account, signature, extra)).
Proof.
  unfold create_transaction. cbv zeta. split.
  - intros (payload & Hp & (signature & Hs & [= <-])%obind_Some)%obind_Some. eauto.
  - intros (payload & signature & Hp & Hs & ->). rewrite Hp. cbn. by rewrite Hs.
Qed.
End Transactions.

(** Blocks of six seconds make ten of them a minute. *)
Example a_day : (MINUTES, HOURS, DAYS) = (10, 600, 14400).
Proof. reflexivity. Qed.
