(* ===== verification/Executive.v ===== *)
(** * The entry points of the runtime ([runtime/src/lib.rs])

    [construct_runtime!] puts the four pallets next to those of the framework and
    [impl_runtime_apis!] exposes all of them to the client.  The executive, which runs
    blocks, and the framework's pallets are dependencies: the class [Framework] of the
    operations the runtime api hands its arguments to.  Nothing is assumed about them. *)

From S2P Require Export Extrinsic.

Local Open Scope N_scope.
Local Open Scope rust_scope.

(* ================================================================== *)
(** ** The outer call and its unsigned validation                      *)
(* ================================================================== *)

Section Composition.
Context {acc : Accounts}.

(** The call of an extrinsic: to a pallet of the framework or to one of the four. *)
Inductive RuntimeCall (FrameworkCall : Type) : Type :=
| FrameworkPallet (c : FrameworkCall)
| OwnPallet (c : Call).
Arguments FrameworkPallet {_} c.
Arguments OwnPallet {_} c.

(** Of all pallets of [construct_runtime!] only the offchain worker's lists
    [ValidateUnsigned]; other unsigned calls have no validator ([None]). *)
Definition runtime_validate_unsigned {F} (c : RuntimeCall F) (s : Chain) : option TransactionValidity :=
  match c with
  | OwnPallet (CallOffchainWorker call) => Some (validate_unsigned call s)
  | _ => None
  end.
End Composition.
Arguments FrameworkPallet {_ _} c.
Arguments OwnPallet {_ _} c.

(* ================================================================== *)
(** ** The framework                                                   *)
(* ================================================================== *)

(** [frame_executive::Executive] at this runtime, the framework's pallets and the
    generated metadata and session keys.  [World] is the whole storage; a trap is
    [None]. *)
Class Framework `{Accounts} : Type := {
  World : Type;
  Header : Type;
  UncheckedExtrinsic : Type;
  Block : Type;
  ApplyExtrinsicResult : Type;
  TransactionSource : Type;
  Executive_execute_block : Block -> World -> option World;
  Executive_initialize_block : Header -> World -> option World;
  Executive_apply_extrinsic : UncheckedExtrinsic -> World -> option (ApplyExtrinsicResult * World);
  Executive_finalize_block : World -> option (Header * World);
  Executive_validate_transaction :
    TransactionSource -> UncheckedExtrinsic -> World -> option TransactionValidity;
  Executive_offchain_worker : (BlockNumber -> RT string unit) -> Header -> World -> option World;
  (** views of the framework's pallets and of generated code *)
  OpaqueMetadata : Type;
  Runtime_metadata : OpaqueMetadata;
  InherentData : Type;
  CheckInherentsResult : Type;
  create_extrinsics : InherentData -> World -> list UncheckedExtrinsic;
  check_extrinsics : InherentData -> Block -> World -> CheckInherentsResult;
  Hash : Type;
  RandomnessCollectiveFlip_random_seed : World -> Hash;
  AuraId : Type;
  Aura_slot_duration : World -> N;
  Aura_authorities : World -> list AuraId;
  KeyTypeId : Type;
  SessionKeys_generate : option (list N) -> list N;
  SessionKeys_decode_into_raw_public_keys : list N -> option (list (list N * KeyTypeId));
  GrandpaAuthorityList : Type;
  Grandpa_grandpa_authorities : World -> GrandpaAuthorityList;
  System_account_nonce : AccountId -> World -> N;
  RuntimeDispatchInfo : Type;
  TransactionPayment_query_info : UncheckedExtrinsic -> N -> World -> RuntimeDispatchInfo
}.

(** *** The runtime api *)

Section Apis.
Context {acc : Accounts} {fw : Framework}.

Definition api_version : RuntimeVersion := VERSION.
Definition api_execute_block (block : Block) : World -> option World := Executive_execute_block block.
Definition api_initialize_block (header : Header) : World -> option World :=
  Executive_initialize_block header.
Definition api_metadata : OpaqueMetadata := Runtime_metadata.
Definition api_apply_extrinsic (extrinsic : UncheckedExtrinsic)
    : World -> option (ApplyExtrinsicResult * World) := Executive_apply_extrinsic extrinsic.
Definition api_finalize_block : World -> option (Header * World) := Executive_finalize_block.
Definition api_inherent_extrinsics (data : InherentData) : World -> list UncheckedExtrinsic :=
  create_extrinsics data.
Definition api_check_inherents (block : Block) (data : InherentData) : World -> CheckInherentsResult :=
  check_extrinsics data block.
Definition api_random_seed : World -> Hash := RandomnessCollectiveFlip_random_seed.
Definition api_validate_transaction (source : TransactionSource) (tx : UncheckedExtrinsic)
    : World -> option TransactionValidity := Executive_validate_transaction source tx.
Definition api_slot_duration : World -> N := Aura_slot_duration.
Definition api_authorities : World -> list AuraId := Aura_authorities.
Definition api_generate_session_keys (seed : option (list N)) : list N := SessionKeys_generate seed.
Definition api_decode_session_keys (encoded : list N) : option (list (list N * KeyTypeId)) :=
  SessionKeys_decode_into_raw_public_keys encoded.
Definition api_grandpa_authorities : World -> GrandpaAuthorityList := Grandpa_grandpa_authorities.
Definition api_account_nonce (account : AccountId) : World -> N := System_account_nonce account.
Definition api_query_info (uxt : UncheckedExtrinsic) (len : N) : World -> RuntimeDispatchInfo :=
  TransactionPayment_query_info uxt len.
End Apis.

(** The hooks of the pallets: only the offchain worker's pallet has one. *)
Definition api_offchain_worker {cfg : Config} {fw : Framework} {lj : LiteJson} {host : OffchainHost}
    (header : Header) : World -> option World := Executive_offchain_worker offchain_worker header.

(* ================================================================== *)
(** ** Benchmarks                                                      *)
(* ================================================================== *)

(** [add_benchmark!] runs the benchmarks of a pallet that the configuration asks for
    and appends their results, or fails; it is a macro of the library, like
    [hex_literal::hex!]. *)
Section Benchmarks.
Context {BenchmarkConfig TrackedStorageKey BenchmarkBatch : Type}.
Context (hex : string -> TrackedStorageKey).
Context (add_benchmark : BenchmarkConfig * list TrackedStorageKey -> list BenchmarkBatch -> string ->
           string + list BenchmarkBatch).

(** The storage keys that are not counted: block number, total issuance, execution
    phase, event count and events. *)
Definition whitelist : list TrackedStorageKey :=
  map hex
    ["26aa394eea5630e07c48ae0c9558cef702a5c1b19ab7a04f536c519aca4983ac";
     "c2261276cc9d1f8598ea4b6a74b15c2f57c875e4cff74148e4628f264b974c80";
     "26aa394eea5630e07c48ae0c9558cef7ff553b5a9862a516939d82b3d3d8661a";
     "26aa394eea5630e07c48ae0c9558cef70a98fdbe9ce6c55837576c60c7af3850";
     "26aa394eea5630e07c48ae0c9558cef780d41e5e16056765bc8461851072c9d7"]%string.

(** The pallets in order; the first failure ends the run. *)
Fixpoint run_benchmarks (params : BenchmarkConfig * list TrackedStorageKey) (pallets : list string)
    (batches : list BenchmarkBatch) : string + list BenchmarkBatch :=
  match pallets with
  | [] => inr batches
  | name :: pallets' =>
      match add_benchmark params batches name with
      | inl e => inl e
      | inr batches' => run_benchmarks params pallets' batches'
      end
  end.

Definition dispatch_benchmark (config : BenchmarkConfig) : string + list BenchmarkBatch :=
  let params := (config, whitelist) in
  match run_benchmarks params ["frame_system"; "pallet_balances"; "pallet_timestamp"]%string [] with
  | inl e => inl e
  | inr [] => inl "Benchmark not found for this pallet."%string
  | inr batches => inr batches
  end.

(** A configuration that names no pallet of the three is an error, never an empty
    list of results. *)
Lemma dispatch_benchmark_found config : dispatch_benchmark config <> inr [].
Proof. unfold dispatch_benchmark. by destruct (run_benchmarks _ _ _) as [|[|]]. Qed.
Lemma dispatch_benchmark_unknown config :
  (forall batches name, add_benchmark (config, whitelist) batches name = inr batches) ->
  dispatch_benchmark config = inl "Benchmark not found for this pallet."%string.
Proof. intros H. unfold dispatch_benchmark. cbn [run_benchmarks]. by rewrite !H. Qed.
End Benchmarks.
