(* ===== verification/Samples.v ===== *)
(** * A concrete chain

    A checked and a wrapping build over numeric accounts and the reference
    fixed-point numbers, the storage of the lending pallet's mock runtime
    ([pallets/lending/src/mock.rs]) and the states the witnesses start from. *)

From S2P Require Export Runtime.

Local Open Scope N_scope.
Local Open Scope rust_scope.

Export RefFixed.

(** The lending account and the exchange accounts are far from the users'. *)
Definition sample_accounts : Accounts := {|
  AccountId := N;
  AccountId_default := 0;
  lending_account_id := 6;
  hash_account := fun buf => 10000 + nth 26 buf 0
|}.

Definition sample_config (checks : bool) : Config := mkConfig sample_accounts checks.

Definition checked_build : Config := sample_config true.
Definition wrapping_build : Config := sample_config false.

Section Sample.
Context (checks : bool).
#[local] Instance build : Config := sample_config checks.

Definition alice : AccountId := (1 : N).
Definition bob : AccountId := (2 : N).

(** [struct ExtBuilder] of [pallets/lending/src/mock.rs] *)
Record ExtBuilder : Type := mkExtBuilder {
  ext_assets : list (AccountId * Balance * N);
  ext_owner : AccountId;
  ext_pools : list AssetId
}.

(** [impl Default for ExtBuilder]: user 1 holds two assets, user 2 is the owner that
    gets [500000] of each. *)
Definition ExtBuilder_default : ExtBuilder :=
  mkExtBuilder [(alice, 1000000000000000000, 100); (alice, 1000000000000000000, 60)] bob [0; 1].

(** What [build] hands to the two pallets of the mock; the mock has no swap pallet,
    whose fee rate is left at its default. *)
Definition ExtBuilder_genesis (b : ExtBuilder) : GenesisConfig :=
  mkGenesis (ext_owner b) (ext_assets b) 0 (ext_pools b).

Definition ExtBuilder_build (b : ExtBuilder) : Outcome Chain string unit :=
  build_genesis (ExtBuilder_genesis b).

Definition test_genesis : GenesisConfig := ExtBuilder_genesis ExtBuilder_default.

(** Runs a call and keeps the storage it leaves. *)
Definition after (m : RT DispatchError unit) (s : Chain) : Chain :=
  match m s with Ok _ s' | Err _ s' => s' | Panic => s end.

Definition ok {E A} (o : Outcome Chain E A) : bool :=
  match o with Ok _ _ => true | _ => false end.

Definition genesis_state (g : GenesisConfig) : Chain :=
  match build_genesis g with Ok _ s | Err _ s => s | Panic => genesis_storage g end.

(** [System::set_block_number] *)
Definition at_block (n : BlockNumber) (s : Chain) : Chain := set_block_number n s.

(** [new_test_ext()] *)
Definition new_test_ext : Chain := at_block 1 (genesis_state test_genesis).

(** Two users supplied one asset each and user 2 borrowed. *)
Definition borrowed_state : Chain :=
  after (borrow (Signed bob) 0 10000)
    (after (supply (Signed bob) 1 100000) (after (supply (Signed alice) 0 100000) new_test_ext)).

(** ... the collateral lost its value ... *)
Definition crashed_state : Chain :=
  after (set_price Root 1 (fx_from_integer 5)) borrowed_state.

(** ... after half of it was borrowed out of the pool. *)
Definition drained_state : Chain :=
  after (set_price Root 1 (fx_from_integer 5))
    (after (borrow (Signed alice) 1 50000) borrowed_state).

(** Pool 1 against the inherent asset 0: reserves 1000 and 5000. *)
Definition swap_state : Chain :=
  after (add_liquidity (Signed alice) 1 1000 5000 0) new_test_ext.

(** A third asset with its own pool. *)
Definition two_pools_state : Chain :=
  after (add_liquidity (Signed alice) 2 1000 8000 0) (after (issue (Signed alice) 80000) swap_state).

Lemma defined {A} (d : A) (o : option A) : bool_decide (is_Some o) = true -> o = Some (default d o).
Proof. by intros [t ->]%bool_decide_eq_true. Qed.

(** A pool of a state, and the pool accrued to its block. *)
Definition pool_at (id : AssetId) (s : Chain) : Pool :=
  default (mkPool false false 0 0 0 0 0 0 0 0 0 0 0) (pool id (lending s)).
Definition accrued_at (id : AssetId) (s : Chain) : Pool :=
  default (pool_at id s) (accrue_interest_at (block_number s) (pool_at id s)).

(** Both conditions on a pool, decided. *)
Definition pool_okb (p : Pool) : bool :=
  (pool_supply p <=? u128_max) && (pool_debt p <=? u128_max) &&
  (fx_one <=? total_supply_index p) && (total_supply_index p <=? u128_max) &&
  (fx_one <=? total_debt_index p) && (total_debt_index p <=? u128_max) &&
  (initial_interest_rate p <=? u128_max).

Lemma pool_okb_ok p : pool_okb p = true -> pool_ok p.
Proof.
  unfold pool_okb. rewrite !andb_true_iff, !N.leb_le. intros ((((((? & ?) & ?) & ?) & ?) & ?) & ?).
  by split.
Qed.

Definition fitsb (rate elapsed : option N) : bool :=
  match rate, elapsed with
  | Some r, Some t =>
      match fx_mul r (fx_from_integer t) with Some i => fx_one + i <=? u128_max | None => true end
  | _, _ => true
  end.

Definition accrual_fitsb (now : BlockNumber) (p : Pool) : bool :=
  fitsb (supply_rate_internal p) (elapsed_blocks now p) &&
  fitsb (debt_rate_internal p) (elapsed_blocks now p).

Lemma fitsb_fits rate elapsed : fitsb rate elapsed = true -> interest_fits rate elapsed.
Proof. unfold fitsb. intros Hb r t i -> -> Hi. rewrite Hi in Hb. by apply N.leb_le. Qed.

Lemma accrual_fitsb_fits now p : accrual_fitsb now p = true -> accrual_fits now p.
Proof.
  unfold accrual_fitsb. rewrite andb_true_iff. intros [H1 H2]. split; by apply fitsb_fits.
Qed.

Lemma ran (m : RT DispatchError unit) s : ok (m s) = true -> m s = Ok tt (after m s).
Proof. unfold after. by destruct (m s) as [[] ?|?|]. Qed.

Lemma genesis_ran g : ok (build_genesis g) = true -> build_genesis g = Ok tt (genesis_state g).
Proof. unfold genesis_state. by destruct (build_genesis g) as [[] ?|?|]. Qed.

Lemma at_block_ok n s : chain_ok s -> chain_ok (at_block n s).
Proof. intros [H1 H2 H3]. by split. Qed.

Lemma after_ok origin c s :
  checks = true -> call_decodes c -> chain_ok s -> chain_ok (after (dispatch origin c) s).
Proof.
  intros Hc Hdec Hok. unfold after. destruct (dispatch origin c s) as [[] s'|e s'|] eqn:Hrun; [| |done].
  - exact (dispatch_chain_ok (cfg := build) Hc origin c s s' Hdec (f_equal final Hrun) Hok).
  - exact (dispatch_chain_ok (cfg := build) Hc origin c s s' Hdec (f_equal final Hrun) Hok).
Qed.

(** The sample states keep the invariants because the steps do. *)
Hypothesis checked : checks = true.
Hypothesis started : ok (build_genesis test_genesis) = true.

Lemma new_test_ext_chain_ok : chain_ok new_test_ext.
Proof.
  apply at_block_ok, (genesis_chain_ok (cfg := build) checked test_genesis).
  - unfold genesis_decodes. cbn. repeat (constructor; [by vm_compute|]). constructor.
  - by apply genesis_ran.
Qed.

Lemma borrowed_chain_ok : chain_ok borrowed_state.
Proof.
  apply (after_ok (Signed bob) (CallLending (call_borrow 0 10000)) _ checked eq_refl).
  apply (after_ok (Signed bob) (CallLending (call_supply 1 100000)) _ checked eq_refl).
  apply (after_ok (Signed alice) (CallLending (call_supply 0 100000)) _ checked eq_refl).
  apply new_test_ext_chain_ok.
Qed.

Lemma crash_decodes : call_decodes (CallAssets (call_set_price 1 (fx_from_integer 5))).
Proof. by vm_compute. Qed.

Lemma crashed_chain_ok : chain_ok crashed_state.
Proof.
  apply (after_ok Root (CallAssets (call_set_price 1 (fx_from_integer 5))) _ checked crash_decodes).
  apply borrowed_chain_ok.
Qed.

Lemma drained_chain_ok : chain_ok drained_state.
Proof.
  apply (after_ok Root (CallAssets (call_set_price 1 (fx_from_integer 5))) _ checked crash_decodes).
  apply (after_ok (Signed alice) (CallLending (call_borrow 1 50000)) _ checked eq_refl).
  apply borrowed_chain_ok.
Qed.

Lemma swap_chain_ok : chain_ok swap_state.
Proof.
  apply (after_ok (Signed alice) (CallSwap (call_add_liquidity 1 1000 5000 0)) _ checked eq_refl).
  apply new_test_ext_chain_ok.
Qed.

Lemma two_pools_chain_ok : chain_ok two_pools_state.
Proof.
  apply (after_ok (Signed alice) (CallSwap (call_add_liquidity 2 1000 8000 0)) _ checked eq_refl).
  apply (after_ok (Signed alice) (CallAssets (call_issue 80000))); [done|by vm_compute|].
  apply swap_chain_ok.
Qed.
End Sample.

(** Closes a goal about concrete values by evaluating it. *)
Ltac evaluate := vm_compute; first [reflexivity | discriminate | by eexists].

(** The states of the checked build. *)
Section Checked.
#[local] Instance checked_instance : Config := checked_build.

Lemma started : ok true (build_genesis (test_genesis true)) = true.
Proof. by vm_compute. Qed.

Lemma new_test_ext_ok : chain_ok (new_test_ext true).
Proof. apply new_test_ext_chain_ok; [done | apply started]. Qed.
Lemma borrowed_state_ok : chain_ok (borrowed_state true).
Proof. apply borrowed_chain_ok; [done | apply started]. Qed.
Lemma crashed_state_ok : chain_ok (crashed_state true).
Proof. apply crashed_chain_ok; [done | apply started]. Qed.
Lemma drained_state_ok : chain_ok (drained_state true).
Proof. apply drained_chain_ok; [done | apply started]. Qed.
Lemma swap_state_ok : chain_ok (swap_state true).
Proof. apply swap_chain_ok; [done | apply started]. Qed.
Lemma two_pools_state_ok : chain_ok (two_pools_state true).
Proof. apply two_pools_chain_ok; [done | apply started]. Qed.
End Checked.

(* ================================================================== *)
(** ** A world outside the chain                                       *)
(* ================================================================== *)

(** A JSON library that knows three documents, and a host that serves the first. *)
Inductive SampleJson : Type :=
| SampleObject (obj : list (list N * SampleJson))
| SampleNumber (n : NumberValue).

Definition usd_document : list N := bytes_of "{'USD':19234.567}".
Definition short_document : list N := bytes_of "{'USD':12.5}".
Definition scaled_document : list N := bytes_of "{'USD':1.25e3}".

Definition sample_parse (str : list N) : option SampleJson :=
  if decide (str = usd_document) then Some (SampleObject [(usd, SampleNumber (mkNumber 19234 567 3 0))])
  else if decide (str = short_document) then Some (SampleObject [(usd, SampleNumber (mkNumber 12 5 1 0))])
  else if decide (str = scaled_document) then Some (SampleObject [(usd, SampleNumber (mkNumber 1 25 2 3))])
  else None.

Definition sample_json : LiteJson := {|
  JsonValue := SampleJson;
  parse_json := sample_parse;
  as_object v := match v with SampleObject obj => Some obj | _ => None end;
  as_number v := match v with SampleNumber n => Some n | _ => None end
|}.

Definition sample_host : OffchainHost := {|
  timestamp := 0;
  PendingRequest := unit;
  send_get := fun _ _ => Some tt;
  try_wait := fun _ _ => Some (inr (mkResponse 200 usd_document));
  submit_unsigned_transaction := fun _ => true
|}.
