(* ===== verification/Replays.v ===== *)
(** * The tests of the lending and the swap pallet, replayed

    [pallets/lending/src/tests.rs] and the module [tests] at the end of
    [pallets/swap/src/lib.rs] as scripts over the model, assertion by assertion.
    Like the tests, the scripts drop the results the tests drop and stop at a panic
    or a failed assertion.  [FixedU128::from_fraction] of a decimal is the decimal.
    The calls the swap tests make on the swap pallet that have moved to the assets
    pallet ([issue], [set_inherent_asset], the getters of the balances) are made
    there. *)

From S2P Require Export Samples.

Local Open Scope N_scope.
Local Open Scope rust_scope.

(** A test: [Err] is a failed assertion, a panic a panic. *)
Abbreviation Test := (RT unit unit) (only parsing).

Section Assertions.
Context {acc : Accounts}.

(** [f(..);], [assert_ok!(f(..))], [assert_eq!(a, b)], [assert_ne!(a, b)], [assert!(b)] *)
Definition us (m : RT DispatchError unit) : Test := ignore m.
Definition assert_ok (m : RT DispatchError unit) : Test := map_err (fun _ => tt) m.
Definition assert_eq (a b : N) : Test := ensure (a =? b) tt.
Definition assert_ne (a b : N) : Test := ensure (negb (a =? b)) tt.
Definition assert (b : bool) : Test := ensure b tt.
(** [System::set_block_number(n)] *)
Definition set_number (n : BlockNumber) : Test := modify (set_block_number n).
End Assertions.

(* ================================================================== *)
(** ** The lending pallet                                              *)
(* ================================================================== *)

Section Lending_tests.
#[local] Instance lending_build : Config := checked_build.

Definition USER1 : AccountId := (1 : N).
Definition USER2 : AccountId := (2 : N).
Definition ASSET1 : AssetId := 0.
Definition ASSET2 : AssetId := 1.

(** [Lending::pool(id).unwrap()] and its kin *)
Definition the_pool (id : AssetId) : RT unit Pool := p <- get_lending (pool id) ;; or_panic p.
Definition the_supply (id : AssetId) (who : AccountId) : RT unit UserSupply :=
  us <- get_lending (user_supply id who) ;; or_panic us.

Definition can_supply : Test :=
  user_balance_before <- get_assets (get_asset_balance ASSET1 USER1) ;;
  assert_ok (supply (Signed USER1) ASSET1 100000) ;;;
  user_supply <- the_supply ASSET1 USER1 ;;
  assert_eq (us_amount user_supply) 100000 ;;;
  assert_eq (us_index user_supply) fx_one ;;;
  pool_supplied <- the_pool ASSET1 ;;
  assert_eq (pool_supply pool_supplied) 100000 ;;;
  assert_eq (total_supply_index pool_supplied) fx_one ;;;
  now <- gets block_number ;;
  assert_eq (last_updated pool_supplied) now ;;;
  set <- get_lending (user_supply_set USER1) ;;
  assert (bool_decide (set = [ASSET1])) ;;;
  user_balance_after <- get_assets (get_asset_balance ASSET1 USER1) ;;
  paid <- or_panic (u128_sub user_balance_before user_balance_after) ;;
  assert_eq paid 100000.

Definition check_accrue_interest : Test :=
  let point_one := 100000000000000000 in
  supply_amount <- or_panic (u128_mul 2 point_one) ;;
  let borrow_amount := point_one in
  set_number 1 ;;;
  us (supply (Signed USER1) ASSET1 supply_amount) ;;;
  us (borrow (Signed USER1) ASSET1 borrow_amount) ;;;
  set_number 11 ;;;
  us (supply (Signed USER1) ASSET1 supply_amount) ;;;
  let debt_multiplier := 1000000231000000000 in
  let supply_multiplier := 1000000115500000000 in
  expected_supply <- or_panic (u128_add (fx_mul_int supply_multiplier supply_amount) supply_amount) ;;
  let expected_borrow := fx_mul_int debt_multiplier borrow_amount in
  total <- the_pool ASSET1 ;;
  assert_eq expected_supply (pool_supply total) ;;;
  assert_eq expected_borrow (pool_debt total) ;;;
  set_number 21 ;;;
  us (borrow (Signed USER1) ASSET1 borrow_amount) ;;;
  total <- the_pool ASSET1 ;;
  assert_eq 400000036575004778 (pool_supply total) ;;;
  assert_eq 200000036575004779 (pool_debt total).

Definition can_borrow : Test :=
  set_number 1 ;;;
  let first_asset_amount := 100000 in
  let first_price := 1250000000000000000 in
  let second_asset_amount := 100000 in
  let second_price := 2500000000000000000 in
  us (set_price (Signed USER1) ASSET1 first_price) ;;;
  us (set_price (Signed USER1) ASSET2 second_price) ;;;
  assert_ok (supply (Signed USER1) ASSET1 first_asset_amount) ;;;
  us (supply (Signed USER1) ASSET2 second_asset_amount) ;;;
  us (supply (Signed USER2) ASSET2 second_asset_amount) ;;;
  second_total <- the_pool ASSET2 ;;
  assert_ok (supply (Signed USER2) ASSET2 100000) ;;;
  assert_ok (borrow (Signed USER2) ASSET1 10000) ;;;
  set_number 100000 ;;;
  assert_ok (supply (Signed USER1) ASSET1 1) ;;;
  user1_supply <- the_supply ASSET1 USER1 ;;
  assert (100001 <? us_amount user1_supply) ;;;
  assert (fx_one <? us_index user1_supply).

Definition can_repay : Test :=
  assert_ok (supply (Signed USER1) ASSET1 100000) ;;;
  assert_ok (supply (Signed USER1) ASSET1 100000) ;;;
  assert_ok (supply (Signed USER2) ASSET2 100000) ;;;
  assert_ok (supply (Signed USER2) ASSET2 100000) ;;;
  assert_ok (borrow (Signed USER2) ASSET1 10000) ;;;
  assert_ok (repay (Signed USER2) ASSET1 10000).

Definition can_withdraw : Test :=
  assert_ok (supply (Signed USER1) ASSET1 100000) ;;;
  assert_ok (supply (Signed USER2) ASSET2 100000) ;;;
  assert_ok (borrow (Signed USER2) ASSET1 10000) ;;;
  assert_ok (withdraw (Signed USER1) ASSET1 50000).

Definition can_liquidate : Test :=
  assert_ok (supply (Signed USER1) ASSET1 100000) ;;;
  assert_ok (supply (Signed USER2) ASSET2 100000) ;;;
  assert_ok (borrow (Signed USER2) ASSET1 10000) ;;;
  assert_ok (set_price Root ASSET2 (fx_from_integer 5)) ;;;
  assert_ok (liquidate (Signed USER1) USER2 ASSET1 ASSET2 10000).

(** All six pass from the storage of the mock. *)
Theorem lending_tests_pass :
  forallb (fun t : Test => ok true (t (new_test_ext true)))
    [can_supply; check_accrue_interest; can_borrow; can_repay; can_withdraw; can_liquidate] = true.
Proof. by vm_compute. Qed.

(** [can_borrow] sets its prices with a signed origin, which is refused: they never
    take effect. *)
Example can_borrow_sets_no_price :
  set_price (Signed (alice true)) 0 1250000000000000000 (new_test_ext true) =
    Err BadOrigin (new_test_ext true).
Proof. reflexivity. Qed.
End Lending_tests.

(* ================================================================== *)
(** ** The swap pallet                                                 *)
(* ================================================================== *)

(** [impl ExchangeFactory for ExchangeAddressMock]; with overflow checks the ids whose
    sum does not fit [u64] would trap, and the tests use small ones. *)
Definition ExchangeAddressMock `{Accounts} (account_from_u64 : N -> AccountId) : ExchangeFactory :=
  fun inherent_asset_id asset_id => account_from_u64 ((10000 + asset_id) mod u64_modulus).

Section Swap_tests.
#[local] Instance test_build : Config := checked_build.
#[local] Instance mock_exchange : ExchangeFactory := ExchangeAddressMock (fun n => n).

(** [new_test_ext]: an empty storage with owner 1 and no fee. *)
Definition new_swap_ext : Chain := genesis_storage (mkGenesis (1 : N) [] 0 []).

Definition user : N := 1.
Definition origin : Origin := Signed (user : AccountId).

(** [Us::next_asset_id() - 1] *)
Definition last_id : RT unit N :=
  next <- get_assets NextAssetId ;; or_panic (usub true u64_modulus next 1).

Definition issue_asset (total_supply : Balance) : Test :=
  us (issue origin total_supply) ;;;
  id <- last_id ;;
  t <- get_assets (get_asset_total_supply id) ;;
  assert_eq t total_supply ;;;
  assert_ne t (total_supply + 1).

(** [issue_asset] and [issue_asset2] *)
Definition issue_asset_test : Test := issue_asset 10000.
Definition issue_asset2_test : Test := issue_asset 50000.

(** [test_uniswap_runtime], line by line; values bound and not looked at are left
    out. *)
Definition issued_and_held (total_supply : Balance) : Test :=
  us (issue origin total_supply) ;;;
  id <- last_id ;;
  t <- get_assets (get_asset_total_supply id) ;;
  assert_eq t total_supply ;;;
  b <- get_assets (get_asset_balance id user) ;;
  assert_eq b total_supply.

Definition uniswap_one_pool : Test :=
  issued_and_held 10000 ;;;
  issued_and_held 50000 ;;;
  issued_and_held 80000 ;;;
  us (set_inherent_asset origin 0) ;;;
  inherent_asset <- get_assets InherentAsset ;;
  assert_eq inherent_asset 0 ;;;
  let paired_asset := 1 in
  us (add_liquidity origin paired_asset 1000 5000 0) ;;;
  tl <- get_swap (total_liquidity paired_asset) ;;
  assert_eq tl 1000 ;;;
  al <- get_swap (account_liquidity paired_asset user) ;;
  assert_eq al 1000 ;;;
  let exchange_address := get_exchange_address inherent_asset paired_asset in
  iabe <- get_assets (get_asset_balance inherent_asset exchange_address) ;;
  assert_eq iabe 1000 ;;;
  pabe <- get_assets (get_asset_balance paired_asset exchange_address) ;;
  assert_eq pabe 5000 ;;;
  iabu <- get_assets (get_asset_balance inherent_asset user) ;;
  assert_eq iabu 9000 ;;;
  pabu <- get_assets (get_asset_balance paired_asset user) ;;
  assert_eq pabu 45000 ;;;
  us (swap_assets_with_exact_input origin user inherent_asset paired_asset 100 0) ;;;
  iabe <- get_assets (get_asset_balance inherent_asset exchange_address) ;;
  assert_eq iabe 1100 ;;;
  iabu <- get_assets (get_asset_balance inherent_asset user) ;;
  assert_eq iabu 8900 ;;;
  us (swap_assets_with_exact_output origin user inherent_asset paired_asset 1000 1000) ;;;
  us (swap_assets_with_exact_input origin user paired_asset inherent_asset 500 0) ;;;
  us (swap_assets_with_exact_output origin user paired_asset inherent_asset 200 2000).

Definition uniswap_two_pools : Test :=
  inherent_asset <- get_assets InherentAsset ;;
  let asset_a := 1 in
  let asset_b := 2 in
  us (add_liquidity origin asset_b 1000 8000 0) ;;;
  tl <- get_swap (total_liquidity asset_b) ;;
  assert_eq tl 1000 ;;;
  al <- get_swap (account_liquidity asset_b user) ;;
  assert_eq al 1000 ;;;
  let exchange_address := get_exchange_address inherent_asset asset_b in
  iabe <- get_assets (get_asset_balance inherent_asset exchange_address) ;;
  assert_eq iabe 1000 ;;;
  pabe <- get_assets (get_asset_balance asset_b exchange_address) ;;
  assert_eq pabe 8000 ;;;
  pabu <- get_assets (get_asset_balance asset_b user) ;;
  assert_eq pabu 72000 ;;;
  us (swap_assets_with_exact_input origin user asset_a asset_b 100 0) ;;;
  us (swap_assets_with_exact_output origin user asset_a asset_b 200 1000) ;;;
  let paired_asset := 1 in
  us (remove_liquidity origin paired_asset 500 0 0) ;;;
  tl <- get_swap (total_liquidity paired_asset) ;;
  assert_eq tl 500 ;;;
  al <- get_swap (account_liquidity paired_asset user) ;;
  assert_eq al 500.

Definition test_uniswap_runtime : Test := uniswap_one_pool ;;; uniswap_two_pools.

(** Whether a test passes. *)
Definition passes (t : Test) : bool := ok true (t new_swap_ext).

(** The assertions of the tests all hold of the pallets as they are. *)
Theorem swap_tests_pass :
  passes issue_asset_test = true /\ passes issue_asset2_test = true /\
  passes test_uniswap_runtime = true.
Proof. by vm_compute. Qed.

(** The scenario leaves the reserves the test prints: the quote of the two
    exact-output trades is the output itself, so they move equal amounts. *)
Example uniswap_reserves :
  match test_uniswap_runtime new_swap_ext with
  | Ok _ s => (inherent_reserve 1 s, paired_reserve 1 s, inherent_reserve 2 s, paired_reserve 2 s)
  | _ => (0, 0, 0, 0)
  end = (702, 2273, 1237, 7515).
Proof. vm_compute. reflexivity. Qed.
End Swap_tests.
