(* ===== verification/AssetsSpec.v ===== *)
(** * Properties of the assets pallet

    What [transfer], [issue], [destroy], [transfer_asset] and the genesis build
    do on every branch, against the books invariant [ledger_ok]. *)

From S2P Require Export Samples.

Local Open Scope N_scope.
Local Open Scope rust_scope.

Section Assets_properties.
Context {cfg : Config} {fo : FixedOps}.

(** C32: with balanced books [transfer] is total: it refuses a zero amount and
    an amount the sender does not hold without touching the storage, and
    otherwise moves exactly the amount - every balance of every asset is
    accounted for -, reports it, and leaves the books balanced. *)
Theorem transfer_correct from id to amount s :
  ledger_ok (assets s) ->
  (amount = 0 \/ bal id from s < amount -> exists msg, transfer from id to amount s = Err msg s) /\
  (0 < amount -> amount <= bal id from s ->
   exists s', transfer from id to amount s = Ok tt s' /\
     (forall id' who, bal id' who s' + side id from amount id' who =
                      bal id' who s + side id to amount id' who) /\
     TotalSupply (assets s') = TotalSupply (assets s) /\
     events s' = deposited (EvAssets (Transferred id from to amount)) s /\
     ledger_ok (assets s') /\ lending s' = lending s /\ swap s' = swap s).
Proof.
  intros Hok. rewrite transfer_run by done. unfold bal. split.
  - intros Hbad. destruct (N.eqb_spec amount 0); [by eexists|].
    destruct (N.ltb_spec (get_asset_balance id from (assets s)) amount); [by eexists | lia].
  - intros Hpos Hle. rewrite (proj2 (N.eqb_neq _ _)), (proj2 (N.ltb_ge _ _)) by lia.
    eexists. split; [done|]. split; [|split_and!; try done; by apply transferred_ok].
    intros id' who. by apply moved_balance.
Qed.

(** [issue] gives a signed caller the whole supply of a fresh asset: the new
    id had no supply, gets exactly [total], the next id moves on, and no other
    balance changes. Unsigned and root origins are refused. *)
Theorem issue_correct who total s :
  ledger_ok (assets s) -> NextAssetId (assets s) < u64_max -> total <= u128_max ->
  let id := NextAssetId (assets s) in
  exists s', issue (Signed who) total s = Ok tt s' /\
    get_asset_total_supply id (assets s) = 0 /\
    get_asset_total_supply id (assets s') = total /\
    bal id who s' = total /\
    (forall id' u, (id', u) <> (id, who) -> bal id' u s' = bal id' u s) /\
    NextAssetId (assets s') = id + 1 /\
    events s' = deposited (EvAssets (Issued id who total)) s /\
    ledger_ok (assets s') /\
    issue Root total s = Err BadOrigin s /\ issue NoOrigin total s = Err BadOrigin s.
Proof.
  intros Hok Hid Htot id. exists (issued who total s).
  split; [by rewrite issue_is_issue; unfold map_err; rewrite issue_body|].
  split; [apply Hok; lia|]. unfold bal, get_asset_balance, get_asset_total_supply. cbn.
  split; [apply getd_insert_eq|]. split; [apply getd_insert_eq|].
  split; [intros; by apply getd_insert_ne|]. split_and!; try done. by apply issued_ok.
Qed.

(** [destroy] burns exactly the caller's own holding of the asset and lowers
    the total by it; a caller who holds nothing gets an error and no balance
    changes. *)
Theorem destroy_correct who id s :
  ledger_ok (assets s) ->
  match destroy (Signed who) id s with
  | Ok _ s' =>
      0 < bal id who s /\ bal id who s' = 0 /\
      (forall id' u, (id', u) <> (id, who) -> bal id' u s' = bal id' u s) /\
      get_asset_total_supply id (assets s') + bal id who s =
        get_asset_total_supply id (assets s) /\
      events s' = deposited (EvAssets (Destroyed id who (bal id who s))) s /\
      ledger_ok (assets s')
  | Err e s' =>
      bal id who s = 0 /\ e = Other "origin balance should be non-zero" /\
      (forall id' u, bal id' u s' = bal id' u s) /\ events s' = events s /\ ledger_ok (assets s')
  | Panic => False
  end.
Proof.
  intros Hok. rewrite destroy_run by done. unfold bal.
  destruct (N.eqb_spec (get_asset_balance id who (assets s)) 0) as [Hz|Hne];
    unfold get_asset_balance, get_asset_total_supply in *; cbn.
  - split; [done|]. split; [done|]. split; [|split; [done | by apply delete_zero_ok]].
    intros id' u. destruct (decide ((id, who) = (id', u))) as [[= <- <-]|Hk];
      [by rewrite getd_delete_eq | by apply getd_delete_ne].
  - split; [lia|]. split; [apply getd_delete_eq|].
    split; [intros; by apply getd_delete_ne|]. rewrite getd_insert_eq.
    pose proof (balance_le_held id who (assets s)) as Hle. rewrite (lo_sum _ Hok) in Hle.
    unfold get_asset_balance, get_asset_total_supply in Hle |- *.
    split; [lia|]. split; [done|]. exact (destroy_ok (assets s) id who Hok).
Qed.

(** The dispatchable [transfer_asset] answers [Ok] to every signed caller: a
    transfer the ledger refuses changes nothing and is reported as a success. *)
Theorem transfer_asset_hides_refusals who id to amount s :
  ledger_ok (assets s) ->
  transfer_asset (Signed who) id to amount s =
    Ok tt (match transfer who id to amount s with Ok _ s' => s' | _ => s end) /\
  (bal id who s < amount -> transfer_asset (Signed who) id to amount s = Ok tt s).
Proof.
  intros Hok.
  change (transfer_asset (Signed who) id to amount s)
    with (ignore (F := DispatchError) (transfer who id to amount) s).
  rewrite attempt_run by done. split; [|intros Hlt; by rewrite attempted_refused].
  rewrite transfer_run by done. unfold attempted.
  by destruct (amount =? 0), (get_asset_balance id who (assets s) <? amount).
Qed.

(** One entry of the genesis configuration issues a fresh asset to the
    account, hands 500000 units of it to the configured owner and sets the
    asset's price. *)
Theorem genesis_asset_effect account amount p s :
  ledger_ok (assets s) -> NextAssetId (assets s) < u64_max ->
  500000 <= amount <= u128_max -> account <> Owner (assets s) ->
  let id := NextAssetId (assets s) in
  exists s', genesis_asset (account, amount, p) s = Ok tt s' /\
    get_asset_total_supply id (assets s') = amount /\
    bal id (Owner (assets s)) s' = 500000 /\ bal id account s' = amount - 500000 /\
    (forall id' u, id' <> id -> bal id' u s' = bal id' u s) /\
    price id (assets s') = fx_from_integer p /\ NextAssetId (assets s') = id + 1.
Proof.
  intros Hok Hid [Hmin Hmax] Hne id. set (s1 := issued account amount s).
  assert (ledger_ok (assets s1)) as Hok1 by (by apply issued_ok).
  assert (bal id account s1 = amount) as Hbal by apply getd_insert_eq.
  assert (amount = 500000 + (amount - 500000)) as Hsplit by lia.
  set (s2 := attempted account id (Owner (assets s)) 500000 s1).
  exists (set_assets (set_Price <[id := fx_from_integer p]>) s2).
  assert (forall id' u, bal id' u s2 + side id account 500000 id' u =
    bal id' u s1 + side id (Owner (assets s)) 500000 id' u) as Hmoved
    by (intros; apply attempted_bal; rewrite Hbal; lia).
  assert (bal id (Owner (assets s)) s1 = 0) as Hzero.
  { transitivity (bal id (Owner (assets s)) s); [apply getd_insert_ne; congruence|].
    apply fresh_balance; [done | lia]. }
  split.
  { unfold genesis_asset. rewrite (bind_run _ _ s tt s1) by (by unfold ignore; rewrite issue_body).
    rewrite !get_assets_at. change (NextAssetId (assets s1)) with (id + 1).
    rewrite (some_then _ _ id) by (rewrite usub_in_range; [f_equal; lia | lia]).
    by rewrite attempt_then. }
  split; [transitivity (get_asset_total_supply id (assets s1)); [by unfold s2, attempted; destruct (_ || _)|apply getd_insert_eq]|].
  split; [specialize (Hmoved id (Owner (assets s))); rewrite side_same, side_other_account in Hmoved by done;
          change (bal id (Owner (assets s)) (set_assets _ s2)) with (bal id (Owner (assets s)) s2); lia|].
  split; [specialize (Hmoved id account); rewrite side_same, side_other_account in Hmoved by done;
          change (bal id account (set_assets _ s2)) with (bal id account s2); lia|].
  split.
  { intros id' u Hid'. change (bal id' u (set_assets _ s2)) with (bal id' u s2).
    unfold s2. rewrite attempted_other by done. apply getd_insert_ne. intros [= E _]. by apply Hid'. }
  split; [apply getd_insert_eq|]. unfold s2, attempted. by destruct (_ || _).
Qed.
End Assets_properties.

(* ================================================================== *)
(** ** Witnesses                                                       *)
(* ================================================================== *)

Section Assets_witnesses.
#[local] Instance build : Config := checked_build.

Lemma transfer_correct_witness :
  exists s', transfer (alice true) 0 (bob true) 7 (new_test_ext true) = Ok tt s' /\
    bal 0 (bob true) s' = 500007.
Proof.
  destruct (transfer_correct (alice true) 0 (bob true) 7 (new_test_ext true)
    (co_ledger _ new_test_ext_ok)) as [_ H].
  destruct H as (s' & Hrun & Hbal & _); [by vm_compute | by vm_compute |].
  exists s'. split; [exact Hrun|]. specialize (Hbal 0 (bob true)).
  assert (bal 0 (bob true) (new_test_ext true) = 500000) as Hb by (vm_compute; reflexivity).
  rewrite Hb, side_same, side_other_account in Hbal by (vm_compute; discriminate). lia.
Defined.

Lemma issue_correct_witness :
  exists s', issue (Signed (bob true)) 42 (new_test_ext true) = Ok tt s' /\
    NextAssetId (assets s') = 3.
Proof.
  destruct (issue_correct (bob true) 42 (new_test_ext true)) as (s' & Hrun & _ & _ & _ & _ & Hn & _).
  - apply new_test_ext_ok.
  - vm_compute. reflexivity.
  - vm_compute. discriminate.
  - exists s'. split; [exact Hrun|]. rewrite Hn. vm_compute. reflexivity.
Defined.

Lemma destroy_correct_witness :
  exists s', destroy (Signed (bob true)) 0 (new_test_ext true) = Ok tt s' /\ bal 0 (bob true) s' = 0.
Proof.
  pose proof (destroy_correct (bob true) 0 (new_test_ext true) (co_ledger _ new_test_ext_ok)) as H.
  assert (ok true (destroy (Signed (bob true)) 0 (new_test_ext true)) = true) as Hrun
    by (vm_compute; reflexivity).
  destruct (destroy (Signed (bob true)) 0 (new_test_ext true)) as [[] s' | |];
    [|discriminate | discriminate].
  exists s'. split; [reflexivity | apply H].
Defined.

Lemma transfer_asset_witness :
  transfer_asset (Signed (bob true)) 0 (alice true) 600000 (new_test_ext true) =
    Ok tt (new_test_ext true).
Proof.
  apply (transfer_asset_hides_refusals (bob true) 0 (alice true) 600000 (new_test_ext true)
    (co_ledger _ new_test_ext_ok)). vm_compute. reflexivity.
Defined.

Lemma genesis_asset_witness :
  exists s', genesis_asset (alice true, 1000000, 5) (new_test_ext true) = Ok tt s' /\
    bal 2 (alice true) s' = 500000.
Proof.
  destruct (genesis_asset_effect (alice true) 1000000 5 (new_test_ext true))
    as (s' & Hrun & _ & _ & Hb & _).
  - apply new_test_ext_ok.
  - vm_compute. reflexivity.
  - split; vm_compute; discriminate.
  - vm_compute. discriminate.
  - exists s'. split; [exact Hrun | exact Hb].
Defined.
End Assets_witnesses.
