(* ===== verification/LendingSpec.v ===== *)
(** * Properties of the lending pallet

    The total behaviour of the five user calls, the interest, the views of the
    runtime api, and what no call can do.  The pallet is taken against any
    implementation of its traits that honours their laws. *)

From S2P Require Export Samples LendingProgress.

Local Open Scope N_scope.
Local Open Scope rust_scope.

Section Lending_calls.
Context {cfg : Config} {fo : FixedOps} {fl : FixedLaws fo} {orc : Oracle} {ol : OracleLaws orc}.
Context {ma : MultiAsset} {mal : MultiAssetLaws ma}.

(** C15: [supply] is total once the pool is accrued and the sums fit: without the
    money (or with nothing to move) it fails and changes nothing; otherwise the
    money moves to the pallet's account, the position is its worth at the new
    index plus the amount, the pool total grows by the amount, the asset is
    listed, and no debt is touched. *)
Theorem supply_correct who id amount s p p' x :
  ma_inv s -> pool id (lending s) = Some p ->
  accrue_interest_at (block_number s) p = Some p' ->
  supply_worth (total_supply_index p') id who (lending s) = Some x ->
  x + amount <= u128_max -> pool_supply p' + amount <= u128_max ->
  (amount = 0 \/ ma_balance s id who < amount ->
     supply (Signed who) id amount s = Err (Module_ TransferFailed) s) /\
  (0 < amount -> amount <= ma_balance s id who ->
   exists s', supply (Signed who) id amount s = Ok tt s' /\
     user_supply id who (lending s') = Some (mkUserSupply (x + amount) (total_supply_index p')) /\
     pool id (lending s') = Some (set_pool_supply (pool_supply p' + amount) p') /\
     id ∈ user_supply_set who (lending s') /\
     UserDebts (lending s') = UserDebts (lending s) /\
     (forall id' u, ma_balance s' id' u + side id who amount id' u =
                    ma_balance s id' u + side id account_id amount id' u)).
Proof.
  intros Hinv Hp Hacc Hx Hfit Hfitp. split; [by eapply supply_refused|]. intros Hpos Hle.
  destruct (supply_succeeds who id amount s p p' x) as [s' Hrun]; try done.
  exists s'. split; [done|].
  apply supply_Ok in Hrun as (q & q' & s1 & y & n & m & Hq & Hq' & Htr & Has & Hy & Hn & Hm &
    Hus & Hin & Hpools & Hud & _); [|lia].
  rewrite Hp in Hq. injection Hq as <-. rewrite Hacc in Hq'. injection Hq' as <-.
  rewrite Hx in Hy. injection Hy as <-.
  unfold u128_add in Hn, Hm. rewrite uadd_in_range in Hn, Hm by (by apply u128_max_modulus).
  injection Hn as <-. injection Hm as <-. unfold supply_of_amount in Hus.
  rewrite (proj2 (N.eqb_neq _ _)) in Hus by lia.
  split; [done|]. split; [unfold pool; by rewrite Hpools, lookup_insert_eq|].
  split; [done|]. split; [done|]. exact (money_moved _ _ _ _ s s s1 s' Hinv eq_refl Htr Has).
Qed.

(** C6: [borrow] pays out exactly when the pool has the cash and the caller's
    collateral covers the threshold times the debt with the new loan in it; each
    failed guard gives its own error, before any money or pool is touched. On
    success the debt is its worth at the new index plus the amount. *)
Theorem borrow_correct who id amount s p p' x cash b cs cd total :
  ma_inv s -> pool id (lending s) = Some p -> pool_ok p -> accrual_fits (block_number s) p ->
  accrue_interest_at (block_number s) p = Some p' ->
  u128_sub (pool_supply p') (pool_debt p') = Some cash ->
  debt_worth (total_debt_index p') id who (lending s) = Some x ->
  result (@get_user_info _ _ _ DispatchError who) s = Some (b, cs, cd) ->
  u128_add cd (fx_mul_int (get_rate id s) amount) = Some total ->
  x + amount <= u128_max -> pool_debt p' + amount <= u128_max ->
  let safe := fx_mul_int (LiquidationThreshold (lending s)) total <= cs in
  (cash < amount -> borrow (Signed who) id amount s = Err (Module_ NotEnoughLiquidity) s) /\
  (amount <= cash -> ~ safe -> exists s1, accrual_frame s s1 /\
     borrow (Signed who) id amount s = Err (Module_ BelowLiquidationThreshold) s1) /\
  (amount <= cash -> safe -> amount = 0 \/ ma_balance s id account_id < amount ->
   exists s1, accrual_frame s s1 /\
     borrow (Signed who) id amount s = Err (Module_ TransferFailed) s1) /\
  (amount <= cash -> safe -> 0 < amount -> amount <= ma_balance s id account_id ->
   exists s', borrow (Signed who) id amount s = Ok tt s' /\
     user_debt id who (lending s') = Some (mkUserDebt (x + amount) (total_debt_index p')) /\
     pool id (lending s') = Some (set_pool_debt (pool_debt p' + amount) p') /\
     id ∈ user_debt_set who (lending s') /\
     UserSupplies (lending s') = UserSupplies (lending s) /\
     (forall id' u, ma_balance s' id' u + side id account_id amount id' u =
                    ma_balance s id' u + side id who amount id' u)).
Proof.
  intros Hinv Hp Hok Hfits Hacc Hcash Hx Hinfo Htot Hfit Hfitp safe.
  split; [by eapply borrow_no_cash|].
  split; [intros Hle Hns; eapply borrow_below; try done; unfold safe in Hns; lia|].
  split; [intros; by eapply borrow_refused|]. intros Hle Hsafe Hpos Hbal.
  edestruct (borrow_succeeds who id amount s p p') as [s' Hrun]; try done.
  exists s'. split; [done|].
  apply (borrow_Ok _ _ _ _ _ p) in Hrun as (q' & y & n & s0 & s1 & b' & cs' & cd' & t' & c' & m &
    Hq' & _ & _ & Hy & _ & _ & _ & H0 & Htr & Has & Hn & Hud & Hin & Hm & Hpools & Hus);
    [|lia|done|done|done].
  rewrite Hacc in Hq'. injection Hq' as <-. rewrite Hx in Hy. injection Hy as <-.
  unfold u128_add in Hn, Hm. rewrite uadd_in_range in Hn, Hm by (by apply u128_max_modulus).
  injection Hn as <-. injection Hm as <-. unfold debt_of_amount in Hud.
  rewrite (proj2 (N.eqb_neq _ _)) in Hud by lia.
  split; [done|]. split; [unfold pool; by rewrite Hpools, lookup_insert_eq|].
  split; [done|]. split; [done|]. exact (money_moved _ _ _ _ s s0 s1 s' Hinv H0 Htr Has).
Qed.

(** C7: [withdraw] hands out the amount, capped by what the position is worth,
    only if the collateral left still covers the debt and the pool has the cash;
    the failed guards give their errors, in this order, with only the position's
    interest written; a caller without a supply gets [UserNoSupply] and no
    change. *)
Theorem withdraw_correct who id amount s p p' x b cs cd f cs' cash :
  ma_inv s -> pool id (lending s) = Some p -> pool_ok p -> accrual_fits (block_number s) p ->
  accrue_interest_at (block_number s) p = Some p' ->
  supply_worth (total_supply_index p') id who (lending s) = Some x ->
  result (@get_user_info _ _ _ DispatchError who) s = Some (b, cs, cd) ->
  let a := N.min amount x in
  fx_mul (get_rate id s) (safe_factor p') = Some f ->
  u128_sub cs (fx_mul_int f a) = Some cs' ->
  u128_sub (pool_supply p') (pool_debt p') = Some cash -> a <= pool_supply p' ->
  let safe := fx_mul_int (LiquidationThreshold (lending s)) cd <= cs' in
  let supplied := is_Some (user_supply id who (lending s)) in
  (~ supplied -> withdraw (Signed who) id amount s = Err (Module_ UserNoSupply) s) /\
  (supplied -> ~ safe -> exists s1, accrual_frame s s1 /\
     withdraw (Signed who) id amount s = Err (Module_ BelowLiquidationThreshold) s1) /\
  (supplied -> safe -> cash < a -> exists s1, accrual_frame s s1 /\
     withdraw (Signed who) id amount s = Err (Module_ NotEnoughLiquidity) s1) /\
  (supplied -> safe -> a <= cash -> a = 0 \/ ma_balance s id account_id < a ->
   exists s1, accrual_frame s s1 /\
     withdraw (Signed who) id amount s = Err (Module_ TransferFailed) s1) /\
  (supplied -> safe -> a <= cash -> 0 < a -> a <= ma_balance s id account_id ->
   exists s', withdraw (Signed who) id amount s = Ok tt s' /\
     user_supply id who (lending s') = supply_of_amount (x - a) (total_supply_index p') /\
     pool id (lending s') = Some (set_pool_supply (pool_supply p' - a) p') /\
     UserDebts (lending s') = UserDebts (lending s) /\
     (forall id' u, ma_balance s' id' u + side id account_id a id' u =
                    ma_balance s id' u + side id who a id' u)).
Proof.
  intros Hinv Hp Hok Hfits Hacc Hx Hinfo a Hf Hcs Hcash Hpool safe supplied.
  split; [intros Hnone%eq_None_not_Some; by eapply withdraw_no_supply|].
  split; [intros ? Hns; eapply withdraw_below; try done; unfold safe in Hns; lia|].
  split; [intros; by eapply withdraw_no_cash|].
  split; [intros; by eapply withdraw_refused|]. intros Hsome Hsafe Hle Hpos Hbal.
  edestruct (withdraw_succeeds who id amount s p p') as [s' Hrun]; try done.
  exists s'. split; [done|].
  apply (withdraw_Ok _ _ _ _ _ p) in Hrun as (q' & y & s0 & s1 & b' & cs1 & cd' & f' & cs2 & c' & m &
    Hq' & _ & Hy & _ & _ & _ & _ & _ & _ & H0 & Htr & Has & Hus & Hm & Hpools & Hud); [|done..].
  rewrite Hacc in Hq'. injection Hq' as <-. rewrite Hx in Hy. injection Hy as <-. fold a in Htr, Hus, Hm.
  unfold u128_sub in Hm. rewrite usub_in_range in Hm by done. injection Hm as <-.
  split; [done|]. split; [unfold pool; by rewrite Hpools, lookup_insert_eq|].
  split; [done|]. exact (money_moved _ _ _ _ s s0 s1 s' Hinv H0 Htr Has).
Qed.

(** C16: [repay] takes the amount, capped by what is owed with interest, and
    lowers the debt and the pool's debt by exactly that; a repaid debt is
    removed. Without a debt it answers [UserNoDebt], without the money
    [TransferFailed]. *)
Theorem repay_correct who id amount s p p' x :
  ma_inv s -> pool id (lending s) = Some p -> pool_ok p -> accrual_fits (block_number s) p ->
  accrue_interest_at (block_number s) p = Some p' ->
  debt_worth (total_debt_index p') id who (lending s) = Some x ->
  let a := N.min amount x in a <= pool_debt p' ->
  (user_debt id who (lending s) = None ->
     repay (Signed who) id amount s = Err (Module_ UserNoDebt) s) /\
  (is_Some (user_debt id who (lending s)) -> a = 0 \/ ma_balance s id who < a ->
   exists s1, accrual_frame s s1 /\ repay (Signed who) id amount s = Err (Module_ TransferFailed) s1) /\
  (is_Some (user_debt id who (lending s)) -> 0 < a -> a <= ma_balance s id who ->
   exists s', repay (Signed who) id amount s = Ok tt s' /\
     user_debt id who (lending s') = debt_of_amount (x - a) (total_debt_index p') /\
     pool id (lending s') = Some (set_pool_debt (pool_debt p' - a) p') /\
     UserSupplies (lending s') = UserSupplies (lending s) /\
     (forall id' u, ma_balance s' id' u + side id who a id' u =
                    ma_balance s id' u + side id account_id a id' u)).
Proof.
  intros Hinv Hp Hok Hfits Hacc Hx a Hpool. split; [by eapply repay_no_debt|].
  split; [intros; by eapply repay_refused|]. intros Hsome Hpos Hbal.
  edestruct (repay_succeeds who id amount s p p') as [s' Hrun]; try done.
  exists s'. split; [done|].
  apply (repay_Ok _ _ _ _ _ p) in Hrun as (q' & y & s0 & s1 & m &
    Hq' & _ & Hy & H0 & Htr & Has & Hud & Hm & Hpools & Hus); [|done..].
  rewrite Hacc in Hq'. injection Hq' as <-. rewrite Hx in Hy. injection Hy as <-. fold a in Htr, Hud, Hm.
  unfold u128_sub in Hm. rewrite usub_in_range in Hm by done. injection Hm as <-.
  split; [done|]. split; [unfold pool; by rewrite Hpools, lookup_insert_eq|].
  split; [done|]. exact (money_moved _ _ _ _ s s0 s1 s' Hinv H0 Htr Has).
Qed.

(** Two payments in a row. *)
Lemma two_moved from1 id1 to1 n1 from2 id2 to2 n2 s s0 s1 s2 s' :
  ma_inv s -> assets s0 = assets s -> ma_transfer from1 id1 to1 n1 s0 = Ok tt s1 ->
  ma_transfer from2 id2 to2 n2 s1 = Ok tt s2 -> assets s' = assets s2 ->
  forall id' u, ma_balance s' id' u + side id1 from1 n1 id' u + side id2 from2 n2 id' u =
                ma_balance s id' u + side id1 to1 n1 id' u + side id2 to2 n2 id' u.
Proof.
  intros Hinv H0 Ht1 Ht2 Has id' u.
  pose proof (money_moved _ _ _ _ s s0 s1 s1 Hinv H0 Ht1 eq_refl id' u) as M1.
  assert (ma_inv s1) as inv1
    by exact (respects_Ok _ _ _ _ _ (ma_inv_stable from1 id1 to1 n1) Ht1 (ma_inv_local _ _ H0 Hinv)).
  pose proof (money_moved _ _ _ _ s1 s1 s2 s' inv1 eq_refl Ht2 Has id' u) as M2.
  unfold side. lia.
Qed.

(** The premises under which a liquidation is worked out. *)
Record liquidation (target : AccountId) (pay_id get_id : AssetId) (s : Chain)
    (gp pp gp' pp' : Pool) (sx dx b cs cd rel got_rate : N) : Prop := {
  lq_get : pool get_id (lending s) = Some gp;
  lq_pay : pool pay_id (lending s) = Some pp;
  lq_collateral : can_be_collateral gp = true;
  lq_get_ok : pool_ok gp;
  lq_pay_ok : pool_ok pp;
  lq_get_fits : accrual_fits (block_number s) gp;
  lq_pay_fits : accrual_fits (block_number s) pp;
  lq_get_accrued : accrue_interest_at (block_number s) gp = Some gp';
  lq_pay_accrued : accrue_interest_at (block_number s) pp = Some pp';
  lq_supply : supply_worth (total_supply_index gp') get_id target (lending s) = Some sx;
  lq_debt : debt_worth (total_debt_index pp') pay_id target (lending s) = Some dx;
  lq_info : result (@get_user_info _ _ _ DispatchError target) s = Some (b, cs, cd);
  lq_rel : (r <-? fx_div (get_rate get_id s) (get_rate pay_id s) ;;
            fx_mul r (discount_factor gp')) = Some rel;
  lq_rate : (i <-? fx_div (get_rate pay_id s) (get_rate get_id s) ;;
             fx_div i (discount_factor gp')) = Some got_rate
}.

(** What the liquidator pays and gets. *)
Definition liquidation_pay (amount sx dx rel : N) (gp' : Pool) : N :=
  N.min (N.min amount (fx_mul_int rel (fx_mul_int (close_factor gp') sx))) dx.

(** C8: [liquidate] of a collateral and a debt whose pools exist and whose interest and
    prices can be computed, by an account other than the pallet's: a healthy
    target is refused, then one without the supply or the debt (both as [UserNoSupply]),
    then a liquidator without the money, each before any money moves.  Otherwise the
    payment - capped by the target's debt and by the close factor of its supply at the
    discounted price - is taken, and the payment at the inverse rate is seized: when it
    is positive, the account can hand it out and the position is worth it, both are
    exchanged and the target's two positions shrink by exactly these amounts; when it is
    zero or the account cannot pay it, the call fails with [TransferFailed] but the
    payment is gone and the debt is what it was; when the position is worth less, a
    build with overflow checks traps. *)
Theorem liquidate_correct who target pay_id get_id amount s gp pp gp' pp' sx dx b cs cd rel got_rate :
  liquidation target pay_id get_id s gp pp gp' pp' sx dx b cs cd rel got_rate ->
  ma_inv s -> who <> account_id ->
  let threshold := LiquidationThreshold (lending s) in
  let pay := liquidation_pay amount sx dx rel gp' in
  let got := fx_mul_int got_rate pay in
  (fx_mul_int threshold cd <= cs -> exists s1, accrual_frame s s1 /\
     liquidate (Signed who) target pay_id get_id amount s =
       Err (Module_ AboveLiquidationThreshold) s1) /\
  (cs < fx_mul_int threshold cd ->
   user_supply get_id target (lending s) = None \/ user_debt pay_id target (lending s) = None ->
   exists s1, accrual_frame s s1 /\
     liquidate (Signed who) target pay_id get_id amount s = Err (Module_ UserNoSupply) s1) /\
  (cs < fx_mul_int threshold cd ->
   is_Some (user_supply get_id target (lending s)) ->
   is_Some (user_debt pay_id target (lending s)) ->
   pay = 0 \/ ma_balance s pay_id who < pay ->
   exists s1, accrual_frame s s1 /\
     liquidate (Signed who) target pay_id get_id amount s = Err (Module_ TransferFailed) s1) /\
  (cs < fx_mul_int threshold cd ->
   is_Some (user_supply get_id target (lending s)) ->
   is_Some (user_debt pay_id target (lending s)) ->
   0 < pay -> pay <= ma_balance s pay_id who -> pay_id <> get_id ->
   got = 0 \/ ma_balance s get_id account_id < got ->
   exists s', liquidate (Signed who) target pay_id get_id amount s = Err (Module_ TransferFailed) s' /\
     ma_balance s' pay_id who + pay = ma_balance s pay_id who /\
     supply_worth (total_supply_index gp') get_id target (lending s') = Some sx /\
     debt_worth (total_debt_index pp') pay_id target (lending s') = Some dx) /\
  (cs < fx_mul_int threshold cd ->
   is_Some (user_supply get_id target (lending s)) ->
   is_Some (user_debt pay_id target (lending s)) ->
   0 < pay -> pay <= ma_balance s pay_id who ->
   sx < got -> got <= ma_balance s get_id account_id -> overflow_checks = true ->
   liquidate (Signed who) target pay_id get_id amount s = Panic) /\
  (cs < fx_mul_int threshold cd ->
   is_Some (user_supply get_id target (lending s)) ->
   is_Some (user_debt pay_id target (lending s)) ->
   0 < pay -> pay <= ma_balance s pay_id who ->
   0 < got -> got <= sx -> got <= ma_balance s get_id account_id ->
   exists s', liquidate (Signed who) target pay_id get_id amount s = Ok tt s' /\
     user_supply get_id target (lending s') = supply_of_amount (sx - got) (total_supply_index gp') /\
     user_debt pay_id target (lending s') = debt_of_amount (dx - pay) (total_debt_index pp') /\
     (forall id' u, ma_balance s' id' u + side pay_id who pay id' u + side get_id account_id got id' u =
                    ma_balance s id' u + side pay_id account_id pay id' u + side get_id who got id' u)).
Proof.
  intros [Hg Hp Hcol Hgok Hpok Hgf Hpf Hga Hpa Hsx Hdx Hinfo Hrel Hrate] Hinv Hne threshold pay got.
  apply obind_Some in Hrel as (r & Hr & Hrel). apply obind_Some in Hrate as (i & Hi & Hrate).
  split; [intros; by eapply liquidate_healthy|]. split.
  { intros Hlt Hnone. destruct (user_supply get_id target (lending s)) eqn:Hus.
    - eapply liquidate_no_debt; [done.. | by destruct Hnone].
    - by eapply liquidate_no_supply. }
  split; [intros; by eapply liquidate_refused|]. split; [intros; by eapply liquidate_half_paid|].
  split; [intros; by eapply liquidate_overseized|]. intros Hlt Hus Hud Hpos Hbal Hgpos Hgle Hgbal.
  edestruct (liquidate_succeeds who target pay_id get_id amount s gp pp gp' pp') as [s' Hrun]; try done.
  exists s'. split; [done|].
  apply (liquidate_Ok _ _ _ _ _ _ _ gp pp) in Hrun as (g1 & p1 & sy & dy & b1 & cs1 & cd1 & r1 & rel1 & i1 &
    rate1 & n & s0 & s1 & s2 & _ & Hg1 & Hp1 & _ & _ & Hsy & Hdy & Hr1 & Hrel1 & Hi1 & Hrate1 & H0 &
    Ht1 & Ht2 & Has & Hn & Hs' & Hd' & _); [|done..].
  rewrite Hga in Hg1. injection Hg1 as <-. rewrite Hpa in Hp1. injection Hp1 as <-.
  rewrite Hsx in Hsy. injection Hsy as <-. rewrite Hdx in Hdy. injection Hdy as <-.
  rewrite Hr in Hr1. injection Hr1 as <-. rewrite Hrel in Hrel1. injection Hrel1 as <-.
  rewrite Hi in Hi1. injection Hi1 as <-. rewrite Hrate in Hrate1. injection Hrate1 as <-.
  fold (liquidation_pay amount sx dx rel gp') in Ht1, Ht2, Hn, Hd'. fold pay in Ht1, Ht2, Hn, Hd'.
  fold got in Ht2, Hn. unfold u128_sub in Hn. rewrite usub_in_range in Hn by done. injection Hn as <-.
  split; [done|]. split; [done|]. exact (two_moved _ _ _ _ _ _ _ _ _ _ _ _ _ Hinv H0 Ht1 Ht2 Has).
Qed.

(** C40: a successful liquidation takes a positive payment from the liquidator and off
    the target's debt, and a positive amount of collateral off the target's supply and
    out of the account, but writes both pools back with just their accrued totals - no
    other pool changes: the pools go on counting what was seized and repaid. *)
Theorem liquidate_keeps_pool_totals who target pay_id get_id amount s s' gp pp :
  ma_inv s -> pool get_id (lending s) = Some gp -> pool pay_id (lending s) = Some pp ->
  pool_ok gp -> pool_ok pp ->
  accrual_fits (block_number s) gp -> accrual_fits (block_number s) pp ->
  liquidate (Signed who) target pay_id get_id amount s = Ok tt s' ->
  exists gp' pp' sx dx pay got rest,
    accrue_interest_at (block_number s) gp = Some gp' /\
    accrue_interest_at (block_number s) pp = Some pp' /\
    supply_worth (total_supply_index gp') get_id target (lending s) = Some sx /\
    debt_worth (total_debt_index pp') pay_id target (lending s) = Some dx /\
    0 < pay <= dx /\ 0 < got /\ u128_sub sx got = Some rest /\
    user_supply get_id target (lending s') = supply_of_amount rest (total_supply_index gp') /\
    user_debt pay_id target (lending s') = debt_of_amount (dx - pay) (total_debt_index pp') /\
    (forall id' u, ma_balance s' id' u + side pay_id who pay id' u + side get_id account_id got id' u =
                   ma_balance s id' u + side pay_id account_id pay id' u + side get_id who got id' u) /\
    pool get_id (lending s') = Some gp' /\ pool pay_id (lending s') = Some pp' /\
    (forall id, id <> get_id -> id <> pay_id -> pool id (lending s') = pool id (lending s)).
Proof.
  intros Hinv Hg Hp Hgok Hpok Hgf Hpf Hrun.
  apply (liquidate_Ok _ _ _ _ _ _ _ gp pp) in Hrun as (gp' & pp' & sx & dx & b & cs & cd & r & rel & i &
    rate & n & s0 & s1 & s2 & _ & Hga & Hpa & _ & _ & Hsx & Hdx & _ & _ & _ & _ & H0 & Ht1 & Ht2 & Has & Hn &
    Hs' & Hd' & Hpools); [|done..].
  set (pay := N.min _ dx) in *. set (got := fx_mul_int rate pay) in *.
  exists gp', pp', sx, dx, pay, got, n. do 4 (split; [done|]).
  split; [split; [by eapply ma_positive | unfold pay; lia]|]. split; [by eapply ma_positive|].
  do 3 (split; [done|]). split; [exact (two_moved _ _ _ _ _ _ _ _ _ _ _ _ _ Hinv H0 Ht1 Ht2 Has)|].
  unfold pool in *. rewrite Hpools, lookup_insert_eq. split; [|split; [done|]].
  - destruct (decide (pay_id = get_id)) as [->|Hne].
    + rewrite Hg in Hp. injection Hp as ->. by rewrite lookup_insert_eq, <- Hpa, Hga.
    + by rewrite lookup_insert_ne, lookup_insert_eq.
  - intros id Hid Hid'. by rewrite !lookup_insert_ne.
Qed.

(** Interest never shrinks anything: an accrual leaves a sane pool sane, lowers
    neither the totals nor the indices, stamps the block, leaves every parameter
    alone, and a second accrual in the same block does nothing. *)
Theorem accrual_monotone now p p' :
  pool_ok p -> accrual_fits now p -> accrue_interest_at now p = Some p' ->
  pool_ok p' /\ pool_supply p <= pool_supply p' /\ pool_debt p <= pool_debt p' /\
  total_supply_index p <= total_supply_index p' /\ total_debt_index p <= total_debt_index p' /\
  last_updated p' = now /\ accrue_interest_at now p' = Some p' /\
  p' = set_accrued (pool_supply p') (total_supply_index p') (pool_debt p')
         (total_debt_index p') now p.
Proof.
  intros Hok Hfits Hacc. pose proof (accrue_ok _ _ _ Hok Hfits Hacc) as (H1 & H2 & H3 & H4 & H5).
  pose proof (accrue_last_updated _ _ _ Hacc) as Hlast.
  split_and!; try done; [by apply accrue_same | by apply accrue_frame].
Qed.

(** C29: the api's balance views are exact: what [get_user_supply_with_interest] and
    [get_user_debt_with_interest] report for a position is the amount an accrual
    in this block would write into it. *)
Theorem views_report_accrued_positions id who s p p' :
  pool id (lending s) = Some p -> pool_ok p ->
  accrue_interest_at (block_number s) p = Some p' ->
  (forall v, is_Some (user_supply id who (lending s)) ->
     result (@get_user_supply_with_interest _ _ DispatchError id who) s = Some v ->
     exists s1, accrue_supply_with_interest p' id who s = @Ok _ DispatchError _ tt s1 /\
       user_supply id who (lending s1) = Some (mkUserSupply v (total_supply_index p'))) /\
  (forall v, is_Some (user_debt id who (lending s)) ->
     result (@get_user_debt_with_interest _ _ DispatchError id who) s = Some v ->
     exists s1, accrue_debt_with_interest p' id who s = @Ok _ DispatchError _ tt s1 /\
       user_debt id who (lending s1) = Some (mkUserDebt v (total_debt_index p'))).
Proof.
  intros Hp Hok Hacc. rewrite supply_view_result, debt_view_result, Hp. split.
  - intros v [us Hus] (idx & Hidx & Hv)%obind_Some. rewrite Hus in Hv.
    rewrite (supply_index_agrees _ _ _ _ Hok Hacc Hidx) in Hv. eexists.
    unfold accrue_supply_with_interest, get_lending, put_lending, bind, gets. rewrite Hus, Hv.
    split; [done|]. unfold user_supply. cbn. by rewrite lookup_insert_eq.
  - intros v [ud Hud] (idx & Hidx & Hv)%obind_Some. rewrite Hud in Hv.
    rewrite (debt_index_agrees _ _ _ _ Hok Hacc Hidx) in Hv. eexists.
    unfold accrue_debt_with_interest, get_lending, put_lending, bind, gets. rewrite Hud, Hv.
    split; [done|]. unfold user_debt. cbn. by rewrite lookup_insert_eq.
Qed.

(** C5: in a pool with indices of at least one and interest that fits, writing a user's
    interest down does not change the user's standing: [get_user_info] - the collateral and debt the guards look at - reads the same
    before and after either accrual. *)
Theorem standing_unmoved_by_accrual id who s s1 p p' :
  pool id (lending s) = Some p -> pool_ok p -> accrual_fits (block_number s) p ->
  accrue_interest_at (block_number s) p = Some p' ->
  accrue_supply_with_interest p' id who s = @Ok _ DispatchError _ tt s1 \/
  accrue_debt_with_interest p' id who s = @Ok _ DispatchError _ tt s1 ->
  result (@get_user_info _ _ _ DispatchError who) s1 =
  result (@get_user_info _ _ _ DispatchError who) s.
Proof.
  intros Hp Hok Hfits Hacc. pose proof (accrue_ok _ _ _ Hok Hfits Hacc) as [Hok' _].
  intros [H|H]; [by eapply user_info_after_supply_accrual | by eapply user_info_after_debt_accrual].
Qed.
End Lending_calls.

Section Lending_dispatch.
Context {cfg : Config} {fo : FixedOps} {fl : FixedLaws fo}.

(** Whose positions a call may change: the signer's, or the liquidated user's. *)
Definition touched (who : AccountId) (c : LendingCall) : AccountId :=
  match c with call_liquidate target _ _ _ => target | _ => who end.

(** C21: no lending call, successful or not, changes the supply, the debt or the
    asset sets of anyone but its signer - or, for a liquidation, its target. *)
Theorem lending_calls_isolated who c s s' u :
  final (dispatch_lending (Signed who) c s) = Some s' -> u <> touched who c ->
  (forall id, user_supply id u (lending s') = user_supply id u (lending s)) /\
  (forall id, user_debt id u (lending s') = user_debt id u (lending s)) /\
  user_supply_set u (lending s') = user_supply_set u (lending s) /\
  user_debt_set u (lending s') = user_debt_set u (lending s).
Proof.
  intros Hf Hne.
  assert (only_of (touched who c) s s') as [H1 H2 H3 H4]; [|split_and!; eauto].
  apply (final_respects _ (dispatch_lending (Signed who) c)); [|done].
  destruct c; cbn [dispatch_lending touched].
  - apply only_supply.
  - apply only_withdraw.
  - apply only_borrow.
  - apply only_repay.
  - apply only_liquidate.
  - unfold init_pool, _init_pool. respects. apply only_put_pool.
Qed.

(** The pools a user call needs, in the order it looks them up. *)
Definition needed_pools (c : LendingCall) : list AssetId :=
  match c with
  | call_supply id _ | call_withdraw id _ | call_borrow id _ | call_repay id _ => [id]
  | call_liquidate _ pay_id get_id _ => [get_id; pay_id]
  | call_init_pool _ _ => []
  end.

(** The guard that comes between a liquidation's two pools. *)
Definition collateral_refused (c : LendingCall) (s : Chain) : Prop :=
  match c with
  | call_liquidate _ _ get_id _ => exists p, pool get_id (lending s) = Some p /\ can_be_collateral p = false
  | _ => False
  end.

(** C35: every user call of the pallet refuses an origin that is not signed with
    [BadOrigin], and with [PoolNotExist] any asset it names that has no pool - for a
    liquidation the seized asset and the paid one, unless the seized asset is no
    collateral, which is refused with [AssetNotCollateral] - and leaves the storage as
    it was. *)
Theorem lending_calls_guarded c s :
  needed_pools c <> [] ->
  dispatch_lending Root c s = Err BadOrigin s /\
  dispatch_lending NoOrigin c s = Err BadOrigin s /\
  (forall who, collateral_refused c s ->
     dispatch_lending (Signed who) c s = Err (Module_ AssetNotCollateral) s) /\
  (forall who id, id ∈ needed_pools c -> pool id (lending s) = None -> ~ collateral_refused c s ->
     dispatch_lending (Signed who) c s = Err (Module_ PoolNotExist) s).
Proof.
  intros Hc. split; [by destruct c|]. split; [by destruct c|]. split.
  - intros who. destruct c; try done. intros (p & Hp & Hcol). cbn [dispatch_lending].
    unfold liquidate, bind, ensure_signed, ret, get_lending, gets. rewrite Hp. cbn. by rewrite Hcol.
  - intros who id Hin Hnone Href. destruct c as [i n|i n|i n|i n|target pay_id get_id n|i col];
      cbn [needed_pools dispatch_lending collateral_refused] in *;
      [ apply list_elem_of_singleton in Hin as ->; unfold supply, bind, ensure_signed, ret, get_lending, gets; by rewrite Hnone
      | apply list_elem_of_singleton in Hin as ->; unfold withdraw, bind, ensure_signed, ret, get_lending, gets; by rewrite Hnone
      | apply list_elem_of_singleton in Hin as ->; unfold borrow, bind, ensure_signed, ret, get_lending, gets; by rewrite Hnone
      | apply list_elem_of_singleton in Hin as ->; unfold repay, bind, ensure_signed, ret, get_lending, gets; by rewrite Hnone
      | | done].
    unfold liquidate, bind, ensure_signed, ret, get_lending, gets.
    destruct (pool get_id (lending s)) as [gp|] eqn:Hg; cbn; [|done].
    destruct (can_be_collateral gp) eqn:Hcol; cbn; [|by destruct Href; exists gp].
    apply elem_of_cons in Hin as [->|Hin]; [congruence|].
    apply list_elem_of_singleton in Hin as ->. by rewrite Hnone.
Qed.

(** [init_pool] checks no origin and no earlier pool: anyone, at any time, puts
    an empty pool with unit indices and the standard parameters (safe factor 0.7,
    discount 0.95, rates 3.85e-8 and 3.85e-9 per block) in place of the old one,
    while all supplies and debts in that asset stay on the books. *)
Theorem init_pool_resets origin id collateral s :
  exists s', init_pool origin id collateral s = Ok tt s' /\
    pool id (lending s') =
      Some (mkPool true collateral id 0 0 700000000000000000 fx_one 950000000000000000
              fx_one fx_one (block_number s) 38500000000 3850000000) /\
    (forall id', id' <> id -> pool id' (lending s') = pool id' (lending s)) /\
    UserSupplies (lending s') = UserSupplies (lending s) /\
    UserDebts (lending s') = UserDebts (lending s) /\ assets s' = assets s.
Proof.
  unfold init_pool, _init_pool.
  rewrite (fx_from_rational_exact 7 10 700000000000000000) by done.
  rewrite (fx_from_rational_exact 95 100 950000000000000000) by done.
  rewrite (fx_from_rational_exact 385 10000000000 38500000000) by done.
  rewrite (fx_from_rational_exact 385 100000000000 3850000000) by done.
  eexists. split; [done|]. unfold pool. cbn. rewrite lookup_insert_eq. split; [done|].
  split; [intros; by rewrite lookup_insert_ne|]. done.
Qed.
End Lending_dispatch.

(* ================================================================== *)
(** ** Witnesses                                                       *)
(* ================================================================== *)

Section Lending_witnesses.
#[local] Instance build : Config := checked_build.

(** Ten blocks after the loan, before and after the collateral crashed. *)
Definition later : Chain := at_block true 11 (borrowed_state true).
Definition crashed : Chain := at_block true 11 (crashed_state true).
Definition drained : Chain := at_block true 11 (drained_state true).

Lemma later_inv : ma_inv (ma := assets_multi_asset) later.
Proof. exact (co_ledger _ (at_block_ok true 11 _ borrowed_state_ok)). Qed.
Lemma crashed_inv : ma_inv (ma := assets_multi_asset) crashed.
Proof. exact (co_ledger _ (at_block_ok true 11 _ crashed_state_ok)). Qed.
Lemma drained_inv : ma_inv (ma := assets_multi_asset) drained.
Proof. exact (co_ledger _ (at_block_ok true 11 _ drained_state_ok)). Qed.

Ltac premises :=
  lazymatch goal with
  | |- ma_inv later => exact later_inv
  | |- pool_ok _ => apply pool_okb_ok; evaluate
  | |- accrual_fits _ _ => apply accrual_fitsb_fits; evaluate
  | |- _ => evaluate
  end.

Lemma supply_correct_witness :
  exists s', supply (Signed (bob true)) 1 500 later = Ok tt s' /\
    user_supply 1 (bob true) (lending s') =
      Some (mkUserSupply 100500 (total_supply_index (accrued_at true 1 later))).
Proof.
  destruct (supply_correct (bob true) 1 500 later (pool_at true 1 later) (accrued_at true 1 later)
    100000) as [_ H]; [premises..|].
  destruct H as (s' & Hrun & Hus & _); [evaluate | evaluate |].
  exists s'. split; [exact Hrun | exact Hus].
Defined.

Lemma borrow_correct_witness :
  (exists s', borrow (Signed (bob true)) 0 20000 later = Ok tt s' /\
     user_debt 0 (bob true) (lending s') =
       Some (mkUserDebt 30000 (total_debt_index (accrued_at true 0 later)))) /\
  borrow (Signed (bob true)) 0 95000 later = Err (Module_ NotEnoughLiquidity) later.
Proof.
  split.
  - destruct (borrow_correct (bob true) 0 20000 later (pool_at true 0 later) (accrued_at true 0 later)
      10000 90000 6000000 4200000 1000000 3000000) as (_ & _ & _ & H); [premises..|].
    destruct H as (s' & Hrun & Hud & _); [evaluate..|].
    exists s'. split; [exact Hrun | exact Hud].
  - apply (borrow_correct (bob true) 0 95000 later (pool_at true 0 later) (accrued_at true 0 later)
      10000 90000 6000000 4200000 1000000 10500000); premises.
Defined.

Lemma withdraw_correct_witness :
  exists s', withdraw (Signed (bob true)) 1 30000 later = Ok tt s' /\
    user_supply 1 (bob true) (lending s') =
      Some (mkUserSupply 70000 (total_supply_index (accrued_at true 1 later))).
Proof.
  destruct (withdraw_correct (bob true) 1 30000 later (pool_at true 1 later) (accrued_at true 1 later)
    100000 6000000 4200000 1000000 42000000000000000000 2940000 100000) as (_ & _ & _ & _ & H); [premises..|].
  destruct H as (s' & Hrun & Hus & _); [evaluate..|].
  exists s'. split; [exact Hrun | exact Hus].
Defined.

Lemma repay_correct_witness :
  exists s', repay (Signed (bob true)) 0 400000 later = Ok tt s' /\
    user_debt 0 (bob true) (lending s') = None.
Proof.
  destruct (repay_correct (bob true) 0 400000 later (pool_at true 0 later) (accrued_at true 0 later)
    10000) as (_ & _ & H); [premises..|].
  destruct H as (s' & Hrun & Hud & _); [evaluate..|].
  exists s'. split; [exact Hrun | exact Hud].
Defined.

Lemma crashed_liquidation :
  liquidation (bob true) 0 1 crashed (pool_at true 1 crashed) (pool_at true 0 crashed)
    (accrued_at true 1 crashed) (accrued_at true 0 crashed) 100000 10000 500000 350000 1000000
    47500000000000000 21052631578947368421.
Proof. split; premises. Qed.

Lemma liquidate_correct_witness :
  exists s', liquidate (Signed (alice true)) (bob true) 0 1 10000 crashed = Ok tt s' /\
    user_debt 0 (bob true) (lending s') =
      Some (mkUserDebt 5250 (total_debt_index (accrued_at true 0 crashed))).
Proof.
  destruct (liquidate_correct (alice true) (bob true) 0 1 10000 crashed _ _ _ _ _ _ _ _ _ _ _
    crashed_liquidation crashed_inv) as (_ & _ & _ & _ & _ & H); [evaluate|].
  destruct H as (s' & Hrun & _ & Hud & _); [evaluate..|].
  exists s'. split; [exact Hrun | exact Hud].
Defined.

Lemma liquidate_keeps_pool_totals_witness :
  exists s' got rest, liquidate (Signed (alice true)) (bob true) 0 1 10000 crashed = Ok tt s' /\
    0 < got /\ u128_sub 100000 got = Some rest /\
    option_map us_amount (user_supply 1 (bob true) (lending s')) = option_map us_amount
      (supply_of_amount rest (total_supply_index (accrued_at true 1 crashed))) /\
    option_map pool_supply (pool 1 (lending s')) = Some 100000.
Proof.
  assert (ok true (liquidate (Signed (alice true)) (bob true) 0 1 10000 crashed) = true) as Hrun
    by evaluate.
  apply ran in Hrun.
  destruct (liquidate_keeps_pool_totals (alice true) (bob true) 0 1 10000 crashed _
    (pool_at true 1 crashed) (pool_at true 0 crashed) crashed_inv ltac:(premises) ltac:(premises)
    ltac:(premises) ltac:(premises) ltac:(premises) ltac:(premises) Hrun)
    as (gp' & pp' & sx & dx & pay & got & rest & Hg & _ & Hsx & _ & _ & Hgot & Hrest & Hus & _ & _ & Hp & _).
  assert (accrue_interest_at (block_number crashed) (pool_at true 1 crashed) =
          Some (accrued_at true 1 crashed)) as Ha by evaluate.
  assert (gp' = accrued_at true 1 crashed) as -> by exact (Some_inj _ _ (eq_trans (eq_sym Hg) Ha)).
  assert (supply_worth (total_supply_index (accrued_at true 1 crashed)) 1 (bob true) (lending crashed) =
          Some 100000) as Hw by evaluate.
  assert (sx = 100000) as -> by exact (Some_inj _ _ (eq_trans (eq_sym Hsx) Hw)).
  eexists _, got, rest. split; [exact Hrun|]. split; [exact Hgot|]. split; [exact Hrest|].
  rewrite Hus, Hp. split; [reflexivity | evaluate].
Defined.

(** The pallet's account cannot hand the collateral out, and keeps the payment. *)
Lemma half_payment_kept :
  exists s', liquidate (Signed (alice true)) (bob true) 0 1 10000 drained =
               Err (Module_ TransferFailed) s' /\
    ma_balance s' 0 (alice true) + 4750 = ma_balance drained 0 (alice true).
Proof.
  destruct (liquidate_half_paid (alice true) (bob true) 0 1 10000 drained (pool_at true 1 drained)
    (pool_at true 0 drained) (accrued_at true 1 drained) (accrued_at true 0 drained) 100000 10000 500000 350000
    1000000 50000000000000000 47500000000000000 20000000000000000000 21052631578947368421)
    as (s' & Hrun & Hb & _); [first [exact drained_inv | right; evaluate | premises]..|].
  exists s'. split; [exact Hrun | exact Hb].
Qed.

Lemma accrual_monotone_witness :
  total_debt_index (pool_at true 0 later) <= total_debt_index (accrued_at true 0 later) /\
  accrue_interest_at 11 (accrued_at true 0 later) = Some (accrued_at true 0 later).
Proof.
  destruct (accrual_monotone 11 (pool_at true 0 later) (accrued_at true 0 later))
    as (_ & _ & _ & _ & Hi & _ & Hi2 & _); [premises..|].
  split; [exact Hi | exact Hi2].
Defined.

Lemma views_witness :
  exists s1, accrue_debt_with_interest (accrued_at true 0 later) 0 (bob true) later =
               @Ok _ DispatchError _ tt s1 /\
    user_debt 0 (bob true) (lending s1) =
      Some (mkUserDebt 10000 (total_debt_index (accrued_at true 0 later))).
Proof.
  destruct (views_report_accrued_positions 0 (bob true) later (pool_at true 0 later)
    (accrued_at true 0 later)) as [_ H]; [premises..|]. apply H; evaluate.
Defined.

Lemma standing_witness :
  exists s1, accrue_debt_with_interest (accrued_at true 0 later) 0 (bob true) later =
               @Ok _ DispatchError _ tt s1 /\
    result (get_user_info (bob true) : RT DispatchError _) s1 =
    result (get_user_info (bob true) : RT DispatchError _) later.
Proof.
  assert (debt_worth (total_debt_index (accrued_at true 0 later)) 0 (bob true) (lending later) =
    Some 10000) as Hx by evaluate.
  destruct (accrue_debt_total (E := DispatchError) _ _ _ _ _ Hx) as [s1 Hs1].
  exists s1. split; [exact Hs1|].
  apply (standing_unmoved_by_accrual 0 (bob true) later s1 (pool_at true 0 later)
    (accrued_at true 0 later)); [premises..|]. right. exact Hs1.
Defined.

Lemma lending_calls_isolated_witness :
  exists s', final (dispatch_lending (Signed (alice true)) (call_withdraw 0 50000) later) = Some s' /\
    user_debt 0 (bob true) (lending s') = user_debt 0 (bob true) (lending later).
Proof.
  assert (ok true (withdraw (Signed (alice true)) 0 50000 later) = true) as Hrun by evaluate.
  apply ran in Hrun.
  eexists. split; [exact (f_equal final Hrun)|].
  apply (lending_calls_isolated (alice true) (call_withdraw 0 50000) later);
    [exact (f_equal final Hrun) | evaluate].
Defined.

Lemma lending_calls_guarded_witness :
  dispatch_lending (Signed (alice true)) (call_borrow 7 1) later = Err (Module_ PoolNotExist) later /\
  dispatch_lending (Signed (alice true)) (call_liquidate (bob true) 7 1 5) later =
    Err (Module_ PoolNotExist) later.
Proof.
  split; apply lending_calls_guarded with 7; try discriminate; [set_solver | evaluate | by intros [] |
    set_solver | evaluate |].
  intros (p & Hp & Hcol). vm_compute in Hp. injection Hp as <-. discriminate Hcol.
Defined.

Lemma init_pool_resets_witness :
  exists s', init_pool (Signed (bob true)) 0 false later = Ok tt s' /\
    option_map pool_supply (pool 0 (lending s')) = Some 0 /\
    UserSupplies (lending s') = UserSupplies (lending later).
Proof.
  destruct (init_pool_resets (Signed (bob true)) 0 false later) as (s' & Hrun & Hp & _ & Hs & _).
  exists s'. split; [exact Hrun|]. split; [rewrite Hp; reflexivity | exact Hs].
Defined.
End Lending_witnesses.
