(* ===== verification/SwapSpec.v ===== *)
(** * Properties of the swap pallet

    The trades, the liquidity and the quotes on every branch - including the ones
    where the code as written gives money away. *)

From S2P Require Export Samples.

Local Open Scope N_scope.
Local Open Scope rust_scope.

Section Swap_properties.
Context {cfg : Config} {fo : FixedOps} {ef : ExchangeFactory}.

(** A trader outside the pool, with the input asset at hand, and a product the
    quote can compute. *)
Record tradable (who : AccountId) (in_id out_id : AssetId) (input : Balance) (ea : AccountId)
    (s : Chain) : Prop := {
  tr_ledger : ledger_ok (assets s);
  tr_who : who <> ea;
  tr_funds : input <= bal in_id who s;
  tr_in : 0 < bal in_id ea s;
  tr_out : 0 < bal out_id ea s;
  tr_fits : bal out_id ea s * input < u128_modulus
}.

Lemma tradable_quote who in_id out_id input ea s fee :
  tradable who in_id out_id input ea s ->
  calc_output_at_known_input input (bal in_id ea s) (bal out_id ea s) fee s =
    Ok (output_for input (bal in_id ea s) (bal out_id ea s)) s.
Proof.
  intros [Hok Hne Hf Hin Hout Hfit]. apply calc_output_run; [done | done | | done].
  by eapply deposit_fits.
Qed.

(** C14: a funded exact-input trade between the inherent asset and a paired one, in
    either direction, goes through: the trader pays the input into the pool, the
    recipient gets the constant-product output, no other balance moves, the pool
    is never emptied and the product of its reserves does not fall. The trade
    ignores [min_output]: it is the same for every value of it. *)
Theorem swap_exact_input_correct who to in_id out_id input min_output s :
  let ea := pool_account (paired_side in_id out_id s) s in
  one_pool in_id out_id s -> tradable who in_id out_id input ea s -> to <> ea ->
  let x := bal in_id ea s in let y := bal out_id ea s in
  let output := output_for input x y in
  exists s', swap_assets_with_exact_input (Signed who) to in_id out_id input min_output s = Ok tt s' /\
    (forall id u, bal id u s' + side in_id who input id u + side out_id ea output id u =
                  bal id u s + side in_id ea input id u + side out_id to output id u) /\
    bal in_id ea s' = x + input /\ bal out_id ea s' = y - output /\ output < y /\
    x * y <= bal in_id ea s' * bal out_id ea s' /\
    swap s' = swap s /\ lending s' = lending s.
Proof.
  intros ea Hone Htr Hto x y output. pose proof Htr as [Hok Hne Hf Hin Hout Hfit].
  pose proof (output_lt input x y Hin Hout) as Hlt. fold output in Hlt.
  eexists. split; [apply exact_input_run; [done | done | intros fee; by eapply tradable_quote]|].
  fold x y ea output. set (s' := traded _ _ _ _ _ _ _ _ s).
  assert (forall id u, bal id u s' + side in_id who input id u + side out_id ea output id u =
    bal id u s + side in_id ea input id u + side out_id to output id u) as Hbal
    by (intros; apply traded_bal; [apply Hone | done | unfold y in Hlt; lia]).
  destruct (traded_reserves (paired_side in_id out_id s) ea who to in_id input out_id output s)
    as [Hx Hy]; [apply Hone | done | done | done | unfold y in Hlt; lia |].
  change (bal in_id ea s' = x + input) in Hx. change (bal out_id ea s' = y - output) in Hy.
  split; [done|]. split; [done|]. split; [done|]. split; [done|].
  split; [rewrite Hx, Hy; by apply product_grows|].
  destruct (attempted_frame ea out_id to output (attempted who in_id ea input s)) as [[_ H1 H2 _ _] _].
  destruct (attempted_frame who in_id ea input s) as [[_ H3 H4 _ _] _].
  split; [exact (eq_trans H1 H3) | exact (eq_trans H2 H4)].
Qed.

(** C22: a funded trade between two paired assets with distinct pools - the trader holds
    the input, all reserves are positive and the products fit - runs through both pools:
    the inherent asset that leaves the first pool enters the second, every balance is
    accounted for, and neither pool's product of reserves falls. *)
Theorem swap_route_correct who to a b input min_output s :
  let i := InherentAsset (assets s) in
  let ea := pool_account a s in let eb := pool_account b s in
  two_pool a b s -> ea <> eb -> to <> eb ->
  let mid := output_for input (bal a ea s) (bal i ea s) in
  tradable who a i input ea s -> tradable ea i b mid eb s ->
  let output := output_for mid (bal i eb s) (bal b eb s) in
  exists s', swap_assets_with_exact_input (Signed who) to a b input min_output s = Ok tt s' /\
    (forall id u, bal id u s' + side a who input id u + side i ea mid id u + side b eb output id u =
                  bal id u s + side a ea input id u + side i eb mid id u + side b to output id u) /\
    bal a ea s * bal i ea s <= bal a ea s' * bal i ea s' /\
    bal i eb s * bal b eb s <= bal i eb s' * bal b eb s'.
Proof.
  intros i ea eb Htwo Hab Hto mid Ha Hb output.
  pose proof Ha as [Hok Hne Hf Hin Hout Hfit]. pose proof Hb as [_ _ Hf2 Hin2 Hout2 _].
  pose proof (output_lt input _ _ Hin Hout) as Hlt1. pose proof (output_lt mid _ _ Hin2 Hout2) as Hlt2.
  fold mid in Hlt1. fold output in Hlt2.
  eexists. split.
  { apply route_in_run with (mid := mid); [done | done | intros fee; by eapply tradable_quote |
      intros fee; by eapply tradable_quote]. }
  fold i ea eb output. set (s' := routed _ _ _ _ _ _ _ s).
  assert (forall id u,
    bal id u s' + side a who input id u + side i ea mid id u + side b eb output id u =
    bal id u s + side a ea input id u + side i eb mid id u + side b to output id u) as Hbal.
  { intros id u. apply routed_bal; [done | done | | ]; fold i ea eb; lia. }
  split; [done|].
  destruct (routed_reserves who to a input mid b output s Htwo Hab Hne Hto) as [[E1 E2] [E3 E4]];
    [exact Hf | by apply N.lt_le_incl | by apply N.lt_le_incl |].
  change (bal a ea s' = bal a ea s + input) in E1. change (bal i ea s' = bal i ea s - mid) in E2.
  change (bal i eb s' = bal i eb s + mid) in E3. change (bal b eb s' = bal b eb s - output) in E4.
  rewrite E1, E2, E3, E4.
  split; by apply product_grows.
Qed.

(** A trade against a pool that lacks either reserve fails with [Empty Pool.]
    and changes nothing, with an exact input or an exact output alike. *)
Theorem swap_empty_pool who to in_id out_id amount limit s :
  one_pool in_id out_id s ->
  let ea := pool_account (paired_side in_id out_id s) s in
  bal in_id ea s = 0 \/ bal out_id ea s = 0 ->
  swap_assets_with_exact_input (Signed who) to in_id out_id amount limit s =
    Err (Other "Empty Pool.") s /\
  swap_assets_with_exact_output (Signed who) to in_id out_id amount limit s =
    Err (Other "Empty Pool.") s.
Proof.
  intros [Hne Hside]. unfold paired_side. cbv zeta. intros Hz.
  rewrite exact_input_cases, exact_output_cases. unfold try_str.
  destruct (N.eqb_spec in_id (InherentAsset (assets s))) as [Hin|Hin].
  - assert ((bal in_id (pool_account out_id s) s =? 0) || (bal out_id (pool_account out_id s) s =? 0) = true)
      as Hb by (apply orb_true_iff; rewrite !N.eqb_eq; tauto). rewrite Hin in Hb.
    split; apply bind_run_err; unfold map_err, inherent_asset_to_paired_asset_with_exact_input,
      inherent_asset_to_paired_asset_with_exact_output;
      rewrite (bind_run_err _ _ s "Empty Pool."%string s); [done| |done|].
    + rewrite paired_quote. unfold calc_output_at_known_input. by rewrite Hb.
    + rewrite inherent_cost. unfold calc_input_at_known_output. by rewrite Hb.
  - destruct Hside as [?|Hout]; [done|]. rewrite Hout, N.eqb_refl.
    assert ((bal in_id (pool_account in_id s) s =? 0) || (bal out_id (pool_account in_id s) s =? 0) = true)
      as Hb by (apply orb_true_iff; rewrite !N.eqb_eq; tauto). rewrite Hout in Hb.
    split; apply bind_run_err; unfold map_err, paired_asset_to_inherent_asset_with_exact_input,
      paired_asset_to_inherent_asset_with_exact_output;
      rewrite (bind_run_err _ _ s "Empty Pool."%string s); [done| |done|].
    + rewrite inherent_quote. unfold calc_output_at_known_input. by rewrite Hb.
    + rewrite paired_cost. unfold calc_input_at_known_output. by rewrite Hb.
Qed.

(** C36: an exact-output trade charges the output amount itself, whatever the
    reserves: the trader pays [output] units of one asset for [output] units of
    the other, and when the pool holds less of the bought asset than of the paid
    one the product of the reserves falls. [max_input] is ignored. *)
Theorem exact_output_charges_output who to in_id out_id output max_input s :
  let ea := pool_account (paired_side in_id out_id s) s in
  let x := bal in_id ea s in let y := bal out_id ea s in
  ledger_ok (assets s) -> one_pool in_id out_id s -> who <> ea -> to <> ea ->
  0 < x -> output < y -> x * output < u128_modulus -> output <= bal in_id who s ->
  exists s', swap_assets_with_exact_output (Signed who) to in_id out_id output max_input s = Ok tt s' /\
    (forall id u, bal id u s' + side in_id who output id u + side out_id ea output id u =
                  bal id u s + side in_id ea output id u + side out_id to output id u) /\
    (0 < output -> y <= x -> bal in_id ea s' * bal out_id ea s' < x * y).
Proof.
  intros ea x y Hok Hone Hwho Hto Hx Hlt Hfit Hf.
  eexists. split; [apply exact_output_run; [done | done | intros fee; by apply calc_input_run]|].
  fold ea. set (s' := traded _ _ _ _ _ _ _ _ s).
  assert (forall id u, bal id u s' + side in_id who output id u + side out_id ea output id u =
    bal id u s + side in_id ea output id u + side out_id to output id u) as Hbal
    by (intros; apply traded_bal; [apply Hone | done | unfold y in Hlt; lia]).
  split; [done|]. intros Hpos Hyx.
  destruct (traded_reserves (paired_side in_id out_id s) ea who to in_id output out_id output s)
    as [Ex Ey]; [apply Hone | done | done | done | unfold y in Hlt; lia |].
  fold s' x y in Ex, Ey. rewrite Ex, Ey. nia.
Qed.

(** C37: over two pools the output amount is charged at every leg: [output] units of the
    first asset, then [output] units of the inherent asset, pay for [output] units of the last one,
    whatever the reserves of either pool; and when the last pool holds no more than
    what is asked, all of it is handed out for nothing, because both quotes are
    [u128::MAX] and the refused payments are dropped. *)
Theorem exact_output_route who to a b output max_input s :
  let i := InherentAsset (assets s) in
  let ea := pool_account a s in let eb := pool_account b s in
  ledger_ok (assets s) -> two_pool a b s -> ea <> eb -> who <> ea -> to <> eb ->
  0 < bal a ea s -> 0 < bal i ea s -> 0 < bal i eb s -> 0 < bal b eb s ->
  (output < bal i ea s -> output < bal b eb s -> output <= bal a who s ->
   bal a ea s * output < u128_modulus -> bal i eb s * output < u128_modulus ->
   exists s', swap_assets_with_exact_output (Signed who) to a b output max_input s = Ok tt s' /\
     (forall id u, bal id u s' + side a who output id u + side i ea output id u + side b eb output id u =
                   bal id u s + side a ea output id u + side i eb output id u + side b to output id u) /\
     bal a ea s' * bal i ea s' = (bal a ea s + output) * (bal i ea s - output) /\
     bal i eb s' * bal b eb s' = (bal i eb s + output) * (bal b eb s - output)) /\
  (output = bal b eb s -> bal a who s < u128_max -> bal i ea s < u128_max ->
   exists s', swap_assets_with_exact_output (Signed who) to a b output max_input s = Ok tt s' /\
     bal b eb s' = 0 /\ bal b to s' = bal b to s + output /\
     (forall id u, id <> b -> bal id u s' = bal id u s)).
Proof.
  intros i ea eb Hok Htwo Hab Hwho Hto Ha Hi Hj Hb. split.
  - intros Hmid Hout Hf Hfa Hfb. eexists. split.
    { apply route_out_run with (mid := output) (input := output); [done | done |..]; intros fee; by apply calc_input_run. }
    pose proof (fun id u => routed_bal who to a output output b output s id u Htwo Hf (N.lt_le_incl _ _ Hmid)
      (N.lt_le_incl _ _ Hout)) as Hbal.
    split; [exact Hbal|].
    destruct (routed_reserves who to a output output b output s Htwo Hab Hwho Hto Hf (N.lt_le_incl _ _ Hmid)
      (N.lt_le_incl _ _ Hout)) as [[E1 E2] [E3 E4]].
    split; [exact (f_equal2 N.mul E1 E2) | exact (f_equal2 N.mul E3 E4)].
  - intros -> Hpoor Hsmall. eexists. split.
    { apply route_out_run with (mid := u128_max) (input := u128_max); [done | done |..]; intros fee;
        [by apply calc_input_too_much|]. apply calc_input_too_much; [done..|]. by apply N.lt_le_incl. }
    set (s' := routed _ _ _ _ _ _ _ s).
    assert (forall id u, bal id u s' + side b eb (bal b eb s) id u = bal id u s + side b to (bal b eb s) id u)
      as Hbal by (intros id u; exact (routed_unpaid_bal who to a u128_max u128_max b (bal b eb s) s id u
                                        Hpoor Hsmall (N.le_refl _))).
    split; [|split].
    + specialize (Hbal b eb). rewrite side_same, side_other_account in Hbal by congruence. lia.
    + specialize (Hbal b to). rewrite side_same, side_other_account in Hbal by congruence. lia.
    + intros id u Hid. specialize (Hbal id u). rewrite !side_other_asset in Hbal by congruence. lia.
Qed.

(** Asking for exactly the whole reserve quotes [u128::MAX], a payment no one can
    make, whose refusal is dropped: the pool's entire reserve goes to the
    recipient and nothing is paid. *)
Theorem exact_output_drains_pool who to in_id out_id max_input s :
  let ea := pool_account (paired_side in_id out_id s) s in
  let y := bal out_id ea s in
  ledger_ok (assets s) -> one_pool in_id out_id s -> to <> ea ->
  0 < bal in_id ea s -> 0 < y -> bal in_id who s < u128_max ->
  exists s', swap_assets_with_exact_output (Signed who) to in_id out_id y max_input s = Ok tt s' /\
    bal out_id ea s' = 0 /\ bal out_id to s' = bal out_id to s + y /\
    (forall u, bal in_id u s' = bal in_id u s).
Proof.
  intros ea y Hok Hone Hto Hx Hy Hpoor.
  eexists. split; [apply exact_output_run; [done | done | intros fee; by apply calc_input_too_much]|].
  fold ea. set (s' := traded _ _ _ _ _ _ _ _ s).
  assert (forall id u, bal id u s' + side out_id ea y id u = bal id u s + side out_id to y id u) as Hbal
    by (intros; by apply traded_unpaid_bal).
  split; [|split].
  - specialize (Hbal out_id ea). rewrite side_same, side_other_account in Hbal by congruence.
    fold y in Hbal. lia.
  - specialize (Hbal out_id to). rewrite side_same, side_other_account in Hbal by congruence. lia.
  - intros u. specialize (Hbal in_id u). rewrite !side_other_asset in Hbal by apply Hone. lia.
Qed.

(** C38: an exact-input trade by someone who does not hold the input still pays the
    output out: the refusal of the payment in is dropped, the reserve of the
    bought asset shrinks, and no one's holding of the other asset changes. *)
Theorem unfunded_swap_pays_out who to in_id out_id input min_output s :
  let ea := pool_account (paired_side in_id out_id s) s in
  let x := bal in_id ea s in let y := bal out_id ea s in
  ledger_ok (assets s) -> one_pool in_id out_id s -> to <> ea ->
  0 < x -> 0 < y -> input + x < u128_modulus -> y * input < u128_modulus ->
  bal in_id who s < input ->
  let output := output_for input x y in
  exists s', swap_assets_with_exact_input (Signed who) to in_id out_id input min_output s = Ok tt s' /\
    bal out_id ea s' + output = y /\ bal out_id to s' = bal out_id to s + output /\
    (forall u, bal in_id u s' = bal in_id u s).
Proof.
  intros ea x y Hok Hone Hto Hx Hy Hsum Hfit Hpoor output.
  pose proof (output_lt input x y Hx Hy) as Hlt.
  eexists. split; [apply exact_input_run; [done | done | intros fee; by apply calc_output_run]|].
  fold ea x y output. set (s' := traded _ _ _ _ _ _ _ _ s).
  assert (forall id u, bal id u s' + side out_id ea output id u = bal id u s + side out_id to output id u)
    as Hbal by (intros; apply traded_unpaid_bal; [done | by apply N.lt_le_incl]).
  split; [|split].
  - specialize (Hbal out_id ea). rewrite side_same, side_other_account in Hbal by congruence.
    unfold y. lia.
  - specialize (Hbal out_id to). rewrite side_same, side_other_account in Hbal by congruence. lia.
  - intros u. specialize (Hbal in_id u). rewrite !side_other_asset in Hbal by apply Hone. lia.
Qed.

Lemma bal_event id u e s : bal id u (add_event e s) = bal id u s.
Proof. done. Qed.

Lemma provided_shares who id x y s :
  liquidity_ok (swap s) ->
  account_liquidity id who (swap (provided who id x y s)) =
    account_liquidity id who (swap s) + minted id x s /\
  total_liquidity id (swap (provided who id x y s)) = total_liquidity id (swap s) + minted id x s /\
  liquidity_ok (swap (provided who id x y s)).
Proof.
  intros Hsh. split; [apply getd_insert_eq|]. split; [apply getd_insert_eq|].
  set (s2 := attempted who id (pool_account id s) y
               (attempted who (InherentAsset (assets s)) (pool_account id s) x s)).
  assert (swap s2 = swap s) as Hsw by (unfold s2; by rewrite !attempted_swap).
  intros id'. apply (shares_rewritten id who (account_liquidity id who (swap s) + minted id x s)
    (total_liquidity id (swap s) + minted id x s) (swap s2)); rewrite Hsw; [done | lia].
Qed.

(** C23: for a provider who holds both amounts, of an asset other than the inherent one,
    and sums and products that fit, [add_liquidity] moves both amounts into the pool
    and mints shares in
    proportion to the inherent amount (all of it for the first provider); the
    recorded total stays the sum of the accounts' shares. *)
Theorem add_liquidity_correct who id x y min_liquidity s :
  ledger_ok (assets s) -> liquidity_ok (swap s) -> id <> InherentAsset (assets s) ->
  x <= bal (InherentAsset (assets s)) who s -> y <= bal id who s ->
  (total_liquidity id (swap s) = 0 \/ 0 < inherent_reserve id s) ->
  total_liquidity id (swap s) * x < u128_modulus ->
  total_liquidity id (swap s) + minted id x s < u128_modulus ->
  let i := InherentAsset (assets s) in let ea := pool_account id s in
  exists s', add_liquidity (Signed who) id x y min_liquidity s = Ok tt s' /\
    (forall id' u, bal id' u s' + side i who x id' u + side id who y id' u =
                   bal id' u s + side i ea x id' u + side id ea y id' u) /\
    account_liquidity id who (swap s') = account_liquidity id who (swap s) + minted id x s /\
    total_liquidity id (swap s') = total_liquidity id (swap s) + minted id x s /\
    liquidity_ok (swap s') /\ ExchangeAccounts (swap s') !! id = Some ea.
Proof.
  intros Hok Hsh Hne Hx Hy Hres Hprod Hsum i ea.
  exists (add_event (EvSwap (LiquidityAdded who x id)) (provided who id x y s)). split.
  { unfold add_liquidity, ensure_signed, bind at 1, ret at 1.
    rewrite (bind_run _ _ _ _ _ (add_liquidity_run who id x y min_liquidity s Hok Hsh Hres Hprod Hsum)).
    reflexivity. }
  destruct (provided_shares who id x y s Hsh) as (H1 & H2 & H3).
  split; [intros; rewrite bal_event; by apply provided_bal|]. split; [done|]. split; [done|]. split; [done|].
  apply lookup_insert_eq.
Qed.

(** The refusals of the two payments of [add_liquidity] are dropped: a provider
    who holds neither amount is given the shares all the same, and no balance
    changes. *)
Theorem add_liquidity_mints_unpaid who id x y min_liquidity s :
  ledger_ok (assets s) -> liquidity_ok (swap s) ->
  bal (InherentAsset (assets s)) who s < x -> bal id who s < y ->
  (total_liquidity id (swap s) = 0 \/ 0 < inherent_reserve id s) ->
  total_liquidity id (swap s) * x < u128_modulus ->
  total_liquidity id (swap s) + minted id x s < u128_modulus ->
  exists s', add_liquidity (Signed who) id x y min_liquidity s = Ok tt s' /\
    (forall id' u, bal id' u s' = bal id' u s) /\
    account_liquidity id who (swap s') = account_liquidity id who (swap s) + minted id x s.
Proof.
  intros Hok Hsh Hx Hy Hres Hprod Hsum.
  exists (add_event (EvSwap (LiquidityAdded who x id)) (provided who id x y s)). split.
  { unfold add_liquidity, ensure_signed, bind at 1, ret at 1.
    rewrite (bind_run _ _ _ _ _ (add_liquidity_run who id x y min_liquidity s Hok Hsh Hres Hprod Hsum)).
    reflexivity. }
  split; [|apply (provided_shares who id x y s Hsh)]. intros id' u.
  change (bal id' u (attempted who id (pool_account id s) y
    (attempted who (InherentAsset (assets s)) (pool_account id s) x s)) = bal id' u s).
  by rewrite (attempted_refused who (InherentAsset (assets s))), attempted_refused.
Qed.

(** C24: [remove_liquidity] pays a share holder the shares' fraction of both
    reserves, rounded down, and takes the shares off the account and the total. *)
Theorem remove_liquidity_correct who id l min_i min_a s :
  ledger_ok (assets s) -> liquidity_ok (swap s) -> id <> InherentAsset (assets s) ->
  0 < l -> l <= account_liquidity id who (swap s) ->
  inherent_reserve id s * l < u128_modulus -> paired_reserve id s * l < u128_modulus ->
  let i := InherentAsset (assets s) in let ea := pool_account id s in
  let total := total_liquidity id (swap s) in
  let pi := inherent_reserve id s * l / total in let pp := paired_reserve id s * l / total in
  exists s', remove_liquidity (Signed who) id l min_i min_a s = Ok tt s' /\
    (forall id' u, bal id' u s' + side i ea pi id' u + side id ea pp id' u =
                   bal id' u s + side i who pi id' u + side id who pp id' u) /\
    account_liquidity id who (swap s') = account_liquidity id who (swap s) - l /\
    total_liquidity id (swap s') = total - l /\ liquidity_ok (swap s').
Proof.
  intros Hok Hsh Hne Hl Hown Hi Hp i ea total pi pp.
  pose proof (share_le id who _ Hsh) as Hle. fold total in Hle.
  exists (add_event (EvSwap (LiquidityRemoved who l id))
            (redeemed who id l (account_liquidity id who (swap s) - l) (total - l) s)). split.
  { unfold remove_liquidity, ensure_signed, bind at 1, ret at 1.
    rewrite (bind_run _ _ _ _ _ (remove_liquidity_run who id l min_i min_a
      (account_liquidity id who (swap s) - l) (total - l) s Hok ltac:(fold total; lia) Hi Hp
      ltac:(apply usub_in_range; lia) ltac:(apply usub_in_range; lia))).
    reflexivity. }
  split; [intros id' u; rewrite bal_event; exact (redeemed_bal who id l _ _ s id' u Hne
            (N.le_trans _ _ _ Hown Hle))|].
  split; [apply getd_insert_eq|]. split; [apply getd_insert_eq|].
  set (s2 := attempted ea id who pp (attempted ea i who pi s)).
  assert (swap s2 = swap s) as Hsw by (unfold s2; by rewrite !attempted_swap).
  apply (shares_rewritten id who (account_liquidity id who (swap s) - l) (total - l) (swap s2));
    rewrite Hsw; [done | fold total; lia].
Qed.

(** C39: shares that are not owned: with overflow checks the removal traps and
    nothing happens; without them it pays the fraction of the reserves to the
    caller, whose share count wraps around below zero. *)
Theorem remove_unowned_liquidity who id l min_i min_a s :
  ledger_ok (assets s) -> id <> InherentAsset (assets s) ->
  account_liquidity id who (swap s) < l -> l <= total_liquidity id (swap s) ->
  l < u128_modulus ->
  inherent_reserve id s * l < u128_modulus -> paired_reserve id s * l < u128_modulus ->
  let i := InherentAsset (assets s) in let total := total_liquidity id (swap s) in
  let pi := inherent_reserve id s * l / total in let pp := paired_reserve id s * l / total in
  (overflow_checks = true -> remove_liquidity (Signed who) id l min_i min_a s = Panic) /\
  (overflow_checks = false -> who <> pool_account id s ->
   exists s', remove_liquidity (Signed who) id l min_i min_a s = Ok tt s' /\
     bal i who s' = bal i who s + pi /\ bal id who s' = bal id who s + pp /\
     account_liquidity id who (swap s') = u128_modulus + account_liquidity id who (swap s) - l).
Proof.
  intros Hok Hne Hown Hl Hw Hi Hp i total pi pp.
  split.
  - intros Hc. unfold remove_liquidity, ensure_signed, bind at 1, ret at 1.
    apply bind_run_panic, remove_liquidity_panics; [done | lia | done | done |].
    unfold u128_sub, usub. by rewrite (proj2 (N.leb_gt _ _) Hown), Hc.
  - intros Hc Hwho. exists (add_event (EvSwap (LiquidityRemoved who l id)) (redeemed who id l
      (u128_modulus + account_liquidity id who (swap s) - l) (total - l) s)). split.
    { unfold remove_liquidity, ensure_signed, bind at 1, ret at 1.
      rewrite (bind_run _ _ _ _ _ (remove_liquidity_run who id l min_i min_a
        (u128_modulus + account_liquidity id who (swap s) - l) (total - l) s Hok ltac:(lia) Hi Hp
        ltac:(unfold u128_sub, usub; rewrite (proj2 (N.leb_gt _ _) Hown), Hc; f_equal;
              apply N.mod_small; lia) ltac:(apply usub_in_range; lia))). reflexivity. }
    pose proof (redeemed_bal who id l (u128_modulus + account_liquidity id who (swap s) - l)
      (total - l) s) as Hbal.
    assert (i <> id) as Hni by (intros E; by apply Hne).
    split; [|split; [|apply getd_insert_eq]].
    + specialize (Hbal i who Hne Hl). cbv zeta in Hbal. fold i in Hbal.
      rewrite side_same, (side_other_account i (pool_account id s)),
        !(fun w n => side_other_asset id w n i) in Hbal by done.
      rewrite bal_event. unfold payout in Hbal. fold total pi in Hbal. lia.
    + specialize (Hbal id who Hne Hl). cbv zeta in Hbal. fold i in Hbal.
      rewrite side_same, (side_other_account id (pool_account id s)),
        !(fun w n => side_other_asset i w n id) in Hbal by done.
      rewrite bal_event. unfold payout in Hbal. fold total pp in Hbal. lia.
Qed.

(** What adding liquidity does to the pool the next call finds. *)
Lemma provided_pool who id x y s :
  ledger_ok (assets s) -> id <> InherentAsset (assets s) -> who <> pool_account id s ->
  x <= bal (InherentAsset (assets s)) who s -> y <= bal id who s ->
  let s1 := provided who id x y s in
  InherentAsset (assets s1) = InherentAsset (assets s) /\
  inherent_reserve id s1 = inherent_reserve id s + x /\ ledger_ok (assets s1) /\
  bal (InherentAsset (assets s)) who s1 + x = bal (InherentAsset (assets s)) who s.
Proof.
  intros Hok Hne Hwho Hx Hy s1. set (i := InherentAsset (assets s)) in *.
  assert (InherentAsset (assets s1) = i) as Hi.
  { unfold s1. transitivity (InherentAsset (assets (attempted who id (pool_account id s) y
      (attempted who i (pool_account id s) x s)))); [done|].
    destruct (attempted_frame who id (pool_account id s) y (attempted who i (pool_account id s) x s))
      as [_ ->]. by destruct (attempted_frame who i (pool_account id s) x s) as [_ ->]. }
  assert (i <> id) as Hni by (intros E; by apply Hne).
  pose proof (provided_bal who id x y s i (pool_account id s) Hne Hx Hy) as Hr.
  pose proof (provided_bal who id x y s i who Hne Hx Hy) as Hw. fold i s1 in Hr, Hw.
  rewrite side_same, (side_other_account i who), !(fun w n => side_other_asset id w n i) in Hr by congruence.
  rewrite side_same, (side_other_account i (pool_account id s)), !(fun w n => side_other_asset id w n i)
    in Hw by done.
  split; [done|]. split; [|split; [by do 2 apply attempted_ok | lia]].
  unfold inherent_reserve, pool_account. rewrite Hi.
  change (bal i (pool_account id s) s1 = bal i (pool_account id s) s + x). lia.
Qed.

(** C25: shares bought and redeemed at once never gain inherent asset: when a provider
    who holds both amounts adds them to a pool that has shares and a reserve and is
    minted at least one share, removing exactly the minted shares succeeds and returns
    at most what was paid in - as long as the sums and products fit. *)
Theorem add_then_remove_no_profit who id x y m1 m2 m3 s :
  let i := InherentAsset (assets s) in let r := inherent_reserve id s in
  let t := total_liquidity id (swap s) in let n := minted id x s in
  ledger_ok (assets s) -> liquidity_ok (swap s) -> id <> i -> who <> pool_account id s ->
  x <= bal i who s -> y <= bal id who s -> 0 < t -> 0 < r -> 0 < n ->
  t * x < u128_modulus -> t + n < u128_modulus ->
  exists s1, add_liquidity (Signed who) id x y m1 s = Ok tt s1 /\
    (inherent_reserve id s1 * n < u128_modulus -> paired_reserve id s1 * n < u128_modulus ->
     exists s2, remove_liquidity (Signed who) id n m2 m3 s1 = Ok tt s2 /\
       bal i who s2 <= bal i who s).
Proof.
  intros i r t n Hok Hsh Hne Hwho Hx Hy Ht Hr Hn Hprod Hsum.
  set (s1 := add_event (EvSwap (LiquidityAdded who x id)) (provided who id x y s)). exists s1. split.
  { unfold add_liquidity, ensure_signed, bind at 1, ret at 1.
    rewrite (bind_run _ _ _ _ _ (add_liquidity_run who id x y m1 s Hok Hsh (or_intror Hr) Hprod Hsum)).
    reflexivity. }
  intros Hi1 Hp1. destruct (provided_shares who id x y s Hsh) as (H1 & H2 & _).
  destruct (provided_pool who id x y s Hok Hne Hwho Hx Hy) as (Hi & Hres & Hok1 & Hpaid).
  change (assets (provided who id x y s)) with (assets s1) in *.
  change (swap (provided who id x y s)) with (swap s1) in *.
  change (inherent_reserve id (provided who id x y s)) with (inherent_reserve id s1) in Hres.
  change (bal (InherentAsset (assets s)) who (provided who id x y s)) with (bal i who s1) in Hpaid.
  fold i t n r in Hi, H1, H2, Hres, Hpaid.
  exists (add_event (EvSwap (LiquidityRemoved who n id)) (redeemed who id n
    (account_liquidity id who (swap s1) - n) (total_liquidity id (swap s1) - n) s1)). split.
  { unfold remove_liquidity, ensure_signed, bind at 1, ret at 1.
    assert (n <= account_liquidity id who (swap s1)) as Ho by lia.
    assert (n <= total_liquidity id (swap s1)) as Hto by lia.
    rewrite (bind_run _ _ _ _ _ (remove_liquidity_run who id n m2 m3 _ _ s1 Hok1 ltac:(lia) Hi1 Hp1
      (usub_in_range _ _ _ _ Ho) (usub_in_range _ _ _ _ Hto))). reflexivity. }
  assert (pool_account id s1 = pool_account id s) as Hea by (unfold pool_account; by rewrite Hi).
  assert (id <> InherentAsset (assets s1)) as Hne1 by (by rewrite Hi).
  pose proof (redeemed_bal who id n (account_liquidity id who (swap s1) - n)
    (total_liquidity id (swap s1) - n) s1 i who Hne1 ltac:(lia)) as Hb.
  cbv zeta in Hb. rewrite Hi, Hea in Hb.
  assert (i <> id) as Hni by (intros E; by apply Hne).
  rewrite side_same, (side_other_account i (pool_account id s)), !(fun w n => side_other_asset id w n i)
    in Hb by done.
  rewrite bal_event. unfold payout in Hb. rewrite Hres, H2 in Hb.
  pose proof (redeem_le_cost r x t Ht Hr) as Hcost.
  assert (n = t * x / r) as Hn'
    by (unfold n, minted; by rewrite (proj2 (N.eqb_neq _ _)) by (unfold t in Ht; lia)).
  rewrite <- Hn' in Hcost. rewrite H2. lia.
Qed.

(** The quote of the api is what a funded sale of the inherent asset pays: the
    recipient's balance grows by exactly [calculate_output]. *)
Theorem calculate_output_matches_trade {E} who to out_id input min_output s :
  let i := InherentAsset (assets s) in let ea := pool_account out_id s in
  i <> out_id -> tradable who i out_id input ea s -> to <> ea ->
  exists v s', (calculate_output i out_id input : RT E Balance) s = Ok v s /\
    swap_assets_with_exact_input (Signed who) to i out_id input min_output s = Ok tt s' /\
    bal out_id to s' = bal out_id to s + v.
Proof.
  intros i ea Hne Htr Hto. set (v := output_for input (bal i ea s) (bal out_id ea s)).
  pose proof Htr as [Hok Hwho Hf Hin Hout Hfit].
  pose proof (output_lt input _ _ Hin Hout) as Hlt. fold v in Hlt.
  assert (paired_side i out_id s = out_id) as Hside by (unfold paired_side; by rewrite N.eqb_refl).
  exists v, (traded out_id ea who to i input out_id v s). split; [|split].
  - unfold calculate_output. rewrite get_inherent, get_swap_at, N.eqb_refl. unfold unwrap.
    rewrite paired_quote. by rewrite (tradable_quote _ _ _ _ _ _ _ Htr).
  - pose proof (exact_input_run who to i out_id input min_output v s Hok) as Hrun.
    cbv zeta in Hrun. rewrite Hside in Hrun.
    apply Hrun; [split; [done | by left]|]. intros fee. by eapply tradable_quote.
  - pose proof (traded_bal out_id ea who to i input out_id v s out_id to Hne Hf
      (N.lt_le_incl _ _ Hlt)) as Hb.
    rewrite side_same, (side_other_account out_id ea), !(fun w n => side_other_asset i w n out_id) in Hb
      by congruence. lia.
Qed.

(** For a sale of any other asset the quote looks at the pool of the bought
    asset and never at the pool of the sold one: it does not depend on [in_id],
    and for the inherent asset as the output - a pool that does not exist - it
    panics. *)
Theorem calculate_output_ignores_sold_asset in_id in_id' out_id amount s :
  let i := InherentAsset (assets s) in
  in_id <> i -> in_id' <> i ->
  (calculate_output in_id out_id amount : RT DispatchError Balance) s =
    (calculate_output in_id' out_id amount : RT DispatchError Balance) s /\
  (bal i (pool_account i s) s = 0 ->
     (calculate_output in_id i amount : RT DispatchError Balance) s = Panic).
Proof.
  intros i H1 H2. unfold i in *. unfold calculate_output.
  rewrite !get_inherent, !get_swap_at, (proj2 (N.eqb_neq _ _) H1), (proj2 (N.eqb_neq _ _) H2).
  split; [done|]. intros Hz. unfold unwrap. rewrite inherent_quote.
  by rewrite calc_output_empty by (by left).
Qed.
End Swap_properties.

(** The preimages of the exchange accounts are distinct: two pairs of [u64] asset
    ids with the same hashed buffer are the same pair, and a buffer is 34 bytes. *)
Theorem exchange_buffer_distinct i a i' a' :
  i < u64_modulus -> a < u64_modulus -> i' < u64_modulus -> a' < u64_modulus ->
  length (exchange_buffer i a) = 34%nat /\
  Forall (fun b => b < 256) (exchange_buffer i a) /\
  (exchange_buffer i a = exchange_buffer i' a' -> i = i' /\ a = a').
Proof.
  intros Hi Ha Hi' Ha'. split; [|split].
  - unfold exchange_buffer, u64_to_bytes. by rewrite !length_app, !le_bytes_length.
  - unfold exchange_buffer. rewrite !Forall_app. split; [|split; apply le_bytes_byte].
    cbn. repeat (constructor; [done|]). constructor.
  - by apply exchange_buffer_inj.
Qed.

(* ================================================================== *)
(** ** Witnesses                                                       *)
(* ================================================================== *)

Section Swap_witnesses.
#[local] Instance build : Config := checked_build.

(** Pool 1 holds 1000 of the inherent asset 0 and 5000 of asset 1; pool 2 holds
    1000 and 8000. *)
Definition one : Chain := swap_state true.
Definition two : Chain := two_pools_state true.

Lemma one_ledger : ledger_ok (assets one).
Proof. exact (co_ledger _ swap_state_ok). Qed.
Lemma one_shares : liquidity_ok (swap one).
Proof. exact (co_shares _ swap_state_ok). Qed.
Lemma two_ledger : ledger_ok (assets two).
Proof. exact (co_ledger _ two_pools_state_ok). Qed.

Ltac books :=
  lazymatch goal with
  | |- ledger_ok (assets one) => exact one_ledger
  | |- ledger_ok (assets two) => exact two_ledger
  end.
Ltac facts :=
  lazymatch goal with
  | |- ledger_ok _ => books
  | |- liquidity_ok _ => exact one_shares
  | |- one_pool _ _ _ => split; [evaluate | first [left; evaluate | right; evaluate]]
  | |- two_pool _ _ _ => split; [evaluate | split; evaluate]
  | |- tradable _ _ _ _ _ _ => split; [books | evaluate..]
  | |- _ \/ _ => first [left; evaluate | right; evaluate]
  | |- _ => evaluate
  end.

Lemma swap_exact_input_witness :
  exists s', swap_assets_with_exact_input (Signed (alice true)) (bob true) 0 1 100 99999 one = Ok tt s' /\
    bal 1 (pool_account 1 one) s' = 4546.
Proof.
  destruct (swap_exact_input_correct (alice true) (bob true) 0 1 100 99999 one)
    as (s' & Hrun & _ & _ & Hy & _); [facts..|].
  exists s'. split; [exact Hrun|]. etransitivity; [exact Hy | evaluate].
Defined.

Lemma swap_route_witness :
  exists s', swap_assets_with_exact_input (Signed (alice true)) (bob true) 1 2 100 0 two = Ok tt s' /\
    bal 1 (pool_account 1 two) two * bal 0 (pool_account 1 two) two <=
    bal 1 (pool_account 1 two) s' * bal 0 (pool_account 1 two) s'.
Proof.
  destruct (swap_route_correct (alice true) (bob true) 1 2 100 0 two)
    as (s' & Hrun & _ & Hp & _); [facts..|].
  exists s'. split; [exact Hrun | exact Hp].
Defined.

Lemma swap_empty_pool_witness :
  swap_assets_with_exact_input (Signed (alice true)) (bob true) 0 7 100 0 one =
    Err (Other "Empty Pool.") one.
Proof.
  destruct (swap_empty_pool (alice true) (bob true) 0 7 100 0 one) as [H _]; [facts..|]. exact H.
Defined.

Lemma exact_output_charges_witness :
  exists s', swap_assets_with_exact_output (Signed (alice true)) (bob true) 1 0 200 0 one = Ok tt s' /\
    bal 1 (pool_account 1 one) s' * bal 0 (pool_account 1 one) s' <
    bal 1 (pool_account 1 one) one * bal 0 (pool_account 1 one) one.
Proof.
  destruct (exact_output_charges_output (alice true) (bob true) 1 0 200 0 one)
    as (s' & Hrun & _ & Hp); [facts..|].
  exists s'. split; [exact Hrun | apply Hp; evaluate].
Defined.

(** Asset 2 for asset 1 through both pools: the first loses almost half its product. *)
Lemma exact_output_route_witness :
  exists s', swap_assets_with_exact_output (Signed (alice true)) (bob true) 1 2 500 0 two = Ok tt s' /\
    bal 1 (pool_account 1 two) s' * bal 0 (pool_account 1 two) s' = (5000 + 500) * (1000 - 500).
Proof.
  destruct (exact_output_route (alice true) (bob true) 1 2 500 0 two) as [Hcharge _]; [facts..|].
  destruct Hcharge as (s' & Hrun & _ & Hp & _); [evaluate..|].
  exists s'. split; [exact Hrun|]. etransitivity; [exact Hp | evaluate].
Defined.

Lemma exact_output_drains_witness :
  exists s', swap_assets_with_exact_output (Signed (bob true)) (bob true) 0 1
               (bal 1 (pool_account (paired_side 0 1 one) one) one) 0 one = Ok tt s' /\
    bal 1 (pool_account (paired_side 0 1 one) one) s' = 0.
Proof.
  destruct (exact_output_drains_pool (bob true) (bob true) 0 1 0 one)
    as (s' & Hrun & Hz & _); [facts..|].
  exists s'. split; [exact Hrun | exact Hz].
Defined.

Lemma unfunded_swap_witness :
  exists s', swap_assets_with_exact_input (Signed (bob true)) (bob true) 0 1 600000 0 one = Ok tt s' /\
    bal 1 (bob true) s' = 504991.
Proof.
  destruct (unfunded_swap_pays_out (bob true) (bob true) 0 1 600000 0 one)
    as (s' & Hrun & _ & Hb & _); [facts..|].
  exists s'. split; [exact Hrun|]. etransitivity; [exact Hb | evaluate].
Defined.

Lemma add_liquidity_witness :
  exists s', add_liquidity (Signed (bob true)) 1 100 700 0 one = Ok tt s' /\
    account_liquidity 1 (bob true) (swap s') = 100.
Proof.
  destruct (add_liquidity_correct (bob true) 1 100 700 0 one) as (s' & Hrun & _ & Hl & _); [facts..|].
  exists s'. split; [exact Hrun|]. etransitivity; [exact Hl | evaluate].
Defined.

Lemma add_liquidity_unpaid_witness :
  exists s', add_liquidity (Signed (bob true)) 1 600000 600000 0 one = Ok tt s' /\
    bal 0 (bob true) s' = bal 0 (bob true) one /\ account_liquidity 1 (bob true) (swap s') = 600000.
Proof.
  destruct (add_liquidity_mints_unpaid (bob true) 1 600000 600000 0 one)
    as (s' & Hrun & Hb & Hl); [facts..|].
  exists s'. split; [exact Hrun|]. split; [apply Hb|]. etransitivity; [exact Hl | evaluate].
Defined.

Lemma remove_liquidity_witness :
  exists s', remove_liquidity (Signed (alice true)) 1 500 0 0 one = Ok tt s' /\
    total_liquidity 1 (swap s') = 500.
Proof.
  destruct (remove_liquidity_correct (alice true) 1 500 0 0 one)
    as (s' & Hrun & _ & _ & Ht & _); [facts..|].
  exists s'. split; [exact Hrun|]. etransitivity; [exact Ht | evaluate].
Defined.

Lemma remove_unowned_witness :
  remove_liquidity (Signed (bob true)) 1 500 0 0 one = Panic.
Proof.
  destruct (remove_unowned_liquidity (bob true) 1 500 0 0 one) as [H _]; [facts..|].
  apply H. reflexivity.
Defined.

Lemma add_then_remove_witness :
  exists s1 s2, add_liquidity (Signed (bob true)) 1 100 700 0 one = Ok tt s1 /\
    remove_liquidity (Signed (bob true)) 1 100 0 0 s1 = Ok tt s2 /\ bal 0 (bob true) s2 <= bal 0 (bob true) one.
Proof.
  assert (ok true (add_liquidity (Signed (bob true)) 1 100 700 0 one) = true) as Hrun by evaluate.
  apply ran in Hrun.
  destruct (add_then_remove_no_profit (bob true) 1 100 700 0 0 0 one) as (s1 & Hrun1 & Hback); [facts..|].
  assert (@minted (Samples.build true) _ 1 100 one = 100) as Hn by evaluate.
  cbv zeta in Hback. rewrite Hn in Hback.
  assert (s1 = after true (add_liquidity (Signed (bob true)) 1 100 700 0) one) as -> by congruence.
  destruct Hback as (s2 & Hrun2 & Hb); [evaluate | evaluate |].
  exists (after true (add_liquidity (Signed (bob true)) 1 100 700 0) one), s2.
  split; [exact Hrun|]. split; [exact Hrun2 | exact Hb].
Defined.

Lemma calculate_output_witness :
  exists v s', (calculate_output 0 1 100 : RT DispatchError Balance) one = Ok v one /\
    swap_assets_with_exact_input (Signed (alice true)) (bob true) 0 1 100 0 one = Ok tt s' /\
    bal 1 (bob true) s' = bal 1 (bob true) one + v.
Proof.
  exact (calculate_output_matches_trade (alice true) (bob true) 1 100 0 one
    ltac:(evaluate) ltac:(split; [exact one_ledger | evaluate..]) ltac:(evaluate)).
Defined.

Lemma calculate_output_wrong_pool_witness :
  (calculate_output 1 0 100 : RT DispatchError Balance) one = Panic.
Proof.
  destruct (calculate_output_ignores_sold_asset 1 1 0 100 one) as [_ H]; [evaluate..|].
  apply H. evaluate.
Defined.

Lemma exchange_buffer_witness :
  bool_decide (exchange_buffer 0 1 = exchange_buffer 1 0) = false.
Proof.
  apply bool_decide_eq_false_2. intros Heq.
  destruct (exchange_buffer_distinct 0 1 1 0) as (_ & _ & Hinj); [evaluate..|].
  destruct (Hinj Heq) as [H _]. discriminate H.
Defined.
End Swap_witnesses.
