(* ===== verification/OffchainSpec.v ===== *)
(** * Properties of the offchain worker

    The price in cents out of a JSON document, the key the document is searched
    for, the window of accepted prices and the worker's round. *)

From S2P Require Export Samples.

Local Open Scope N_scope.
Local Open Scope rust_scope.

Section Offchain_properties.
Context {cfg : Config} {fo : FixedOps} {lj : LiteJson}.

(** C33: for a number with at least two fraction digits and a mantissa that fits [u32]
    cents, [parse_price] returns the mantissa in cents, rounded down to a cent, whatever
    the exponent: for a number written without an exponent that is the price in cents;
    a positive exponent is dropped, so that the result is at least ten times too
    small. *)
Theorem parse_price_in_cents str n s :
  price_number str = Some n -> price_in_range n ->
  let len := fraction_length n in
  2 <= len -> len <= 21 -> fraction n < 10 ^ len ->
  let answer := (Z.to_N (integer n) * 10 ^ len + fraction n) * 100 / 10 ^ len in
  (parse_price str : RT DispatchError (option N)) s = Ok (Some answer) s /\
  (exponent n = 0%Z -> answer = price_cents n) /\
  ((0 < exponent n)%Z -> 10 * answer <= price_cents n).
Proof.
  intros Hn Hr len H2 H21 Hf answer. split; [|split].
  - unfold parse_price. rewrite Hn, cents_run by (done || by apply fraction_small).
    by rewrite cents_floor by done.
  - intros He. by rewrite price_cents_plain.
  - apply price_cents_scaled.
Qed.

(** With a single fraction digit - and no exponent - the digit is taken as cents, not as tenths:
    the result falls short of the price in cents by nine times the digit. *)
Theorem parse_price_one_digit str n s :
  price_number str = Some n -> price_in_range n ->
  fraction_length n = 1 -> fraction n < 10 ->
  (parse_price str : RT DispatchError (option N)) s =
    Ok (Some (Z.to_N (integer n) * 100 + fraction n)) s /\
  Z.to_N (integer n) * 100 + fraction n + 9 * fraction n =
    (Z.to_N (integer n) * 10 + fraction n) * 100 / 10.
Proof.
  intros Hn Hr H1 Hf. split.
  - unfold parse_price. rewrite Hn, cents_run; rewrite ?H1; [|done|done|].
    + change (1 - 2) with 0. by rewrite N.pow_0_r, N.div_1_r.
    + change (1 - 2) with 0. rewrite N.pow_0_r, N.div_1_r. lia.
  - replace ((Z.to_N (integer n) * 10 + fraction n) * 100)
      with ((Z.to_N (integer n) * 100 + fraction n * 10) * 10) by lia.
    rewrite N.div_mul by done. lia.
Qed.

(** The search for the key shares one iterator over ["USD"] between all keys: a
    first key that is any prefix of ["USD"] - the empty one included - is taken
    for it, and after a first key that is none, the key ["USD"] itself is never
    found. *)
Theorem usd_key_only_found_first {V} k0 (v0 : V) obj :
  (k0 `prefix_of` usd -> find_key ((k0, v0) :: obj) usd = Some (k0, v0)) /\
  (~ k0 `prefix_of` usd ->
   forall k v, find_key ((k0, v0) :: obj) usd = Some (k, v) -> k <> usd).
Proof.
  split; [apply find_key_first|]. intros Hno k v Hf ->.
  apply find_key_after_failure in Hf; [lia | done |].
  destruct (all_match k0 usd) as [[|] rest] eqn:Hm; [|done].
  apply all_match_true in Hm. destruct Hno. by exists rest.
Qed.

Context {oc : OffchainConfig}.

(** An unsigned call is valid exactly when it is a price submission for a block
    that is neither before the window nor in the future; the price itself is not
    looked at. *)
Theorem validate_unsigned_window call s :
  (exists prefix priority provides longevity propagate,
     validate_unsigned call s = Valid prefix priority provides longevity propagate) <->
  (exists bn price, call = call_submit_price_unsigned bn price /\
     NextUnsignedAt s <= bn <= block_number s).
Proof.
  destruct call as [bn price|]; cbn; [|naive_solver].
  unfold validate_transaction_parameters. cbv zeta.
  destruct (N.ltb_spec bn (NextUnsignedAt s)), (N.ltb_spec (block_number s) bn);
    (split; [intros (?&?&?&?&?&H') | intros (bn' & p' & [= <- <-] & H')]); try discriminate H'; try lia.
  - exists bn, price. split; [done | lia].
  - by do 5 eexists.
Qed.

(** An unsigned price submission stores the price (in hundredths) for asset 4,
    moves the window [UnsignedInterval] blocks on and reports the price; signed
    and root origins are refused. *)
Theorem submit_price_effect bn price s q :
  fx_from_rational price 100 = Some q -> block_number s + UnsignedInterval < u32_modulus ->
  exists s', submit_price_unsigned NoOrigin bn price s = Ok tt s' /\
    get_rate 4 s' = q /\ (forall id, id <> 4 -> get_rate id s' = get_rate id s) /\
    NextUnsignedAt s' = block_number s + UnsignedInterval /\
    Balances (assets s') = Balances (assets s) /\ lending s' = lending s /\ swap s' = swap s /\
    events s' = deposited (EvOffchainWorker (NewPrice 4 q)) s /\
    (forall who, submit_price_unsigned (Signed who) bn price s = Err BadOrigin s) /\
    submit_price_unsigned Root bn price s = Err BadOrigin s.
Proof.
  intros Hq Hfit. eexists. split.
  { apply submit_price_run; [done|]. unfold u32_add. by apply uadd_in_range. }
  split; [apply getd_insert_eq|]. split; [intros; by apply getd_insert_ne|]. done.
Qed.

Context {host : OffchainHost}.

(** C34: a round of the worker before the window sends nothing; in the window, when
    the download succeeds with status 200, a UTF-8 body and a number under the
    key, it submits exactly the parsed price for this block and reports the
    pool's refusal. Every round leaves the chain storage as it was. *)
Theorem worker_round bn s :
  (bn < NextUnsignedAt s ->
     fetch_price_and_send_raw_unsigned bn s = Err "Too early to send unsigned transaction"%string s) /\
  (forall pending r n p,
     NextUnsignedAt s <= bn ->
     send_get price_url (timestamp + 2000) = Some pending ->
     try_wait pending (timestamp + 2000) = Some (inr r) ->
     utf8_valid (body r) = true -> price_number (body r) = Some n -> cents n = Some p ->
     fetch_price_and_send_raw_unsigned bn s =
       if code r =? 200 then
         if submit_unsigned_transaction (call_submit_price_unsigned bn p) then Ok tt s
         else Err "Unable to submit unsigned transaction."%string s
       else Err "Failed to fetch price"%string s) /\
  (forall o s', (offchain_worker bn : RT DispatchError unit) s = Ok o s' -> s' = s).
Proof.
  split; [|split].
  - intros Hlt. unfold fetch_price_and_send_raw_unsigned, bind, gets.
    by rewrite (proj2 (N.ltb_lt _ _) Hlt).
  - intros pending r n p Hle Hsend Hwait Hutf Hn Hp. apply worker_sends; [done|].
    by exists pending n.
  - intros o s' Hrun. symmetry.
    exact (respects_Ok eq _ _ _ _ (offchain_worker_pure bn) Hrun).
Qed.
End Offchain_properties.

(* ================================================================== *)
(** ** Witnesses                                                       *)
(* ================================================================== *)

Section Offchain_witnesses.
#[local] Instance build : Config := checked_build.
#[local] Existing Instance sample_json.
#[local] Existing Instance sample_host.

(** A plain number, and [1.25e3], which comes out as 125 cents. *)
Lemma parse_price_witness :
  (parse_price usd_document : RT DispatchError (option N)) (new_test_ext true) =
    Ok (Some (price_cents (mkNumber 19234 567 3 0))) (new_test_ext true) /\
  (parse_price scaled_document : RT DispatchError (option N)) (new_test_ext true) =
    Ok (Some 125) (new_test_ext true) /\
  price_cents (mkNumber 1 25 2 3) = 125000.
Proof.
  split; [|split; [|reflexivity]].
  - destruct (parse_price_in_cents usd_document (mkNumber 19234 567 3 0) (new_test_ext true))
      as (H & Hv & _); [evaluate | split; evaluate | evaluate..|].
    rewrite <- Hv by reflexivity. exact H.
  - destruct (parse_price_in_cents scaled_document (mkNumber 1 25 2 3) (new_test_ext true))
      as (H & _ & _); [evaluate | split; evaluate | evaluate.. | exact H].
Defined.

Lemma parse_price_one_digit_witness :
  (parse_price short_document : RT DispatchError (option N)) (new_test_ext true) =
    Ok (Some (Z.to_N 12 * 100 + 5)) (new_test_ext true).
Proof.
  destruct (parse_price_one_digit short_document (mkNumber 12 5 1 0) (new_test_ext true)) as [H _];
    [evaluate | split; evaluate | evaluate.. | exact H].
Defined.

Lemma submit_price_witness :
  exists s', submit_price_unsigned NoOrigin 1 1923456 (new_test_ext true) = Ok tt s' /\
    NextUnsignedAt s' = 5.
Proof.
  destruct (submit_price_effect 1 1923456 (new_test_ext true) 19234560000000000000000)
    as (s' & Hrun & _ & _ & Hn & _); [evaluate | evaluate |].
  exists s'. split; [exact Hrun|]. etransitivity; [exact Hn | evaluate].
Defined.

Lemma worker_round_witness :
  fetch_price_and_send_raw_unsigned 1 (new_test_ext true) = Ok tt (new_test_ext true).
Proof.
  destruct (worker_round 1 (new_test_ext true)) as (_ & H & _).
  apply (H tt (mkResponse 200 usd_document) (mkNumber 19234 567 3 0) 1923456); evaluate.
Defined.

Lemma usd_key_witness :
  find_key [(bytes_of "EUR", 1); (usd, 2)] usd = None /\ find_key [([], 1); (usd, 2)] usd = Some ([], 1).
Proof.
  split; [evaluate|]. apply (usd_key_only_found_first [] 1 [(usd, 2)]). by exists usd.
Defined.
End Offchain_witnesses.
