(* ===== verification/RuntimeSpec.v ===== *)
(** * Properties of the runtime

    The invariants of all reachable states, the rate of accepted prices, the
    genesis of the development chain and the runtime api. *)

From S2P Require Export Samples Prices Executive.
From stdpp Require Import relations.

Local Open Scope N_scope.
Local Open Scope rust_scope.

Section Runtime_properties.
Context {cfg : Config} {fo : FixedOps} {fl : FixedLaws fo}.

(** C1: in a build with overflow checks every state reachable from genesis by
    calls of any origin, accepted unsigned prices and new blocks keeps three
    books: each asset's balances sum up to its recorded supply, the asset sets of
    each user list exactly the user's supplies and debts (each in an existing
    pool, without repetition), and each pool's liquidity shares sum up to its
    recorded total. *)
Theorem reachable_states_ok g s :
  overflow_checks = true -> genesis_decodes g -> reachable g s ->
  (forall id, held id (assets s) = get_asset_total_supply id (assets s)) /\
  (forall id who, (id ∈ user_supply_set who (lending s) <-> is_Some (user_supply id who (lending s))) /\
                  (id ∈ user_debt_set who (lending s) <-> is_Some (user_debt id who (lending s)))) /\
  (forall id who, is_Some (user_supply id who (lending s)) \/ is_Some (user_debt id who (lending s)) ->
     is_Some (pool id (lending s))) /\
  (forall who, NoDup (user_supply_set who (lending s)) /\ NoDup (user_debt_set who (lending s))) /\
  (forall id, shares id (swap s) = total_liquidity id (swap s)).
Proof.
  intros Hc Hg Hr. destruct (reachable_chain_ok Hc g s Hg Hr) as [[Hsum _ _] [[S1 S2 S3] [D1 D2 D3]] Hsh].
  split; [done|]. split; [intros id who; split; [apply S1 | apply D1]|].
  split; [intros id who [H|H]; [by eapply S3 | by eapply D3]|].
  split; [intros who; split; [apply S2 | apply D2] | done].
Qed.

(** No step turns the clock back. *)
Lemma step_number s s' : step s s' -> block_number s <= block_number s'.
Proof.
  destruct 1 as [origin c s s' _ _ Hf | call s s' ????? _ _ Hf | s _]; [| | cbn; lia];
    pose proof (final_respects _ _ _ _ (call_keeps_number _ _) Hf) as E; unfold keeps in E; lia.
Qed.

Lemma steps_number s s' : rtc step s s' -> block_number s <= block_number s'.
Proof. induction 1 as [|s s1 s' H%step_number _ IH]; lia. Qed.

(** While the window is ahead, no step moves it. *)
Lemma closed_window s s' :
  step s s' -> block_number s < NextUnsignedAt s -> NextUnsignedAt s' = NextUnsignedAt s.
Proof.
  intros Hstep Hn. destruct Hstep as [origin c s s' Ho _ Hf | call s s' ????? _ Hv Hf | s _]; [| |done].
  - by pose proof (final_respects _ _ _ _ (call_keeps_clock origin c Ho) Hf) as [= _ Hw].
  - destruct call as [bn price|]; [|discriminate Hv]. cbn in Hv. unfold validate_transaction_parameters in Hv.
    destruct (N.ltb_spec bn (NextUnsignedAt s)); [done|].
    destruct (N.ltb_spec (block_number s) bn); [done | lia].
Qed.

(** C17: accepted prices are at least four blocks apart: once an unsigned price is
    accepted in some block, no unsigned call is valid in any later state of the chain
    before four blocks have passed, whatever calls are made in between - in a build with
    overflow checks, and in one without them up to the last four block numbers, where
    the end of the window wraps around to zero. *)
Theorem prices_four_blocks_apart bn price s s1 s2 call :
  overflow_checks = true \/ block_number s + 4 < u32_modulus ->
  final (dispatch NoOrigin (CallOffchainWorker (call_submit_price_unsigned bn price)) s) = Some s1 ->
  rtc step s1 s2 -> block_number s2 < block_number s + 4 ->
  exists reason, validate_unsigned call s2 = Invalid reason.
Proof.
  intros Hc Hf Hsteps Hearly.
  assert (NextUnsignedAt s1 = block_number s + 4) as H1.
  { cbn [dispatch] in Hf. destruct (submit_price_unsigned NoOrigin bn price s) as [[] t|e t|] eqn:Hrun;
      [| by apply submit_price_no_error in Hrun | done]. injection Hf as <-.
    apply submit_price_Ok in Hrun as (q & next & _ & Hn & ->). cbn. revert Hn. unfold u32_add.
    destruct Hc as [-> | Hfit]; [by intros [-> _]%uadd_checked|]. rewrite uadd_in_range by done. by intros [= <-]. }
  assert (NextUnsignedAt s2 = block_number s + 4) as H2.
  { clear Hf. revert H1 Hearly. induction Hsteps as [s1|s1 s3 s2 Hstep Hrest IH]; [done|]. intros H1 Hearly.
    apply IH; [|done]. rewrite <- H1. apply closed_window; [done|].
    pose proof (step_number _ _ Hstep). pose proof (steps_number _ _ Hrest). lia. }
  destruct call as [bn' p'|]; cbn; [|by eexists]. unfold validate_transaction_parameters. cbv zeta.
  destruct (N.ltb_spec bn' (NextUnsignedAt s2)); [by eexists|].
  destruct (N.ltb_spec (block_number s2) bn'); [by eexists | lia].
Qed.

(** In a build without overflow checks an accepted price at the last block numbers wraps the
    window around: another one is valid at once. *)
Example window_wraps (bn price : N) (s : Chain) :
  overflow_checks = false -> block_number s = 4294967293 -> price < u32_modulus ->
  exists s1, final (dispatch NoOrigin (CallOffchainWorker (call_submit_price_unsigned bn price)) s) = Some s1 /\
    NextUnsignedAt s1 = 1 /\
    validate_unsigned (call_submit_price_unsigned (block_number s) price) s1 = Valid "OffchainWorker" 5 1 5 true.
Proof.
  intros Hc Hn Hp. eexists. split.
  { cbn [dispatch]. rewrite (submit_price_run bn price s _ 1 (cents_rational price Hp)); [reflexivity|].
    unfold u32_add. by rewrite Hc, Hn. }
  split; [done|]. cbn. unfold validate_transaction_parameters. cbn. by rewrite Hn.
Qed.

(** C11: who sets prices: after any run of calls of the four pallets - of every origin,
    failed ones included - and new blocks, the price table is the one before the run
    with the quotes written over it in order: the root's [set_price] calls, and unsigned
    submissions, whose cents become the price of asset 4.  Of all unsigned calls the
    runtime's validator accepts exactly the submissions for a block inside the window,
    and the offchain worker itself writes nothing. *)
Theorem prices_need_authority :
  (forall l s s', run_actions l s = Some s' -> prices s' = foldl quote (prices s) l) /\
  (forall F (c : RuntimeCall F) s,
     (exists prefix priority provides longevity propagate,
        runtime_validate_unsigned c s = Some (Valid prefix priority provides longevity propagate)) <->
     (exists bn price, c = OwnPallet (CallOffchainWorker (call_submit_price_unsigned bn price)) /\
        NextUnsignedAt s <= bn <= block_number s)) /\
  (forall {lj : LiteJson} {host : OffchainHost} bn s s' (o : unit),
     (offchain_worker bn : RT DispatchError unit) s = Ok o s' -> s' = s).
Proof.
  split; [apply run_prices|]. split.
  - intros F [f|[c|c|c|[bn price|]]] s; cbn;
      try (split; [by intros (? & ? & ? & ? & ? & [=]) | by intros (? & ? & [=] & _)]).
    unfold validate_transaction_parameters. cbv zeta.
    destruct (N.ltb_spec bn (NextUnsignedAt s)), (N.ltb_spec (block_number s) bn);
      (split; [intros (?&?&?&?&?&H') | intros (bn' & p' & [= <- <-] & H')]); try discriminate H'; try lia.
    + exists bn, price. split; [done | lia].
    + by do 5 eexists.
  - intros lj host bn s s' o Hrun. symmetry. exact (respects_Ok eq _ _ _ _ (offchain_worker_pure bn) Hrun).
Qed.

(** The runtime api reports a user's collateral, its discounted value and the
    debt as [u64]s: exact when the value fits, pinned to the maximum when not, and
    without touching the storage. *)
Theorem api_user_info_saturates user s b cs cd :
  result (get_user_info user : RT DispatchError _) s = Some (b, cs, cd) ->
  (api_get_user_info user : RT DispatchError _) s =
    Ok (N.min b u64_max, N.min cs u64_max, N.min cd u64_max) s.
Proof.
  intros Hr. unfold api_get_user_info.
  assert ((get_user_info user : RT DispatchError _) s = Ok (b, cs, cd) s) as Hrun.
  { pose proof (user_info_pure (E := DispatchError) user s) as Hp. unfold result in Hr.
    destruct (get_user_info user s); [|done|done]. subst. by injection Hr as ->. }
  by rewrite (bind_run _ _ _ _ _ Hrun).
Qed.
End Runtime_properties.

(** The development chain, with the two genesis accounts apart. *)
Section Testnet.
#[local] Instance build : Config := checked_build.

Definition testnet : GenesisConfig := testnet_pallets (alice true) (bob true).

(** The genesis of the development chain builds, with five assets of 10^18
    units of which Bob holds 500000 and Alice the rest, their five prices, and a
    collateral pool for each. *)
Theorem testnet_genesis_builds :
  let s := genesis_state true testnet in
  ok true (build_genesis testnet) = true /\
  NextAssetId (assets s) = 5 /\
  map (fun id => bal id (alice true) s) [0; 1; 2; 3; 4] = repeat 999999999999500000 5 /\
  map (fun id => bal id (bob true) s) [0; 1; 2; 3; 4] = repeat 500000 5 /\
  map (fun id => price id (assets s)) [0; 1; 2; 3; 4] =
    map fx_from_integer [100; 60; 5; 600; 20000] /\
  map (fun id => option_map can_be_collateral (pool id (lending s))) [0; 1; 2; 3; 4] =
    repeat (Some true) 5 /\
  fee_rate (swap s) = 1.
Proof. by vm_compute. Qed.
End Testnet.

(* ================================================================== *)
(** ** Witnesses                                                       *)
(* ================================================================== *)

Section Runtime_witnesses.
#[local] Instance witness_build : Config := checked_build.

(** The development genesis, one transfer and one block later. *)
Definition moved_state : Chain :=
  after true (dispatch (Signed (alice true)) (CallAssets (call_transfer_asset 0 (bob true) 1)))
    (genesis_state true testnet).

Lemma moved_reachable : reachable testnet (next_block moved_state).
Proof.
  apply (reachable_step _ moved_state).
  - apply (reachable_step _ (genesis_state true testnet)).
    + apply reachable_genesis, (genesis_ran true). evaluate.
    + apply (step_call (Signed (alice true)) (CallAssets (call_transfer_asset 0 (bob true) 1)));
        [discriminate | reflexivity |].
      assert (ok true (dispatch (Signed (alice true)) (CallAssets (call_transfer_asset 0 (bob true) 1))
        (genesis_state true testnet)) = true) as Hrun by evaluate.
      apply ran in Hrun. exact (f_equal final Hrun).
  - apply step_block. evaluate.
Qed.

Lemma testnet_decodes : genesis_decodes testnet.
Proof. unfold genesis_decodes. cbn. repeat (constructor; [by vm_compute|]). constructor. Qed.

Lemma reachable_states_witness :
  held 0 (assets (next_block moved_state)) = get_asset_total_supply 0 (assets (next_block moved_state)).
Proof.
  destruct (reachable_states_ok testnet (next_block moved_state) eq_refl testnet_decodes moved_reachable)
    as [H _]. exact (H 0).
Defined.

(** A price, and the state two blocks later. *)
Definition priced_state : Chain :=
  after true (dispatch NoOrigin (CallOffchainWorker (call_submit_price_unsigned 1 100)))
    (new_test_ext true).

Lemma prices_witness :
  exists reason, validate_unsigned (call_submit_price_unsigned 3 200)
    (next_block (next_block priced_state)) = Invalid reason.
Proof.
  assert (ok true (dispatch NoOrigin (CallOffchainWorker (call_submit_price_unsigned 1 100))
    (new_test_ext true)) = true) as Hrun by evaluate.
  apply ran in Hrun.
  apply (prices_four_blocks_apart 1 100 (new_test_ext true) priced_state);
    [left; reflexivity | exact (f_equal final Hrun) | | evaluate].
  apply (rtc_l _ _ (next_block priced_state)); [apply step_block; evaluate|].
  apply (rtc_l _ _ (next_block (next_block priced_state))); [apply step_block; evaluate | apply rtc_refl].
Defined.

(** Prices from the root, from the feed and from Bob, who is refused. *)
Definition price_days : list Action :=
  [NewBlock;
   Extrinsic Root (CallAssets (call_set_price 1 (fx_from_integer 7)));
   Extrinsic NoOrigin (CallOffchainWorker (call_submit_price_unsigned 1 1923456));
   Extrinsic (Signed (bob true)) (CallAssets (call_set_price 0 (fx_from_integer 1)));
   Extrinsic (Signed (bob true)) (CallLending (call_init_pool 0 true));
   Extrinsic Root (CallAssets (call_set_price 1 (fx_from_integer 9)))].

Definition price_end : Chain := default (new_test_ext true) (run_actions price_days (new_test_ext true)).

Lemma authority_witness :
  prices price_end !! 4 = Some 19234560000000000000000 /\
  prices price_end !! 1 = Some (fx_from_integer 9) /\
  prices price_end !! 0 = prices (new_test_ext true) !! 0 /\
  NextUnsignedAt (new_test_ext true) <= 1.
Proof.
  assert (run_actions price_days (new_test_ext true) = Some price_end) as Hrun
    by (apply defined; vm_compute; reflexivity).
  destruct prices_need_authority as (Hprices & Hvalid & _).
  rewrite (Hprices _ _ _ Hrun). split; [vm_compute; reflexivity|]. split; [vm_compute; reflexivity|].
  split; [vm_compute; reflexivity|].
  destruct (proj1 (Hvalid unit (OwnPallet (CallOffchainWorker (call_submit_price_unsigned 1 5)))
    (new_test_ext true))) as (bn & p & [= <- <-] & Hw & _); [|exact Hw].
  do 5 eexists. vm_compute. reflexivity.
Defined.

Lemma api_user_info_witness :
  (api_get_user_info (bob true) : RT DispatchError _) (borrowed_state true) =
    Ok (N.min 6000000 u64_max, N.min 4200000 u64_max, N.min 1000000 u64_max) (borrowed_state true).
Proof. apply api_user_info_saturates. evaluate. Defined.
End Runtime_witnesses.
