(* ===== verification/MoneySpec.v ===== *)
(** * Properties of the chain as a whole

    What holds of the calls of all pallets together: the widths of the stored
    numbers, whose money a call can move, the cash behind the lending pools, the
    genesis of every configuration and the life of the price feed. *)

From S2P Require Export Samples Solvency Pools Feed Genesis Profiles.
From stdpp Require Import relations.

Local Open Scope N_scope.
Local Open Scope rust_scope.

Section Chain_properties.
Context {cfg : Config} {fo : FixedOps} {fl : FixedLaws fo}.

(** C12: every state of every chain is well-typed, in builds with and without
    overflow checks: each stored key and value fits the Rust type of its storage
    item, so the model, whose numbers are unbounded, never leaves the range of the
    program. *)
Theorem reachable_well_typed g s : genesis_typed g -> reachable g s -> chain_typed s.
Proof. apply reachable_typed. Qed.

(** C2: the four pallets implement the abstract bank, in builds with and without
    overflow checks: every call of every origin, failed ones included, is a
    sequence of moves, issues and burns taken on behalf of the signer, the lending
    account for a lending call and the pools a swap call names, and every run from
    genesis ends in a bank reached from the empty one - whatever overflows in the
    interest of the lending pallet or the shares of the swap pallet, as long as the
    asset ids last. *)
Theorem chain_refines_bank :
  (forall origin c s s', call_decodes c -> ids_left 1 s -> ledger_ok (assets s) ->
     final (dispatch origin c s) = Some s' ->
     ledger_ok (assets s') /\ rtc (bank_step (entitled origin c)) (bank_of s) (bank_of s')) /\
  (forall g l s0 s, genesis_decodes g ->
     overflow_checks = true \/ N.of_nat (length (genesis_assets g) + length l) <= u64_max ->
     build_genesis g = Ok tt s0 -> Forall (action_ok nobody) l -> run_actions l s0 = Some s ->
     ledger_ok (assets s) /\ rtc (bank_step (fun _ => True)) empty_bank (bank_of s)).
Proof.
  split.
  - intros origin c s s' Hdec Hids Hok Hrun. by apply (dispatch_money origin c s s').
  - intros g l s0 s Hdec Hids Hb Hl Hrun.
    destruct (genesis_money g s0 Hdec) as (Hok0 & Hs0 & Hid0); [destruct Hids; [by left | right; lia] | done |].
    destruct (run_actions_money nobody l s0 s Hok0) as [Hok Hs]; [|done|done|].
    { destruct Hids as [?|Hids]; [by left | right; lia]. }
    split; [done|]. etrans; [exact Hs0|].
    eapply rtc_congruence with (f := fun b => b); [|exact Hs]. intros b b'. by apply bank_step_mono.
Qed.

(** C9: money needs a signature: a call takes money only from its signer, from the
    lending account if it is a lending call, and from the exchange accounts of the
    pools it names if it is a swap call; so through any run of extrinsics and blocks,
    an account that signs none of them and belongs to no pallet never loses a unit of
    any asset - in a build without overflow checks too, as long as the asset ids
    last. *)
Theorem funds_need_a_signature :
  (forall origin c s s' id u, call_decodes c -> ids_left 1 s -> ledger_ok (assets s) ->
     final (dispatch origin c s) = Some s' -> ~ entitled origin c u -> bal id u s <= bal id u s') /\
  (forall l s s' id u, ids_left (N.of_nat (length l)) s -> ledger_ok (assets s) -> ~ pallet_account u ->
     Forall (action_ok (eq u)) l -> run_actions l s = Some s' -> bal id u s <= bal id u s').
Proof.
  split; [intros origin c s s' id u; apply dispatch_holding|].
  intros l s s' id u Hids Hok. by apply run_actions_holding.
Qed.

(** C18: the genesis storage of every configuration is built: no entry traps or
    fails, asset [i] has the amount and price of entry [i], the pools are exactly
    the listed ones, and the books balance. *)
Theorem genesis_completes g :
  genesis_decodes g -> N.of_nat (length (genesis_assets g)) <= u64_max ->
  exists s, build_genesis g = Ok tt s /\ ledger_ok (assets s) /\
    NextAssetId (assets s) = N.of_nat (length (genesis_assets g)) /\
    (forall i entry, genesis_assets g !! i = Some entry ->
       get_asset_total_supply (N.of_nat i) (assets s) = snd (fst entry) /\
       price (N.of_nat i) (assets s) = fx_from_integer (snd entry)) /\
    (forall id, is_Some (pool id (lending s)) <-> id ∈ genesis_pools g).
Proof. apply genesis_complete. Qed.

Section Lending_cash.
Context {fr : FixedRound fo}.

(** C26: interest is never credited out of nothing, over fixed-point numbers whose sums
    trap instead of wrapping: an accrual of a pool of a reachable state, however late,
    raises what the suppliers own by at most what it raises what the borrowers owe, or leaves no more owned than owed, so that no cash is promised
    at all - as long as both totals stay below [2^128 / 10^18] units, where the
    library still cuts products off. *)
Theorem interest_is_paid_for g s id p now p' :
  reachable g s -> pool id (lending s) = Some p ->
  accrue_interest_at now p = Some p' -> moderate p' = true ->
  pool_supply p' + pool_debt p <= pool_supply p + pool_debt p' \/ pool_supply p' <= pool_debt p'.
Proof. intros Hr Hp. eapply accrual_cash, (ls_pools _ _ (reachable_sane g s Hr)), Hp. Qed.

(** C4: the pools of every reachable state, in both builds of the pallets over
    fixed-point numbers whose sums trap instead of wrapping and whose products and
    ratios are cut off or rounded to the nearest: each is stored under its own asset with the parameters of
    [_init_pool], was last updated in no later block and has indices of at least one,
    like all positions have - so no position is divided by a zero index; an accrual
    never lowers a total or an index; the debt rate is at least the initial one, and
    while the debt is covered by the supply it is at most eleven times that and no
    less than the supply rate. *)
Theorem reachable_pools_sane g s id p :
  reachable g s -> pool id (lending s) = Some p ->
  pool_ok p /\ pool_asset p = id /\ enabled p = true /\ last_updated p <= block_number s /\
  (safe_factor p, close_factor p, discount_factor p, utilization_factor p, initial_interest_rate p) =
    (700000000000000000, fx_one, 950000000000000000, 38500000000, 3850000000) /\
  (forall who, (forall us, user_supply id who (lending s) = Some us -> fx_one <= us_index us) /\
               (forall ud, user_debt id who (lending s) = Some ud -> fx_one <= ud_index ud)) /\
  (forall now p', accrue_interest_at now p = Some p' ->
     pool_supply p <= pool_supply p' /\ pool_debt p <= pool_debt p' /\
     total_supply_index p <= total_supply_index p' /\ total_debt_index p <= total_debt_index p') /\
  (forall dr sr, debt_rate_internal p = Some dr -> supply_rate_internal p = Some sr ->
     3850000000 <= dr /\ (pool_debt p <= pool_supply p -> dr <= 11 * 3850000000 /\ sr <= dr)).
Proof.
  intros Hr Hp. pose proof (reachable_sane g s Hr) as [_ Hpools Hsup Hdebt].
  pose proof (Hpools _ _ Hp) as Hsane. pose proof Hsane as [Hok Ha He Hu H1 H2 H3 H4 H5].
  split; [done|]. split; [done|]. split; [done|]. split; [done|].
  split; [by rewrite H1, H2, H3, H4, H5|].
  split; [intros who; split; intros d Hd; [exact (Hsup _ _ Hd) | exact (Hdebt _ _ Hd)]|].
  split; [intros now p'; by eapply accrue_grows|].
  intros dr sr Hdr Hsr. destruct (debt_rate_range p dr Hdr) as [Hlow Hhigh]. rewrite H5 in Hlow, Hhigh.
  split; [done|]. intros Hle. specialize (Hhigh Hle). split; [lia | by eapply supply_rate_below].
Qed.

(** C3: what the lending pallet can pay, in a build with overflow checks in which no
    exchange account is the lending account: from genesis, through any run without a
    call signed by the pallet's own account in which the totals of the pools, interest
    included, stay below [2^128 / 10^18] units, the account holds [supply - debt] of
    every pool's asset up to what liquidations took out of it - and without
    liquidations all of it. *)
Theorem pools_stay_covered g l s0 s id p :
  overflow_checks = true -> genesis_decodes g ->
  (forall i a, get_exchange_address i a <> account_id) ->
  build_genesis g = Ok tt s0 -> Forall (action_ok (eq account_id)) l -> modest_run l s0 ->
  run_actions l s0 = Some s -> pool id (lending s) = Some p ->
  pool_supply p <= bal id account_id s + seized l s0 id + pool_debt p /\
  (Forall (fun a => liquidates a = false) l -> seized l s0 id = 0).
Proof.
  intros Hc Hg Hapart Hb Hl Hm Hrun Hp. split; [|by apply seized_nothing].
  refine (run_solvent Hc Hapart (fun _ => 0) l s0 s _ _ _ Hm Hl Hrun id p Hp).
  - apply (co_ledger _ (genesis_chain_ok Hc g s0 Hg Hb)).
  - eapply reachable_sane. by apply (reachable_genesis g).
  - by eapply genesis_solvent.
Qed.

(** C19: behind the cash guard there is cash, in a build with overflow checks: in a
    reachable state with covered pools and totals, interest included, below
    [2^128 / 10^18] units, neither a loan of a positive amount nor a withdrawal of a
    positive amount from a position of positive worth ever fails at the transfer: what
    passes the guards is paid. *)
Theorem cash_guard_suffices g who id n s :
  overflow_checks = true -> genesis_decodes g -> reachable g s -> modest s ->
  solvent (fun _ => 0) s -> who <> account_id -> 0 < n ->
  (forall s', borrow (Signed who) id n s <> Err (Module_ TransferFailed) s') /\
  (forall p p' x, pool id (lending s) = Some p -> accrue_interest_at (block_number s) p = Some p' ->
     supply_worth (total_supply_index p') id who (lending s) = Some x -> 0 < x ->
     forall s', withdraw (Signed who) id n s <> Err (Module_ TransferFailed) s').
Proof.
  intros Hc Hg Hr Hm Hs Hne Hn.
  pose proof (co_ledger _ (reachable_chain_ok Hc g s Hg Hr)) as Hok.
  pose proof (reachable_sane g s Hr) as Hsane.
  assert (Signed who <> Signed account_id) as Ho by congruence. split.
  - intros s' Hrun.
    pose proof (borrow_solvent (fun _ => 0) Hc (Signed who) id n s Hok Hsane Hm Hs Ho) as Hwp.
    unfold wp in Hwp. rewrite Hrun in Hwp. destruct Hwp as [_ Hz]. specialize (Hz eq_refl eq_refl). lia.
  - intros p p' x Hp Hacc Hx Hpos s' Hrun.
    pose proof (withdraw_solvent (fun _ => 0) Hc (Signed who) id n s Hok Hsane Hm Hs Ho) as Hwp.
    unfold wp in Hwp. rewrite Hrun in Hwp. destruct Hwp as [_ Hz].
    destruct (Hz eq_refl eq_refl) as [?|(who' & q & q' & [= <-] & Hq & Hacc' & Hw)]; [lia|].
    by simplify_eq.
Qed.
End Lending_cash.

Section Feed_life.
Context {lj : LiteJson} {host : OffchainHost}.

(** C13: the price feed never dies: from every reachable state, within four blocks a
    worker whose download yields a price of [price] cents hands exactly that price for
    its block to the transaction pool and reports what the pool answers; the pool's
    validation, which runs at the start of the next block, accepts the submission, and
    executing it in that block stores exactly that price and opens the next window four
    blocks on. *)
Theorem price_feed_live g s r price :
  reachable g s -> block_number s + 9 < u32_modulus ->
  downloads r price -> code r = 200 ->
  exists k, (k <= 4)%nat /\
    let t := blocks_later k s in
    let call := call_submit_price_unsigned (block_number t) price in
    reachable g t /\
    fetch_price_and_send_raw_unsigned (block_number t) t =
      (if submit_unsigned_transaction call then Ok tt t
       else Err "Unable to submit unsigned transaction."%string t) /\
    (exists pre prio prov long prop, validate_unsigned call (next_block t) = Valid pre prio prov long prop) /\
    exists t', dispatch NoOrigin (CallOffchainWorker call) (next_block t) = Ok tt t' /\ reachable g t' /\
      get_rate 4 t' = price * 10000000000000000 /\ NextUnsignedAt t' = block_number t + 5.
Proof.
  intros Hr Hfit Hd Hcode.
  assert (price < u32_modulus) as Hp by by destruct Hd; eapply cents_bound.
  destruct (window_opens s (reachable_window g s Hr)) as (k & Hk & Hw).
  pose proof (blocks_later_clock k s) as [= Hb _].
  assert (reachable g (blocks_later k s)) as Hrt by (apply blocks_later_reachable; [done | lia]).
  exists k. split; [done|]. cbv zeta. split; [done|].
  set (t := blocks_later k s) in *.
  assert (reachable g (next_block t)) as Hru by (eapply reachable_step, step_block; [done | lia]).
  destruct (price_accepted (block_number t) price (next_block t)) as (Hv & Hrun & Hstep);
    [cbn; lia | cbn; lia | cbn; lia | done |].
  split; [by rewrite (worker_sends _ r price _ Hw Hd), Hcode|].
  split; [by do 5 eexists|]. eexists. split; [exact Hrun|]. split; [by eapply reachable_step|].
  split; [apply getd_insert_eq | cbn; lia].
Qed.
End Feed_life.
End Chain_properties.

(** *** The tested build and the shipped one *)

Section Two_builds.
Context {acc : Accounts} {fo : FixedOps} {fl : FixedLaws fo}.

(** C10: what is tested is what is shipped: a call that does not trap in the build
    with overflow checks has the same outcome - result, error and every write - in
    the build without them, whose fixed-point numbers may wrap where the checked ones
    trap; so a whole run of the checked build, from its genesis on, is a run of the
    shipped build, and ends with the invariants of all ledgers. *)
Theorem shipped_build_agrees add mul div :
  (forall a b, narrower (fx_add a b) (add a b)) -> (forall a b, narrower (fx_mul a b) (mul a b)) ->
  (forall a b, narrower (fx_div a b) (div a b)) ->
  let wrapped := with_partial fo add mul div in
  let checked := mkConfig acc true in
  let shipped := mkConfig acc false in
  (forall origin c s, @dispatch checked fo origin c s <> Panic ->
     @dispatch shipped wrapped origin c s = @dispatch checked fo origin c s) /\
  (forall g l s0 s, genesis_decodes g -> Forall (action_ok nobody) l ->
     @build_genesis checked fo g = Ok tt s0 -> @run_actions checked fo l s0 = Some s ->
     @build_genesis shipped wrapped g = Ok tt s0 /\ @run_actions shipped wrapped l s0 = Some s /\
     chain_ok s).
Proof.
  intros Hadd Hmul Hdiv wrapped checked shipped. split; [intros origin c s; by apply agree_dispatch|].
  intros g l s0 s Hg Hl Hb Hrun. split.
  { rewrite <-Hb. apply agree_genesis. change (@build_genesis checked fo g <> Panic). by rewrite Hb. }
  split; [by apply (agree_actions add mul div Hadd Hmul Hdiv)|].
  apply (run_actions_inv (cfg := checked) (fo := fo) chain_ok (action_ok nobody) l s0 s); [|done|done|].
  - intros [origin c|] t t'; cbn [action_ok act].
    + intros [Hdec _] Hf. by apply (dispatch_chain_ok (cfg := checked) (fo := fo) eq_refl origin c).
    + intros _ Ht [H1 H2 H3]. destruct (_ <? _); [injection Ht as <-; by split | done].
  - by apply (genesis_chain_ok (cfg := checked) (fo := fo) eq_refl g).
Qed.
End Two_builds.

(* ================================================================== *)
(** ** Witnesses                                                       *)
(* ================================================================== *)

Section Chain_witnesses.
#[local] Instance witness_build : Config := checked_build.

Definition demo : GenesisConfig := test_genesis true.
Definition demo_state : Chain := genesis_state true demo.

Lemma demo_checked : overflow_checks = true.
Proof. reflexivity. Qed.
Lemma demo_built : build_genesis demo = Ok tt demo_state.
Proof. apply (genesis_ran true). evaluate. Qed.
Lemma demo_reachable : reachable demo demo_state.
Proof. apply reachable_genesis, demo_built. Qed.
Lemma demo_typed : genesis_typed demo.
Proof. split; cbn; [| by vm_compute |]; repeat (constructor; [by vm_compute|]); constructor. Qed.
Lemma demo_decodes : genesis_decodes demo.
Proof. unfold genesis_decodes. cbn. repeat (constructor; [by vm_compute|]). constructor. Qed.
Lemma demo_apart i a : get_exchange_address i a <> account_id.
Proof. change (10000 + nth 26 (exchange_buffer i a) 0 <> 6). lia. Qed.
Lemma demo_books : ledger_ok (assets demo_state).
Proof. apply (co_ledger _ (genesis_chain_ok demo_checked demo demo_state demo_decodes demo_built)). Qed.

(** Two suppliers, a borrower, a week of blocks and a withdrawal. *)
Definition lending_days : list Action :=
  [Extrinsic (Signed (alice true)) (CallLending (call_supply 0 100000));
   Extrinsic (Signed (bob true)) (CallLending (call_supply 1 100000));
   NewBlock;
   Extrinsic (Signed (bob true)) (CallLending (call_borrow 0 10000));
   NewBlock; NewBlock; NewBlock;
   Extrinsic (Signed (alice true)) (CallLending (call_withdraw 0 50000));
   Extrinsic (Signed (alice true)) (CallAssets (call_transfer_asset 1 (bob true) 7))].

Definition lending_end : Chain := default demo_state (run_actions lending_days demo_state).

Lemma lending_days_run : run_actions lending_days demo_state = Some lending_end.
Proof. apply defined. vm_compute. reflexivity. Qed.

Lemma well_typed_witness : chain_typed demo_state.
Proof. exact (reachable_well_typed demo demo_state demo_typed demo_reachable). Defined.

Lemma lending_days_signed : Forall (action_ok nobody) lending_days.
Proof. repeat (constructor; [first [exact I | split; [reflexivity | by intros who _ []]]|]). constructor. Qed.

Lemma refines_bank_witness :
  ledger_ok (assets lending_end) /\ rtc (bank_step (fun _ => True)) empty_bank (bank_of lending_end).
Proof.
  exact (proj2 chain_refines_bank demo lending_days demo_state lending_end demo_decodes (or_introl eq_refl)
           demo_built lending_days_signed lending_days_run).
Defined.

(** The fixed-point operations of a build whose sums and products wrap at [2^128]. *)
Definition wrapping_add (a b : N) : option N := Some ((a + b) mod u128_modulus).
Definition wrapping_mul (a b : N) : option N := Some (ratio a b DIV mod u128_modulus).
Definition wrapping_div (a b : N) : option N :=
  if b =? 0 then None else Some (ratio a DIV b mod u128_modulus).
Lemma wrapping_in_range n : narrower (in_range n) (Some (n mod u128_modulus)).
Proof. intros c [-> Hle]%in_range_Some. by rewrite N.mod_small by by apply u128_max_modulus. Qed.

Lemma shipped_witness :
  @run_actions wrapping_build (with_partial _ wrapping_add wrapping_mul wrapping_div) lending_days demo_state
    = Some lending_end /\ chain_ok lending_end.
Proof.
  exact (proj2 (proj2 (shipped_build_agrees (acc := sample_accounts) wrapping_add wrapping_mul wrapping_div
    (fun a b => wrapping_in_range _) (fun a b => wrapping_in_range _)
    ltac:(intros a b; unfold wrapping_div; cbn; destruct (b =? 0); [done | apply wrapping_in_range]))
    demo lending_days demo_state lending_end demo_decodes lending_days_signed demo_built lending_days_run)).
Defined.

Lemma funds_witness : bal 0 (4 : N) demo_state <= bal 0 (4 : N) lending_end.
Proof.
  apply (proj2 funds_need_a_signature lending_days demo_state lending_end 0 (4 : N)
           (or_introl demo_checked) demo_books); [| | exact lending_days_run].
  - intros [E | (i & a & E)]; [by vm_compute in E|].
    change ((4 : N) = 10000 + nth 26 (exchange_buffer i a) 0)%N in E.
    generalize dependent (nth 26 (exchange_buffer i a) 0). intros x E. lia.
  - repeat (constructor; [first [exact I | split; [reflexivity | intros who [= <-] E; by vm_compute in E]]|]).
    constructor.
Defined.

Lemma genesis_completes_witness : exists s, build_genesis demo = Ok tt s /\ ledger_ok (assets s).
Proof.
  destruct (genesis_completes demo demo_decodes) as (s & Hrun & Hok & _); [by vm_compute|].
  by exists s.
Defined.

(** A week later in blocks: the debt of asset 0 has been accrued. *)
Lemma lending_end_reachable : reachable demo lending_end.
Proof.
  apply (run_actions_reachable demo lending_days demo_state); [|exact demo_reachable | exact lending_days_run].
  repeat (constructor; [first [exact I | split; [reflexivity | discriminate]]|]). constructor.
Qed.

(** Forty thousand blocks later still. *)
Lemma interest_witness :
  exists p p', pool 0 (lending lending_end) = Some p /\ accrue_interest_at 40000 p = Some p' /\
    pool_debt p < pool_debt p' /\
    (pool_supply p' + pool_debt p <= pool_supply p + pool_debt p' \/ pool_supply p' <= pool_debt p').
Proof.
  destruct (pool 0 (lending lending_end)) as [p|] eqn:E; [|by vm_compute in E].
  destruct (accrue_interest_at 40000 p) as [p'|] eqn:E'; [|vm_compute in E; injection E as <-; by vm_compute in E'].
  exists p, p'. split; [reflexivity|]. split; [exact E'|].
  assert (pool_debt p < pool_debt p' /\ moderate p' = true) as [Hlt Hm].
  { vm_compute in E. injection E as <-. vm_compute in E'. injection E' as <-. by vm_compute. }
  split; [exact Hlt|].
  exact (interest_is_paid_for demo lending_end 0 p 40000 p' lending_end_reachable E E' Hm).
Defined.

Lemma pools_sane_witness :
  exists p, pool 0 (lending lending_end) = Some p /\ pool_ok p /\ last_updated p <= block_number lending_end.
Proof.
  destruct (pool 0 (lending lending_end)) as [p|] eqn:E; [|by vm_compute in E].
  exists p. split; [reflexivity|].
  destruct (reachable_pools_sane demo lending_end 0 p lending_end_reachable E) as (Hok & _ & _ & Hu & _).
  split; [exact Hok | exact Hu].
Defined.

(** The days go on with a crash of the price of asset 1 and a liquidation. *)
Definition crash_days : list Action :=
  lending_days ++
  [Extrinsic Root (CallAssets (call_set_price 1 (fx_from_integer 1)));
   Extrinsic (Signed (alice true)) (CallLending (call_liquidate (bob true) 0 1 500))].

Definition crash_end : Chain := default demo_state (run_actions crash_days demo_state).
Lemma crash_days_run : run_actions crash_days demo_state = Some crash_end.
Proof. apply defined. vm_compute. reflexivity. Qed.

Lemma crash_days_saving : Forall (action_ok (eq account_id)) crash_days.
Proof.
  apply Forall_app; split;
    repeat (apply Forall_cons; split;
      [first [exact I | split; [vm_compute; done | intros who [=]; subst who; intros E; by vm_compute in E]]|]);
    apply Forall_nil; exact I.
Qed.

Lemma crash_days_modest : modest_run crash_days demo_state.
Proof. apply (bool_decide_unpack _). vm_compute. exact I. Qed.

Lemma covered_witness :
  exists p, pool 1 (lending crash_end) = Some p /\
    pool_supply p <= bal 1 account_id crash_end + seized crash_days demo_state 1 + pool_debt p /\
    0 < seized crash_days demo_state 1.
Proof.
  destruct (pool 1 (lending crash_end)) as [p|] eqn:E; [|by vm_compute in E].
  exists p. split; [reflexivity|]. split; [|vm_compute; reflexivity].
  exact (proj1 (pools_stay_covered demo crash_days demo_state crash_end 1 p demo_checked demo_decodes
           demo_apart demo_built crash_days_saving crash_days_modest crash_days_run E)).
Defined.

(** After the quiet days all pools are covered. *)
Lemma lending_days_saving :
  Forall (action_ok (eq account_id)) lending_days /\ Forall (fun a => liquidates a = false) lending_days.
Proof.
  split; [|repeat (constructor; [reflexivity|]); constructor].
  repeat (apply Forall_cons; split;
    [first [exact I | split; [vm_compute; done | intros who [=]; subst who; intros E; by vm_compute in E]]|]).
  apply Forall_nil. exact I.
Qed.

Lemma lending_end_solvent : solvent (fun _ => 0) lending_end.
Proof.
  destruct lending_days_saving as [Hl Hno].
  assert (solvent (fun id => 0 + seized lending_days demo_state id) lending_end) as H.
  { eapply (run_solvent demo_checked demo_apart (fun _ => 0) lending_days demo_state);
      [exact demo_books | by eapply reachable_sane, demo_reachable | by eapply genesis_solvent, demo_built
      | | exact Hl | exact lending_days_run].
    apply (bool_decide_unpack _). vm_compute. exact I. }
  eapply solvent_mono, H. intros id. cbv beta. by rewrite seized_nothing.
Qed.

Lemma cash_guard_witness :
  (exists s', borrow (Signed (bob true)) 0 700 lending_end = Ok tt s') /\
  (forall s', borrow (Signed (bob true)) 0 700 lending_end <> Err (Module_ TransferFailed) s') /\
  (forall s', withdraw (Signed (alice true)) 0 20000 lending_end <> Err (Module_ TransferFailed) s').
Proof.
  assert (forall who n, (who =? account_id)%N = false -> 0 < n ->
    (forall s', borrow (Signed who) 0 n lending_end <> Err (Module_ TransferFailed) s') /\
    (forall p p' x, pool 0 (lending lending_end) = Some p ->
       accrue_interest_at (block_number lending_end) p = Some p' ->
       supply_worth (total_supply_index p') 0 who (lending lending_end) = Some x -> 0 < x ->
       forall s', withdraw (Signed who) 0 n lending_end <> Err (Module_ TransferFailed) s')) as H.
  { intros who n Hne%N.eqb_neq. apply (cash_guard_suffices demo); [exact demo_checked | exact demo_decodes
      | exact lending_end_reachable | | exact lending_end_solvent | exact Hne].
    apply (bool_decide_unpack _). vm_compute. exact I. }
  split; [eexists; apply (ran true); vm_compute; reflexivity|]. split.
  - apply (H (bob true) 700); vm_compute; reflexivity.
  - destruct (H (alice true) 20000) as [_ Hw]; [vm_compute; reflexivity..|].
    eapply Hw; [vm_compute; reflexivity | vm_compute; reflexivity | vm_compute; reflexivity | reflexivity].
Defined.

(** Why liquidations are left out: one of them takes the collateral out of the
    account and leaves the pool's total, so [100000] owed units have one behind them. *)
Example liquidation_uncovers :
  let s := after true (liquidate (Signed (alice true)) (bob true) 0 1 10000) (crashed_state true) in
  covered (fun _ => 0) 1 (pool_at true 1 (crashed_state true)) (crashed_state true) /\
  pool_supply (pool_at true 1 s) = 100000 /\ pool_debt (pool_at true 1 s) = 0 /\
  bal 1 account_id s = 1.
Proof. split; [vm_compute; discriminate | vm_compute; done]. Qed.

#[local] Existing Instance sample_json.
#[local] Existing Instance sample_host.

Lemma sample_downloads : downloads (mkResponse 200 usd_document) 1923456.
Proof.
  apply (downloads_intro (host := sample_host) _ _ tt (mkNumber 19234 567 3 0)); by vm_compute.
Qed.

Lemma feed_witness :
  exists k, (k <= 4)%nat /\ reachable demo (blocks_later k demo_state) /\
    fetch_price_and_send_raw_unsigned (block_number (blocks_later k demo_state))
      (blocks_later k demo_state) = Ok tt (blocks_later k demo_state).
Proof.
  destruct (price_feed_live demo demo_state (mkResponse 200 usd_document) 1923456 demo_reachable)
    as (k & Hk & Hr & Hsend & _); [vm_compute; reflexivity | exact sample_downloads | reflexivity |].
  exists k. split; [exact Hk|]. split; [exact Hr|]. exact Hsend.
Defined.
End Chain_witnesses.
