(* ===== verification/NodeSpec.v ===== *)
(** * Properties of the node

    The RPC methods against the pallets they report on, the built-in chain
    specifications, and the construction of the services. *)

From S2P Require Export SwapSpec Genesis ChainSpec Command.

Local Open Scope N_scope.
Local Open Scope rust_scope.

(* ================================================================== *)
(** ** RPC                                                             *)
(* ================================================================== *)

Section Rpc_properties.
Context {cfg : Config} {fo : FixedOps} {cl : Client} {laws : ClientLaws cl}.

(** What a method owes its caller: the value of [m] at the start of the block after the
    named one, or - for an unknown block and for a trap - the one server error. *)
Definition answers {A} (f : A -> Value) (m : RT Empty_set A) (at_ : option BlockHash) (r : Reply)
    : Prop :=
  match obind (api_state at_) (result m) with
  | Some a => r = Success (f a)
  | None => exists data, r = Failure (mkRpcError 9876 "Something wrong" (Some data))
  end.

Lemma reply_answers {A} (f : A -> Value) (m : RT Empty_set A) at_ :
  has_next at_ -> answers f m at_ (reply f (map_api_err (runtime_call (run_api m) (unwrap_or_best at_)))).
Proof.
  intros Hn. unfold answers. pose proof (api_answer m at_ Hn) as H.
  destruct (obind _ _) as [a|]; [by rewrite H | destruct H as [data ->]; by exists data].
Qed.

Lemma answers_value {A} (f : A -> Value) (m : RT Empty_set A) at_ r a :
  obind (api_state at_) (result m) = Some a -> answers f m at_ r -> r = Success (f a).
Proof. unfold answers. by intros ->. Qed.

Lemma answers_error {A} (f : A -> Value) (m : RT Empty_set A) at_ r :
  obind (api_state at_) (result m) = None -> answers f m at_ r ->
  exists data, r = Failure (mkRpcError 9876 "Something wrong" (Some data)).
Proof. unfold answers. by intros ->. Qed.

Lemma serve_named system payment name m p :
  (name, m) ∈ SwapApi_to_delegate \/ (name, m) ∈ LendingApi_to_delegate ->
  serve (create_full system payment) name p = call_method m p.
Proof.
  unfold serve. intros [Hin|Hin]; [by rewrite (create_full_swap _ _ _ _ Hin) |
    by rewrite (create_full_lending _ _ _ _ Hin)].
Qed.

(** C27: the node answers the six RPC methods of the pallets, whatever methods the
    other extensions declare: each reports the pallet's own view at the start of the
    block after the named one - after the best one when none is named - on the storage
    the named block left, as long as there is a next block number; and an unknown block
    or a trap of the runtime is answered with server error 9876, never with a wrong
    value. *)
Theorem rpc_methods_answer system payment at_ :
  has_next at_ ->
  let io := create_full system payment in
  (forall i o x, answers Number (calculate_output i o x) at_
     (serve io "swap_calculate_output" (QuoteParams i o x at_))) /\
  (forall id, answers Number (supply_rate id) at_
     (serve io "lending_supplyRate" (AssetParams id at_))) /\
  (forall id, answers Number (debt_rate id) at_
     (serve io "lending_debtRate" (AssetParams id at_))) /\
  (forall u, answers Triple (api_get_user_info u) at_
     (serve io "lending_getUserInfo" (UserParams u at_))) /\
  (forall id u, answers Number (get_user_debt_with_interest id u) at_
     (serve io "lending_getUserDebtWithInterest" (PositionParams id u at_))) /\
  (forall id u, answers Number (get_user_supply_with_interest id u) at_
     (serve io "lending_getUserSupplyWithInterest" (PositionParams id u at_))).
Proof.
  intros Hn io. subst io. split_and!; intros.
  - rewrite (serve_named _ _ _ swap_calculate_output) by set_solver. by apply reply_answers.
  - rewrite (serve_named _ _ _ lending_supplyRate) by set_solver. by apply reply_answers.
  - rewrite (serve_named _ _ _ lending_debtRate) by set_solver. by apply reply_answers.
  - rewrite (serve_named _ _ _ lending_getUserInfo) by set_solver. by apply reply_answers.
  - rewrite (serve_named _ _ _ lending_getUserDebtWithInterest) by set_solver. by apply reply_answers.
  - rewrite (serve_named _ _ _ lending_getUserSupplyWithInterest) by set_solver. by apply reply_answers.
Qed.

(** C28: the quote of the RPC method is what a funded sale of the inherent asset pays:
    the same trade, executed in the block after the quoted one before the reserves
    change, credits the recipient with exactly the number the method returned, in
    whatever build. *)
Theorem rpc_quote_is_paid who to out_id input min_output at_ s :
  let i := InherentAsset (assets s) in let ea := pool_account out_id s in
  state_at (default best_hash at_) = Some s -> block_number s + 1 < u32_modulus ->
  i <> out_id -> tradable who i out_id input ea s -> to <> ea ->
  exists v s', rpc_calculate_output i out_id input at_ = inr v /\
    swap_assets_with_exact_input (Signed who) to i out_id input min_output (next_block s) = Ok tt s' /\
    bal out_id to s' = bal out_id to s + v.
Proof.
  intros i ea Hs Hn Hne [H1 H2 H3 H4 H5 H6] Hto.
  destruct (calculate_output_matches_trade (E := Empty_set) who to out_id input min_output (next_block s) Hne
    ltac:(by split) Hto) as (v & s' & Hq & Hrun & Hb).
  exists v, s'. split; [|done]. unfold rpc_calculate_output. cbv zeta.
  change (unwrap_or_best at_) with (default best_hash at_).
  rewrite (call_returns _ (run_api (api_calculate_output i out_id input)) _ s v Hs Hn); [done|].
  by apply (result_Ok _ _ _ (next_block s)).
Qed.
End Rpc_properties.

(* ================================================================== *)
(** ** Chain specifications                                            *)
(* ================================================================== *)

Section Spec_properties.
Context {cfg : Config} {fo : FixedOps} {fl : FixedLaws fo} {keys : Keys}.


End Spec_properties.

(* ================================================================== *)
(** ** Services                                                        *)
(* ================================================================== *)

Section Service_properties.
Context {roles : Roles} {rlaws : RolesLaws roles} {lib : ServiceLib}.

(** A construction follows its plan: all of it and then the start of the network,
    or a part of it up to the call the library refused, without that start. *)
Definition follows (setup : Plan) (o : Outcome (list Step) ServiceError Part) : Prop :=
  match o with
  | Ok v t => v = TaskManager /\ t = setup.*2 ++ [start_network NetworkStarter]
  | Err e t =>
      occurs starts_network t = false /\
      exists done_ c rest, setup = done_ ++ (true, c) :: rest /\ t = done_.*2 ++ [c] /\
        answer done_.*2 c = Some e
  | Panic => False
  end.

Lemma started_follows setup (m : M (list Step) ServiceError Part) :
  (forall t, m t = (run_plan setup ;;; call (start_network NetworkStarter) ;;; ret TaskManager) t) ->
  occurs starts_network setup.*2 = false -> follows setup (m []).
Proof.
  intros Hm Hfree.
  destruct (started_run setup [] m Hm) as [(v & -> & ->) | (e & d & c & rest & Hp & -> & He)].
  - by split.
  - split; [by eapply part_free|]. by exists d, c, rest.
Qed.

(** C20: a service is the list of its parts: both constructions make the calls of their
    plan in order, start the network last and only after everything else succeeded,
    and stop at the first refused call with the library's error. A full node
    authors blocks exactly as an authority, votes unless disabled, runs offchain
    workers exactly when enabled and hands the keystore to authoring and voting
    only as an authority; a light node does none of that. *)
Theorem services_follow_their_plans config :
  follows (full_setup config) (new_full config []) /\
  follows (light_setup config) (new_light config []) /\
  (let full := (full_setup config).*2 in
   occurs authors full = is_authority (role config) /\
   occurs votes full = negb (disable_grandpa config) /\
   occurs skips_voting full = disable_grandpa config /\
   occurs works_offchain full = offchain_worker_enabled config /\
   (is_authority (role config) = false -> occurs uses_keys full = false)) /\
  (let light := (light_setup config).*2 in
   occurs authors light = false /\ occurs votes light = false /\
   occurs works_offchain light = offchain_worker_enabled config /\ occurs uses_keys light = false).
Proof.
  destruct (full_setup_facts config) as (F1 & F2 & F3 & F4 & F5 & F6).
  destruct (light_setup_facts config) as (L1 & L2 & L3 & L4 & L5 & L6).
  split; [apply started_follows; [apply new_full_plan | done]|].
  split; [apply started_follows; [apply new_light_plan | done]|].
  split; [by split_and! | by split_and!].
Qed.

Context {cli_lib : CliLib}.

(** What a run of the program leaves: its calls, on success and on an error. *)
Definition trace_of {A} (o : Outcome (list NodeStep) NodeError A) : list NodeStep :=
  match o with Ok _ t | Err _ t => t | Panic => [] end.

Lemma quiet_trace {A} f (m : M (list NodeStep) NodeError A) :
  quiet_on f m -> m [] <> Panic /\ happens f (trace_of (m [])) = false.
Proof. intros Hm. specialize (Hm []). by destruct (m []). Qed.

(** C31: every command of the program ends, with its result or the first error, and
    only the node itself comes to life: a subcommand never starts the network,
    never authors and never votes; a node whose role is light never authors, votes
    or hands out keys, while an authority that comes up is on the network and
    authors; and benchmarks that were not built in are refused before anything is
    done. *)
Theorem commands_end_quietly benchmarks :
  (forall cmd, let o := run benchmarks (mkCli (Some cmd)) [] in
     o <> Panic /\ happens starts_network (trace_of o) = false /\
     happens authors (trace_of o) = false /\ happens votes (trace_of o) = false) /\
  (let o := run benchmarks (mkCli None) [] in
   o <> Panic /\
   forall config, runner None = inr config -> is_light (role config) = true ->
     happens authors (trace_of o) = false /\ happens votes (trace_of o) = false /\
     happens uses_keys (trace_of o) = false) /\
  (forall config u t, runner None = inr config -> is_authority (role config) = true ->
     run benchmarks (mkCli None) [] = Ok u t ->
     happens starts_network t = true /\ happens authors t = true) /\
  run false (mkCli (Some Benchmark)) [] = Err (Input no_benchmarks) [].
Proof.
  split; [|split; [|split; [|done]]].
  - intros cmd o.
    destruct (quiet_trace starts_network _ (quiet_subcommand benchmarks starts_network cmd eq_refl))
      as [H0 H1].
    destruct (quiet_trace authors _ (quiet_subcommand benchmarks authors cmd eq_refl)) as [_ H2].
    destruct (quiet_trace votes _ (quiet_subcommand benchmarks votes cmd eq_refl)) as [_ H3].
    done.
  - intros o. split; [apply node_ends|]. intros config Hr Hlight. unfold o.
    rewrite (node_run benchmarks config [] Hr). cbn [app].
    destruct (light_setup_facts config) as (_ & L2 & L3 & _ & _ & L6).
    assert (forall f, occurs f (light_setup config).*2 = false ->
      f (start_network NetworkStarter) = false ->
      happens f (trace_of ((task_manager <- service (if is_light (role config) then new_light config
                                                     else new_full config) ;;
        finish (RunUntilExit task_manager)) [CreateRunner None])) = false) as Hq.
    { intros f Hf Hn. pose proof (quiet_node f config Hlight Hf Hn [CreateRunner None]) as H.
      by destruct (bind _ _ [CreateRunner None]). }
    split_and!; by apply Hq.
  - intros config u t Hr Hauth Hrun. pose proof (authority_not_light _ Hauth) as Hlight.
    destruct (full_setup_facts config) as (_ & F2 & _).
    split; eapply full_node_up; try done; [by right | left; by rewrite F2].
Qed.
End Service_properties.

(* ================================================================== *)
(** ** Witnesses                                                       *)
(* ================================================================== *)

Section Rpc_witnesses.
#[local] Instance rpc_build : Config := checked_build.
#[local] Instance rpc_client : Client := list_client [new_test_ext true; swap_state true].

Definition first_block : BlockHash := 1%nat.

Lemma rpc_methods_witness :
  serve (create_full [] []) "swap_calculate_output" (QuoteParams 0 1 100 None) = Success (Number 454) /\
  exists data, serve (create_full [] []) "swap_calculate_output" (QuoteParams 0 1 100 (Some first_block)) =
    Failure (mkRpcError 9876 "Something wrong" (Some data)).
Proof.
  assert (forall at_, (at_ = None \/ at_ = Some first_block) -> has_next at_) as Hnext.
  { intros at_ Hat s Hs.
    assert (option_map block_number (state_at (unwrap_or_best at_)) = Some 1) as E
      by (destruct Hat as [->| ->]; vm_compute; reflexivity).
    rewrite Hs in E. apply (Some_inj (block_number s) 1) in E.
    apply N.le_lt_trans with 2; [apply N.eq_le_incl; exact (f_equal (fun n => n + 1) E) | reflexivity]. }
  split.
  - refine (answers_value Number (calculate_output 0 1 100) None _ 454 _
      (proj1 (rpc_methods_answer [] [] None (Hnext _ (or_introl eq_refl))) 0 1 100)). vm_compute. reflexivity.
  - refine (answers_error Number (calculate_output 0 1 100) (Some first_block) _ _
      (proj1 (rpc_methods_answer [] [] (Some first_block) (Hnext _ (or_intror eq_refl))) 0 1 100)).
    vm_compute. reflexivity.
Defined.

Lemma rpc_quote_witness :
  exists v s', rpc_calculate_output 0 1 100 None = inr v /\
    swap_assets_with_exact_input (Signed (alice true)) (bob true) 0 1 100 0 (next_block (swap_state true)) =
      Ok tt s' /\
    bal 1 (bob true) s' = bal 1 (bob true) (swap_state true) + v.
Proof.
  exact (rpc_quote_is_paid (alice true) (bob true) 1 100 0 None (swap_state true) eq_refl
    ltac:(evaluate) ltac:(evaluate) ltac:(split; [exact (co_ledger _ swap_state_ok) | evaluate..])
    ltac:(evaluate)).
Defined.
End Rpc_witnesses.

Section Node_witnesses.
#[local] Instance node_build : Config := checked_build.

(** Keys that are the lengths of their uris; the empty seed derives none. *)
#[local] Instance length_key : PublicKey N := {|
  Pair := string;
  pair_from_string uri := if (uri =? "//")%string then None else Some uri;
  pair_public uri := N.of_nat (String.length uri)
|}.
#[local] Instance length_keys : Keys := {|
  Sr25519Public := N; AuraId := N; GrandpaId := N; into_account n := n
|}.



(** Three roles, libraries that agree to everything, and an authority's node. *)
Inductive DemoRole : Type := DemoFull | DemoLight | DemoAuthority.
#[local] Instance demo_roles : Roles := {|
  Role := DemoRole;
  is_light r := match r with DemoLight => true | _ => false end;
  is_authority r := match r with DemoAuthority => true | _ => false end;
  is_network_authority r := match r with DemoAuthority => true | _ => false end
|}.
#[local] Instance demo_roles_laws : RolesLaws demo_roles.
Proof. split; by intros []. Qed.
#[local] Instance demo_lib : ServiceLib := {| ServiceError := unit; answer _ _ := None |}.
#[local] Instance demo_cli : CliLib := {|
  CliError := unit;
  runner _ := inr (mkConfiguration _ DemoAuthority false "node" false true);
  outcome _ := None
|}.

Lemma services_witness :
  let config := mkConfiguration _ DemoLight false "node" true false in
  occurs uses_keys (full_setup config).*2 = false /\ occurs votes (full_setup config).*2 = false.
Proof.
  intros config. destruct (services_follow_their_plans config) as (_ & _ & (_ & H1 & _ & _ & H2) & _).
  split; [exact (H2 eq_refl) | exact H1].
Defined.

Lemma commands_witness :
  happens starts_network (trace_of (run false (mkCli (Some Revert)) [])) = false /\
  happens authors (trace_of (run false (mkCli None) [])) = true.
Proof.
  destruct (commands_end_quietly false) as (H1 & _ & H3 & _). split; [apply H1|].
  assert (exists t, run false (mkCli None) [] = Ok tt t) as [t Ht] by (vm_compute; eauto).
  rewrite Ht. exact (proj2 (H3 _ tt t eq_refl eq_refl Ht)).
Defined.
End Node_witnesses.
